(** * The postmaster: lifecycle state machine, child accounting, admission

    A shallow embedding of the supervisor code of
    [src/backend/postmaster/postmaster.c] (PostgreSQL 17): the lifecycle
    state machine, the reaping of children and the crash cascade, the
    connection admission policy, cancel requests, the background-worker
    scheduler and the sleep-budget computation.

    Conventions.
    - The file-static variables of postmaster.c are the fields of the
      record [PM]; a function of the postmaster is a computation in the
      monad [M], which threads [PM] and stops at [ExitPostmaster].
    - [int] arithmetic is written with its 32-bit wrap-around ([wrap32]);
      [time_t] and [TimestampTz] are 64-bit and are kept in [Z].
    - What the postmaster does to the outside world is appended to
      [trace]: every [kill], every assignment to [pmState], every call of
      [CreateSharedMemoryAndSemaphores].  [ereport]/[elog] calls are
      recorded where a property speaks about the log
      ([processCancelRequest]); elsewhere they do not influence the
      postmaster and are left out.
    - Code that postmaster.c calls but that lives elsewhere (the fork
      wrapper, the clock, pmsignal.c, bgworker.c, the system's
      <sys/wait.h>) is the record [Env]: the result of each call is a
      function of a call counter [clk], so every behaviour of the
      surroundings is covered by quantifying over [Env]. *)

From Stdlib Require Import ZArith List Bool Lia Setoid.
From Stdlib Require String.
Import ListNotations.
Local Open Scope Z_scope.

(** ** Data model *)

Inductive Signal :=
| SIGHUP | SIGINT | SIGQUIT | SIGABRT | SIGKILL
| SIGUSR1 | SIGUSR2 | SIGTERM | SIGCHLD.

Definition Signal_eqb (a b : Signal) : bool :=
  match a, b with
  | SIGHUP, SIGHUP | SIGINT, SIGINT | SIGQUIT, SIGQUIT | SIGABRT, SIGABRT
  | SIGKILL, SIGKILL | SIGUSR1, SIGUSR1 | SIGUSR2, SIGUSR2
  | SIGTERM, SIGTERM | SIGCHLD, SIGCHLD => true
  | _, _ => false
  end.

(** [typedef enum { PM_INIT, ... } PMState] *)
Inductive PMState :=
| PM_INIT | PM_STARTUP | PM_RECOVERY | PM_HOT_STANDBY | PM_RUN
| PM_STOP_BACKENDS | PM_WAIT_BACKENDS | PM_SHUTDOWN | PM_SHUTDOWN_2
| PM_WAIT_DEAD_END | PM_NO_CHILDREN.

(** The integer value of the enum constant, for [pmState < PM_STOP_BACKENDS]. *)
Definition PMState_rank (s : PMState) : Z :=
  match s with
  | PM_INIT => 0 | PM_STARTUP => 1 | PM_RECOVERY => 2 | PM_HOT_STANDBY => 3
  | PM_RUN => 4 | PM_STOP_BACKENDS => 5 | PM_WAIT_BACKENDS => 6
  | PM_SHUTDOWN => 7 | PM_SHUTDOWN_2 => 8 | PM_WAIT_DEAD_END => 9
  | PM_NO_CHILDREN => 10
  end.

Definition PMState_eqb (a b : PMState) : bool :=
  PMState_rank a =? PMState_rank b.

Inductive StartupStatusEnum :=
| STARTUP_NOT_RUNNING | STARTUP_RUNNING | STARTUP_SIGNALED | STARTUP_CRASHED.

Definition StartupStatus_eqb (a b : StartupStatusEnum) : bool :=
  match a, b with
  | STARTUP_NOT_RUNNING, STARTUP_NOT_RUNNING | STARTUP_RUNNING, STARTUP_RUNNING
  | STARTUP_SIGNALED, STARTUP_SIGNALED | STARTUP_CRASHED, STARTUP_CRASHED => true
  | _, _ => false
  end.

(** [#define NoShutdown 0] ... [#define ImmediateShutdown 3] *)
Definition NoShutdown : Z := 0.
Definition SmartShutdown : Z := 1.
Definition FastShutdown : Z := 2.
Definition ImmediateShutdown : Z := 3.

Definition BACKEND_TYPE_NORMAL : Z := 1.
Definition BACKEND_TYPE_AUTOVAC : Z := 2.
Definition BACKEND_TYPE_WALSND : Z := 4.
Definition BACKEND_TYPE_BGWORKER : Z := 8.
Definition BACKEND_TYPE_ALL : Z := 15.

Definition SIGKILL_CHILDREN_AFTER_SECS : Z := 5.
Definition SECS_PER_MINUTE : Z := 60.
Definition MAX_BGWORKERS_TO_LAUNCH : Z := 100.

(** [BGW_NEVER_RESTART] of postmaster/bgworker.h. *)
Definition BGW_NEVER_RESTART : Z := -1.

Definition INT_MAX : Z := 2147483647.

(** Two's-complement reduction of a mathematical integer to C [int]. *)
Definition wrap32 (x : Z) : Z := (x + 2147483648) mod 4294967296 - 2147483648.

(** The kinds of child [StartChildProcess] and [postmaster_child_launch]
    are asked for. *)
Inductive BackendType :=
| B_BACKEND | B_STARTUP | B_BG_WRITER | B_CHECKPOINTER | B_WAL_WRITER
| B_WAL_RECEIVER | B_WAL_SUMMARIZER | B_AUTOVAC_LAUNCHER | B_AUTOVAC_WORKER
| B_ARCHIVER | B_SLOTSYNC_WORKER | B_BG_WORKER.

Definition is_B_STARTUP (t : BackendType) : bool :=
  match t with B_STARTUP => true | _ => false end.

(** The result of [canAcceptConnections]. *)
Inductive CAC_state :=
| CAC_OK | CAC_STARTUP | CAC_SHUTDOWN | CAC_RECOVERY | CAC_NOTCONSISTENT
| CAC_TOOMANY.

Definition is_CAC_OK (c : CAC_state) : bool :=
  match c with CAC_OK => true | _ => false end.

Inductive BgWorkerStartTime :=
| BgWorkerStart_PostmasterStart
| BgWorkerStart_ConsistentState
| BgWorkerStart_RecoveryFinished.

Inductive PMSignalReason :=
| PMSIGNAL_RECOVERY_STARTED | PMSIGNAL_BEGIN_HOT_STANDBY
| PMSIGNAL_ROTATE_LOGFILE | PMSIGNAL_START_AUTOVAC_LAUNCHER
| PMSIGNAL_START_AUTOVAC_WORKER | PMSIGNAL_BACKGROUND_WORKER_CHANGE
| PMSIGNAL_START_WALRECEIVER | PMSIGNAL_ADVANCE_STATE_MACHINE.

(** [struct bkend].  [addr] is the identity of the palloc'd struct: the
    registered-worker entries point to their [Backend] by it. *)
Record Backend := mkBackend {
  pid : Z;
  cancel_key : Z;
  child_slot : Z;
  bkend_type : Z;
  dead_end : bool;
  bgworker_notify : bool;
  addr : nat
}.

Definition set_bkend_type (t : Z) (b : Backend) : Backend :=
  mkBackend (pid b) (cancel_key b) (child_slot b) t (dead_end b)
            (bgworker_notify b) (addr b).

(** The fields of [BackgroundWorker] the postmaster reads. *)
Record BackgroundWorker := mkBackgroundWorker {
  bgw_start_time : BgWorkerStartTime;
  bgw_restart_time : Z;
  bgw_notify_pid : Z
}.

(** [RegisteredBgWorker]; [rw_backend] is a pointer into [BackendList]
    or NULL. *)
Record RegisteredBgWorker := mkRegisteredBgWorker {
  rw_worker : BackgroundWorker;
  rw_backend : option nat;
  rw_pid : Z;
  rw_child_slot : Z;
  rw_crashed_at : Z;
  rw_terminate : bool
}.

Definition set_rw_crashed_at (t : Z) (rw : RegisteredBgWorker) :=
  mkRegisteredBgWorker (rw_worker rw) (rw_backend rw) (rw_pid rw)
                       (rw_child_slot rw) t (rw_terminate rw).
Definition set_rw_terminate (b : bool) (rw : RegisteredBgWorker) :=
  mkRegisteredBgWorker (rw_worker rw) (rw_backend rw) (rw_pid rw)
                       (rw_child_slot rw) (rw_crashed_at rw) b.
(** [rw->rw_backend = NULL; rw->rw_pid = 0; rw->rw_child_slot = 0;] *)
Definition rw_clear_child (rw : RegisteredBgWorker) :=
  mkRegisteredBgWorker (rw_worker rw) None 0 0 (rw_crashed_at rw)
                       (rw_terminate rw).
(** What a successful [do_start_bgworker] leaves in the entry. *)
Definition rw_set_child (a : nat) (p slot : Z) (rw : RegisteredBgWorker) :=
  mkRegisteredBgWorker (rw_worker rw) (Some a) p slot (rw_crashed_at rw)
                       (rw_terminate rw).

(** The special children, each tracked by a [pid_t] variable of its own;
    the constructors carry the names of those variables. *)
Inductive SpecialChild :=
| StartupPID | BgWriterPID | CheckpointerPID | WalWriterPID | WalReceiverPID
| WalSummarizerPID | AutoVacPID | PgArchPID | SysLoggerPID
| SlotSyncWorkerPID.

Definition SpecialChild_eqb (a b : SpecialChild) : bool :=
  match a, b with
  | StartupPID, StartupPID | BgWriterPID, BgWriterPID
  | CheckpointerPID, CheckpointerPID | WalWriterPID, WalWriterPID
  | WalReceiverPID, WalReceiverPID | WalSummarizerPID, WalSummarizerPID
  | AutoVacPID, AutoVacPID | PgArchPID, PgArchPID
  | SysLoggerPID, SysLoggerPID | SlotSyncWorkerPID, SlotSyncWorkerPID => true
  | _, _ => false
  end.

(** The boolean file-static variables, again under their own names. *)
Inductive PMFlag :=
| FatalError | connsAllowed | ReachedNormalRunning
| start_autovac_launcher | avlauncher_needs_signal | WalReceiverRequested
| StartWorkerNeeded | HaveCrashedWorker
| pending_pm_pmsignal | pending_pm_child_exit | pending_pm_reload_request
| pending_pm_shutdown_request | pending_pm_fast_shutdown_request
| pending_pm_immediate_shutdown_request.

Definition PMFlag_eqb (a b : PMFlag) : bool :=
  match a, b with
  | FatalError, FatalError | connsAllowed, connsAllowed
  | ReachedNormalRunning, ReachedNormalRunning
  | start_autovac_launcher, start_autovac_launcher
  | avlauncher_needs_signal, avlauncher_needs_signal
  | WalReceiverRequested, WalReceiverRequested
  | StartWorkerNeeded, StartWorkerNeeded
  | HaveCrashedWorker, HaveCrashedWorker
  | pending_pm_pmsignal, pending_pm_pmsignal
  | pending_pm_child_exit, pending_pm_child_exit
  | pending_pm_reload_request, pending_pm_reload_request
  | pending_pm_shutdown_request, pending_pm_shutdown_request
  | pending_pm_fast_shutdown_request, pending_pm_fast_shutdown_request
  | pending_pm_immediate_shutdown_request,
    pending_pm_immediate_shutdown_request => true
  | _, _ => false
  end.

(** Configuration variables (GUCs and the like) the postmaster consults. *)
Record Config := mkConfig {
  restart_after_crash : bool;
  remove_temp_files_after_crash : bool;
  send_abort_for_crash : bool;
  send_abort_for_kill : bool;
  MaxConnections : Z;
  autovacuum_max_workers : Z;
  max_wal_senders : Z;
  max_worker_processes : Z;
  Logging_collector : bool;
  IsBinaryUpgrade : bool;
  AutoVacuumingActive : bool;
  XLogArchivingActive : bool;
  XLogArchivingAlways : bool;
  EnableHotStandby : bool;
  summarize_wal : bool;
  sync_replication_slots : bool;
  MyProcPid : Z
}.

Inductive LogMsg :=
| LOG_wrong_key (backendPID : Z)       (* "wrong key in cancel request for process %d" *)
| LOG_no_match (backendPID : Z)        (* "PID %d in cancel request did not match any process" *)
| DEBUG2_sending_SIGINT (backendPID : Z).

(** The circumstances of a call of [CreateSharedMemoryAndSemaphores]: the
    lifecycle variables at that instant and the pids of the children the
    postmaster tracks as live and attached to shared memory. *)
Record ShmemContext := mkShmemContext {
  at_pmState : PMState;
  at_FatalError : bool;
  at_Shutdown : Z;
  at_restart_after_crash : bool;
  at_children : list Z
}.

(** What the postmaster does to its surroundings. *)
Inductive Effect :=
| Kill (target : Z) (sig : Signal)      (* kill(target, sig) *)
| Transition (old new : PMState)        (* pmState = new, while it was old *)
| ShmemCreate (ctx : ShmemContext)      (* CreateSharedMemoryAndSemaphores() *)
| Log (m : LogMsg).

(** The postmaster's variables. *)
Record PM := mkPM {
  pmState : PMState;
  Shutdown : Z;
  StartupStatus : StartupStatusEnum;
  AbortStartTime : Z;
  pidv : SpecialChild -> Z;
  flag : PMFlag -> bool;
  BackendList : list Backend;
  BackgroundWorkerList : list RegisteredBgWorker;
  cfg : Config;
  last_lockfile_recheck_time : Z;
  last_touch_time : Z;
  clk : nat;              (* number of calls made to the surroundings *)
  next_addr : nat;        (* next address palloc hands out *)
  trace : list Effect     (* newest first *)
}.

Definition upd {K V} (eqb : K -> K -> bool) (f : K -> V) (k : K) (v : V) : K -> V :=
  fun k' => if eqb k k' then v else f k'.

Definition put_pmState v s := mkPM v (Shutdown s) (StartupStatus s) (AbortStartTime s) (pidv s) (flag s) (BackendList s) (BackgroundWorkerList s) (cfg s) (last_lockfile_recheck_time s) (last_touch_time s) (clk s) (next_addr s) (trace s).
Definition put_Shutdown v s := mkPM (pmState s) v (StartupStatus s) (AbortStartTime s) (pidv s) (flag s) (BackendList s) (BackgroundWorkerList s) (cfg s) (last_lockfile_recheck_time s) (last_touch_time s) (clk s) (next_addr s) (trace s).
Definition put_StartupStatus v s := mkPM (pmState s) (Shutdown s) v (AbortStartTime s) (pidv s) (flag s) (BackendList s) (BackgroundWorkerList s) (cfg s) (last_lockfile_recheck_time s) (last_touch_time s) (clk s) (next_addr s) (trace s).
Definition put_AbortStartTime v s := mkPM (pmState s) (Shutdown s) (StartupStatus s) v (pidv s) (flag s) (BackendList s) (BackgroundWorkerList s) (cfg s) (last_lockfile_recheck_time s) (last_touch_time s) (clk s) (next_addr s) (trace s).
Definition put_pidv v s := mkPM (pmState s) (Shutdown s) (StartupStatus s) (AbortStartTime s) v (flag s) (BackendList s) (BackgroundWorkerList s) (cfg s) (last_lockfile_recheck_time s) (last_touch_time s) (clk s) (next_addr s) (trace s).
Definition put_flag v s := mkPM (pmState s) (Shutdown s) (StartupStatus s) (AbortStartTime s) (pidv s) v (BackendList s) (BackgroundWorkerList s) (cfg s) (last_lockfile_recheck_time s) (last_touch_time s) (clk s) (next_addr s) (trace s).
Definition put_BackendList v s := mkPM (pmState s) (Shutdown s) (StartupStatus s) (AbortStartTime s) (pidv s) (flag s) v (BackgroundWorkerList s) (cfg s) (last_lockfile_recheck_time s) (last_touch_time s) (clk s) (next_addr s) (trace s).
Definition put_BackgroundWorkerList v s := mkPM (pmState s) (Shutdown s) (StartupStatus s) (AbortStartTime s) (pidv s) (flag s) (BackendList s) v (cfg s) (last_lockfile_recheck_time s) (last_touch_time s) (clk s) (next_addr s) (trace s).
Definition put_cfg v s := mkPM (pmState s) (Shutdown s) (StartupStatus s) (AbortStartTime s) (pidv s) (flag s) (BackendList s) (BackgroundWorkerList s) v (last_lockfile_recheck_time s) (last_touch_time s) (clk s) (next_addr s) (trace s).
Definition put_last_lockfile_recheck_time v s := mkPM (pmState s) (Shutdown s) (StartupStatus s) (AbortStartTime s) (pidv s) (flag s) (BackendList s) (BackgroundWorkerList s) (cfg s) v (last_touch_time s) (clk s) (next_addr s) (trace s).
Definition put_last_touch_time v s := mkPM (pmState s) (Shutdown s) (StartupStatus s) (AbortStartTime s) (pidv s) (flag s) (BackendList s) (BackgroundWorkerList s) (cfg s) (last_lockfile_recheck_time s) v (clk s) (next_addr s) (trace s).
Definition put_clk v s := mkPM (pmState s) (Shutdown s) (StartupStatus s) (AbortStartTime s) (pidv s) (flag s) (BackendList s) (BackgroundWorkerList s) (cfg s) (last_lockfile_recheck_time s) (last_touch_time s) v (next_addr s) (trace s).
Definition put_next_addr v s := mkPM (pmState s) (Shutdown s) (StartupStatus s) (AbortStartTime s) (pidv s) (flag s) (BackendList s) (BackgroundWorkerList s) (cfg s) (last_lockfile_recheck_time s) (last_touch_time s) (clk s) v (trace s).
Definition put_trace v s := mkPM (pmState s) (Shutdown s) (StartupStatus s) (AbortStartTime s) (pidv s) (flag s) (BackendList s) (BackgroundWorkerList s) (cfg s) (last_lockfile_recheck_time s) (last_touch_time s) (clk s) (next_addr s) v.

(** The surroundings of postmaster.c. *)
Record Env := mkEnv {
  (* <sys/wait.h> and the build *)
  WIFEXITED : Z -> bool;
  WEXITSTATUS : Z -> Z;
  HAVE_SETSID : bool;
  (* utils/timestamp.h *)
  TimestampDifferenceExceeds : Z -> Z -> Z -> bool;
  TimestampDifferenceMilliseconds : Z -> Z -> Z;
  TimestampTzPlusMilliseconds : Z -> Z -> Z;
  (* process creation and reaping *)
  postmaster_child_launch : nat -> BackendType -> Z;
  SysLogger_Start : nat -> Z;
  waitpid : nat -> list (Z * Z);     (* the (pid, exitstatus) pairs one drain of the SIGCHLD queue yields *)
  AcceptConnection : nat -> bool;
  palloc_extended : nat -> bool;     (* false: out of memory *)
  pg_strong_random : nat -> option Z;
  (* clocks *)
  time : nat -> Z;
  GetCurrentTimestamp : nat -> Z;
  (* pmsignal.c and friends *)
  IsPostmasterChildWalSender : nat -> Z -> bool;
  ReleasePostmasterChildSlot : nat -> Z -> bool;
  AssignPostmasterChildSlot : nat -> Z;
  CheckPostmasterSignal : nat -> PMSignalReason -> bool;
  CheckLogrotateSignal : nat -> bool;
  CheckPromoteSignal : nat -> bool;
  PgArchCanRestart : nat -> bool;
  SlotSyncWorkerCanRestart : nat -> bool;
  ValidateSlotSyncParams : nat -> bool;
  RecheckDataDirLockFile : nat -> bool;
  ProcessConfigFile : nat -> Config -> Config;
  (* bgworker.c: what these calls do to the list of registered workers *)
  BackgroundWorkerStateChange : nat -> bool -> list RegisteredBgWorker -> list RegisteredBgWorker;
  ForgetUnstartedBackgroundWorkers : nat -> list RegisteredBgWorker -> list RegisteredBgWorker;
  ResetBackgroundWorkerCrashTimes : nat -> list RegisteredBgWorker -> list RegisteredBgWorker;
  ReportBackgroundWorkerExit : nat -> nat -> list RegisteredBgWorker -> list RegisteredBgWorker
}.

(** ** The postmaster monad *)

Inductive res (A : Type) :=
| Ret (a : A) (s : PM)          (* the call returned *)
| Exit (status : Z) (s : PM).   (* ExitPostmaster(status) was reached *)
Arguments Ret {A} a s.
Arguments Exit {A} status s.

Definition M (A : Type) := PM -> res A.

Definition ret {A} (a : A) : M A := fun s => Ret a s.
Definition bind {A B} (m : M A) (f : A -> M B) : M B :=
  fun s => match m s with
           | Ret a s' => f a s'
           | Exit st s' => Exit st s'
           end.
Definition gets {A} (f : PM -> A) : M A := fun s => Ret (f s) s.
Definition modify (f : PM -> PM) : M unit := fun s => Ret tt (f s).
Definition ExitPostmaster {A} (status : Z) : M A := fun s => Exit status s.
Definition when (b : bool) (m : M unit) : M unit := if b then m else ret tt.

Declare Scope pm_scope.
Delimit Scope pm_scope with pm.
Notation "x <- c ;; k" := (bind c (fun x => k))
  (at level 61, c at next level, right associativity) : pm_scope.
Notation "c ;; k" := (bind c (fun _ => k))
  (at level 61, right associativity) : pm_scope.
Local Open Scope pm_scope.

Definition emit (e : Effect) : M unit := modify (fun s => put_trace (e :: trace s) s).
Definition set_flag (f : PMFlag) (b : bool) : M unit :=
  modify (fun s => put_flag (upd PMFlag_eqb (flag s) f b) s).
Definition set_pid (c : SpecialChild) (p : Z) : M unit :=
  modify (fun s => put_pidv (upd SpecialChild_eqb (pidv s) c p) s).
(** [pmState = v;] *)
Definition set_pmState (v : PMState) : M unit :=
  modify (fun s => put_trace (Transition (pmState s) v :: trace s) (put_pmState v s)).

(** ** List helpers for the intrusive lists *)

Fixpoint remove_first {A} (p : A -> bool) (l : list A) : list A :=
  match l with
  | [] => []
  | x :: r => if p x then r else x :: remove_first p r
  end.

Fixpoint update_first {A} (p : A -> bool) (f : A -> A) (l : list A) : list A :=
  match l with
  | [] => []
  | x :: r => if p x then f x :: r else x :: update_first p f r
  end.

Fixpoint index_of {A} (p : A -> bool) (l : list A) : nat :=
  match l with
  | [] => O
  | x :: r => if p x then O else S (index_of p r)
  end.

(** [dlist_delete(&bn->elem)] for the [Backend] at address [a]. *)
Definition dlist_delete (a : option nat) (l : list Backend) : list Backend :=
  match a with
  | Some n => remove_first (fun b => Nat.eqb (addr b) n) l
  | None => l
  end.

(** The children the postmaster tracks as live and attached to shared
    memory: the special children other than the syslogger, and the
    registry. *)
Definition shmem_specials : list SpecialChild :=
  [StartupPID; BgWriterPID; CheckpointerPID; WalWriterPID; WalReceiverPID;
   WalSummarizerPID; AutoVacPID; PgArchPID; SlotSyncWorkerPID].

Definition tracked_children (s : PM) : list Z :=
  filter (fun p => negb (p =? 0)) (map (pidv s) shmem_specials)
  ++ map pid (BackendList s).

Definition STATUS_OK : Z := 0.
Definition STATUS_ERROR : Z := -1.

(** ** The functions of postmaster.c *)

Section Postmaster.

Variable env : Env.

(** A call into the surroundings: its result is the one [env] holds for
    the current value of the call counter. *)
Definition ask {A} (f : Env -> nat -> A) : M A :=
  fun s => Ret (f env (clk s)) (put_clk (S (clk s)) s).

(** [palloc]: a fresh address. *)
Definition alloc : M nat :=
  fun s => Ret (next_addr s) (put_next_addr (S (next_addr s)) s).

Definition EXIT_STATUS_0 (st : Z) : bool := st =? 0.
Definition EXIT_STATUS_1 (st : Z) : bool :=
  WIFEXITED env st && (WEXITSTATUS env st =? 1).
Definition EXIT_STATUS_3 (st : Z) : bool :=
  WIFEXITED env st && (WEXITSTATUS env st =? 3).

(** [CreateSharedMemoryAndSemaphores()] (ipci.c): what it builds lies
    outside the postmaster's own variables; the call is recorded with its
    circumstances. *)
Definition CreateSharedMemoryAndSemaphores : M unit :=
  s <- gets (fun s => s) ;;
  emit (ShmemCreate (mkShmemContext (pmState s) (flag s FatalError) (Shutdown s)
                                    (restart_after_crash (cfg s))
                                    (tracked_children s))).

Definition group_signal (signal : Signal) : bool :=
  match signal with
  | SIGINT | SIGTERM | SIGQUIT | SIGKILL | SIGABRT => true
  | _ => false
  end.

Definition signal_child (p : Z) (signal : Signal) : M unit :=
  emit (Kill p signal) ;;
  when (HAVE_SETSID env && group_signal signal) (emit (Kill (- p) signal)).

Definition sigquit_child (p : Z) : M unit :=
  c <- gets cfg ;;
  signal_child p (if send_abort_for_crash c then SIGABRT else SIGQUIT).

(** Relabelling of a recently announced WAL sender, as done in the loops
    of [SignalSomeChildren] and [CountChildren]. *)
Definition relabel_walsender (ws : Z -> bool) (bp : Backend) : Backend :=
  if (bkend_type bp =? BACKEND_TYPE_NORMAL) && ws (child_slot bp)
  then set_bkend_type BACKEND_TYPE_WALSND bp
  else bp.

Fixpoint SignalSomeChildren_loop (ws : Z -> bool) (signal : Signal) (target : Z)
    (l : list Backend) (signaled : bool) : M (list Backend * bool) :=
  match l with
  | [] => ret ([], signaled)
  | bp :: rest =>
      if dead_end bp then
        r <- SignalSomeChildren_loop ws signal target rest signaled ;;
        ret (bp :: fst r, snd r)
      else if negb (target =? BACKEND_TYPE_ALL) then
        let bp' := relabel_walsender ws bp in
        if Z.land target (bkend_type bp') =? 0 then
          r <- SignalSomeChildren_loop ws signal target rest signaled ;;
          ret (bp' :: fst r, snd r)
        else
          signal_child (pid bp') signal ;;
          r <- SignalSomeChildren_loop ws signal target rest true ;;
          ret (bp' :: fst r, snd r)
      else
        signal_child (pid bp) signal ;;
        r <- SignalSomeChildren_loop ws signal target rest true ;;
        ret (bp :: fst r, snd r)
  end.

Definition SignalSomeChildren (signal : Signal) (target : Z) : M bool :=
  ws <- ask IsPostmasterChildWalSender ;;
  l <- gets BackendList ;;
  r <- SignalSomeChildren_loop ws signal target l false ;;
  modify (put_BackendList (fst r)) ;;
  ret (snd r).

Definition SignalChildren (signal : Signal) : M bool :=
  SignalSomeChildren signal BACKEND_TYPE_ALL.

(** [if (XPID != 0) signal_child(XPID, signal);] *)
Definition signal_special (c : SpecialChild) (signal : Signal) : M unit :=
  p <- gets (fun s => pidv s c) ;;
  when (negb (p =? 0)) (signal_child p signal).

Definition TerminateChildren (signal : Signal) : M unit :=
  SignalChildren signal ;;
  p <- gets (fun s => pidv s StartupPID) ;;
  when (negb (p =? 0))
    (signal_child p signal ;;
     when (match signal with SIGQUIT | SIGKILL | SIGABRT => true | _ => false end)
       (modify (put_StartupStatus STARTUP_SIGNALED))) ;;
  signal_special BgWriterPID signal ;;
  signal_special CheckpointerPID signal ;;
  signal_special WalWriterPID signal ;;
  signal_special WalReceiverPID signal ;;
  signal_special WalSummarizerPID signal ;;
  signal_special AutoVacPID signal ;;
  signal_special PgArchPID signal ;;
  signal_special SlotSyncWorkerPID signal.

(** The registry holds far fewer than 2^31 entries, so [cnt++] is exact. *)
Fixpoint CountChildren_loop (ws : Z -> bool) (target : Z) (l : list Backend)
    : list Backend * Z :=
  match l with
  | [] => ([], 0)
  | bp :: rest =>
      let r := CountChildren_loop ws target rest in
      if dead_end bp then (bp :: fst r, snd r)
      else if negb (target =? BACKEND_TYPE_ALL) then
        let bp' := relabel_walsender ws bp in
        if Z.land target (bkend_type bp') =? 0 then (bp' :: fst r, snd r)
        else (bp' :: fst r, snd r + 1)
      else (bp :: fst r, snd r + 1)
  end.

Definition CountChildren (target : Z) : M Z :=
  ws <- ask IsPostmasterChildWalSender ;;
  l <- gets BackendList ;;
  let r := CountChildren_loop ws target l in
  modify (put_BackendList (fst r)) ;;
  ret (snd r).

(** [int] addition and multiplication. *)
Definition int_add (a b : Z) : Z := wrap32 (a + b).
Definition int_mul (a b : Z) : Z := wrap32 (a * b).

Definition MaxLivePostmasterChildren (c : Config) : Z :=
  int_mul 2
    (int_add (int_add (int_add (int_add (MaxConnections c) (autovacuum_max_workers c)) 1)
                      (max_wal_senders c))
             (max_worker_processes c)).

Definition canAcceptConnections (backend_type : Z) : M CAC_state :=
  s <- gets (fun s => s) ;;
  if negb (PMState_eqb (pmState s) PM_RUN)
     && negb (PMState_eqb (pmState s) PM_HOT_STANDBY)
     && negb (backend_type =? BACKEND_TYPE_BGWORKER)
  then
    if Shutdown s >? NoShutdown then ret CAC_SHUTDOWN
    else if negb (flag s FatalError) && PMState_eqb (pmState s) PM_STARTUP
    then ret CAC_STARTUP
    else if negb (flag s FatalError) && PMState_eqb (pmState s) PM_RECOVERY
    then ret CAC_NOTCONSISTENT
    else ret CAC_RECOVERY
  else if negb (flag s connsAllowed) && (backend_type =? BACKEND_TYPE_NORMAL)
  then ret CAC_SHUTDOWN
  else
    cnt <- CountChildren BACKEND_TYPE_ALL ;;
    c <- gets cfg ;;
    if cnt >=? MaxLivePostmasterChildren c then ret CAC_TOOMANY else ret CAC_OK.

(** The non-EXEC_BACKEND build: the scan runs over [BackendList]. *)
Fixpoint processCancelRequest_loop (backendPID cancelAuthCode : Z)
    (l : list Backend) : M bool :=
  match l with
  | [] => ret false
  | bp :: rest =>
      if pid bp =? backendPID then
        (if cancel_key bp =? cancelAuthCode then
           emit (Log (DEBUG2_sending_SIGINT backendPID)) ;;
           signal_child (pid bp) SIGINT
         else
           emit (Log (LOG_wrong_key backendPID))) ;;
        ret true
      else processCancelRequest_loop backendPID cancelAuthCode rest
  end.

Definition processCancelRequest (backendPID cancelAuthCode : Z) : M unit :=
  l <- gets BackendList ;;
  found <- processCancelRequest_loop backendPID cancelAuthCode l ;;
  when (negb found) (emit (Log (LOG_no_match backendPID))).

Definition RandomCancelKey : M (option Z) := ask pg_strong_random.

Definition push_head (bn : Backend) : M unit :=
  modify (fun s => put_BackendList (bn :: BackendList s) s).

Definition StartChildProcess (type : BackendType) : M Z :=
  p <- ask (fun e n => postmaster_child_launch e n type) ;;
  if p <? 0 then
    (if is_B_STARTUP type then ExitPostmaster 1 else ret 0)
  else ret p.

(** [XPID = StartChildProcess(type);] *)
Definition start_special (c : SpecialChild) (type : BackendType) : M unit :=
  p <- StartChildProcess type ;;
  set_pid c p.

(** [if (XPID == 0) XPID = StartChildProcess(type);] *)
Definition start_special_if_zero (c : SpecialChild) (type : BackendType) : M unit :=
  p <- gets (fun s => pidv s c) ;;
  when (p =? 0) (start_special c type).

(** On a failed fork the slot taken for a live child is handed back
    ([ReleasePostmasterChildSlot], result unused); the slot table lies
    outside the variables modelled. *)
Definition BackendStartup : M Z :=
  ok <- ask palloc_extended ;;
  if negb ok then ret STATUS_ERROR
  else
    a <- alloc ;;
    k <- RandomCancelKey ;;
    match k with
    | None => ret STATUS_ERROR
    | Some MyCancelKey =>
        cac <- canAcceptConnections BACKEND_TYPE_NORMAL ;;
        let dead := negb (is_CAC_OK cac) in
        slot <- (if negb dead then ask AssignPostmasterChildSlot else ret 0) ;;
        p <- ask (fun e n => postmaster_child_launch e n B_BACKEND) ;;
        if p <? 0 then ret STATUS_ERROR
        else
          push_head (mkBackend p MyCancelKey slot BACKEND_TYPE_NORMAL dead false a) ;;
          ret STATUS_OK
    end.

Definition PgArchStartupAllowed : M bool :=
  s <- gets (fun s => s) ;;
  if (XLogArchivingActive (cfg s) && PMState_eqb (pmState s) PM_RUN)
     || (XLogArchivingAlways (cfg s)
         && (PMState_eqb (pmState s) PM_RECOVERY
             || PMState_eqb (pmState s) PM_HOT_STANDBY))
  then ask PgArchCanRestart
  else ret false.

Definition MaybeStartWalReceiver : M unit :=
  s <- gets (fun s => s) ;;
  when ((pidv s WalReceiverPID =? 0)
        && (PMState_eqb (pmState s) PM_STARTUP
            || PMState_eqb (pmState s) PM_RECOVERY
            || PMState_eqb (pmState s) PM_HOT_STANDBY)
        && (Shutdown s <=? SmartShutdown))
    (start_special WalReceiverPID B_WAL_RECEIVER ;;
     p <- gets (fun s => pidv s WalReceiverPID) ;;
     when (negb (p =? 0)) (set_flag WalReceiverRequested false)).

Definition MaybeStartWalSummarizer : M unit :=
  s <- gets (fun s => s) ;;
  when (summarize_wal (cfg s) && (pidv s WalSummarizerPID =? 0)
        && (PMState_eqb (pmState s) PM_RUN
            || PMState_eqb (pmState s) PM_HOT_STANDBY)
        && (Shutdown s <=? SmartShutdown))
    (start_special WalSummarizerPID B_WAL_SUMMARIZER).

Definition MaybeStartSlotSyncWorker : M unit :=
  s <- gets (fun s => s) ;;
  if (pidv s SlotSyncWorkerPID =? 0)
     && PMState_eqb (pmState s) PM_HOT_STANDBY
     && (Shutdown s <=? SmartShutdown)
     && sync_replication_slots (cfg s)
  then
    v <- ask ValidateSlotSyncParams ;;
    if v then
      r <- ask SlotSyncWorkerCanRestart ;;
      when r (start_special SlotSyncWorkerPID B_SLOTSYNC_WORKER)
    else ret tt
  else ret tt.

(** *** Background workers *)

Definition bgworker_should_start_now (start_time : BgWorkerStartTime) : M bool :=
  st <- gets pmState ;;
  ret (match st with
       | PM_NO_CHILDREN | PM_WAIT_DEAD_END | PM_SHUTDOWN_2 | PM_SHUTDOWN
       | PM_WAIT_BACKENDS | PM_STOP_BACKENDS => false
       | PM_RUN =>
           match start_time with
           | BgWorkerStart_RecoveryFinished => true
           | BgWorkerStart_ConsistentState => true
           | BgWorkerStart_PostmasterStart => true
           end
       | PM_HOT_STANDBY =>
           match start_time with
           | BgWorkerStart_ConsistentState => true
           | BgWorkerStart_PostmasterStart => true
           | BgWorkerStart_RecoveryFinished => false
           end
       | PM_RECOVERY | PM_STARTUP | PM_INIT =>
           match start_time with
           | BgWorkerStart_PostmasterStart => true
           | _ => false
           end
       end).

(** Returns the allocated [Backend] (its pid not yet known), or nothing
    on failure. *)
Definition assign_backendlist_entry : M (option Backend) :=
  cac <- canAcceptConnections BACKEND_TYPE_BGWORKER ;;
  if negb (is_CAC_OK cac) then ret None
  else
    k <- RandomCancelKey ;;
    match k with
    | None => ret None
    | Some MyCancelKey =>
        ok <- ask palloc_extended ;;
        if negb ok then ret None
        else
          a <- alloc ;;
          slot <- ask AssignPostmasterChildSlot ;;
          ret (Some (mkBackend 0 MyCancelKey slot BACKEND_TYPE_BGWORKER false false a))
    end.

(** Returns the success flag and the entry as the call leaves it. *)
Definition do_start_bgworker (rw : RegisteredBgWorker)
    : M (bool * RegisteredBgWorker) :=
  r <- assign_backendlist_entry ;;
  match r with
  | None =>
      t <- ask GetCurrentTimestamp ;;
      ret (false, set_rw_crashed_at t rw)
  | Some bn =>
      worker_pid <- ask (fun e n => postmaster_child_launch e n B_BG_WORKER) ;;
      if worker_pid =? -1 then
        t <- ask GetCurrentTimestamp ;;
        ret (false, set_rw_crashed_at t
                      (mkRegisteredBgWorker (rw_worker rw) None (rw_pid rw) 0
                                            (rw_crashed_at rw) (rw_terminate rw)))
      else
        push_head (mkBackend worker_pid (cancel_key bn) (child_slot bn)
                             (bkend_type bn) (dead_end bn) (bgworker_notify bn)
                             (addr bn)) ;;
        ret (true, rw_set_child (addr bn) worker_pid (child_slot bn) rw)
  end.

(** The scan of [maybe_start_bgworkers].  It returns the list as the scan
    leaves it: an entry handed to [ForgetBackgroundWorker] is dropped (the
    spec: "remove"), and on an early [return] the entries not yet visited
    stay as they are. *)
Fixpoint maybe_start_bgworkers_loop (l : list RegisteredBgWorker)
    (num_launched now : Z) : M (list RegisteredBgWorker) :=
  match l with
  | [] => ret []
  | rw :: rest =>
      let skip (now' : Z) : M (list RegisteredBgWorker) :=
        r <- maybe_start_bgworkers_loop rest num_launched now' ;;
        ret (rw :: r) in
      let consider (now' : Z) : M (list RegisteredBgWorker) :=
        should <- bgworker_should_start_now (bgw_start_time (rw_worker rw)) ;;
        if should then
          started <- do_start_bgworker (set_rw_crashed_at 0 rw) ;;
          if negb (fst started) then
            set_flag StartWorkerNeeded true ;;
            ret (snd started :: rest)
          else if num_launched + 1 >=? MAX_BGWORKERS_TO_LAUNCH then
            set_flag StartWorkerNeeded true ;;
            ret (snd started :: rest)
          else
            r <- maybe_start_bgworkers_loop rest (num_launched + 1) now' ;;
            ret (snd started :: r)
        else skip now' in
      if negb (rw_pid rw =? 0) then skip now
      else if rw_terminate rw then
        maybe_start_bgworkers_loop rest num_launched now
      else if negb (rw_crashed_at rw =? 0) then
        if bgw_restart_time (rw_worker rw) =? BGW_NEVER_RESTART then
          let notify_pid := bgw_notify_pid (rw_worker rw) in
          when (negb (notify_pid =? 0)) (emit (Kill notify_pid SIGUSR1)) ;;
          maybe_start_bgworkers_loop rest num_launched now
        else
          now' <- (if now =? 0 then ask GetCurrentTimestamp else ret now) ;;
          if negb (TimestampDifferenceExceeds env (rw_crashed_at rw) now'
                     (int_mul (bgw_restart_time (rw_worker rw)) 1000))
          then
            set_flag HaveCrashedWorker true ;;
            skip now'
          else consider now'
      else consider now
  end.

Definition maybe_start_bgworkers : M unit :=
  fatal <- gets (fun s => flag s FatalError) ;;
  if fatal then
    set_flag StartWorkerNeeded false ;;
    set_flag HaveCrashedWorker false
  else
    set_flag StartWorkerNeeded false ;;
    set_flag HaveCrashedWorker false ;;
    l <- gets BackgroundWorkerList ;;
    l' <- maybe_start_bgworkers_loop l 0 0 ;;
    modify (put_BackgroundWorkerList l').

Definition StartAutovacuumWorker : M unit :=
  cac <- canAcceptConnections BACKEND_TYPE_AUTOVAC ;;
  started <-
    (if is_CAC_OK cac then
       k <- RandomCancelKey ;;
       match k with
       | None => ret None
       | Some MyCancelKey =>
           ok <- ask palloc_extended ;;
           if ok then
             a <- alloc ;;
             slot <- ask AssignPostmasterChildSlot ;;
             p <- StartChildProcess B_AUTOVAC_WORKER ;;
             if p >? 0 then
               push_head (mkBackend p MyCancelKey slot BACKEND_TYPE_AUTOVAC
                                    false false a) ;;
               ret (Some true)
             else ret (Some false)
           else ret (Some false)
       end
     else ret (Some false)) ;;
  match started with
  | None | Some true => ret tt      (* plain return *)
  | Some false =>
      av <- gets (fun s => pidv s AutoVacPID) ;;
      when (negb (av =? 0)) (set_flag avlauncher_needs_signal true)
  end.

(** The scan of [DetermineSleepTime] over the registered workers: the list
    it leaves and the earliest wakeup. *)
Fixpoint DetermineSleepTime_scan (l : list RegisteredBgWorker) (next_wakeup : Z)
    : list RegisteredBgWorker * Z :=
  match l with
  | [] => ([], next_wakeup)
  | rw :: rest =>
      if rw_crashed_at rw =? 0 then
        let r := DetermineSleepTime_scan rest next_wakeup in
        (rw :: fst r, snd r)
      else if (bgw_restart_time (rw_worker rw) =? BGW_NEVER_RESTART)
              || rw_terminate rw
      then DetermineSleepTime_scan rest next_wakeup
      else
        let this_wakeup :=
          TimestampTzPlusMilliseconds env (rw_crashed_at rw)
            (1000 * bgw_restart_time (rw_worker rw)) in
        let r := DetermineSleepTime_scan rest
                   (if (next_wakeup =? 0) || (this_wakeup <? next_wakeup)
                    then this_wakeup else next_wakeup) in
        (rw :: fst r, snd r)
  end.

Definition DetermineSleepTime : M Z :=
  s <- gets (fun s => s) ;;
  if (Shutdown s >? NoShutdown)
     || (negb (flag s StartWorkerNeeded) && negb (flag s HaveCrashedWorker))
  then
    if negb (AbortStartTime s =? 0) then
      now <- ask time ;;
      let seconds := wrap32 (SIGKILL_CHILDREN_AFTER_SECS - (now - AbortStartTime s)) in
      ret (Z.max (int_mul seconds 1000) 0)
    else ret (60 * 1000)
  else if flag s StartWorkerNeeded then ret 0
  else
    next_wakeup <-
      (if flag s HaveCrashedWorker then
         let r := DetermineSleepTime_scan (BackgroundWorkerList s) 0 in
         modify (put_BackgroundWorkerList (fst r)) ;;
         ret (snd r)
       else ret 0) ;;
    if negb (next_wakeup =? 0) then
      now <- ask GetCurrentTimestamp ;;
      let ms := wrap32 (TimestampDifferenceMilliseconds env now next_wakeup) in
      ret (Z.min (60 * 1000) ms)
    else ret (60 * 1000).

(** *** The crash cascade *)

Fixpoint HandleChildCrash_workers (p : Z) (take_action : bool)
    (l : list RegisteredBgWorker) : M (list RegisteredBgWorker) :=
  match l with
  | [] => ret []
  | rw :: rest =>
      rw' <- (if rw_pid rw =? 0 then ret rw
              else if rw_pid rw =? p then
                modify (fun s => put_BackendList
                                   (dlist_delete (rw_backend rw) (BackendList s)) s) ;;
                ret (rw_clear_child rw)
              else
                when take_action (sigquit_child (rw_pid rw)) ;;
                ret rw) ;;
      r <- HandleChildCrash_workers p take_action rest ;;
      ret (rw' :: r)
  end.

Fixpoint HandleChildCrash_backends (p : Z) (take_action : bool)
    (l : list Backend) : M (list Backend) :=
  match l with
  | [] => ret []
  | bp :: rest =>
      if pid bp =? p then HandleChildCrash_backends p take_action rest
      else
        when (negb (bkend_type bp =? BACKEND_TYPE_BGWORKER) && take_action)
          (sigquit_child (pid bp)) ;;
        r <- HandleChildCrash_backends p take_action rest ;;
        ret (bp :: r)
  end.

(** [if (pid == XPID) XPID = 0; else if (XPID != 0 && take_action)
    sigquit_child(XPID);] *)
Definition crash_special (c : SpecialChild) (p : Z) (take_action : bool) : M unit :=
  x <- gets (fun s => pidv s c) ;;
  if p =? x then set_pid c 0
  else when (negb (x =? 0) && take_action) (sigquit_child x).

(** The first part of [HandleChildCrash]: forget the dead child and, if
    [take_action], tell every other child to quit. *)
Definition HandleChildCrash_children (p : Z) (take_action : bool) : M unit :=
  wl0 <- gets BackgroundWorkerList ;;
  wl <- HandleChildCrash_workers p take_action wl0 ;;
  modify (put_BackgroundWorkerList wl) ;;
  bl <- gets BackendList ;;
  bl' <- HandleChildCrash_backends p take_action bl ;;
  modify (put_BackendList bl') ;;
  sp <- gets (fun s => pidv s StartupPID) ;;
  (if p =? sp then set_pid StartupPID 0
   else when (negb (sp =? 0) && take_action)
          (sigquit_child sp ;; modify (put_StartupStatus STARTUP_SIGNALED))) ;;
  crash_special BgWriterPID p take_action ;;
  crash_special CheckpointerPID p take_action ;;
  crash_special WalWriterPID p take_action ;;
  crash_special WalReceiverPID p take_action ;;
  crash_special WalSummarizerPID p take_action ;;
  crash_special AutoVacPID p take_action ;;
  crash_special PgArchPID p take_action ;;
  crash_special SlotSyncWorkerPID p take_action.

Definition HandleChildCrash (p exitstatus : Z) : M unit :=
  s <- gets (fun s => s) ;;
  let take_action := negb (flag s FatalError)
                     && negb (Shutdown s =? ImmediateShutdown) in
  HandleChildCrash_children p take_action ;;
  sh <- gets Shutdown ;;
  when (negb (sh =? ImmediateShutdown)) (set_flag FatalError true) ;;
  st <- gets pmState ;;
  when (match st with
        | PM_RECOVERY | PM_HOT_STANDBY | PM_RUN | PM_STOP_BACKENDS
        | PM_SHUTDOWN => true
        | _ => false
        end)
    (set_pmState PM_WAIT_BACKENDS) ;;
  a <- gets AbortStartTime ;;
  when (a =? 0) (t <- ask time ;; modify (put_AbortStartTime t)).

Definition CleanupBackend (p exitstatus : Z) : M unit :=
  if negb (EXIT_STATUS_0 exitstatus) && negb (EXIT_STATUS_1 exitstatus) then
    HandleChildCrash p exitstatus
  else
    l <- gets BackendList ;;
    match find (fun b => pid b =? p) l with
    | None => ret tt
    | Some bp =>
        ok <- (if negb (dead_end bp)
               then ask (fun e n => ReleasePostmasterChildSlot e n (child_slot bp))
               else ret true) ;;
        if negb ok then HandleChildCrash p exitstatus
        else modify (put_BackendList (remove_first (fun b => pid b =? p) l))
    end.

Definition CleanupBackgroundWorker (p exitstatus : Z) : M bool :=
  l <- gets BackgroundWorkerList ;;
  match find (fun rw => rw_pid rw =? p) l with
  | None => ret false
  | Some rw =>
      rw1 <- (if negb (EXIT_STATUS_0 exitstatus) then
                t <- ask GetCurrentTimestamp ;;
                ret (set_rw_crashed_at t rw)
              else ret (set_rw_terminate true (set_rw_crashed_at 0 rw))) ;;
      modify (put_BackgroundWorkerList
                (update_first (fun rw => rw_pid rw =? p) (fun _ => rw1) l)) ;;
      if negb (EXIT_STATUS_0 exitstatus) && negb (EXIT_STATUS_1 exitstatus) then
        HandleChildCrash p exitstatus ;;
        ret true
      else
        ok <- ask (fun e n => ReleasePostmasterChildSlot e n (rw_child_slot rw)) ;;
        if negb ok then
          HandleChildCrash p exitstatus ;;
          ret true
        else
          modify (fun s => put_BackendList
                             (dlist_delete (rw_backend rw) (BackendList s)) s) ;;
          modify (fun s => put_BackgroundWorkerList
                             (update_first (fun rw => rw_pid rw =? p) rw_clear_child
                                (BackgroundWorkerList s)) s) ;;
          report <- ask (fun e n => ReportBackgroundWorkerExit e n
                                      (index_of (fun rw => rw_pid rw =? p) l)) ;;
          modify (fun s => put_BackgroundWorkerList
                             (report (BackgroundWorkerList s)) s) ;;
          ret true
  end.

(** *** The state machine *)

(** The smart-shutdown step: [PM_RUN]/[PM_HOT_STANDBY] with connections
    disallowed ends when no normal backend is left. *)
Definition PSM_smart_shutdown : M unit :=
  s <- gets (fun s => s) ;;
  when ((PMState_eqb (pmState s) PM_RUN || PMState_eqb (pmState s) PM_HOT_STANDBY)
        && negb (flag s connsAllowed))
    (cnt <- CountChildren BACKEND_TYPE_NORMAL ;;
     when (cnt =? 0) (set_pmState PM_STOP_BACKENDS)).

Definition PSM_stop_backends : M unit :=
  st <- gets pmState ;;
  when (PMState_eqb st PM_STOP_BACKENDS)
    (forget <- ask ForgetUnstartedBackgroundWorkers ;;
     modify (fun s => put_BackgroundWorkerList (forget (BackgroundWorkerList s)) s) ;;
     SignalSomeChildren SIGTERM (BACKEND_TYPE_ALL - BACKEND_TYPE_WALSND) ;;
     signal_special AutoVacPID SIGTERM ;;
     signal_special BgWriterPID SIGTERM ;;
     signal_special WalWriterPID SIGTERM ;;
     signal_special StartupPID SIGTERM ;;
     signal_special WalReceiverPID SIGTERM ;;
     signal_special WalSummarizerPID SIGTERM ;;
     signal_special SlotSyncWorkerPID SIGTERM ;;
     set_pmState PM_WAIT_BACKENDS).

Definition PSM_wait_backends : M unit :=
  st <- gets pmState ;;
  when (PMState_eqb st PM_WAIT_BACKENDS)
    (cnt <- CountChildren (BACKEND_TYPE_ALL - BACKEND_TYPE_WALSND) ;;
     s <- gets (fun s => s) ;;
     when ((cnt =? 0)
           && (pidv s StartupPID =? 0)
           && (pidv s WalReceiverPID =? 0)
           && (pidv s WalSummarizerPID =? 0)
           && (pidv s BgWriterPID =? 0)
           && ((pidv s CheckpointerPID =? 0)
               || (negb (flag s FatalError) && (Shutdown s <? ImmediateShutdown)))
           && (pidv s WalWriterPID =? 0)
           && (pidv s AutoVacPID =? 0)
           && (pidv s SlotSyncWorkerPID =? 0))
       (if (Shutdown s >=? ImmediateShutdown) || flag s FatalError then
          set_pmState PM_WAIT_DEAD_END
        else
          start_special_if_zero CheckpointerPID B_CHECKPOINTER ;;
          cp <- gets (fun s => pidv s CheckpointerPID) ;;
          if negb (cp =? 0) then
            signal_child cp SIGUSR2 ;;
            set_pmState PM_SHUTDOWN
          else
            set_flag FatalError true ;;
            set_pmState PM_WAIT_DEAD_END ;;
            SignalChildren SIGQUIT ;;
            signal_special PgArchPID SIGQUIT)).

Definition PSM_shutdown_2 : M unit :=
  s <- gets (fun s => s) ;;
  when (PMState_eqb (pmState s) PM_SHUTDOWN_2)
    (if pidv s PgArchPID =? 0 then
       cnt <- CountChildren BACKEND_TYPE_ALL ;;
       when (cnt =? 0) (set_pmState PM_WAIT_DEAD_END)
     else ret tt).

Definition PSM_wait_dead_end : M unit :=
  s <- gets (fun s => s) ;;
  when (PMState_eqb (pmState s) PM_WAIT_DEAD_END)
    (when (match BackendList s with [] => true | _ => false end
           && (pidv s PgArchPID =? 0))
       (set_pmState PM_NO_CHILDREN)).

Definition PSM_exit_on_shutdown : M unit :=
  s <- gets (fun s => s) ;;
  if (Shutdown s >? NoShutdown) && PMState_eqb (pmState s) PM_NO_CHILDREN then
    if flag s FatalError then ExitPostmaster 1 else ExitPostmaster 0
  else ret tt.

Definition PSM_exit_on_failure : M unit :=
  s <- gets (fun s => s) ;;
  if PMState_eqb (pmState s) PM_NO_CHILDREN then
    if StartupStatus_eqb (StartupStatus s) STARTUP_CRASHED then ExitPostmaster 1
    else if negb (restart_after_crash (cfg s)) then ExitPostmaster 1
    else ret tt
  else ret tt.

(** [RemovePgTempFiles], [shmem_exit(1)], [LocalProcessControlFile] and
    [ConfigurePostmasterWaitSet] do not touch the variables modelled. *)
Definition PSM_crash_reinit : M unit :=
  s <- gets (fun s => s) ;;
  when (flag s FatalError && PMState_eqb (pmState s) PM_NO_CHILDREN)
    (reset <- ask ResetBackgroundWorkerCrashTimes ;;
     modify (fun s => put_BackgroundWorkerList (reset (BackgroundWorkerList s)) s) ;;
     CreateSharedMemoryAndSemaphores ;;
     start_special StartupPID B_STARTUP ;;
     modify (put_StartupStatus STARTUP_RUNNING) ;;
     set_pmState PM_STARTUP ;;
     modify (put_AbortStartTime 0)).

(** What [PostmasterStateMachine] does once the waiting states have been
    advanced: the three blocks that act on [PM_NO_CHILDREN]. *)
Definition PSM_no_children : M unit :=
  PSM_exit_on_shutdown ;;
  PSM_exit_on_failure ;;
  PSM_crash_reinit.

Definition PostmasterStateMachine : M unit :=
  PSM_smart_shutdown ;;
  PSM_stop_backends ;;
  PSM_wait_backends ;;
  PSM_shutdown_2 ;;
  PSM_wait_dead_end ;;
  PSM_no_children.

(** *** Signal handlers and the processing of what they latched *)

Definition handle_pm_pmsignal_signal : M unit :=
  set_flag pending_pm_pmsignal true.

Definition handle_pm_reload_request_signal : M unit :=
  set_flag pending_pm_reload_request true.

Definition handle_pm_child_exit_signal : M unit :=
  set_flag pending_pm_child_exit true.

Definition handle_pm_shutdown_request_signal (postgres_signal_arg : Signal) : M unit :=
  match postgres_signal_arg with
  | SIGTERM =>
      set_flag pending_pm_shutdown_request true
  | SIGINT =>
      set_flag pending_pm_fast_shutdown_request true ;;
      set_flag pending_pm_shutdown_request true
  | SIGQUIT =>
      set_flag pending_pm_immediate_shutdown_request true ;;
      set_flag pending_pm_shutdown_request true
  | _ => ret tt
  end.

(** The first half of [process_pm_shutdown_request]: clear the latched
    flags and pick the mode. *)
Definition pending_shutdown_mode : M Z :=
  set_flag pending_pm_shutdown_request false ;;
  imm <- gets (fun s => flag s pending_pm_immediate_shutdown_request) ;;
  if imm then
    set_flag pending_pm_immediate_shutdown_request false ;;
    set_flag pending_pm_fast_shutdown_request false ;;
    ret ImmediateShutdown
  else
    fast <- gets (fun s => flag s pending_pm_fast_shutdown_request) ;;
    if fast then
      set_flag pending_pm_fast_shutdown_request false ;;
      ret FastShutdown
    else ret SmartShutdown.

Definition process_pm_shutdown_request : M unit :=
  mode <- pending_shutdown_mode ;;
  s <- gets (fun s => s) ;;
  if mode =? SmartShutdown then
    if Shutdown s >=? SmartShutdown then ret tt
    else
      modify (put_Shutdown SmartShutdown) ;;
      (if PMState_eqb (pmState s) PM_RUN || PMState_eqb (pmState s) PM_HOT_STANDBY
       then set_flag connsAllowed false
       else when (PMState_eqb (pmState s) PM_STARTUP
                  || PMState_eqb (pmState s) PM_RECOVERY)
              (set_pmState PM_STOP_BACKENDS)) ;;
      PostmasterStateMachine
  else if mode =? FastShutdown then
    if Shutdown s >=? FastShutdown then ret tt
    else
      modify (put_Shutdown FastShutdown) ;;
      (if PMState_eqb (pmState s) PM_STARTUP || PMState_eqb (pmState s) PM_RECOVERY
       then set_pmState PM_STOP_BACKENDS
       else when (PMState_eqb (pmState s) PM_RUN
                  || PMState_eqb (pmState s) PM_HOT_STANDBY)
              (set_pmState PM_STOP_BACKENDS)) ;;
      PostmasterStateMachine
  else
    if Shutdown s >=? ImmediateShutdown then ret tt
    else
      modify (put_Shutdown ImmediateShutdown) ;;
      TerminateChildren SIGQUIT ;;
      set_pmState PM_WAIT_BACKENDS ;;
      t <- ask time ;;
      modify (put_AbortStartTime t) ;;
      PostmasterStateMachine.

Definition process_pm_reload_request : M unit :=
  set_flag pending_pm_reload_request false ;;
  sh <- gets Shutdown ;;
  when (sh <=? SmartShutdown)
    (reload <- ask ProcessConfigFile ;;
     modify (fun s => put_cfg (reload (cfg s)) s) ;;
     SignalChildren SIGHUP ;;
     signal_special StartupPID SIGHUP ;;
     signal_special BgWriterPID SIGHUP ;;
     signal_special CheckpointerPID SIGHUP ;;
     signal_special WalWriterPID SIGHUP ;;
     signal_special WalReceiverPID SIGHUP ;;
     signal_special WalSummarizerPID SIGHUP ;;
     signal_special AutoVacPID SIGHUP ;;
     signal_special PgArchPID SIGHUP ;;
     signal_special SysLoggerPID SIGHUP ;;
     signal_special SlotSyncWorkerPID SIGHUP).

(** *** Reaping *)

Definition reap_startup (p exitstatus : Z) : M unit :=
  set_pid StartupPID 0 ;;
  s <- gets (fun s => s) ;;
  if (Shutdown s >? NoShutdown)
     && (EXIT_STATUS_0 exitstatus || EXIT_STATUS_1 exitstatus)
  then
    modify (put_StartupStatus STARTUP_NOT_RUNNING) ;;
    set_pmState PM_WAIT_BACKENDS
  else if EXIT_STATUS_3 exitstatus then
    modify (put_StartupStatus STARTUP_NOT_RUNNING) ;;
    modify (put_Shutdown (Z.max (Shutdown s) SmartShutdown)) ;;
    TerminateChildren SIGTERM ;;
    set_pmState PM_WAIT_BACKENDS
  else if PMState_eqb (pmState s) PM_STARTUP
          && negb (StartupStatus_eqb (StartupStatus s) STARTUP_SIGNALED)
          && negb (EXIT_STATUS_0 exitstatus)
  then ExitPostmaster 1
  else if negb (EXIT_STATUS_0 exitstatus) then
    (if StartupStatus_eqb (StartupStatus s) STARTUP_SIGNALED then
       modify (put_StartupStatus STARTUP_NOT_RUNNING) ;;
       when (PMState_eqb (pmState s) PM_STARTUP) (set_pmState PM_WAIT_BACKENDS)
     else modify (put_StartupStatus STARTUP_CRASHED)) ;;
    HandleChildCrash p exitstatus
  else
    modify (put_StartupStatus STARTUP_NOT_RUNNING) ;;
    set_flag FatalError false ;;
    modify (put_AbortStartTime 0) ;;
    set_flag ReachedNormalRunning true ;;
    set_pmState PM_RUN ;;
    set_flag connsAllowed true ;;
    start_special_if_zero CheckpointerPID B_CHECKPOINTER ;;
    start_special_if_zero BgWriterPID B_BG_WRITER ;;
    start_special_if_zero WalWriterPID B_WAL_WRITER ;;
    MaybeStartWalSummarizer ;;
    s1 <- gets (fun s => s) ;;
    when (negb (IsBinaryUpgrade (cfg s1)) && AutoVacuumingActive (cfg s1)
          && (pidv s1 AutoVacPID =? 0))
      (start_special AutoVacPID B_AUTOVAC_LAUNCHER) ;;
    allowed <- PgArchStartupAllowed ;;
    pa <- gets (fun s => pidv s PgArchPID) ;;
    when (allowed && (pa =? 0)) (start_special PgArchPID B_ARCHIVER) ;;
    MaybeStartSlotSyncWorker ;;
    maybe_start_bgworkers.

(** A special child for which any exit but status 0 is a crash. *)
Definition reap_crash_unless_0 (c : SpecialChild) (p exitstatus : Z) : M unit :=
  set_pid c 0 ;;
  when (negb (EXIT_STATUS_0 exitstatus)) (HandleChildCrash p exitstatus).

(** A special child for which status 0 and status 1 are both fine. *)
Definition reap_crash_unless_0_or_1 (c : SpecialChild) (p exitstatus : Z) : M unit :=
  set_pid c 0 ;;
  when (negb (EXIT_STATUS_0 exitstatus) && negb (EXIT_STATUS_1 exitstatus))
    (HandleChildCrash p exitstatus).

Definition reap_checkpointer (p exitstatus : Z) : M unit :=
  set_pid CheckpointerPID 0 ;;
  st <- gets pmState ;;
  if EXIT_STATUS_0 exitstatus && PMState_eqb st PM_SHUTDOWN then
    signal_special PgArchPID SIGUSR2 ;;
    SignalChildren SIGUSR2 ;;
    set_pmState PM_SHUTDOWN_2
  else HandleChildCrash p exitstatus.

Definition reap_archiver (p exitstatus : Z) : M unit :=
  reap_crash_unless_0_or_1 PgArchPID p exitstatus ;;
  allowed <- PgArchStartupAllowed ;;
  when allowed (start_special PgArchPID B_ARCHIVER).

Definition reap_syslogger (p exitstatus : Z) : M unit :=
  set_pid SysLoggerPID 0 ;;
  q <- ask SysLogger_Start ;;
  set_pid SysLoggerPID q.

(** The body of the [while ((pid = waitpid(...)) > 0)] loop. *)
Definition reap_child (p exitstatus : Z) : M unit :=
  s <- gets (fun s => s) ;;
  if p =? pidv s StartupPID then reap_startup p exitstatus
  else if p =? pidv s BgWriterPID then reap_crash_unless_0 BgWriterPID p exitstatus
  else if p =? pidv s CheckpointerPID then reap_checkpointer p exitstatus
  else if p =? pidv s WalWriterPID then reap_crash_unless_0 WalWriterPID p exitstatus
  else if p =? pidv s WalReceiverPID then
    reap_crash_unless_0_or_1 WalReceiverPID p exitstatus
  else if p =? pidv s WalSummarizerPID then
    reap_crash_unless_0 WalSummarizerPID p exitstatus
  else if p =? pidv s AutoVacPID then reap_crash_unless_0 AutoVacPID p exitstatus
  else if p =? pidv s PgArchPID then reap_archiver p exitstatus
  else if p =? pidv s SysLoggerPID then reap_syslogger p exitstatus
  else if p =? pidv s SlotSyncWorkerPID then
    reap_crash_unless_0_or_1 SlotSyncWorkerPID p exitstatus
  else
    was_worker <- CleanupBackgroundWorker p exitstatus ;;
    if was_worker then set_flag HaveCrashedWorker true
    else CleanupBackend p exitstatus.

Fixpoint reap_loop (l : list (Z * Z)) : M unit :=
  match l with
  | [] => ret tt
  | (p, exitstatus) :: rest =>
      if p >? 0 then reap_child p exitstatus ;; reap_loop rest
      else ret tt
  end.

Definition process_pm_child_exit : M unit :=
  set_flag pending_pm_child_exit false ;;
  reaped <- ask waitpid ;;
  reap_loop reaped ;;
  PostmasterStateMachine.

(** *** pmsignals *)

Definition process_pm_pmsignal : M unit :=
  set_flag pending_pm_pmsignal false ;;
  started <- ask (fun e n => CheckPostmasterSignal e n PMSIGNAL_RECOVERY_STARTED) ;;
  s <- gets (fun s => s) ;;
  when (started && PMState_eqb (pmState s) PM_STARTUP
        && (Shutdown s =? NoShutdown))
    (set_flag FatalError false ;;
     modify (put_AbortStartTime 0) ;;
     when (XLogArchivingAlways (cfg s)) (start_special PgArchPID B_ARCHIVER) ;;
     set_pmState PM_RECOVERY) ;;
  hot <- ask (fun e n => CheckPostmasterSignal e n PMSIGNAL_BEGIN_HOT_STANDBY) ;;
  s <- gets (fun s => s) ;;
  when (hot && PMState_eqb (pmState s) PM_RECOVERY
        && (Shutdown s =? NoShutdown))
    (set_pmState PM_HOT_STANDBY ;;
     set_flag connsAllowed true ;;
     set_flag StartWorkerNeeded true) ;;
  change <- ask (fun e n => CheckPostmasterSignal e n PMSIGNAL_BACKGROUND_WORKER_CHANGE) ;;
  when change
    (st <- gets pmState ;;
     f <- ask (fun e n => BackgroundWorkerStateChange e n
                            (PMState_rank st <? PMState_rank PM_STOP_BACKENDS)) ;;
     modify (fun s => put_BackgroundWorkerList (f (BackgroundWorkerList s)) s) ;;
     set_flag StartWorkerNeeded true) ;;
  s <- gets (fun s => s) ;;
  when (flag s StartWorkerNeeded || flag s HaveCrashedWorker) maybe_start_bgworkers ;;
  sl <- gets (fun s => pidv s SysLoggerPID) ;;
  (if negb (sl =? 0) then
     rot <- ask CheckLogrotateSignal ;;
     if rot then signal_child sl SIGUSR1
     else
       r <- ask (fun e n => CheckPostmasterSignal e n PMSIGNAL_ROTATE_LOGFILE) ;;
       when r (signal_child sl SIGUSR1)
   else ret tt) ;;
  av <- ask (fun e n => CheckPostmasterSignal e n PMSIGNAL_START_AUTOVAC_LAUNCHER) ;;
  s <- gets (fun s => s) ;;
  when (av && (Shutdown s <=? SmartShutdown)
        && (PMState_rank (pmState s) <? PMState_rank PM_STOP_BACKENDS))
    (set_flag start_autovac_launcher true) ;;
  avw <- ask (fun e n => CheckPostmasterSignal e n PMSIGNAL_START_AUTOVAC_WORKER) ;;
  s <- gets (fun s => s) ;;
  when (avw && (Shutdown s <=? SmartShutdown)
        && (PMState_rank (pmState s) <? PMState_rank PM_STOP_BACKENDS))
    StartAutovacuumWorker ;;
  wr <- ask (fun e n => CheckPostmasterSignal e n PMSIGNAL_START_WALRECEIVER) ;;
  when wr (set_flag WalReceiverRequested true ;; MaybeStartWalReceiver) ;;
  adv <- ask (fun e n => CheckPostmasterSignal e n PMSIGNAL_ADVANCE_STATE_MACHINE) ;;
  when adv PostmasterStateMachine ;;
  s <- gets (fun s => s) ;;
  if negb (pidv s StartupPID =? 0)
     && (PMState_eqb (pmState s) PM_STARTUP
         || PMState_eqb (pmState s) PM_RECOVERY
         || PMState_eqb (pmState s) PM_HOT_STANDBY)
  then
    promote <- ask CheckPromoteSignal ;;
    when promote (signal_child (pidv s StartupPID) SIGUSR2)
  else ret tt.

(** *** The server loop *)

(** The body of [for (i = 0; i < nevents; i++)] for one returned event;
    [accept] tells whether the event is [WL_SOCKET_ACCEPT]. *)
Definition ServerLoop_event (accept : bool) : M unit :=
  s <- gets (fun s => s) ;;
  when (flag s pending_pm_shutdown_request) process_pm_shutdown_request ;;
  s <- gets (fun s => s) ;;
  when (flag s pending_pm_reload_request) process_pm_reload_request ;;
  s <- gets (fun s => s) ;;
  when (flag s pending_pm_child_exit) process_pm_child_exit ;;
  s <- gets (fun s => s) ;;
  when (flag s pending_pm_pmsignal) process_pm_pmsignal ;;
  when accept
    (ok <- ask AcceptConnection ;;
     when ok (BackendStartup ;; ret tt)).

(** The rest of the loop body, after the events have been served. *)
Definition ServerLoop_housekeeping : M unit :=
  s <- gets (fun s => s) ;;
  when ((pidv s SysLoggerPID =? 0) && Logging_collector (cfg s))
    (q <- ask SysLogger_Start ;; set_pid SysLoggerPID q) ;;
  s <- gets (fun s => s) ;;
  when (PMState_eqb (pmState s) PM_RUN || PMState_eqb (pmState s) PM_RECOVERY
        || PMState_eqb (pmState s) PM_HOT_STANDBY
        || PMState_eqb (pmState s) PM_STARTUP)
    (start_special_if_zero CheckpointerPID B_CHECKPOINTER ;;
     start_special_if_zero BgWriterPID B_BG_WRITER) ;;
  s <- gets (fun s => s) ;;
  when ((pidv s WalWriterPID =? 0) && PMState_eqb (pmState s) PM_RUN)
    (start_special WalWriterPID B_WAL_WRITER) ;;
  s <- gets (fun s => s) ;;
  when (negb (IsBinaryUpgrade (cfg s)) && (pidv s AutoVacPID =? 0)
        && (AutoVacuumingActive (cfg s) || flag s start_autovac_launcher)
        && PMState_eqb (pmState s) PM_RUN)
    (start_special AutoVacPID B_AUTOVAC_LAUNCHER ;;
     av <- gets (fun s => pidv s AutoVacPID) ;;
     when (negb (av =? 0)) (set_flag start_autovac_launcher false)) ;;
  pa <- gets (fun s => pidv s PgArchPID) ;;
  (if pa =? 0 then
     allowed <- PgArchStartupAllowed ;;
     when allowed (start_special PgArchPID B_ARCHIVER)
   else ret tt) ;;
  MaybeStartSlotSyncWorker ;;
  s <- gets (fun s => s) ;;
  when (flag s avlauncher_needs_signal)
    (set_flag avlauncher_needs_signal false ;;
     when (negb (pidv s AutoVacPID =? 0)) (emit (Kill (pidv s AutoVacPID) SIGUSR2))) ;;
  s <- gets (fun s => s) ;;
  when (flag s WalReceiverRequested) MaybeStartWalReceiver ;;
  MaybeStartWalSummarizer ;;
  s <- gets (fun s => s) ;;
  when (flag s StartWorkerNeeded || flag s HaveCrashedWorker) maybe_start_bgworkers ;;
  now <- ask time ;;
  s <- gets (fun s => s) ;;
  when (((Shutdown s >=? ImmediateShutdown) || flag s FatalError)
        && negb (AbortStartTime s =? 0)
        && (now - AbortStartTime s >=? SIGKILL_CHILDREN_AFTER_SECS))
    (TerminateChildren (if send_abort_for_kill (cfg s) then SIGABRT else SIGKILL) ;;
     modify (put_AbortStartTime 0)) ;;
  s <- gets (fun s => s) ;;
  when (now - last_lockfile_recheck_time s >=? 1 * SECS_PER_MINUTE)
    (ok <- ask RecheckDataDirLockFile ;;
     when (negb ok) (emit (Kill (MyProcPid (cfg s)) SIGQUIT)) ;;
     modify (put_last_lockfile_recheck_time now)) ;;
  s <- gets (fun s => s) ;;
  when (now - last_touch_time s >=? 58 * SECS_PER_MINUTE)
    (modify (put_last_touch_time now)).

(** The end of [PostmasterMain], from the creation of shared memory on,
    up to the entry into the loop of [ServerLoop]. *)
Definition PostmasterMain : M unit :=
  CreateSharedMemoryAndSemaphores ;;
  q <- ask SysLogger_Start ;;
  set_pid SysLoggerPID q ;;
  start_special_if_zero CheckpointerPID B_CHECKPOINTER ;;
  start_special_if_zero BgWriterPID B_BG_WRITER ;;
  start_special StartupPID B_STARTUP ;;
  modify (put_StartupStatus STARTUP_RUNNING) ;;
  set_pmState PM_STARTUP ;;
  maybe_start_bgworkers ;;
  now <- ask time ;;
  modify (put_last_lockfile_recheck_time now) ;;
  modify (put_last_touch_time now).

(** *** Runs of the supervisor *)

(** What can happen next to a running postmaster. *)
Inductive Input :=
| InSignal (sig : Signal)     (* a signal arrives: its handler runs *)
| InWait                      (* the loop computes its sleep budget and waits *)
| InEvent (accept : bool)     (* one event returned by the wait is served *)
| InHousekeeping.             (* the tail of the loop body *)

(** The handlers installed by [pqsignal] in [PostmasterMain]. *)
Definition deliver (sig : Signal) : M unit :=
  match sig with
  | SIGHUP => handle_pm_reload_request_signal
  | SIGINT | SIGQUIT | SIGTERM => handle_pm_shutdown_request_signal sig
  | SIGUSR1 => handle_pm_pmsignal_signal
  | SIGCHLD => handle_pm_child_exit_signal
  | _ => ret tt
  end.

Definition step (i : Input) : M unit :=
  match i with
  | InSignal sig => deliver sig
  | InWait => DetermineSleepTime ;; ret tt
  | InEvent accept => ServerLoop_event accept
  | InHousekeeping => ServerLoop_housekeeping
  end.

Fixpoint steps (l : list Input) : M unit :=
  match l with
  | [] => ret tt
  | i :: rest => step i ;; steps rest
  end.

(** A whole life of the postmaster: boot, then the inputs one by one. *)
Definition run (l : list Input) : M unit :=
  PostmasterMain ;; steps l.

End Postmaster.

(** The variables as [postmaster.c] initialises them, for a given
    configuration and list of workers registered by preloaded libraries. *)
Definition PM_initial (c : Config) (workers : list RegisteredBgWorker) : PM :=
  mkPM PM_INIT NoShutdown STARTUP_NOT_RUNNING 0
       (fun _ => 0)
       (fun f => match f with
                 | connsAllowed | StartWorkerNeeded => true
                 | _ => false
                 end)
       [] workers c 0 0 O O [].

(** ** A concrete platform, for running the model

    Linux/glibc wait statuses, a build with [setsid], and the timestamp
    helpers of utils/timestamp.c; every fork succeeds and hands out the
    pid [1000 + clk]. *)

Definition glibc_WIFEXITED (st : Z) : bool := Z.land st 127 =? 0.
Definition glibc_WEXITSTATUS (st : Z) : Z := Z.shiftr (Z.land st 65280) 8.

(** [TimestampDifferenceExceeds(start, stop, msec)]:
    [stop - start >= msec * 1000] in microseconds. *)
Definition pg_TimestampDifferenceExceeds (start_time stop_time msec : Z) : bool :=
  stop_time - start_time >=? msec * 1000.

(** [TimestampDifferenceMilliseconds(start, stop)]: the difference rounded
    up to milliseconds and clamped to [0, INT_MAX]. *)
Definition pg_TimestampDifferenceMilliseconds (start_time stop_time : Z) : Z :=
  if start_time >=? stop_time then 0
  else if stop_time - start_time >=? INT_MAX * 1000 - 999 then INT_MAX
  else (stop_time - start_time + 999) / 1000.

Definition pg_TimestampTzPlusMilliseconds (tz ms : Z) : Z := tz + ms * 1000.

Definition linux_env : Env :=
  mkEnv glibc_WIFEXITED glibc_WEXITSTATUS true
        pg_TimestampDifferenceExceeds pg_TimestampDifferenceMilliseconds
        pg_TimestampTzPlusMilliseconds
        (fun n _ => 1000 + Z.of_nat n)      (* postmaster_child_launch *)
        (fun _ => 0)                        (* SysLogger_Start: collector off *)
        (fun _ => [])                       (* waitpid *)
        (fun _ => true)                     (* AcceptConnection *)
        (fun _ => true)                     (* palloc_extended *)
        (fun n => Some (Z.of_nat n))        (* pg_strong_random *)
        (fun n => Z.of_nat n)               (* time *)
        (fun n => 1000000 * Z.of_nat n)     (* GetCurrentTimestamp *)
        (fun _ _ => false)                  (* IsPostmasterChildWalSender *)
        (fun _ _ => true)                   (* ReleasePostmasterChildSlot *)
        (fun n => 1 + Z.of_nat n)           (* AssignPostmasterChildSlot *)
        (fun _ _ => false)                  (* CheckPostmasterSignal *)
        (fun _ => false) (fun _ => false)
        (fun _ => true) (fun _ => true) (fun _ => true) (fun _ => true)
        (fun _ c => c)                      (* ProcessConfigFile *)
        (fun _ _ l => l) (fun _ l => l) (fun _ l => l) (fun _ _ l => l).

Definition default_config : Config :=
  mkConfig true true false false 100 3 10 8 false false true false false
           true false false 1.

(** ** Vocabulary of the properties *)

(** *** Transitions of the lifecycle state *)

(** The edges listed state by state in section 4.5 of the spec. *)
Definition listed_edge (o n : PMState) : bool :=
  match o, n with
  | PM_INIT, PM_STARTUP
  | PM_STARTUP, PM_RECOVERY | PM_STARTUP, PM_RUN | PM_STARTUP, PM_WAIT_BACKENDS
  | PM_RECOVERY, PM_HOT_STANDBY | PM_RECOVERY, PM_RUN
  | PM_HOT_STANDBY, PM_RUN
  | PM_RUN, PM_STOP_BACKENDS | PM_HOT_STANDBY, PM_STOP_BACKENDS
  | PM_STOP_BACKENDS, PM_WAIT_BACKENDS
  | PM_WAIT_BACKENDS, PM_SHUTDOWN | PM_WAIT_BACKENDS, PM_WAIT_DEAD_END
  | PM_SHUTDOWN, PM_SHUTDOWN_2
  | PM_SHUTDOWN_2, PM_WAIT_DEAD_END
  | PM_WAIT_DEAD_END, PM_NO_CHILDREN
  | PM_NO_CHILDREN, PM_STARTUP => true
  | _, _ => false
  end.

(** The move of the crash cascade of the same section: to WaitBackends. *)
Definition crash_edge (o n : PMState) : bool :=
  match o, n with
  | PM_RECOVERY, PM_WAIT_BACKENDS | PM_HOT_STANDBY, PM_WAIT_BACKENDS
  | PM_RUN, PM_WAIT_BACKENDS | PM_STOP_BACKENDS, PM_WAIT_BACKENDS
  | PM_SHUTDOWN, PM_WAIT_BACKENDS => true
  | _, _ => false
  end.

(** Everything section 4.5 describes. *)
Definition spec_edge (o n : PMState) : bool := listed_edge o n || crash_edge o n.

(** What the code does beyond that: a smart or fast shutdown requested
    before normal running goes from Startup or Recovery to StopBackends;
    an immediate shutdown goes to WaitBackends from wherever the loop is,
    also from Shutdown2 and WaitDeadEnd; and a startup process that
    completes after the cascade has begun takes WaitBackends to Run. *)
Definition extra_edge (o n : PMState) : bool :=
  match o, n with
  | PM_STARTUP, PM_STOP_BACKENDS | PM_RECOVERY, PM_STOP_BACKENDS
  | PM_SHUTDOWN_2, PM_WAIT_BACKENDS | PM_WAIT_DEAD_END, PM_WAIT_BACKENDS
  | PM_WAIT_BACKENDS, PM_RUN => true
  | _, _ => false
  end.

Definition code_edge (o n : PMState) : bool := spec_edge o n || extra_edge o n.

(** *** Creations of shared memory *)

(** The creation at boot: before anything was launched. *)
Definition boot_context (c : ShmemContext) : bool :=
  PMState_eqb (at_pmState c) PM_INIT
  && match at_children c with [] => true | _ => false end.

(** The creation of a crash cycle: in NoChildren, with FatalError set, no
    shutdown requested, restart_after_crash on, and no child tracked. *)
Definition reinit_context (c : ShmemContext) : bool :=
  PMState_eqb (at_pmState c) PM_NO_CHILDREN
  && at_FatalError c
  && (at_Shutdown c =? NoShutdown)
  && at_restart_after_crash c
  && match at_children c with [] => true | _ => false end.

Definition count_effects (p : Effect -> bool) (tr : list Effect) : Z :=
  Z.of_nat (length (filter p tr)).

Definition is_boot_create (e : Effect) : bool :=
  match e with ShmemCreate c => PMState_eqb (at_pmState c) PM_INIT | _ => false end.
Definition is_reinit_create (e : Effect) : bool :=
  match e with ShmemCreate c => negb (PMState_eqb (at_pmState c) PM_INIT) | _ => false end.
(** The end of a crash cycle: NoChildren to Startup. *)
Definition is_restart (e : Effect) : bool :=
  match e with Transition PM_NO_CHILDREN PM_STARTUP => true | _ => false end.

(** *** Invariants of a run *)

Definition is_core (e : Effect) : bool :=
  match e with Transition _ _ | ShmemCreate _ => true | _ => false end.

Definition core_trace (tr : list Effect) : list Effect := filter is_core tr.

Definition effect_ok (e : Effect) : bool :=
  match e with
  | Transition o n => PMState_eqb o n || code_edge o n
  | ShmemCreate c => boot_context c || reinit_context c
  | _ => true
  end.

Definition core_delta (e : Effect) : Z :=
  (if is_reinit_create e then 1 else 0) - (if is_restart e then 1 else 0).

(** Creations of crash cycles not yet followed by their restart. *)
Fixpoint reinit_balance (tr : list Effect) : Z :=
  match tr with
  | [] => 0
  | e :: r => core_delta e + reinit_balance r
  end.

Fixpoint boot_creates (tr : list Effect) : Z :=
  match tr with
  | [] => 0
  | e :: r => (if is_boot_create e then 1 else 0) + boot_creates r
  end.

Definition late_pids_zero (pv : SpecialChild -> Z) : Prop :=
  pv WalReceiverPID = 0 /\ pv WalSummarizerPID = 0 /\ pv BgWriterPID = 0
  /\ pv WalWriterPID = 0 /\ pv AutoVacPID = 0 /\ pv SlotSyncWorkerPID = 0.

(** What each lifecycle state tells about the other variables.  [why]
    asks for the reason of a state past Run: a shutdown request or a
    crash. *)
Definition state_inv (why : bool) (st : PMState) (sh : Z) (fatal conns : bool)
    (pv : SpecialChild -> Z) : Prop :=
  let reason := why = true -> 0 < sh \/ fatal = true in
  match st with
  | PM_INIT => False
  | PM_STARTUP | PM_RECOVERY => True
  | PM_HOT_STANDBY => conns = false -> 0 < sh
  | PM_RUN => pv StartupPID = 0 /\ (conns = false -> 0 < sh)
  | PM_STOP_BACKENDS | PM_WAIT_BACKENDS => reason
  | PM_SHUTDOWN => reason /\ pv StartupPID = 0 /\ late_pids_zero pv
  | PM_SHUTDOWN_2 | PM_WAIT_DEAD_END | PM_NO_CHILDREN =>
      reason /\ pv StartupPID = 0 /\ late_pids_zero pv /\ pv CheckpointerPID = 0
  end.

Definition trace_inv (tr : list Effect) : Prop :=
  forallb effect_ok (core_trace tr) = true
  /\ boot_creates (core_trace tr) = 1
  /\ reinit_balance (core_trace tr) = 0.

(** The invariant of the server loop; [n] is a lower bound of the
    recorded shutdown mode. *)
Definition Inv (why : bool) (n : Z) (s : PM) : Prop :=
  state_inv why (pmState s) (Shutdown s) (flag s FatalError) (flag s connsAllowed)
            (pidv s)
  /\ trace_inv (trace s)
  /\ (n <= Shutdown s /\ NoShutdown <= Shutdown s <= ImmediateShutdown).

(** Where a special child may be launched without disturbing the
    invariant. *)
Definition launch_ok (c : SpecialChild) (st : PMState) : bool :=
  match c with
  | StartupPID => false
  | SysLoggerPID | PgArchPID => true
  | CheckpointerPID =>
      match st with
      | PM_SHUTDOWN_2 | PM_WAIT_DEAD_END | PM_NO_CHILDREN => false
      | _ => true
      end
  | _ =>
      match st with
      | PM_SHUTDOWN | PM_SHUTDOWN_2 | PM_WAIT_DEAD_END | PM_NO_CHILDREN => false
      | _ => true
      end
  end.

(** The loop is never left in a transient state. *)
Definition settled (s : PM) : Prop :=
  pmState s <> PM_STOP_BACKENDS /\ pmState s <> PM_NO_CHILDREN.

(** What holds when the postmaster exits. *)
Definition ExitInv (n : Z) (s : PM) : Prop :=
  forallb effect_ok (core_trace (trace s)) = true
  /\ boot_creates (core_trace (trace s)) = 1
  /\ 0 <= reinit_balance (core_trace (trace s)) <= 1
  /\ n <= Shutdown s.

(** What holds after a step of the loop that returns, whatever it
    returns, and after one that exits. *)
Definition loop_post {A} (n : Z) : A -> PM -> Prop :=
  fun _ s => Inv true n s /\ settled s.
Definition exit_post (n : Z) : Z -> PM -> Prop := fun _ s => ExitInv n s.

(** [s'] differs from [s] in nothing the invariant looks at, except that
    the pids of special children are related by [R]. *)
Definition frame (R : SpecialChild -> Z -> Z -> Prop) (s s' : PM) : Prop :=
  pmState s' = pmState s
  /\ Shutdown s' = Shutdown s
  /\ flag s' FatalError = flag s FatalError
  /\ flag s' connsAllowed = flag s connsAllowed
  /\ core_trace (trace s') = core_trace (trace s)
  /\ forall c, R c (pidv s c) (pidv s' c).

Definition quiet : PM -> PM -> Prop := frame (fun _ a b => b = a).
Definition zeroing : PM -> PM -> Prop := frame (fun _ a b => b = a \/ b = 0).
Definition quiet_but (c : SpecialChild) : PM -> PM -> Prop :=
  frame (fun c' a b => c' = c \/ b = a).

(** A launch of the special child [c] that its caller allowed only in a
    state where the invariant tolerates it. *)
Definition gated (c : SpecialChild) (s s' : PM) : Prop :=
  quiet s s' \/ (quiet_but c s s' /\ launch_ok c (pmState s) = true).

(** *** Weakest preconditions *)

Definition wp {A} (m : M A) (Q : A -> PM -> Prop) (X : Z -> PM -> Prop) (s : PM)
    : Prop :=
  match m s with
  | Ret a s' => Q a s'
  | Exit st s' => X st s'
  end.

Definition never : Z -> PM -> Prop := fun _ _ => False.

(** [m] returns, and relates the state it leaves to the one it found by [R]. *)
Definition keeps {A} (R : PM -> PM -> Prop) (m : M A) : Prop :=
  forall s, wp m (fun _ s' => R s s') never s.

Definition final {A} (r : res A) : PM :=
  match r with Ret _ s => s | Exit _ s => s end.

Definition exit_status {A} (r : res A) : option Z :=
  match r with Ret _ _ => None | Exit st _ => Some st end.

(** *** Reading a trace *)

(** The changes of [pmState] recorded in a trace, oldest first. *)
Fixpoint transitions (tr : list Effect) : list (PMState * PMState) :=
  match tr with
  | [] => []
  | Transition o n :: r => transitions r ++ [(o, n)]
  | _ :: r => transitions r
  end.

(** The signals sent, oldest first. *)
Fixpoint kills (tr : list Effect) : list (Z * Signal) :=
  match tr with
  | [] => []
  | Kill p sg :: r => kills r ++ [(p, sg)]
  | _ :: r => kills r
  end.

Definition is_kill_of (p : Z) (sg : Signal) (e : Effect) : bool :=
  match e with
  | Kill q sg' => (q =? p) && Signal_eqb sg' sg
  | _ => false
  end.

(** *** Shutdown requests *)

(** The shutdown mode a signal asks for. *)
Definition severity (sig : Signal) : Z :=
  match sig with
  | SIGTERM => SmartShutdown
  | SIGINT => FastShutdown
  | SIGQUIT => ImmediateShutdown
  | _ => NoShutdown
  end.

Definition most_severe (sigs : list Signal) : Z :=
  fold_right (fun sg m => Z.max (severity sg) m) NoShutdown sigs.

(** No shutdown request is latched. *)
Definition nothing_latched (s : PM) : Prop :=
  flag s pending_pm_shutdown_request = false
  /\ flag s pending_pm_fast_shutdown_request = false
  /\ flag s pending_pm_immediate_shutdown_request = false.

Definition is_shutdown_latch (f : PMFlag) : bool :=
  match f with
  | pending_pm_shutdown_request | pending_pm_fast_shutdown_request
  | pending_pm_immediate_shutdown_request => true
  | _ => false
  end.

(** [s'] is [s] but for the latches of shutdown requests. *)
Definition only_latches_differ (s s' : PM) : Prop :=
  s' = put_flag (flag s') s
  /\ forall f, is_shutdown_latch f = false -> flag s' f = flag s f.

(** [m] leaves the recorded shutdown mode alone, whether it returns or
    exits. *)
Definition keeps_Shutdown {A} (m : M A) : Prop :=
  forall s, Shutdown (final (m s)) = Shutdown s.

(** *** Admission *)

(** The children that count as live: those not marked dead-end. *)
Definition live_children (l : list Backend) : Z :=
  Z.of_nat (length (filter (fun b => negb (dead_end b)) l)).

(** The ceiling of section 4.7, in plain integers. *)
Definition admission_ceiling (c : Config) : Z :=
  2 * (MaxConnections c + autovacuum_max_workers c + max_wal_senders c
       + max_worker_processes c + 1).

(** The four settings lie in the range guc_tables.c gives them, 0 to
    MAX_BACKENDS = 2^18 - 1. *)
Definition guc_in_range (c : Config) : Prop :=
  0 <= MaxConnections c <= 262143
  /\ 0 <= autovacuum_max_workers c <= 262143
  /\ 0 <= max_wal_senders c <= 262143
  /\ 0 <= max_worker_processes c <= 262143.

(** Admission as the spec words it, case after case, for a given
    ceiling. *)
Definition admission_with (ceiling : Z) (backend_type : Z) (s : PM) : CAC_state :=
  if negb (PMState_eqb (pmState s) PM_RUN || PMState_eqb (pmState s) PM_HOT_STANDBY)
     && negb (backend_type =? BACKEND_TYPE_BGWORKER)
  then
    if 0 <? Shutdown s then CAC_SHUTDOWN
    else if PMState_eqb (pmState s) PM_STARTUP && negb (flag s FatalError)
    then CAC_STARTUP
    else if PMState_eqb (pmState s) PM_RECOVERY && negb (flag s FatalError)
    then CAC_NOTCONSISTENT
    else CAC_RECOVERY
  else if (backend_type =? BACKEND_TYPE_NORMAL) && negb (flag s connsAllowed)
  then CAC_SHUTDOWN
  else if ceiling <=? live_children (BackendList s)
  then CAC_TOOMANY
  else CAC_OK.

Definition spec_admission (backend_type : Z) (s : PM) : CAC_state :=
  admission_with (admission_ceiling (cfg s)) backend_type s.

(** What a call returned, if it did. *)
Definition outcome {A} (r : res A) : option A :=
  match r with Ret a _ => Some a | Exit _ _ => None end.

(** The registry without its dead-end entries. *)
Definition without_dead_end (s : PM) : PM :=
  put_BackendList (filter (fun b => negb (dead_end b)) (BackendList s)) s.

(** A result, its state changed by [f]. *)
Definition on_state {A} (f : PM -> PM) (r : res A) : res A :=
  match r with
  | Ret a s => Ret a (f s)
  | Exit st s => Exit st (f s)
  end.

(** [m] neither reads nor writes the registry of backends. *)
Definition ignores_backends {A} (m : M A) : Prop :=
  forall l s, m (put_BackendList l s) = on_state (put_BackendList l) (m s).

(** *** The crash cascade *)

Definition quit_signal (c : Config) : Signal :=
  if send_abort_for_crash c then SIGABRT else SIGQUIT.

(** The calls of [kill] one [signal_child] makes. *)
Definition signal_child_kills (setsid : bool) (sg : Signal) (p : Z)
    : list (Z * Signal) :=
  (p, sg) :: (if setsid && group_signal sg then [(- p, sg)] else []).

Definition other_live (p q : Z) : bool := negb (q =? 0) && negb (q =? p).

Definition not_bgworker (bp : Backend) : bool :=
  negb (bkend_type bp =? BACKEND_TYPE_BGWORKER).

(** The children [HandleChildCrash] tells to quit when it acts at all, in
    the order it visits them: the running workers other than [p], the
    backends it leaves in the registry that are not workers, and the
    special children other than [p]; the syslogger is not among them.
    [s] is the state it found, [s'] the one it left. *)
Definition crash_targets (p : Z) (s s' : PM) : list Z :=
  filter (other_live p) (map rw_pid (BackgroundWorkerList s))
  ++ map pid (filter not_bgworker (BackendList s'))
  ++ filter (other_live p) (map (pidv s) shmem_specials).

(** The states from which the cascade moves to WaitBackends. *)
Definition cascade_moves (st : PMState) : bool :=
  match st with
  | PM_RECOVERY | PM_HOT_STANDBY | PM_RUN | PM_STOP_BACKENDS | PM_SHUTDOWN => true
  | _ => false
  end.

(** [s'] is [s] after the signals [ks] were sent and those special
    children of [touched] whose pid is [p] were forgotten; the list of
    workers and the startup status may differ. *)
Definition sends (p : Z) (touched : SpecialChild -> bool)
    (ks : list (Z * Signal)) (s s' : PM) : Prop :=
  kills (trace s') = kills (trace s) ++ ks
  /\ pmState s' = pmState s
  /\ Shutdown s' = Shutdown s
  /\ AbortStartTime s' = AbortStartTime s
  /\ flag s' = flag s
  /\ cfg s' = cfg s
  /\ clk s' = clk s
  /\ BackendList s' = BackendList s
  /\ forall c, pidv s' c = (if touched c && (p =? pidv s c) then 0 else pidv s c).

(** The special child [c] forgotten. *)
Definition forget_child (c : SpecialChild) (s : PM) : PM :=
  put_pidv (upd SpecialChild_eqb (pidv s) c 0) s.

(** *** A platform with scripted child exits *)

(** [linux_env], but every drain of the SIGCHLD queue yields [reaped]. *)
Definition reaping_env (reaped : list (Z * Z)) : Env :=
  mkEnv glibc_WIFEXITED glibc_WEXITSTATUS true
        pg_TimestampDifferenceExceeds pg_TimestampDifferenceMilliseconds
        pg_TimestampTzPlusMilliseconds
        (fun n _ => 1000 + Z.of_nat n)
        (fun _ => 0)
        (fun _ => reaped)
        (fun _ => true)
        (fun _ => true)
        (fun n => Some (Z.of_nat n))
        (fun n => Z.of_nat n)
        (fun n => 1000000 * Z.of_nat n)
        (fun _ _ => false)
        (fun _ _ => true)
        (fun n => 1 + Z.of_nat n)
        (fun _ _ => false)
        (fun _ => false) (fun _ => false)
        (fun _ => true) (fun _ => true) (fun _ => true) (fun _ => true)
        (fun _ c => c)
        (fun _ _ l => l) (fun _ l => l) (fun _ l => l) (fun _ _ l => l).

(** *** Waiting for crashed workers *)

(** The workers [DetermineSleepTime] waits for: crashed, to be restarted,
    and not being terminated. *)
Definition awaits_restart (rw : RegisteredBgWorker) : bool :=
  negb (rw_crashed_at rw =? 0)
  && negb (bgw_restart_time (rw_worker rw) =? BGW_NEVER_RESTART)
  && negb (rw_terminate rw).

(** When such a worker is due. *)
Definition restart_due (env : Env) (rw : RegisteredBgWorker) : Z :=
  TimestampTzPlusMilliseconds env (rw_crashed_at rw)
    (1000 * bgw_restart_time (rw_worker rw)).

(** *** A worker with a long restart interval *)

(** A worker that crashed at second 5 and is to be restarted 2147484
    seconds later. *)
Definition overflow_worker : RegisteredBgWorker :=
  mkRegisteredBgWorker
    (mkBackgroundWorker BgWorkerStart_PostmasterStart 2147484 0)
    None 0 0 5000000 false.

(** The postmaster in Run at second 6 with that worker registered. *)
Definition overflow_state : PM :=
  put_pmState PM_RUN
    (put_flag (fun f => match f with
                        | connsAllowed | HaveCrashedWorker => true
                        | _ => false
                        end)
       (put_BackgroundWorkerList [overflow_worker]
          (put_clk 6 (PM_initial default_config [])))).

(** [e] with the clock [GetCurrentTimestamp] replaced. *)
Definition with_clock (f : nat -> Z) (e : Env) : Env :=
  mkEnv (WIFEXITED e) (WEXITSTATUS e) (HAVE_SETSID e)
        (TimestampDifferenceExceeds e) (TimestampDifferenceMilliseconds e)
        (TimestampTzPlusMilliseconds e)
        (postmaster_child_launch e) (SysLogger_Start e) (waitpid e)
        (AcceptConnection e) (palloc_extended e) (pg_strong_random e)
        (time e) f
        (IsPostmasterChildWalSender e) (ReleasePostmasterChildSlot e)
        (AssignPostmasterChildSlot e) (CheckPostmasterSignal e)
        (CheckLogrotateSignal e) (CheckPromoteSignal e) (PgArchCanRestart e)
        (SlotSyncWorkerCanRestart e) (ValidateSlotSyncParams e)
        (RecheckDataDirLockFile e) (ProcessConfigFile e)
        (BackgroundWorkerStateChange e) (ForgetUnstartedBackgroundWorkers e)
        (ResetBackgroundWorkerCrashTimes e) (ReportBackgroundWorkerExit e).

(** A worker like [overflow_worker], its interval one second shorter. *)
Definition patient_worker : RegisteredBgWorker :=
  mkRegisteredBgWorker
    (mkBackgroundWorker BgWorkerStart_PostmasterStart 2147483 0)
    None 0 0 5000000 false.

(** The branch of [reap_child] for each special child. *)
Definition reap_special (env : Env) (c : SpecialChild) : Z -> Z -> M unit :=
  match c with
  | StartupPID => reap_startup env
  | BgWriterPID => reap_crash_unless_0 env BgWriterPID
  | CheckpointerPID => reap_checkpointer env
  | WalWriterPID => reap_crash_unless_0 env WalWriterPID
  | WalReceiverPID => reap_crash_unless_0_or_1 env WalReceiverPID
  | WalSummarizerPID => reap_crash_unless_0 env WalSummarizerPID
  | AutoVacPID => reap_crash_unless_0 env AutoVacPID
  | PgArchPID => reap_archiver env
  | SysLoggerPID => reap_syslogger env
  | SlotSyncWorkerPID => reap_crash_unless_0_or_1 env SlotSyncWorkerPID
  end.

(** * Vocabulary of the further properties *)

(** [m] leaves the postmaster only in the ways [X] allows. *)
Definition exits_only {A} (X : Z -> PM -> Prop) (m : M A) : Prop :=
  forall s, match m s with Ret _ _ => True | Exit st s' => X st s' end.

(** [ExitPostmaster(1)]. *)
Definition failure : Z -> PM -> Prop := fun st _ => st = 1.

(** An exit of the postmaster with status 1, or with status 0 after a
    shutdown request, without FatalError, once no child is left. *)
Definition clean_exit (st : Z) (s : PM) : Prop :=
  st = 1
  \/ (st = 0 /\ 0 < Shutdown s /\ flag s FatalError = false
      /\ pmState s = PM_NO_CHILDREN /\ BackendList s = []
      /\ forall c, c <> SysLoggerPID -> pidv s c = 0).

(** *** Signalling and counting the backends *)

(** The entry as the loops of [SignalSomeChildren] and [CountChildren]
    leave it: a live normal backend whose slot is marked as a WAL sender
    is relabelled, unless the target is every type. *)
Definition relabel_for (ws : Z -> bool) (target : Z) (bp : Backend) : Backend :=
  if negb (dead_end bp) && negb (target =? BACKEND_TYPE_ALL)
  then relabel_walsender ws bp else bp.

(** The entries those loops select: the live ones whose type, once
    relabelled, is among [target]. *)
Definition targeted (ws : Z -> bool) (target : Z) (bp : Backend) : bool :=
  negb (dead_end bp)
  && ((target =? BACKEND_TYPE_ALL)
      || negb (Z.land target (bkend_type (relabel_walsender ws bp)) =? 0)).

Definition is_live (bp : Backend) : bool := negb (dead_end bp).

Definition nonzero (p : Z) : bool := negb (p =? 0).

(** The children [TerminateChildren] signals, in the order it does. *)
Definition terminate_targets (s : PM) : list Z :=
  map pid (filter is_live (BackendList s))
  ++ filter nonzero (map (pidv s) shmem_specials).

(** The children [process_pm_reload_request] signals, in the order it
    does. *)
Definition reload_targets (s : PM) : list Z :=
  map pid (filter is_live (BackendList s))
  ++ filter nonzero
       (map (pidv s)
          [StartupPID; BgWriterPID; CheckpointerPID; WalWriterPID; WalReceiverPID;
           WalSummarizerPID; AutoVacPID; PgArchPID; SysLoggerPID; SlotSyncWorkerPID]).

Definition is_quit_like (sg : Signal) : bool :=
  match sg with SIGQUIT | SIGKILL | SIGABRT => true | _ => false end.

(** *** Launching background workers *)

(** An entry of the registry as [do_start_bgworker] makes it. *)
Definition is_worker_entry (bn : Backend) : bool :=
  (bkend_type bn =? BACKEND_TYPE_BGWORKER) && negb (dead_end bn)
  && negb (bgworker_notify bn).

(** [s'] has the entries [launched] on top of the registry of [s]. *)
Definition launched_on (launched : list Backend) (s s' : PM) : Prop :=
  BackendList s' = launched ++ BackendList s
  /\ forallb is_worker_entry launched = true
  /\ pmState s' = pmState s
  /\ flag s' FatalError = flag s FatalError.

(** One pass of [maybe_start_bgworkers] that had launched [num] workers
    before: it launches further workers up to MAX_BGWORKERS_TO_LAUNCH
    in all, none from StopBackends on, and asks for another pass when it
    stops at the limit. *)
Definition launch_pass (num : Z) (s s' : PM) : Prop :=
  exists launched,
    launched_on launched s s'
    /\ num + Z.of_nat (length launched) <= MAX_BGWORKERS_TO_LAUNCH
    /\ (PMState_rank PM_STOP_BACKENDS <= PMState_rank (pmState s) -> launched = [])
    /\ (0 < Z.of_nat (length launched) ->
        num + Z.of_nat (length launched) = MAX_BGWORKERS_TO_LAUNCH ->
        flag s' StartWorkerNeeded = true).

(** *** Marking a backend for worker notifications *)

Definition set_bgworker_notify (b : bool) (bp : Backend) : Backend :=
  mkBackend (pid bp) (cancel_key bp) (child_slot bp) (bkend_type bp) (dead_end bp)
            b (addr bp).

(** The loop of [PostmasterMarkPIDForWorkerNotify]: the list as it leaves
    it, and what it returns. *)
Fixpoint PostmasterMarkPIDForWorkerNotify_loop (p : Z) (l : list Backend)
    : list Backend * bool :=
  match l with
  | [] => ([], false)
  | bp :: rest =>
      if pid bp =? p then (set_bgworker_notify true bp :: rest, true)
      else
        let r := PostmasterMarkPIDForWorkerNotify_loop p rest in
        (bp :: fst r, snd r)
  end.

Definition PostmasterMarkPIDForWorkerNotify (p : Z) : M bool :=
  l <- gets BackendList ;;
  let r := PostmasterMarkPIDForWorkerNotify_loop p l in
  modify (put_BackendList (fst r)) ;;
  ret (snd r).

Definition has_pid (p : Z) (bp : Backend) : bool := pid bp =? p.

(** * ipci.c: the size of the shared memory segment *)

Module Ipci.

(** [Size] is [size_t], eight bytes. *)
Definition SIZE_MAX : Z := 18446744073709551615.

(** How a call ends: with a value, or in [ereport(ERROR)] or
    [elog(FATAL)]. *)
Inductive elevel := ERROR | FATAL.

Inductive outcome (A : Type) :=
| Done (a : A)
| Raised (lvl : elevel).
Arguments Done {A} a.
Arguments Raised {A} lvl.

Definition obind {A B} (m : outcome A) (k : A -> outcome B) : outcome B :=
  match m with
  | Done a => k a
  | Raised lvl => Raised lvl
  end.

(** What the subsystems answer when asked for their needs, by the name of
    the function asked. *)
Record Estimates := mkEstimates {
  ProcGlobalSemas : Z;
  SpinlockSemas : Z;
  PGSemaphoreShmemSize : Z -> Z;
  SpinlockSemaSize : Z;
  hash_estimate_size_ShmemIndex : Z;
  dsm_estimate_size : Z;
  DSMRegistryShmemSize : Z;
  BufferShmemSize : Z;
  LockShmemSize : Z;
  PredicateLockShmemSize : Z;
  ProcGlobalShmemSize : Z;
  XLogPrefetchShmemSize : Z;
  VarsupShmemSize : Z;
  XLOGShmemSize : Z;
  XLogRecoveryShmemSize : Z;
  CLOGShmemSize : Z;
  CommitTsShmemSize : Z;
  SUBTRANSShmemSize : Z;
  TwoPhaseShmemSize : Z;
  BackgroundWorkerShmemSize : Z;
  MultiXactShmemSize : Z;
  LWLockShmemSize : Z;
  ProcArrayShmemSize : Z;
  BackendStatusShmemSize : Z;
  SInvalShmemSize : Z;
  PMSignalShmemSize : Z;
  ProcSignalShmemSize : Z;
  CheckpointerShmemSize : Z;
  AutoVacuumShmemSize : Z;
  ReplicationSlotsShmemSize : Z;
  ReplicationOriginShmemSize : Z;
  WalSndShmemSize : Z;
  WalRcvShmemSize : Z;
  WalSummarizerShmemSize : Z;
  PgArchShmemSize : Z;
  ApplyLauncherShmemSize : Z;
  BTreeShmemSize : Z;
  SyncScanShmemSize : Z;
  AsyncShmemSize : Z;
  StatsShmemSize : Z;
  WaitEventCustomShmemSize : Z;
  InjectionPointShmemSize : Z;
  SlotSyncShmemSize : Z;
  GetHugePageSize : Z
}.

Section WithAddSize.

(** [add_size] of shmem.c: the sum, or [ereport(ERROR)]. *)
Variable add_size : Z -> Z -> outcome Z.

(** [total_addin_request] is passed in and handed back;
    [in_progress] is [process_shmem_requests_in_progress]. *)
Definition RequestAddinShmemSpace (in_progress : bool) (total_addin_request size : Z)
    : outcome Z :=
  if negb in_progress then Raised FATAL
  else add_size total_addin_request size.

(** The sizes added to the initial 100000 bytes, in the order of the
    calls (the build without EXEC_BACKEND). *)
Definition requested_sizes (e : Estimates) (numSemas total_addin_request : Z)
    : list Z :=
  [PGSemaphoreShmemSize e numSemas; SpinlockSemaSize e;
   hash_estimate_size_ShmemIndex e; dsm_estimate_size e; DSMRegistryShmemSize e;
   BufferShmemSize e; LockShmemSize e; PredicateLockShmemSize e;
   ProcGlobalShmemSize e; XLogPrefetchShmemSize e; VarsupShmemSize e;
   XLOGShmemSize e; XLogRecoveryShmemSize e; CLOGShmemSize e; CommitTsShmemSize e;
   SUBTRANSShmemSize e; TwoPhaseShmemSize e; BackgroundWorkerShmemSize e;
   MultiXactShmemSize e; LWLockShmemSize e; ProcArrayShmemSize e;
   BackendStatusShmemSize e; SInvalShmemSize e; PMSignalShmemSize e;
   ProcSignalShmemSize e; CheckpointerShmemSize e; AutoVacuumShmemSize e;
   ReplicationSlotsShmemSize e; ReplicationOriginShmemSize e; WalSndShmemSize e;
   WalRcvShmemSize e; WalSummarizerShmemSize e; PgArchShmemSize e;
   ApplyLauncherShmemSize e; BTreeShmemSize e; SyncScanShmemSize e;
   AsyncShmemSize e; StatsShmemSize e; WaitEventCustomShmemSize e;
   InjectionPointShmemSize e; SlotSyncShmemSize e;
   total_addin_request].

(** [size = add_size(size, x);] for each [x] of the list in turn. *)
Fixpoint add_sizes (size : Z) (l : list Z) : outcome Z :=
  match l with
  | [] => Done size
  | x :: rest => obind (add_size size x) (fun size' => add_sizes size' rest)
  end.

(** Returns the size and the number of semaphores (which the caller may
    not have asked for). *)
Definition CalculateShmemSize (e : Estimates) (total_addin_request : Z)
    : outcome (Z * Z) :=
  let numSemas := int_add (ProcGlobalSemas e) (SpinlockSemas e) in
  obind (add_sizes 100000 (requested_sizes e numSemas total_addin_request))
    (fun size =>
       obind (add_size size (8192 - size mod 8192))
         (fun size => Done (size, numSemas))).

(** Returns the values given to shared_memory_size and, if it is set, to
    shared_memory_size_in_huge_pages. *)
Definition InitializeShmemGUCs (e : Estimates) (total_addin_request : Z)
    : outcome (Z * option Z) :=
  obind (CalculateShmemSize e total_addin_request)
    (fun r =>
       let size_b := fst r in
       obind (add_size size_b (1024 * 1024 - 1))
         (fun sum =>
            let size_mb := sum / (1024 * 1024) in
            let hp_size := GetHugePageSize e in
            if negb (hp_size =? 0) then
              obind (add_size (size_b / hp_size) 1)
                (fun hp_required => Done (size_mb, Some hp_required))
            else Done (size_mb, None))).

End WithAddSize.

(** [add_size] as shmem.c has it, on eight-byte sizes. *)
Definition shmem_add_size (s1 s2 : Z) : outcome Z :=
  let result := (s1 + s2) mod (SIZE_MAX + 1) in
  if (result <? s1) || (result <? s2) then Raised ERROR else Done result.

(** Every size an [Estimates] holds is a [Size]. *)
Definition sizes_in_range (e : Estimates) (numSemas total_addin_request : Z) : Prop :=
  Forall (fun x => 0 <= x <= SIZE_MAX) (requested_sizes e numSemas total_addin_request).

(** The bytes asked for, before rounding. *)
Definition raw_size (e : Estimates) (numSemas total_addin_request : Z) : Z :=
  100000 + fold_right Z.add 0 (requested_sizes e numSemas total_addin_request).

(** An [add_size] that adds, and raises an error where the sum does not
    fit. *)
Definition adds_checked (add_size : Z -> Z -> outcome Z) : Prop :=
  forall a b, 0 <= a <= SIZE_MAX -> 0 <= b <= SIZE_MAX ->
    add_size a b = if a + b <=? SIZE_MAX then Done (a + b) else Raised ERROR.

(** An installation for running the model: every subsystem asks for
    [n] bytes. *)
Definition uniform_estimates (n hp : Z) : Estimates :=
  mkEstimates 100 0 (fun k => k * 8) n n n n n n n n n n n n n n n n n n n n n n n
              n n n n n n n n n n n n n n n n n hp.

End Ipci.

(** * main.c: the entry point of every server process *)

Module Main.

Import String.
Local Open Scope string_scope.

Inductive LocaleCategory :=
| LC_COLLATE | LC_CTYPE | LC_MESSAGES | LC_MONETARY | LC_NUMERIC | LC_TIME.

(** What [main] asks of its surroundings.  [pg_perm_setlocale] tells
    whether the result is not NULL; [get_user_name_or_exit] holds the name,
    or nothing where the call exits with status 1. *)
Record Platform := mkPlatform {
  pg_perm_setlocale : LocaleCategory -> string -> bool;
  geteuid : Z;
  getuid : Z;
  get_user_name_or_exit : option string
}.

(** What was written before an [exit]. *)
Inductive Message :=
| help_text
| PG_BACKEND_VERSIONSTR
| root_execution_not_permitted
| real_and_effective_user_IDs_must_match
| user_name_lookup_failure.

(** The subprogram [main] hands over to, with its arguments. *)
Inductive Subprogram :=
| BootstrapModeMain (argv : list string) (check_only : bool)
| GucInfoMain
| PostgresSingleUserMain (argv : list string) (username : string)
| PostmasterMain (argv : list string).

(** How [main] ends: in [exit(status)], in the [elog(FATAL)] of
    [init_locale], or in a subprogram, which does not return. *)
Inductive Outcome :=
| Exited (status : Z) (said : Message)
| Fatal (category : LocaleCategory) (locale : string)
| Run (sub : Subprogram).

(** Whether [init_locale] returns. *)
Definition init_locale (p : Platform) (category : LocaleCategory) (locale : string)
    : bool :=
  negb (negb (pg_perm_setlocale p category locale)
        && negb (pg_perm_setlocale p category "C")).

(** [check_root]: the message it exits with, status 1, if it does. *)
Definition check_root (p : Platform) : option Message :=
  if (geteuid p =? 0)%Z then Some root_execution_not_permitted
  else if negb (getuid p =? geteuid p)%Z
  then Some real_and_effective_user_IDs_must_match
  else None.

(** The locale settings [main] makes, in order. *)
Definition locale_settings : list (LocaleCategory * string) :=
  [(LC_COLLATE, EmptyString); (LC_CTYPE, EmptyString);
   (LC_MESSAGES, EmptyString);
   (LC_MONETARY, "C"); (LC_NUMERIC, "C"); (LC_TIME, "C")].

Fixpoint init_locales (p : Platform) (l : list (LocaleCategory * string))
    : option (LocaleCategory * string) :=
  match l with
  | [] => None
  | (category, locale) :: rest =>
      if init_locale p category locale then init_locales p rest
      else Some (category, locale)
  end.

(** [argv[1]], read only where [argc > 1]. *)
Definition argv1 (argv : list string) : string := nth 1 argv EmptyString.

Definition dispatch (p : Platform) (argv : list string) : Outcome :=
  let argc := Z.of_nat (List.length argv) in
  if (argc >? 1) && (argv1 argv =? "--check") then Run (BootstrapModeMain argv true)
  else if (argc >? 1) && (argv1 argv =? "--boot") then Run (BootstrapModeMain argv false)
  else if (argc >? 1) && (argv1 argv =? "--describe-config") then Run GucInfoMain
  else if (argc >? 1) && (argv1 argv =? "--single") then
    match get_user_name_or_exit p with
    | Some name => Run (PostgresSingleUserMain argv name)
    | None => Exited 1 user_name_lookup_failure
    end
  else Run (PostmasterMain argv).

Definition main (p : Platform) (argv : list string) : Outcome :=
  let argc := Z.of_nat (List.length argv) in
  match init_locales p locale_settings with
  | Some (category, locale) => Fatal category locale
  | None =>
      if (argc >? 1) && ((argv1 argv =? "--help") || (argv1 argv =? "-?"))
      then Exited 0 help_text
      else if (argc >? 1) && ((argv1 argv =? "--version") || (argv1 argv =? "-V"))
      then Exited 0 PG_BACKEND_VERSIONSTR
      else
        let do_check_root :=
          if argc >? 1 then
            if argv1 argv =? "--describe-config" then false
            else if (argc >? 2) && (argv1 argv =? "-C") then false
            else true
          else true in
        match (if do_check_root then check_root p else None) with
        | Some said => Exited 1 said
        | None => dispatch p argv
        end
  end.

(** The process runs as an unprivileged user: not as root, and not
    setuid. *)
Definition unprivileged (p : Platform) : Prop :=
  geteuid p <> 0 /\ getuid p = geteuid p.

(** A platform for running the model: every locale can be set. *)
Definition plain_platform (euid uid : Z) : Platform :=
  mkPlatform (fun _ _ => true) euid uid (Some "postgres").

End Main.

(** * The housekeeping of the server loop *)

(** An effect that is neither a SIGKILL nor a SIGABRT, nor a change of
    the lifecycle state or of shared memory. *)
Definition gentle (e : Effect) : bool :=
  match e with
  | Kill _ SIGKILL | Kill _ SIGABRT => false
  | Kill _ _ | Log _ => true
  | Transition _ _ | ShmemCreate _ => false
  end.

(** The lifecycle variables and the configuration stay; what is added to
    the trace is in [ok]. *)
Definition drift (ok : Effect -> bool) (s s' : PM) : Prop :=
  pmState s' = pmState s
  /\ Shutdown s' = Shutdown s
  /\ flag s' FatalError = flag s FatalError
  /\ cfg s' = cfg s
  /\ exists new, trace s' = new ++ trace s /\ forallb ok new = true.

Definition calm (s s' : PM) : Prop :=
  drift gentle s s' /\ AbortStartTime s' = AbortStartTime s.

(** What one pass through the housekeeping part of [ServerLoop] does to
    the lifecycle variables: nothing, but that it may, when the deadline
    set by a crash or an immediate shutdown has passed, send the children
    the kill signal and clear the deadline. *)
Definition housekeeping_post (env : Env) (s s' : PM) : Prop :=
  (calm s s'
   \/ (drift (fun _ => true) s s'
       /\ (ImmediateShutdown <= Shutdown s \/ flag s FatalError = true)
       /\ AbortStartTime s <> 0
       /\ (exists k, SIGKILL_CHILDREN_AFTER_SECS <= time env k - AbortStartTime s)
       /\ AbortStartTime s' = 0)).

(** As [calm], whatever is added to the trace. *)
Definition steady (s s' : PM) : Prop :=
  drift (fun _ => true) s s' /\ AbortStartTime s' = AbortStartTime s.

(** * InitProcessGlobals *)

(** The conversion to [uint64]. *)
Definition uint64 (x : Z) : Z := x mod 18446744073709551616.

(** The seed used where no strong random bits are to be had. *)
Definition fallback_seed (MyProcPid MyStartTimestamp : Z) : Z :=
  Z.lxor
    (Z.lxor (uint64 MyProcPid) (uint64 (Z.shiftl (uint64 MyStartTimestamp) 12)))
    (Z.shiftr (uint64 MyStartTimestamp) 20).

(** What [InitProcessGlobals] sets: MyStartTimestamp, MyStartTime, and
    the seed handed to [pg_prng_seed], if [pg_prng_strong_seed] failed.
    [now] is what [GetCurrentTimestamp] returns, [strong] what
    [pg_prng_strong_seed] returns. *)
Definition InitProcessGlobals (timestamptz_to_time_t : Z -> Z)
    (now : Z) (strong : bool) (MyProcPid : Z) : Z * Z * option Z :=
  let MyStartTimestamp := now in
  let MyStartTime := timestamptz_to_time_t MyStartTimestamp in
  (MyStartTimestamp, MyStartTime,
   if negb strong then Some (fallback_seed MyProcPid MyStartTimestamp) else None).

(** * The end of the startup process *)

(** What the launches made once the startup process is done leave as it
    is. *)
Definition opening (s s' : PM) : Prop :=
  pmState s' = pmState s
  /\ Shutdown s' = Shutdown s
  /\ AbortStartTime s' = AbortStartTime s
  /\ StartupStatus s' = StartupStatus s
  /\ flag s' FatalError = flag s FatalError
  /\ flag s' connsAllowed = flag s connsAllowed
  /\ flag s' ReachedNormalRunning = flag s ReachedNormalRunning
  /\ pidv s' StartupPID = pidv s StartupPID
  /\ transitions (trace s') = transitions (trace s).

(** * The registry after the crash cascade *)

(** [HandleChildCrash(p)] on one registered worker: the running worker
    with pid [p] loses its child. *)
Definition crash_worker (p : Z) (rw : RegisteredBgWorker) : RegisteredBgWorker :=
  if negb (rw_pid rw =? 0) && (rw_pid rw =? p) then rw_clear_child rw else rw.

(** And its [Backend] is unlinked from the registry. *)
Definition crash_unlink (p : Z) (bl : list Backend) (rw : RegisteredBgWorker)
    : list Backend :=
  if negb (rw_pid rw =? 0) && (rw_pid rw =? p)
  then dlist_delete (rw_backend rw) bl else bl.

(** The registry [HandleChildCrash(p)] leaves: the backends of the
    workers with pid [p] unlinked, then every entry with pid [p] dropped. *)
Definition crash_registry (p : Z) (s : PM) : list Backend :=
  filter (fun bp => negb (pid bp =? p))
         (fold_left (crash_unlink p) (BackgroundWorkerList s) (BackendList s)).

(** The two lists are as they were. *)
Definition same_lists (s s' : PM) : Prop :=
  BackendList s' = BackendList s
  /\ BackgroundWorkerList s' = BackgroundWorkerList s.

(** * The walk through the lifecycle states *)

(** Entering NoChildren: the last child but the syslogger is gone. *)
Definition is_entry (e : Effect) : bool :=
  match e with Transition PM_WAIT_DEAD_END PM_NO_CHILDREN => true | _ => false end.

(** The transitions recorded in [tr] (newest first) follow one another,
    from [init] to [st]. *)
Fixpoint chained (init st : PMState) (tr : list Effect) : Prop :=
  match tr with
  | [] => st = init
  | Transition o n :: r => n = st /\ chained init o r
  | _ :: r => chained init st r
  end.

(** The trace of [s] leads from [PM_INIT] to the state [s] is in. *)
Definition on_track (s : PM) : Prop := chained PM_INIT (pmState s) (trace s).

Definition stays_on_track {A} (m : M A) : Prop :=
  forall s, on_track s -> on_track (final (m s)).


(** * Properties *)

(** ** Rules of the weakest-precondition calculus *)

Lemma wp_bind {A B} (m : M A) (k : A -> M B) Q X s :
  wp m (fun a s' => wp (k a) Q X s') X s -> wp (bind m k) Q X s.
Proof. unfold wp, bind. destruct (m s); auto. Qed.

Lemma wp_mono {A} (m : M A) (Q Q' : A -> PM -> Prop) (X X' : Z -> PM -> Prop) s :
  wp m Q X s ->
  (forall a s', Q a s' -> Q' a s') ->
  (forall z s', X z s' -> X' z s') ->
  wp m Q' X' s.
Proof. unfold wp. destruct (m s); auto. Qed.

Lemma wp_keeps {A B} (R : PM -> PM -> Prop) (m : M A) (k : A -> M B) Q X s :
  keeps R m ->
  (forall a s', R s s' -> wp (k a) Q X s') ->
  wp (bind m k) Q X s.
Proof.
  intros Hm Hk. apply wp_bind. eapply wp_mono.
  - apply Hm.
  - intros a s' HR. apply Hk, HR.
  - intros z s' [].
Qed.

Lemma wp_keeps_last {A} (R : PM -> PM -> Prop) (m : M A) (Q : A -> PM -> Prop) X s :
  keeps R m -> (forall a s', R s s' -> Q a s') -> wp m Q X s.
Proof.
  intros Hm HQ. eapply wp_mono; [apply Hm | | intros z s' []].
  intros a s' HR. apply HQ, HR.
Qed.

Lemma wp_when (b : bool) (m : M unit) Q X s :
  (b = true -> wp m Q X s) -> (b = false -> Q tt s) -> wp (when b m) Q X s.
Proof. destruct b; cbn; auto. Qed.

(** ** Combinators for computations that keep a relation *)

Section Keeps.

Variable R : PM -> PM -> Prop.
Hypothesis R_refl : forall s, R s s.
Hypothesis R_trans : forall a b c, R a b -> R b c -> R a c.

Lemma keeps_ret {A} (a : A) : keeps R (ret a).
Proof. intros s. apply R_refl. Qed.

Lemma keeps_gets {A} (f : PM -> A) : keeps R (gets f).
Proof. intros s. apply R_refl. Qed.

Lemma keeps_bind {A B} (m : M A) (k : A -> M B) :
  keeps R m -> (forall a, keeps R (k a)) -> keeps R (bind m k).
Proof.
  intros Hm Hk s. apply wp_keeps with (R := R); [exact Hm |].
  intros a s' H1. eapply wp_mono; [apply Hk | | intros z s2 []].
  intros b s2 H2. cbn in *. eapply R_trans; eauto.
Qed.

Lemma keeps_when (b : bool) (m : M unit) : keeps R m -> keeps R (when b m).
Proof. destruct b; cbn; [auto | intros _; apply keeps_ret]. Qed.

End Keeps.

Lemma keeps_modify (R : PM -> PM -> Prop) (f : PM -> PM) :
  (forall s, R s (f s)) -> keeps R (modify f).
Proof. intros H s. apply H. Qed.

Lemma keeps_weaken {A} (R R' : PM -> PM -> Prop) (m : M A) :
  (forall s s', R s s' -> R' s s') -> keeps R m -> keeps R' m.
Proof.
  intros HR Hm s. eapply wp_mono; [apply Hm | | intros z s' []].
  intros a s'. apply HR.
Qed.

(** ** The frame relations *)

Lemma frame_refl R : (forall c a, R c a a) -> forall s, frame R s s.
Proof. intros HR s. unfold frame. repeat split; auto. Qed.

Lemma frame_trans R :
  (forall c a b d, R c a b -> R c b d -> R c a d) ->
  forall a b c, frame R a b -> frame R b c -> frame R a c.
Proof.
  intros HR a b c (A1 & A2 & A3 & A4 & A5 & A6) (B1 & B2 & B3 & B4 & B5 & B6).
  unfold frame. repeat split; try congruence.
  intros k. eapply HR; eauto.
Qed.

Lemma frame_weaken (R R' : SpecialChild -> Z -> Z -> Prop) :
  (forall c a b, R c a b -> R' c a b) ->
  forall s s', frame R s s' -> frame R' s s'.
Proof.
  intros HR s s' (A1 & A2 & A3 & A4 & A5 & A6).
  unfold frame. repeat split; auto.
Qed.

Lemma quiet_refl s : quiet s s.
Proof. apply frame_refl. auto. Qed.

Lemma quiet_trans a b c : quiet a b -> quiet b c -> quiet a c.
Proof. apply frame_trans. intros; congruence. Qed.

Lemma zeroing_refl s : zeroing s s.
Proof. apply frame_refl. auto. Qed.

Lemma zeroing_trans a b c : zeroing a b -> zeroing b c -> zeroing a c.
Proof.
  apply frame_trans. intros k x y z [-> | ->] [-> | ->]; auto.
Qed.

Lemma quiet_but_refl k s : quiet_but k s s.
Proof. apply frame_refl. auto. Qed.

Lemma quiet_but_trans k a b c :
  quiet_but k a b -> quiet_but k b c -> quiet_but k a c.
Proof.
  apply frame_trans. intros k' x y z [-> | ->] [H | ->]; auto.
Qed.

Lemma quiet_zeroing s s' : quiet s s' -> zeroing s s'.
Proof. apply frame_weaken. auto. Qed.

Lemma quiet_quiet_but k s s' : quiet s s' -> quiet_but k s s'.
Proof. apply frame_weaken. auto. Qed.

Create HintDb pm.
#[local] Hint Resolve quiet_refl quiet_trans zeroing_refl zeroing_trans
  quiet_but_refl quiet_but_trans : pm.

(** A state change that leaves the variables of the invariant alone. *)
Ltac frame_solve :=
  unfold quiet, zeroing, quiet_but, frame; cbn; repeat split; auto.

Ltac keeps_step :=
  lazymatch goal with
  | |- keeps _ (bind _ _) =>
      apply keeps_bind; [eauto with pm | | intro]
  | |- keeps _ (ret _) => apply keeps_ret; eauto with pm
  | |- keeps _ (gets _) => apply keeps_gets; eauto with pm
  | |- keeps _ (when _ _) => apply keeps_when; [eauto with pm |]
  | |- keeps _ (modify _) => apply keeps_modify; intro; frame_solve
  | |- keeps _ (emit _) => apply keeps_modify; intro; frame_solve
  | |- keeps _ (set_flag _ _) => apply keeps_modify; intro; frame_solve
  | |- keeps _ (ask _ _) => let s := fresh in intro s; frame_solve
  | |- keeps _ (alloc) => let s := fresh in intro s; frame_solve
  | |- keeps _ (if ?b then _ else _) => destruct b
  | |- keeps _ (match ?x with _ => _ end) => destruct x
  | |- keeps _ (let _ := _ in _) => cbv zeta
  | |- keeps quiet _ => solve [eauto with pm]
  | |- keeps zeroing _ =>
      solve [eauto with pm
            | apply (keeps_weaken quiet zeroing); [apply quiet_zeroing | eauto with pm]]
  | |- keeps (quiet_but ?k) _ =>
      solve [eauto with pm
            | apply (keeps_weaken quiet (quiet_but k));
              [apply quiet_quiet_but | eauto with pm]]
  end.

Ltac keeps_tac := repeat keeps_step.

Section Quiet.

Variable env : Env.

Lemma signal_child_quiet p sig : keeps quiet (signal_child env p sig).
Proof. unfold signal_child. keeps_tac. Qed.
#[local] Hint Resolve signal_child_quiet : pm.

Lemma sigquit_child_quiet p : keeps quiet (sigquit_child env p).
Proof. unfold sigquit_child. keeps_tac. Qed.
#[local] Hint Resolve sigquit_child_quiet : pm.

Lemma SignalSomeChildren_loop_quiet ws sig target l signaled :
  keeps quiet (SignalSomeChildren_loop env ws sig target l signaled).
Proof.
  revert signaled. induction l as [| bp rest IH]; intros signaled; cbn [SignalSomeChildren_loop].
  - keeps_tac.
  - keeps_tac.
Qed.
#[local] Hint Resolve SignalSomeChildren_loop_quiet : pm.

Lemma SignalSomeChildren_quiet sig target :
  keeps quiet (SignalSomeChildren env sig target).
Proof. unfold SignalSomeChildren. keeps_tac. Qed.
#[local] Hint Resolve SignalSomeChildren_quiet : pm.

End Quiet.

Section Quiet2.

Variable env : Env.

#[local] Hint Resolve signal_child_quiet sigquit_child_quiet
  SignalSomeChildren_loop_quiet SignalSomeChildren_quiet : pm.

Lemma SignalChildren_quiet sig : keeps quiet (SignalChildren env sig).
Proof. unfold SignalChildren. keeps_tac. Qed.
#[local] Hint Resolve SignalChildren_quiet : pm.

Lemma signal_special_quiet c sig : keeps quiet (signal_special env c sig).
Proof. unfold signal_special. keeps_tac. Qed.
#[local] Hint Resolve signal_special_quiet : pm.

Lemma TerminateChildren_quiet sig : keeps quiet (TerminateChildren env sig).
Proof. unfold TerminateChildren. keeps_tac. Qed.
#[local] Hint Resolve TerminateChildren_quiet : pm.

Lemma CountChildren_quiet target : keeps quiet (CountChildren env target).
Proof. unfold CountChildren. keeps_tac. Qed.
#[local] Hint Resolve CountChildren_quiet : pm.

Lemma canAcceptConnections_quiet bt : keeps quiet (canAcceptConnections env bt).
Proof. unfold canAcceptConnections. keeps_tac. Qed.
#[local] Hint Resolve canAcceptConnections_quiet : pm.

Lemma RandomCancelKey_quiet : keeps quiet (RandomCancelKey env).
Proof. unfold RandomCancelKey. keeps_tac. Qed.
#[local] Hint Resolve RandomCancelKey_quiet : pm.

Lemma push_head_quiet bn : keeps quiet (push_head bn).
Proof. unfold push_head. keeps_tac. Qed.
#[local] Hint Resolve push_head_quiet : pm.

Lemma StartChildProcess_quiet type :
  is_B_STARTUP type = false -> keeps quiet (StartChildProcess env type).
Proof. intros H. unfold StartChildProcess. rewrite H. keeps_tac. Qed.

Lemma BackendStartup_quiet : keeps quiet (BackendStartup env).
Proof. unfold BackendStartup. keeps_tac. Qed.

Lemma PgArchStartupAllowed_quiet : keeps quiet (PgArchStartupAllowed env).
Proof. unfold PgArchStartupAllowed. keeps_tac. Qed.

Lemma bgworker_should_start_now_quiet t : keeps quiet (bgworker_should_start_now t).
Proof. unfold bgworker_should_start_now. keeps_tac. Qed.
#[local] Hint Resolve bgworker_should_start_now_quiet : pm.

Lemma assign_backendlist_entry_quiet : keeps quiet (assign_backendlist_entry env).
Proof. unfold assign_backendlist_entry. keeps_tac. Qed.
#[local] Hint Resolve assign_backendlist_entry_quiet : pm.

Lemma do_start_bgworker_quiet rw : keeps quiet (do_start_bgworker env rw).
Proof. unfold do_start_bgworker. keeps_tac. Qed.
#[local] Hint Resolve do_start_bgworker_quiet : pm.

Lemma maybe_start_bgworkers_loop_quiet l num now :
  keeps quiet (maybe_start_bgworkers_loop env l num now).
Proof.
  revert num now. induction l as [| rw rest IH]; intros num now;
    cbn [maybe_start_bgworkers_loop]; keeps_tac.
Qed.
#[local] Hint Resolve maybe_start_bgworkers_loop_quiet : pm.

Lemma maybe_start_bgworkers_quiet : keeps quiet (maybe_start_bgworkers env).
Proof. unfold maybe_start_bgworkers. keeps_tac. Qed.

Lemma StartAutovacuumWorker_quiet : keeps quiet (StartAutovacuumWorker env).
Proof.
  unfold StartAutovacuumWorker.
  assert (H := StartChildProcess_quiet B_AUTOVAC_WORKER eq_refl).
  keeps_tac.
Qed.

Lemma DetermineSleepTime_quiet : keeps quiet (DetermineSleepTime env).
Proof. unfold DetermineSleepTime. keeps_tac. Qed.

Lemma HandleChildCrash_workers_quiet p take l :
  keeps quiet (HandleChildCrash_workers env p take l).
Proof. induction l as [| rw rest IH]; cbn [HandleChildCrash_workers]; keeps_tac. Qed.

Lemma HandleChildCrash_backends_quiet p take l :
  keeps quiet (HandleChildCrash_backends env p take l).
Proof. induction l as [| bp rest IH]; cbn [HandleChildCrash_backends]; keeps_tac. Qed.

Lemma deliver_quiet sig : keeps quiet (deliver sig).
Proof.
  unfold deliver, handle_pm_reload_request_signal, handle_pm_shutdown_request_signal,
    handle_pm_pmsignal_signal, handle_pm_child_exit_signal.
  keeps_tac.
Qed.

Lemma pending_shutdown_mode_quiet : keeps quiet pending_shutdown_mode.
Proof. unfold pending_shutdown_mode. keeps_tac. Qed.

Lemma process_pm_reload_request_quiet : keeps quiet (process_pm_reload_request env).
Proof. unfold process_pm_reload_request. keeps_tac. Qed.

(** *** Launching and forgetting special children *)

Lemma set_pid_quiet_but c p : keeps (quiet_but c) (set_pid c p).
Proof.
  apply keeps_modify. intros s. frame_solve.
  intros c'. destruct c, c'; cbn; auto.
Qed.

Lemma set_pid_zeroing c : keeps zeroing (set_pid c 0).
Proof.
  apply keeps_modify. intros s. frame_solve.
  intros c'. destruct c, c'; cbn; auto.
Qed.
#[local] Hint Resolve set_pid_quiet_but set_pid_zeroing : pm.

Lemma start_special_quiet_but c type :
  is_B_STARTUP type = false -> keeps (quiet_but c) (start_special env c type).
Proof.
  intros H. unfold start_special.
  assert (H' := StartChildProcess_quiet type H).
  keeps_tac.
Qed.

Lemma start_special_if_zero_quiet_but c type :
  is_B_STARTUP type = false -> keeps (quiet_but c) (start_special_if_zero env c type).
Proof.
  intros H. unfold start_special_if_zero.
  assert (H' := start_special_quiet_but c type H).
  keeps_tac.
Qed.

Lemma crash_special_zeroing c p take : keeps zeroing (crash_special env c p take).
Proof. unfold crash_special. keeps_tac. Qed.
#[local] Hint Resolve crash_special_zeroing : pm.

Lemma HandleChildCrash_children_zeroing p take :
  keeps zeroing (HandleChildCrash_children env p take).
Proof.
  unfold HandleChildCrash_children.
  assert (H1 := HandleChildCrash_workers_quiet).
  assert (H2 := HandleChildCrash_backends_quiet).
  keeps_tac.
Qed.

End Quiet2.


(** ** The invariant and the frame relations *)

(** Simplification of projections out of updated states and of the
    decidable vocabulary; the computations themselves stay folded. *)
Ltac pm_cbn :=
  cbn [pmState Shutdown StartupStatus AbortStartTime pidv flag BackendList
       BackgroundWorkerList cfg last_lockfile_recheck_time last_touch_time clk
       next_addr trace
       put_pmState put_Shutdown put_StartupStatus put_AbortStartTime put_pidv
       put_flag put_BackendList put_BackgroundWorkerList put_cfg
       put_last_lockfile_recheck_time put_last_touch_time put_clk put_next_addr
       put_trace
       upd PMFlag_eqb SpecialChild_eqb PMState_eqb PMState_rank StartupStatus_eqb
       Z.eqb Z.ltb Z.leb Z.gtb Z.geb Z.compare Pos.compare Pos.compare_cont
       Pos.eqb negb andb orb fst snd when
       NoShutdown SmartShutdown FastShutdown ImmediateShutdown
       core_trace filter is_core forallb effect_ok code_edge spec_edge listed_edge
       crash_edge extra_edge reinit_balance boot_creates core_delta
       is_boot_create is_reinit_create is_restart boot_context reinit_context
       at_pmState at_FatalError at_Shutdown at_restart_after_crash at_children
       state_inv launch_ok is_B_STARTUP] in *.

Lemma wp_bind_assoc {A B C} (m : M A) (k1 : A -> M B) (k2 : B -> M C) Q X s :
  wp (bind m (fun a => bind (k1 a) k2)) Q X s -> wp (bind (bind m k1) k2) Q X s.
Proof. unfold wp, bind. destruct (m s); auto. Qed.

Lemma wp_bind_ret_r {A} (m : M A) Q X s :
  wp (bind m (fun a => ret a)) Q X s -> wp m Q X s.
Proof. unfold wp, bind, ret. destruct (m s); auto. Qed.

(** The primitives, one rule each. *)
Lemma wp_ret_bind {A B} (a : A) (k : A -> M B) Q X s :
  wp (k a) Q X s -> wp (bind (ret a) k) Q X s.
Proof. exact (fun H => H). Qed.

Lemma wp_gets_bind {A B} (f : PM -> A) (k : A -> M B) Q X s :
  wp (k (f s)) Q X s -> wp (bind (gets f) k) Q X s.
Proof. exact (fun H => H). Qed.

Lemma wp_modify_bind {B} (f : PM -> PM) (k : unit -> M B) Q X s :
  wp (k tt) Q X (f s) -> wp (bind (modify f) k) Q X s.
Proof. exact (fun H => H). Qed.

Lemma wp_emit_bind {B} (e : Effect) (k : unit -> M B) Q X s :
  wp (k tt) Q X (put_trace (e :: trace s) s) -> wp (bind (emit e) k) Q X s.
Proof. exact (fun H => H). Qed.

Lemma wp_set_flag_bind {B} f b (k : unit -> M B) Q X s :
  wp (k tt) Q X (put_flag (upd PMFlag_eqb (flag s) f b) s) ->
  wp (bind (set_flag f b) k) Q X s.
Proof. exact (fun H => H). Qed.

Lemma wp_set_pid_bind {B} c p (k : unit -> M B) Q X s :
  wp (k tt) Q X (put_pidv (upd SpecialChild_eqb (pidv s) c p) s) ->
  wp (bind (set_pid c p) k) Q X s.
Proof. exact (fun H => H). Qed.

Lemma wp_set_pmState_bind {B} v (k : unit -> M B) Q X s :
  wp (k tt) Q X (put_trace (Transition (pmState s) v :: trace s) (put_pmState v s)) ->
  wp (bind (set_pmState v) k) Q X s.
Proof. exact (fun H => H). Qed.

Lemma wp_ask_bind {A B} env (f : Env -> nat -> A) (k : A -> M B) Q X s :
  wp (k (f env (clk s))) Q X (put_clk (S (clk s)) s) ->
  wp (bind (ask env f) k) Q X s.
Proof. exact (fun H => H). Qed.

Lemma wp_alloc_bind {B} (k : nat -> M B) Q X s :
  wp (k (next_addr s)) Q X (put_next_addr (S (next_addr s)) s) ->
  wp (bind alloc k) Q X s.
Proof. exact (fun H => H). Qed.

Lemma wp_exit_bind {A B} st (k : A -> M B) Q (X : Z -> PM -> Prop) s :
  X st s -> wp (bind (ExitPostmaster st) k) Q X s.
Proof. exact (fun H => H). Qed.

Lemma wp_ret_last {A} (a : A) (Q : A -> PM -> Prop) X s : Q a s -> wp (ret a) Q X s.
Proof. exact (fun H => H). Qed.

Lemma wp_exit_last {A} st (Q : A -> PM -> Prop) (X : Z -> PM -> Prop) s :
  X st s -> wp (ExitPostmaster st) Q X s.
Proof. exact (fun H => H). Qed.

(** One step of symbolic execution. *)
Ltac wp_prim :=
  lazymatch goal with
  | |- wp (bind (bind _ _) _) _ _ _ => apply wp_bind_assoc
  | |- wp (bind (ret _) _) _ _ _ => apply wp_ret_bind
  | |- wp (bind (gets _) _) _ _ _ => apply wp_gets_bind
  | |- wp (bind (modify _) _) _ _ _ => apply wp_modify_bind
  | |- wp (bind (emit _) _) _ _ _ => apply wp_emit_bind
  | |- wp (bind (set_flag _ _) _) _ _ _ => apply wp_set_flag_bind
  | |- wp (bind (set_pid _ _) _) _ _ _ => apply wp_set_pid_bind
  | |- wp (bind (set_pmState _) _) _ _ _ => apply wp_set_pmState_bind
  | |- wp (bind (ask _ _) _) _ _ _ => apply wp_ask_bind
  | |- wp (bind alloc _) _ _ _ => apply wp_alloc_bind
  | |- wp (bind (ExitPostmaster _) _) _ _ _ => apply wp_exit_bind
  | |- wp (bind (if ?b then _ else _) _) _ _ _ => destruct b eqn:?
  | |- wp (bind (when ?b _) _) _ _ _ => destruct b eqn:?
  | |- wp (bind (match ?x with _ => _ end) _) _ _ _ => destruct x eqn:?
  | |- wp (ret _) _ _ _ => apply wp_ret_last
  | |- wp (ExitPostmaster _) _ _ _ => apply wp_exit_last
  | |- wp (if ?b then _ else _) _ _ _ => destruct b eqn:?
  | |- wp (when ?b _) _ _ _ => destruct b eqn:?
  | |- wp (match ?x with _ => _ end) _ _ _ => destruct x eqn:?
  | |- wp (gets _) _ _ _ => apply wp_bind_ret_r
  | |- wp (modify _) _ _ _ => apply wp_bind_ret_r
  | |- wp (emit _) _ _ _ => apply wp_bind_ret_r
  | |- wp (set_flag _ _) _ _ _ => apply wp_bind_ret_r
  | |- wp (set_pid _ _) _ _ _ => apply wp_bind_ret_r
  | |- wp (set_pmState _) _ _ _ => apply wp_bind_ret_r
  | |- wp (ask _ _) _ _ _ => apply wp_bind_ret_r
  | |- wp alloc _ _ _ => apply wp_bind_ret_r
  end; cbv beta zeta; pm_cbn.

(** Facts learnt by case analysis are pushed into what the next steps read. *)
Ltac use_known :=
  repeat match goal with
  | H : pmState ?s = _ |- context [pmState ?s] => rewrite H
  | H : ?b = true |- context [?b] =>
      lazymatch b with true => fail | false => fail | _ => rewrite H end
  | H : ?b = false |- context [?b] =>
      lazymatch b with true => fail | false => fail | _ => rewrite H end
  end.

Ltac wp_run := repeat (wp_prim; use_known; pm_cbn).

Ltac bool_norm H :=
  repeat (progress
    (rewrite ?andb_true_iff, ?orb_true_iff, ?andb_false_iff, ?orb_false_iff,
       ?negb_true_iff, ?negb_false_iff, ?Z.gtb_ltb, ?Z.geb_leb,
       ?Z.eqb_eq, ?Z.eqb_neq, ?Z.ltb_lt, ?Z.ltb_ge, ?Z.leb_le, ?Z.leb_gt in H)).

Ltac bool_prop :=
  repeat match goal with
  | H : ?b = _ |- _ =>
      lazymatch b with
      | andb _ _ => idtac | orb _ _ => idtac | negb _ => idtac
      | Z.eqb _ _ => idtac | Z.ltb _ _ => idtac | Z.leb _ _ => idtac
      | Z.gtb _ _ => idtac | Z.geb _ _ => idtac
      end;
      progress bool_norm H
  | H : _ /\ _ |- _ => destruct H
  end.

Ltac pm_unfold :=
  unfold Inv, ExitInv, settled, trace_inv, late_pids_zero, core_trace, core_delta,
    NoShutdown, SmartShutdown, FastShutdown, ImmediateShutdown in *.

Ltac known_in_hyps :=
  repeat match goal with
  | H : pmState ?s = _, H' : context [pmState ?s] |- _ => rewrite H in H'
  end.

Ltac inv_show :=
  repeat (progress (pm_unfold; pm_cbn; use_known; known_in_hyps)); bool_prop;
  repeat match goal with
         | H : _ /\ _ |- _ => destruct H
         | |- _ /\ _ => split
         end;
  try solve [ tauto | lia | discriminate | congruence | assumption
            | intros; lia | intros; congruence | intros; discriminate
            | intuition (auto; try lia; try congruence; try discriminate) ].

Ltac inv_solve := solve [inv_show].

Lemma state_inv_zero w st sh fatal conns (pv pv' : SpecialChild -> Z) :
  (forall c, pv c = 0 -> pv' c = 0) ->
  state_inv w st sh fatal conns pv -> state_inv w st sh fatal conns pv'.
Proof.
  intros H. unfold state_inv, late_pids_zero.
  destruct st; intuition auto.
Qed.

Lemma state_inv_weaken w st sh fatal conns pv :
  state_inv w st sh fatal conns pv -> state_inv false st sh fatal conns pv.
Proof.
  unfold state_inv, late_pids_zero.
  destruct st; intuition discriminate.
Qed.

Lemma Inv_zeroing w n s s' : zeroing s s' -> Inv w n s -> Inv w n s'.
Proof.
  intros (A1 & A2 & A3 & A4 & A5 & A6) (I1 & I2 & I3).
  unfold Inv, trace_inv in *. rewrite A1, A2, A3, A4, A5.
  split; [| split; auto].
  eapply state_inv_zero; [| exact I1].
  intros c Hc. destruct (A6 c); congruence.
Qed.

Lemma Inv_quiet w n s s' : quiet s s' -> Inv w n s -> Inv w n s'.
Proof. intros H. apply Inv_zeroing, quiet_zeroing, H. Qed.

Lemma settled_frame R s s' : frame R s s' -> settled s -> settled s'.
Proof. intros (A1 & _) H. unfold settled in *. rewrite A1. exact H. Qed.

Lemma Inv_weaken w n s : Inv w n s -> Inv false n s.
Proof.
  intros (I1 & I2 & I3). split; [| split; auto].
  eapply state_inv_weaken; eauto.
Qed.

Lemma Inv_lower w n m s : m <= n -> Inv w n s -> Inv w m s.
Proof. intros H (I1 & I2 & I3 & I4). split; [| split; [| split]]; auto. lia. Qed.

Lemma state_inv_launch c w st sh fatal conns (pv pv' : SpecialChild -> Z) :
  (forall c', c' = c \/ pv' c' = pv c') ->
  launch_ok c st = true ->
  state_inv w st sh fatal conns pv -> state_inv w st sh fatal conns pv'.
Proof.
  intros H L.
  assert (K : forall c', SpecialChild_eqb c' c = false -> pv' c' = pv c').
  { intros c' E. destruct (H c') as [-> | ?]; auto. destruct c; discriminate E. }
  unfold state_inv, late_pids_zero.
  destruct c; destruct st; cbn in L; try discriminate L;
    rewrite ?K by reflexivity; auto.
Qed.

Lemma Inv_quiet_but c w n s s' :
  quiet_but c s s' -> launch_ok c (pmState s) = true -> Inv w n s -> Inv w n s'.
Proof.
  intros (A1 & A2 & A3 & A4 & A5 & A6) L (I1 & I2 & I3).
  unfold Inv, trace_inv in *. rewrite A1, A2, A3, A4, A5.
  split; [| split; auto].
  eapply state_inv_launch; eauto.
Qed.

(** ** The crash cascade keeps the invariant *)

Ltac split_frame H :=
  let A1 := fresh "A" in let A2 := fresh "A" in let A3 := fresh "A" in
  let A4 := fresh "A" in let A5 := fresh "A" in let A6 := fresh "A" in
  destruct H as (A1 & A2 & A3 & A4 & A5 & A6).

(** [wp_use L]: run the next call by its lemma [L : keeps R m]. *)
Tactic Notation "wp_use" uconstr(H) :=
  lazymatch goal with
  | |- wp (bind _ _) _ _ _ => eapply wp_keeps; [ refine H | ]
  | |- _ => eapply wp_keeps_last; [ refine H | ]
  end.

Section CrashInv.

Variable env : Env.

Lemma HandleChildCrash_Inv w n p exitstatus s :
  Inv w n s -> settled s ->
  wp (HandleChildCrash env p exitstatus)
     (fun _ s' => Inv true n s' /\ settled s') never s.
Proof.
  intros HI HS. unfold HandleChildCrash. wp_prim.
  wp_use (HandleChildCrash_children_zeroing env _ _).
  intros [] s1 Hz.
  apply (Inv_zeroing _ _ _ _ Hz) in HI. apply (settled_frame _ _ _ Hz) in HS.
  clear Hz s. pm_unfold.
  destruct (pmState s1) eqn:Est; wp_run; bool_prop; inv_solve.
Qed.

End CrashInv.


(** ** Every step of the server loop keeps the invariant *)

(** After a call related to the state before it by a frame relation [Hq],
    restate everything known in terms of the new state. *)
Ltac pid_facts A6 :=
  let go c :=
    let H := fresh "P" in
    pose proof (A6 c) as H; cbv beta in H;
    first [ destruct H as [H | H]; [discriminate H |]
          | lazymatch type of H with _ \/ _ => clear H | _ => idtac end ] in
  go StartupPID; go BgWriterPID; go CheckpointerPID; go WalWriterPID;
  go WalReceiverPID; go WalSummarizerPID; go AutoVacPID; go PgArchPID;
  go SysLoggerPID; go SlotSyncWorkerPID.

Ltac rew_back H :=
  match type of H with
  | ?a = ?b => rewrite <- ?H in *
  | _ => idtac
  end.

Ltac transport_fields Hq :=
  let A1 := fresh "A" in let A2 := fresh "A" in let A3 := fresh "A" in
  let A4 := fresh "A" in let A5 := fresh "A" in let A6 := fresh "A" in
  destruct Hq as (A1 & A2 & A3 & A4 & A5 & A6);
  pid_facts A6; pm_cbn;
  repeat match goal with
  | H : pmState ?s' = pmState ?s |- _ => rewrite <- ?H in *; clear H
  | H : Shutdown ?s' = Shutdown ?s |- _ => rewrite <- ?H in *; clear H
  | H : flag ?s' ?f = flag ?s ?f |- _ => rewrite <- ?H in *; clear H
  | H : pidv ?s' ?c = pidv ?s ?c |- _ => rewrite <- ?H in *; clear H
  end;
  clear A5 A6.

Lemma gated_quiet_but c s s' : gated c s s' -> quiet_but c s s'.
Proof. intros [H | [H _]]; [apply quiet_quiet_but |]; exact H. Qed.

Lemma gated_refl c s : gated c s s.
Proof. left. apply quiet_refl. Qed.

Lemma gated_trans c s1 s2 s3 : gated c s1 s2 -> gated c s2 s3 -> gated c s1 s3.
Proof.
  intros [H1 | [H1 L1]] [H2 | [H2 L2]].
  - left. eapply quiet_trans; eauto.
  - right. split.
    + eapply quiet_but_trans; [apply quiet_quiet_but |]; eauto.
    + destruct H1 as (E & _). rewrite <- E. exact L2.
  - right. split; [| exact L1].
    eapply quiet_but_trans; [| apply quiet_quiet_but]; eauto.
  - right. split; [| exact L1]. eapply quiet_but_trans; eauto.
Qed.

Lemma Inv_gated c w n s s' : gated c s s' -> Inv w n s -> Inv w n s'.
Proof.
  intros [H | [H L]]; [apply Inv_quiet | apply Inv_quiet_but with (c := c)]; auto.
Qed.

Ltac transport Hq :=
  lazymatch type of Hq with
  | gated ?c ?s ?s' =>
      repeat match goal with
      | H : Inv _ _ s |- _ => apply (Inv_gated _ _ _ _ _ Hq) in H
      | H : settled s |- _ =>
          apply (settled_frame _ _ _ (gated_quiet_but _ _ _ Hq)) in H
      end;
      apply gated_quiet_but in Hq
  | _ => idtac
  end;
  lazymatch type of Hq with
  | quiet ?s ?s' =>
      repeat match goal with
      | H : Inv _ _ s |- _ => apply (Inv_quiet _ _ _ _ Hq) in H
      | H : settled s |- _ => apply (settled_frame _ _ _ Hq) in H
      end
  | zeroing ?s ?s' =>
      repeat match goal with
      | H : Inv _ _ s |- _ => apply (Inv_zeroing _ _ _ _ Hq) in H
      | H : settled s |- _ => apply (settled_frame _ _ _ Hq) in H
      end
  | quiet_but ?c ?s ?s' =>
      repeat match goal with
      | H : Inv _ _ s |- _ =>
          apply (Inv_quiet_but _ _ _ _ _ Hq) in H;
          [| solve [use_known; reflexivity | reflexivity
                   | known_in_hyps; pm_cbn; destruct (pmState s); [> reflexivity || tauto || discriminate ..] ] ]
      | H : settled s |- _ => apply (settled_frame _ _ _ Hq) in H
      end
  end;
  unfold quiet, zeroing, quiet_but in Hq;
  transport_fields Hq.

Tactic Notation "wp_call" uconstr(L) :=
  wp_use L;
  let a := fresh "r" in let s' := fresh "s" in let Hq := fresh "Hq" in
  intros a s' Hq; transport Hq; cbv beta; pm_cbn; use_known; pm_cbn.

Section LoopInv.

Variable env : Env.
Variable n : Z.

(** The invariant between two steps of the loop, and at exit. *)
Local Abbreviation LP := (@loop_post unit n).
Local Abbreviation LX := (exit_post n).

Lemma CleanupBackend_Inv p exitstatus s :
  Inv true n s -> settled s ->
  wp (CleanupBackend env p exitstatus) LP never s.
Proof.
  intros HI HS. unfold CleanupBackend, loop_post.
  wp_prim; [eapply (HandleChildCrash_Inv env true n); eauto |].
  wp_run; try (eapply (HandleChildCrash_Inv env true n); inv_solve); inv_solve.
Qed.

Lemma CleanupBackgroundWorker_Inv p exitstatus s :
  Inv true n s -> settled s ->
  wp (CleanupBackgroundWorker env p exitstatus) (@loop_post bool n) never s.
Proof.
  intros HI HS. unfold CleanupBackgroundWorker, loop_post.
  wp_run;
    try (apply wp_bind; eapply wp_mono;
         [eapply (HandleChildCrash_Inv env true n); inv_solve
         | intros [] s' [? ?]; wp_run; inv_solve
         | intros ? ? []]);
    inv_solve.
Qed.

Lemma MaybeStartWalReceiver_gated :
  keeps (gated WalReceiverPID) (MaybeStartWalReceiver env).
Proof.
  intros s. unfold MaybeStartWalReceiver. wp_prim.
  destruct (pmState s) eqn:Est; pm_cbn; rewrite ?andb_false_r; pm_cbn;
    try apply gated_refl;
    wp_prim; try apply gated_refl;
    (wp_use (start_special_quiet_but env WalReceiverPID B_WAL_RECEIVER eq_refl);
     intros [] s1 Hq; wp_run; right; (split; [| rewrite Est; reflexivity]);
     (eapply quiet_but_trans; [exact Hq |]); frame_solve).
Qed.

Lemma MaybeStartWalSummarizer_gated :
  keeps (gated WalSummarizerPID) (MaybeStartWalSummarizer env).
Proof.
  intros s. unfold MaybeStartWalSummarizer. wp_prim.
  destruct (pmState s) eqn:Est; pm_cbn; rewrite ?andb_false_r; pm_cbn;
    try apply gated_refl;
    wp_prim; try apply gated_refl;
    (wp_use (start_special_quiet_but env WalSummarizerPID B_WAL_SUMMARIZER eq_refl);
     intros [] s1 Hq; right; (split; [exact Hq | rewrite Est; reflexivity])).
Qed.

Lemma MaybeStartSlotSyncWorker_gated :
  keeps (gated SlotSyncWorkerPID) (MaybeStartSlotSyncWorker env).
Proof.
  intros s. unfold MaybeStartSlotSyncWorker. wp_prim.
  destruct (pmState s) eqn:Est; pm_cbn; rewrite ?andb_false_r; pm_cbn;
    try apply gated_refl;
    wp_run; try (left; frame_solve);
    (wp_use (start_special_quiet_but env SlotSyncWorkerPID B_SLOTSYNC_WORKER eq_refl);
     intros [] s1 Hq; right; (split; [| rewrite Est; reflexivity]);
     (eapply quiet_but_trans; [| exact Hq]); frame_solve).
Qed.

(** A launch in a state that allows it. *)
Lemma start_special_if_zero_Inv c type s :
  is_B_STARTUP type = false -> launch_ok c (pmState s) = true ->
  Inv true n s -> settled s ->
  wp (start_special_if_zero env c type) LP never s.
Proof.
  intros Ht Hl HI HS. unfold loop_post.
  wp_use (start_special_if_zero_quiet_but env c type Ht).
  intros a s' Hq. cbv beta.
  split; [eapply Inv_quiet_but; eauto | eapply settled_frame; eauto].
Qed.

Lemma start_special_Inv c type s :
  is_B_STARTUP type = false -> launch_ok c (pmState s) = true ->
  Inv true n s -> settled s ->
  wp (start_special env c type) LP never s.
Proof.
  intros Ht Hl HI HS. unfold loop_post.
  wp_use (start_special_quiet_but env c type Ht).
  intros a s' Hq. cbv beta.
  split; [eapply Inv_quiet_but; eauto | eapply settled_frame; eauto].
Qed.


(** Run the next call, known to keep the loop invariant, and go on from
    whatever state it leaves. *)
Ltac wp_cut :=
  apply wp_bind;
  eapply wp_mono with (Q := fun _ s' => Inv true n s' /\ settled s')
                      (X := fun _ s' => ExitInv n s');
  [ | let a := fresh "r" in let s' := fresh "s" in
      let HI := fresh "HI" in let HS := fresh "HS" in
      intros a s' [HI HS]; cbv beta
    | intros ? ? ?; assumption ].

(** State the invariant for the state the execution has reached. *)
Ltac reinv :=
  lazymatch goal with
  | |- wp _ _ _ ?st =>
      let HI := fresh "HI" in let HS := fresh "HS" in
      assert (HI : Inv true n st) by inv_solve;
      assert (HS : settled st) by inv_solve
  end.

Ltac crash_now w :=
  eapply wp_mono;
  [ eapply (HandleChildCrash_Inv env w n); inv_solve
  | intros ? ? [? ?]; split; assumption
  | intros ? ? [] ].

Lemma reap_crash_unless_0_Inv c p exitstatus s :
  Inv true n s -> settled s ->
  wp (reap_crash_unless_0 env c p exitstatus) LP LX s.
Proof.
  intros HI HS. unfold reap_crash_unless_0, loop_post, exit_post.
  wp_call (set_pid_zeroing c).
  wp_prim; [crash_now true | wp_prim; auto].
Qed.

Lemma reap_crash_unless_0_or_1_Inv c p exitstatus s :
  Inv true n s -> settled s ->
  wp (reap_crash_unless_0_or_1 env c p exitstatus) LP LX s.
Proof.
  intros HI HS. unfold reap_crash_unless_0_or_1, loop_post, exit_post.
  wp_call (set_pid_zeroing c).
  wp_prim; [crash_now true | wp_prim; auto].
Qed.

Lemma reap_checkpointer_Inv p exitstatus s :
  Inv true n s -> settled s ->
  wp (reap_checkpointer env p exitstatus) LP LX s.
Proof.
  intros HI HS. unfold reap_checkpointer, loop_post, exit_post.
  wp_prim. wp_prim.
  destruct (pmState s) eqn:Est; pm_cbn; rewrite ?andb_false_r; pm_cbn;
    try (crash_now true).
  wp_prim; [| crash_now true].
  reinv.
  wp_call (signal_special_quiet env PgArchPID SIGUSR2).
  wp_call (SignalChildren_quiet env SIGUSR2).
  wp_run. inv_solve.
Qed.

Lemma reap_archiver_Inv p exitstatus s :
  Inv true n s -> settled s ->
  wp (reap_archiver env p exitstatus) LP LX s.
Proof.
  intros HI HS. unfold reap_archiver, loop_post, exit_post.
  wp_cut; [apply reap_crash_unless_0_or_1_Inv; auto |].
  wp_call (PgArchStartupAllowed_quiet env).
  wp_prim; [| wp_prim; auto].
  eapply wp_mono; [apply start_special_Inv; auto; reflexivity | auto | intros ? ? []].
Qed.

Lemma reap_syslogger_Inv p exitstatus s :
  Inv true n s -> settled s ->
  wp (reap_syslogger env p exitstatus) LP LX s.
Proof.
  intros HI HS. unfold reap_syslogger, loop_post, exit_post. wp_run. inv_solve.
Qed.

Lemma reap_startup_Inv p exitstatus s :
  Inv true n s -> settled s -> pidv s StartupPID <> 0 ->
  wp (reap_startup env p exitstatus) LP LX s.
Proof.
  intros HI HS Hp. unfold reap_startup, loop_post, exit_post.
  destruct (pmState s) eqn:Est; try (exfalso; inv_solve; fail).
  all: wp_prim; wp_prim.
  all: wp_prim; [wp_run; inv_solve |].
  all: wp_prim;
    [ do 2 wp_prim; reinv; wp_call (TerminateChildren_quiet env SIGTERM);
      wp_run; inv_solve |].
  all: pm_cbn; wp_prim; [wp_prim; inv_solve |].
  all: wp_prim; [wp_run; crash_now false |].
  all: wp_run; reinv.
  all: wp_call (start_special_if_zero_quiet_but env CheckpointerPID B_CHECKPOINTER eq_refl).
  all: wp_call (start_special_if_zero_quiet_but env BgWriterPID B_BG_WRITER eq_refl).
  all: wp_call (start_special_if_zero_quiet_but env WalWriterPID B_WAL_WRITER eq_refl).
  all: wp_call (MaybeStartWalSummarizer_gated).
  all: wp_prim.
  all: wp_cut;
    [ wp_prim; [| wp_prim; auto];
      eapply wp_mono; [apply start_special_Inv; auto; use_known; reflexivity
                      | auto | intros ? ? []] |].
  all: wp_call (PgArchStartupAllowed_quiet env).
  all: wp_prim.
  all: wp_cut;
    [ wp_prim; [| wp_prim; auto];
      eapply wp_mono; [apply start_special_Inv; auto; reflexivity
                      | auto | intros ? ? []] |].
  all: wp_call (MaybeStartSlotSyncWorker_gated).
  all: wp_use (maybe_start_bgworkers_quiet env); intros ? ? Hq;
    split; [eapply Inv_quiet | eapply settled_frame]; eauto.
Qed.

Lemma reap_child_Inv p exitstatus s :
  Inv true n s -> settled s -> 0 < p ->
  wp (reap_child env p exitstatus) LP LX s.
Proof.
  intros HI HS Hp. unfold reap_child. wp_prim.
  wp_prim; [apply reap_startup_Inv; auto; bool_prop; lia |].
  wp_prim; [apply reap_crash_unless_0_Inv; auto |].
  wp_prim; [apply reap_checkpointer_Inv; auto |].
  wp_prim; [apply reap_crash_unless_0_Inv; auto |].
  wp_prim; [apply reap_crash_unless_0_or_1_Inv; auto |].
  wp_prim; [apply reap_crash_unless_0_Inv; auto |].
  wp_prim; [apply reap_crash_unless_0_Inv; auto |].
  wp_prim; [apply reap_archiver_Inv; auto |].
  wp_prim; [apply reap_syslogger_Inv; auto |].
  wp_prim; [apply reap_crash_unless_0_or_1_Inv; auto |].
  apply wp_bind. eapply wp_mono;
    [apply CleanupBackgroundWorker_Inv; auto | | intros ? ? []].
  intros was s' [HI' HS']. cbv beta.
  wp_prim.
  - unfold loop_post. wp_run. inv_solve.
  - eapply wp_mono; [apply CleanupBackend_Inv; auto | auto | intros ? ? []].
Qed.

Lemma reap_loop_Inv l s :
  Inv true n s -> settled s -> wp (reap_loop env l) LP LX s.
Proof.
  revert s. induction l as [| [p st] rest IH]; intros s HI HS; cbn [reap_loop].
  - wp_prim. split; auto.
  - wp_prim; [| wp_prim; split; auto].
    wp_cut; [apply reap_child_Inv; auto; bool_prop; lia |].
    apply IH; auto.
Qed.

End LoopInv.


(** ** The state machine keeps the invariant *)

Lemma tracked_children_nil s :
  pidv s StartupPID = 0 -> pidv s BgWriterPID = 0 ->
  pidv s CheckpointerPID = 0 -> pidv s WalWriterPID = 0 ->
  pidv s WalReceiverPID = 0 -> pidv s WalSummarizerPID = 0 ->
  pidv s AutoVacPID = 0 -> pidv s PgArchPID = 0 ->
  pidv s SlotSyncWorkerPID = 0 -> BackendList s = [] ->
  tracked_children s = [].
Proof.
  intros H1 H2 H3 H4 H5 H6 H7 H8 H9 HB. unfold tracked_children, shmem_specials.
  cbn [map]. rewrite H1, H2, H3, H4, H5, H6, H7, H8, H9, HB. reflexivity.
Qed.

Section MachineInv.

Variable env : Env.
Variable n : Z.

Local Abbreviation LP := (@loop_post unit n).
Local Abbreviation LX := (exit_post n).

Ltac wp_cut :=
  apply wp_bind;
  eapply wp_mono with (Q := fun _ s' => Inv true n s' /\ settled s')
                      (X := fun _ s' => ExitInv n s');
  [ | let a := fresh "r" in let s' := fresh "s" in
      let HI := fresh "HI" in let HS := fresh "HS" in
      intros a s' [HI HS]; cbv beta
    | intros ? ? ?; assumption ].

Ltac reinv :=
  lazymatch goal with
  | |- wp _ _ _ ?st =>
      let HI := fresh "HI" in
      assert (HI : Inv true n st) by inv_solve
  end.

Lemma PSM_smart_shutdown_Inv s :
  Inv true n s -> pmState s <> PM_NO_CHILDREN ->
  wp (PSM_smart_shutdown env)
     (fun _ s' => Inv true n s' /\ pmState s' <> PM_NO_CHILDREN) LX s.
Proof.
  intros HI HN. unfold PSM_smart_shutdown. wp_prim.
  wp_prim; [| wp_prim; auto].
  wp_call (CountChildren_quiet env BACKEND_TYPE_NORMAL).
  bool_prop.
  destruct (pmState s0) eqn:Est; try discriminate; wp_run; inv_solve.
Qed.

Lemma PSM_stop_backends_Inv s :
  Inv true n s -> pmState s <> PM_NO_CHILDREN ->
  wp (PSM_stop_backends env) LP LX s.
Proof.
  intros HI HN. unfold PSM_stop_backends, loop_post. wp_prim.
  destruct (pmState s) eqn:Est; pm_cbn; try (wp_run; inv_solve; fail).
  do 2 wp_prim. reinv.
  wp_call (SignalSomeChildren_quiet env SIGTERM (BACKEND_TYPE_ALL - BACKEND_TYPE_WALSND)).
  wp_call (signal_special_quiet env AutoVacPID SIGTERM).
  wp_call (signal_special_quiet env BgWriterPID SIGTERM).
  wp_call (signal_special_quiet env WalWriterPID SIGTERM).
  wp_call (signal_special_quiet env StartupPID SIGTERM).
  wp_call (signal_special_quiet env WalReceiverPID SIGTERM).
  wp_call (signal_special_quiet env WalSummarizerPID SIGTERM).
  wp_call (signal_special_quiet env SlotSyncWorkerPID SIGTERM).
  wp_run. inv_solve.
Qed.

Lemma PSM_wait_backends_Inv s :
  Inv true n s -> settled s -> wp (PSM_wait_backends env) LP LX s.
Proof.
  intros HI HS. unfold PSM_wait_backends, loop_post. wp_prim.
  destruct (pmState s) eqn:Est; pm_cbn; try (wp_run; inv_solve; fail).
  wp_call (CountChildren_quiet env (BACKEND_TYPE_ALL - BACKEND_TYPE_WALSND)).
  wp_prim. wp_prim; [| wp_run; inv_solve].
  bool_prop.
  wp_prim; [wp_run; inv_solve |].
  wp_call (start_special_if_zero_quiet_but env CheckpointerPID B_CHECKPOINTER eq_refl).
  wp_prim. wp_prim.
  - unfold signal_child. wp_run; inv_solve.
  - wp_prim. wp_prim. reinv.
    wp_call (SignalChildren_quiet env SIGQUIT).
    wp_use (signal_special_quiet env PgArchPID SIGQUIT).
    intros ? ? Hq. transport Hq. inv_solve.
Qed.

Lemma PSM_shutdown_2_Inv s :
  Inv true n s -> settled s -> wp (PSM_shutdown_2 env) LP LX s.
Proof.
  intros HI HS. unfold PSM_shutdown_2, loop_post. wp_prim.
  destruct (pmState s) eqn:Est; pm_cbn; try (wp_run; inv_solve; fail).
  wp_prim; [| wp_run; inv_solve].
  wp_call (CountChildren_quiet env BACKEND_TYPE_ALL).
  wp_run; inv_solve.
Qed.

Lemma PSM_tail_Inv s :
  Inv true n s -> settled s ->
  wp (PSM_wait_dead_end ;; PSM_no_children env) LP LX s.
Proof.
  intros HI HS.
  unfold PSM_wait_dead_end, PSM_no_children, PSM_exit_on_shutdown,
    PSM_exit_on_failure, PSM_crash_reinit, CreateSharedMemoryAndSemaphores,
    start_special, StartChildProcess, loop_post, exit_post.
  destruct (pmState s) eqn:Est; try (exfalso; inv_solve; fail);
    wp_run; try (inv_solve; fail).
  all: bool_prop; destruct (BackendList s) eqn:EB; try discriminate.
  all: rewrite tracked_children_nil; try (inv_solve; fail).
  all: assert (E0 : Shutdown s = 0)
    by (pm_unfold; destruct HI as (_ & _ & _ & ? & _); lia).
  all: rewrite H, Heqb2, E0; inv_solve.
Qed.

Lemma PostmasterStateMachine_Inv s :
  Inv true n s -> pmState s <> PM_NO_CHILDREN ->
  wp (PostmasterStateMachine env) LP LX s.
Proof.
  intros HI HN. unfold PostmasterStateMachine.
  apply wp_bind.
  eapply wp_mono; [apply PSM_smart_shutdown_Inv; auto | | auto].
  intros [] s1 [HI1 HN1]. cbv beta.
  wp_cut; [apply PSM_stop_backends_Inv; auto |].
  wp_cut; [apply PSM_wait_backends_Inv; auto |].
  wp_cut; [apply PSM_shutdown_2_Inv; auto |].
  apply PSM_tail_Inv; auto.
Qed.

End MachineInv.


(** ** The server loop keeps the invariant *)

Section ServerInv.

Variable env : Env.
Variable n : Z.

Local Abbreviation LP := (@loop_post unit n).
Local Abbreviation LX := (exit_post n).

Ltac wp_cut :=
  apply wp_bind;
  eapply wp_mono with (Q := fun _ s' => Inv true n s' /\ settled s')
                      (X := fun _ s' => ExitInv n s');
  [ | let a := fresh "r" in let s' := fresh "s" in
      let HI := fresh "HI" in let HS := fresh "HS" in
      intros a s' [HI HS]; cbv beta
    | intros ? ? ?; assumption ].

Ltac reinv :=
  lazymatch goal with
  | |- wp _ _ _ ?st =>
      let HI := fresh "HI" in let HS := fresh "HS" in
      assert (HI : Inv true n st) by inv_solve;
      assert (HS : settled st) by inv_solve
  end.

Ltac psm_now :=
  eapply wp_mono;
  [ eapply (PostmasterStateMachine_Inv env n); inv_solve
  | intros ? ? [? ?]; split; assumption
  | intros ? ? ?; assumption ].

Lemma process_pm_shutdown_request_Inv s :
  Inv true n s -> settled s ->
  wp (process_pm_shutdown_request env) LP LX s.
Proof.
  intros HI HS. unfold process_pm_shutdown_request, loop_post, exit_post.
  wp_call pending_shutdown_mode_quiet.
  wp_prim.
  destruct (pmState s0) eqn:Est; try (exfalso; inv_solve; fail).
  all: wp_prim; [wp_prim; [wp_run; inv_solve | wp_run; psm_now] |].
  all: wp_prim; [wp_prim; [wp_run; inv_solve | wp_run; psm_now] |].
  all: wp_prim; [wp_run; inv_solve |].
  all: wp_prim; reinv.
  all: wp_call (TerminateChildren_quiet env SIGQUIT).
  all: wp_run; psm_now.
Qed.

Lemma process_pm_child_exit_Inv s :
  Inv true n s -> settled s ->
  wp (process_pm_child_exit env) LP LX s.
Proof.
  intros HI HS. unfold process_pm_child_exit, loop_post, exit_post.
  do 2 wp_prim. reinv. assert (HS' := HS).
  wp_cut; [apply reap_loop_Inv; inv_solve |].
  psm_now.
Qed.

Ltac simp_cond :=
  pm_cbn; rewrite ?andb_false_r, ?andb_true_r, ?orb_false_r, ?orb_true_r; pm_cbn.

Ltac done_here := wp_run; solve [split; assumption | inv_solve].

Lemma process_pm_pmsignal_Inv s :
  Inv true n s -> settled s ->
  wp (process_pm_pmsignal env) LP LX s.
Proof.
  intros HI HS. unfold process_pm_pmsignal, loop_post, exit_post.
  (* recovery started *)
  do 3 wp_prim.
  wp_cut.
  { reinv. destruct (pmState s) eqn:Est; simp_cond; try done_here.
    all: wp_prim; try done_here.
    all: do 2 wp_prim; wp_prim; try done_here.
    all: reinv;
      wp_call (start_special_quiet_but env PgArchPID B_ARCHIVER eq_refl);
      done_here. }
  (* begin hot standby *)
  do 2 wp_prim.
  wp_cut.
  { reinv. destruct (pmState s0) eqn:Est; simp_cond; done_here. }
  (* background worker change *)
  wp_prim.
  wp_cut.
  { reinv. done_here. }
  wp_prim.
  wp_cut.
  { wp_prim; try done_here.
    wp_use (maybe_start_bgworkers_quiet env). intros ? ? Hq.
    split; [eapply Inv_quiet | eapply settled_frame]; eauto. }
  (* log rotation *)
  wp_prim.
  wp_cut.
  { unfold signal_child. done_here. }
  (* autovacuum *)
  do 2 wp_prim.
  wp_cut.
  { reinv. done_here. }
  do 2 wp_prim.
  wp_cut.
  { reinv. wp_prim; try done_here.
    wp_use (StartAutovacuumWorker_quiet env). intros ? ? Hq.
    split; [eapply Inv_quiet | eapply settled_frame]; eauto; inv_solve. }
  (* walreceiver *)
  wp_prim.
  wp_cut.
  { reinv. wp_prim; try done_here. wp_prim. reinv.
    wp_use (MaybeStartWalReceiver_gated env). intros ? ? Hq.
    split; [eapply Inv_gated | eapply settled_frame; [apply gated_quiet_but |]];
      eauto; inv_solve. }
  (* advance the state machine *)
  wp_prim.
  wp_cut.
  { reinv. wp_prim; try done_here. psm_now. }
  (* promote *)
  unfold signal_child. done_here.
Qed.

Lemma ServerLoop_event_Inv accept s :
  Inv true n s -> settled s ->
  wp (ServerLoop_event env accept) LP LX s.
Proof.
  intros HI HS. unfold ServerLoop_event, loop_post, exit_post.
  wp_prim.
  wp_cut; [wp_prim; [apply process_pm_shutdown_request_Inv; auto | done_here] |].
  wp_prim.
  wp_cut.
  { wp_prim; try done_here.
    wp_use (process_pm_reload_request_quiet env). intros ? ? Hq.
    split; [eapply Inv_quiet | eapply settled_frame]; eauto. }
  wp_prim.
  wp_cut; [wp_prim; [apply process_pm_child_exit_Inv; auto | done_here] |].
  wp_prim.
  wp_cut; [wp_prim; [apply process_pm_pmsignal_Inv; auto | done_here] |].
  wp_prim; try done_here.
  wp_prim. reinv. wp_prim; try done_here.
  wp_call (BackendStartup_quiet env).
  done_here.
Qed.

Ltac by_quiet Hq :=
  split; [eapply Inv_quiet | eapply settled_frame]; eauto.

Ltac by_gated Hq :=
  split; [eapply Inv_gated | eapply settled_frame; [apply gated_quiet_but |]]; eauto.

Lemma ServerLoop_housekeeping_Inv s :
  Inv true n s -> settled s ->
  wp (ServerLoop_housekeeping env) LP LX s.
Proof.
  intros HI HS. unfold ServerLoop_housekeeping, loop_post, exit_post.
  wp_prim. wp_cut; [done_here |].
  wp_prim.
  wp_cut.
  { destruct (pmState s0) eqn:Est; simp_cond; try done_here.
    all: wp_call (start_special_if_zero_quiet_but env CheckpointerPID B_CHECKPOINTER eq_refl).
    all: wp_use (start_special_if_zero_quiet_but env BgWriterPID B_BG_WRITER eq_refl);
      intros ? ? Hq; transport Hq; split; assumption. }
  wp_prim.
  wp_cut.
  { destruct (pmState s1) eqn:Est; simp_cond; try done_here.
    wp_prim; try done_here.
    wp_use (start_special_quiet_but env WalWriterPID B_WAL_WRITER eq_refl);
      intros ? ? Hq; transport Hq; split; assumption. }
  wp_prim.
  wp_cut.
  { destruct (pmState s2) eqn:Est; simp_cond; try done_here.
    wp_prim; try done_here.
    wp_call (start_special_quiet_but env AutoVacPID B_AUTOVAC_LAUNCHER eq_refl).
    done_here. }
  wp_prim.
  wp_cut.
  { wp_prim; try done_here.
    wp_call (PgArchStartupAllowed_quiet env).
    wp_prim; try done_here.
    eapply wp_mono; [apply (start_special_Inv env n); auto; reflexivity | auto | intros ? ? []]. }
  wp_cut.
  { wp_use (MaybeStartSlotSyncWorker_gated env). intros ? ? Hq. by_gated Hq. }
  wp_prim.
  wp_cut; [done_here |].
  wp_prim.
  wp_cut.
  { wp_prim; try done_here.
    wp_use (MaybeStartWalReceiver_gated env). intros ? ? Hq. by_gated Hq. }
  wp_cut.
  { wp_use (MaybeStartWalSummarizer_gated env). intros ? ? Hq. by_gated Hq. }
  wp_prim.
  wp_cut.
  { wp_prim; try done_here.
    wp_use (maybe_start_bgworkers_quiet env). intros ? ? Hq. by_quiet Hq. }
  do 2 wp_prim. reinv.
  wp_cut.
  { wp_prim; try done_here.
    wp_call (TerminateChildren_quiet env _).
    done_here. }
  wp_prim.
  wp_cut; [done_here |].
  done_here.
Qed.

Lemma step_Inv i s :
  Inv true n s -> settled s -> wp (step env i) LP LX s.
Proof.
  intros HI HS. destruct i; cbn [step].
  - wp_use (deliver_quiet sig). intros ? ? Hq. by_quiet Hq.
  - wp_call (DetermineSleepTime_quiet env). done_here.
  - apply ServerLoop_event_Inv; auto.
  - apply ServerLoop_housekeeping_Inv; auto.
Qed.

Lemma steps_Inv l s :
  Inv true n s -> settled s -> wp (steps env l) LP LX s.
Proof.
  revert s. induction l as [| i rest IH]; intros s HI HS; cbn [steps].
  - done_here.
  - wp_cut; [apply step_Inv; auto |]. apply IH; auto.
Qed.

End ServerInv.

(** Boot establishes the invariant. *)
Lemma PostmasterMain_Inv env c workers :
  wp (PostmasterMain env)
     (fun _ s => Inv true NoShutdown s /\ settled s)
     (fun _ s => ExitInv NoShutdown s)
     (PM_initial c workers).
Proof.
  unfold PostmasterMain, CreateSharedMemoryAndSemaphores.
  do 5 wp_prim.
  wp_use (start_special_if_zero_quiet_but env CheckpointerPID B_CHECKPOINTER eq_refl).
  intros [] s1 H1.
  wp_use (start_special_if_zero_quiet_but env BgWriterPID B_BG_WRITER eq_refl).
  intros [] s2 H2.
  destruct H1 as (A1 & A2 & A3 & A4 & A5 & _), H2 as (B1 & B2 & B3 & B4 & B5 & _).
  pm_cbn.
  rewrite A1 in B1; rewrite A2 in B2; rewrite A3 in B3; rewrite A4 in B4;
    rewrite A5 in B5.
  clear A1 A2 A3 A4 A5.
  unfold PM_initial in *; pm_cbn; cbn in B5.
  unfold start_special, StartChildProcess.
  wp_run.
  { unfold ExitInv, core_trace in *; pm_cbn; rewrite B5, B2; cbn.
    repeat split; lia. }
  wp_use (maybe_start_bgworkers_quiet env).
  intros [] s3 (C1 & C2 & C3 & C4 & C5 & _).
  unfold core_trace in *; pm_cbn. cbn in C5. rewrite B5 in C5.
  wp_run.
  unfold Inv, settled, trace_inv, core_trace; pm_cbn.
  rewrite C1, C2, C5, B2; cbn.
  unfold NoShutdown, ImmediateShutdown.
  repeat split; try lia; try discriminate.
Qed.


(** ** Whole runs *)

Lemma run_Inv env c workers l :
  wp (run env l) (loop_post NoShutdown) (exit_post NoShutdown)
     (PM_initial c workers).
Proof.
  unfold run. apply wp_bind.
  eapply wp_mono; [apply PostmasterMain_Inv | | intros ? ? H; exact H].
  intros [] s [HI HS]. apply steps_Inv; assumption.
Qed.

Lemma steps_app env l l' s :
  steps env (l ++ l') s = (steps env l ;; steps env l') s.
Proof.
  revert s. induction l as [| i l IH]; intro s; cbn [steps app].
  - reflexivity.
  - unfold bind in *. destruct (step env i s) as [[] s1 | st s1].
    + rewrite IH. reflexivity.
    + reflexivity.
Qed.

Lemma run_app env l l' s :
  run env (l ++ l') s =
  match run env l s with
  | Ret _ s1 => steps env l' s1
  | Exit st s1 => Exit st s1
  end.
Proof.
  unfold run, bind. destruct (PostmasterMain env s) as [[] s0 | st s0]; auto.
  rewrite steps_app. unfold bind. destruct (steps env l s0) as [[] s1 | ]; auto.
Qed.

(** The recorded shutdown mode never decreases along the inputs. *)
Lemma steps_Shutdown_mono env l n s :
  Inv true n s -> settled s ->
  Shutdown s <= Shutdown (final (steps env l s)).
Proof.
  intros HI HS.
  assert (HI' : Inv true (Shutdown s) s).
  { destruct HI as (I1 & I2 & I3 & I4). repeat split; auto; try lia; apply I2. }
  pose proof (steps_Inv env (Shutdown s) l s HI' HS) as H.
  unfold wp, loop_post, exit_post in H.
  destruct (steps env l s) as [[] s1 | st s1]; cbn [final].
  - destruct H as [(_ & _ & H & _) _]. exact H.
  - destruct H as (_ & _ & _ & H). exact H.
Qed.

(** *** Counting in traces *)

Lemma core_trace_In e tr :
  In e tr -> is_core e = true -> In e (core_trace tr).
Proof. intros H1 H2. apply filter_In. auto. Qed.

Lemma effect_ok_In tr e :
  forallb effect_ok (core_trace tr) = true -> In e tr -> effect_ok e = true.
Proof.
  intros H Hin. destruct (is_core e) eqn:Hc.
  - rewrite forallb_forall in H. apply H. apply core_trace_In; auto.
  - destruct e; try reflexivity; discriminate.
Qed.

Lemma transitions_In o n tr :
  In (o, n) (transitions tr) <-> In (Transition o n) tr.
Proof.
  induction tr as [| e r IH]; cbn [transitions].
  - tauto.
  - destruct e; cbn [In]; rewrite ?in_app_iff; cbn [In]; rewrite IH;
      intuition (try discriminate; try congruence).
Qed.

Lemma boot_creates_count tr :
  boot_creates (core_trace tr) = count_effects is_boot_create tr.
Proof.
  unfold count_effects, core_trace.
  induction tr as [| e r IH]; [reflexivity |].
  destruct e as [| | ctx |];
    cbn [filter is_core is_boot_create boot_creates]; auto; try lia.
  destruct (PMState_eqb (at_pmState ctx) PM_INIT); cbn [length]; lia.
Qed.

Lemma reinit_balance_count tr :
  reinit_balance (core_trace tr) =
  count_effects is_reinit_create tr - count_effects is_restart tr.
Proof.
  unfold count_effects, core_trace.
  induction tr as [| e r IH]; [reflexivity |].
  destruct e as [| o n | ctx |];
    cbn [filter is_core reinit_balance core_delta is_reinit_create is_restart];
    auto.
  - unfold core_delta; destruct o, n; cbn [length is_reinit_create is_restart]; lia.
  - unfold core_delta; cbn [is_reinit_create is_restart].
    destruct (PMState_eqb (at_pmState ctx) PM_INIT); cbn [negb length]; lia.
Qed.

Lemma run_trace_inv env c workers l :
  let r := run env l (PM_initial c workers) in
  forallb effect_ok (core_trace (trace (final r))) = true
  /\ boot_creates (core_trace (trace (final r))) = 1
  /\ match exit_status r with
     | None => reinit_balance (core_trace (trace (final r))) = 0
     | Some _ => 0 <= reinit_balance (core_trace (trace (final r))) <= 1
     end.
Proof.
  pose proof (run_Inv env c workers l) as H.
  unfold wp, loop_post, exit_post in H. cbv zeta.
  destruct (run env l (PM_initial c workers)) as [[] s | st s];
    cbn [final exit_status].
  - destruct H as [(_ & (T1 & T2 & T3) & _) _]. auto.
  - destruct H as (T1 & T2 & T3 & _). auto.
Qed.

Lemma PMState_eqb_eq o n : PMState_eqb o n = true -> o = n.
Proof. destruct o, n; cbn; congruence. Qed.

(** ** Transitions of the lifecycle state along a run *)

(** C1, as the code has it: [pmState] is a value of the enumeration
    [PMState], and along every run (boot, then any sequence of signals,
    waits, served events and housekeeping passes) every assignment to it
    either leaves it as it was, or follows an edge of section 4.5 of the
    spec ([spec_edge]), or one of the five edges the code has beyond
    these ([extra_edge]): Startup or Recovery to StopBackends, Shutdown2
    or WaitDeadEnd to WaitBackends, and WaitBackends to Run. *)
Theorem C1_transitions_follow_code_edges env c workers l o n :
  In (o, n) (transitions (trace (final (run env l (PM_initial c workers))))) ->
  o = n \/ spec_edge o n = true \/ extra_edge o n = true.
Proof.
  intro H. apply transitions_In in H.
  destruct (run_trace_inv env c workers l) as (T & _).
  pose proof (effect_ok_In _ _ T H) as E. cbn [effect_ok] in E.
  unfold code_edge in E.
  apply orb_true_iff in E. destruct E as [E | E].
  - left. apply PMState_eqb_eq. exact E.
  - right. apply orb_true_iff. exact E.
Qed.

Lemma C1_transitions_follow_code_edges_witness :
  PM_STARTUP = PM_STOP_BACKENDS
  \/ spec_edge PM_STARTUP PM_STOP_BACKENDS = true
  \/ extra_edge PM_STARTUP PM_STOP_BACKENDS = true.
Proof.
  apply (C1_transitions_follow_code_edges linux_env default_config []
           [InSignal SIGTERM; InEvent false]).
  vm_compute. auto.
Defined.

(** C1 as stated fails: a SIGTERM that arrives while the startup process
    is still running takes [pmState] from Startup straight to
    StopBackends, which is not an edge of section 4.5. *)
Lemma C1_counterexample_sigterm_during_startup :
  transitions
    (trace (final (run linux_env [InSignal SIGTERM; InEvent false]
                       (PM_initial default_config []))))
  = [(PM_INIT, PM_STARTUP); (PM_STARTUP, PM_STOP_BACKENDS);
     (PM_STOP_BACKENDS, PM_WAIT_BACKENDS)]
  /\ spec_edge PM_STARTUP PM_STOP_BACKENDS = false
  /\ PM_STARTUP <> PM_STOP_BACKENDS.
Proof. split; [vm_compute; reflexivity | split; [reflexivity | discriminate]]. Qed.

(** ** Shutdown requests *)

Lemma most_severe_cases sigs :
  most_severe sigs =
  if existsb (Signal_eqb SIGQUIT) sigs then ImmediateShutdown
  else if existsb (Signal_eqb SIGINT) sigs then FastShutdown
  else if existsb (Signal_eqb SIGTERM) sigs then SmartShutdown
  else NoShutdown.
Proof.
  induction sigs as [| sg r IH]; [reflexivity |].
  cbn [most_severe fold_right existsb]. fold (most_severe r). rewrite IH.
  destruct sg; cbn [Signal_eqb severity orb];
    destruct (existsb (Signal_eqb SIGQUIT) r),
             (existsb (Signal_eqb SIGINT) r),
             (existsb (Signal_eqb SIGTERM) r); reflexivity.
Qed.

(** What a sequence of signals leaves latched. *)
Lemma signals_latched env sigs : forall s,
  exists s1,
    steps env (map InSignal sigs) s = Ret tt s1
    /\ flag s1 pending_pm_shutdown_request
       = (flag s pending_pm_shutdown_request || (0 <? most_severe sigs))
    /\ flag s1 pending_pm_fast_shutdown_request
       = (flag s pending_pm_fast_shutdown_request
          || existsb (Signal_eqb SIGINT) sigs)
    /\ flag s1 pending_pm_immediate_shutdown_request
       = (flag s pending_pm_immediate_shutdown_request
          || existsb (Signal_eqb SIGQUIT) sigs).
Proof.
  induction sigs as [| sg r IH]; intro s.
  - exists s. cbn. rewrite !orb_false_r. auto.
  - cbn [map steps step]. unfold bind.
    assert (D : exists s0, deliver sg s = Ret tt s0
              /\ flag s0 pending_pm_shutdown_request
                 = (flag s pending_pm_shutdown_request || (0 <? severity sg))
              /\ flag s0 pending_pm_fast_shutdown_request
                 = (flag s pending_pm_fast_shutdown_request || Signal_eqb SIGINT sg)
              /\ flag s0 pending_pm_immediate_shutdown_request
                 = (flag s pending_pm_immediate_shutdown_request
                    || Signal_eqb SIGQUIT sg)).
    { destruct sg; eexists; (split; [reflexivity |]); cbn;
        rewrite ?orb_false_r, ?orb_true_r; auto. }
    destruct D as (s0 & -> & D1 & D2 & D3).
    destruct (IH s0) as (s1 & E & F1 & F2 & F3).
    exists s1. split; [exact E |].
    rewrite F1, F2, F3, D1, D2, D3. cbn [existsb].
    rewrite <- !orb_assoc. repeat split.
    f_equal. rewrite (most_severe_cases (sg :: r)), (most_severe_cases r).
    cbn [existsb].
    destruct sg; cbn [Signal_eqb severity orb];
      destruct (existsb (Signal_eqb SIGQUIT) r),
               (existsb (Signal_eqb SIGINT) r),
               (existsb (Signal_eqb SIGTERM) r); reflexivity.
Qed.

(** The mode [process_pm_shutdown_request] picks from the latches. *)
Lemma pending_shutdown_mode_picks s :
  exists s1,
    pending_shutdown_mode s
    = Ret (if flag s pending_pm_immediate_shutdown_request then ImmediateShutdown
           else if flag s pending_pm_fast_shutdown_request then FastShutdown
           else SmartShutdown) s1
    /\ nothing_latched s1
    /\ only_latches_differ s s1.
Proof.
  unfold pending_shutdown_mode, bind, set_flag, modify, gets, ret.
  cbn [flag put_flag upd PMFlag_eqb].
  destruct (flag s pending_pm_immediate_shutdown_request) eqn:E1;
    [| destruct (flag s pending_pm_fast_shutdown_request) eqn:E2];
    cbn [flag put_flag upd PMFlag_eqb]; rewrite ?E1, ?E2;
    (eexists; split; [reflexivity |]; split;
     [ repeat split; cbn [flag put_flag upd PMFlag_eqb]; assumption || reflexivity
     | split; [reflexivity |];
       intros f Hf; destruct f; try discriminate; reflexivity ]).
Qed.

Lemma shutdown_request_ignored env s mode s1 :
  pending_shutdown_mode s = Ret mode s1 ->
  mode <= Shutdown s ->
  process_pm_shutdown_request env s = Ret tt s1.
Proof.
  intros H Hle.
  destruct (pending_shutdown_mode_picks s) as (s1' & E & _ & (D & _)).
  rewrite E in H. injection H as Hm <-.
  assert (Sh : Shutdown s1' = Shutdown s) by (rewrite D; reflexivity).
  unfold process_pm_shutdown_request, bind at 1. rewrite E.
  unfold bind, gets. rewrite Sh.
  destruct (flag s pending_pm_immediate_shutdown_request);
    [| destruct (flag s pending_pm_fast_shutdown_request)];
    subst mode; cbn [Z.eqb SmartShutdown FastShutdown ImmediateShutdown Pos.eqb].
  all: unfold SmartShutdown, FastShutdown, ImmediateShutdown in *; cbn [Z.eqb Pos.eqb].
  all: match goal with
       | |- (if ?b then _ else _) _ = _ =>
           replace b with true by (symmetry; apply Z.geb_le; lia)
       end; reflexivity.
Qed.


(** ** Who writes the shutdown mode *)

Lemma ks_ret {A} (a : A) : keeps_Shutdown (ret a).
Proof. intro s. reflexivity. Qed.

Lemma ks_gets {A} (f : PM -> A) : keeps_Shutdown (gets f).
Proof. intro s. reflexivity. Qed.

Lemma ks_exit {A} st : keeps_Shutdown (@ExitPostmaster A st).
Proof. intro s. reflexivity. Qed.

Lemma ks_modify (f : PM -> PM) :
  (forall s, Shutdown (f s) = Shutdown s) -> keeps_Shutdown (modify f).
Proof. intros H s. apply H. Qed.

Lemma ks_bind {A B} (m : M A) (k : A -> M B) :
  keeps_Shutdown m -> (forall a, keeps_Shutdown (k a)) -> keeps_Shutdown (bind m k).
Proof.
  intros Hm Hk s. unfold bind. specialize (Hm s).
  destruct (m s) as [a s1 | st s1]; cbn [final] in *.
  - rewrite Hk. exact Hm.
  - exact Hm.
Qed.

Lemma ks_when (b : bool) (m : M unit) : keeps_Shutdown m -> keeps_Shutdown (when b m).
Proof. destruct b; cbn; [auto | intros _; apply ks_ret]. Qed.

Lemma ks_frame {A} R (m : M A) : keeps (frame R) m -> keeps_Shutdown m.
Proof.
  intros H s. specialize (H s). unfold wp in H.
  destruct (m s) as [a s1 | st s1]; [| destruct H].
  destruct H as (_ & H & _). exact H.
Qed.

Ltac ks_step :=
  lazymatch goal with
  | |- keeps_Shutdown (bind _ _) => apply ks_bind; [| intro]
  | |- keeps_Shutdown (ret _) => apply ks_ret
  | |- keeps_Shutdown (gets _) => apply ks_gets
  | |- keeps_Shutdown (ExitPostmaster _) => apply ks_exit
  | |- keeps_Shutdown (when _ _) => apply ks_when
  | |- keeps_Shutdown (modify _) => apply ks_modify; intro; reflexivity
  | |- keeps_Shutdown (emit _) => apply ks_modify; intro; reflexivity
  | |- keeps_Shutdown (set_flag _ _) => apply ks_modify; intro; reflexivity
  | |- keeps_Shutdown (set_pid _ _) => apply ks_modify; intro; reflexivity
  | |- keeps_Shutdown (set_pmState _) => apply ks_modify; intro; reflexivity
  | |- keeps_Shutdown (ask _ _) => let s := fresh in intro s; reflexivity
  | |- keeps_Shutdown (if ?b then _ else _) => destruct b
  | |- keeps_Shutdown (match ?x with _ => _ end) => destruct x
  | |- keeps_Shutdown (let _ := _ in _) => cbv zeta
  end.

Ltac ks_tac := repeat ks_step.

Section KeepsShutdown.

Variable env : Env.

Lemma CountChildren_ks t : keeps_Shutdown (CountChildren env t).
Proof. eapply ks_frame, CountChildren_quiet. Qed.

Lemma SignalSomeChildren_ks sg t : keeps_Shutdown (SignalSomeChildren env sg t).
Proof. eapply ks_frame, SignalSomeChildren_quiet. Qed.

Lemma SignalChildren_ks sg : keeps_Shutdown (SignalChildren env sg).
Proof. eapply ks_frame, SignalChildren_quiet. Qed.

Lemma signal_special_ks c sg : keeps_Shutdown (signal_special env c sg).
Proof. eapply ks_frame, signal_special_quiet. Qed.

Lemma signal_child_ks p sg : keeps_Shutdown (signal_child env p sg).
Proof. eapply ks_frame, signal_child_quiet. Qed.

Lemma TerminateChildren_ks sg : keeps_Shutdown (TerminateChildren env sg).
Proof. eapply ks_frame, TerminateChildren_quiet. Qed.

Lemma StartChildProcess_ks t : keeps_Shutdown (StartChildProcess env t).
Proof. unfold StartChildProcess. ks_tac. Qed.

Lemma start_special_ks c t : keeps_Shutdown (start_special env c t).
Proof. unfold start_special. ks_tac. apply StartChildProcess_ks. Qed.

Lemma PostmasterStateMachine_ks : keeps_Shutdown (PostmasterStateMachine env).
Proof.
  unfold PostmasterStateMachine, PSM_smart_shutdown, PSM_stop_backends,
    PSM_wait_backends, PSM_shutdown_2, PSM_wait_dead_end, PSM_no_children,
    PSM_exit_on_shutdown, PSM_exit_on_failure, PSM_crash_reinit,
    CreateSharedMemoryAndSemaphores, start_special_if_zero.
  ks_tac;
    first [ apply CountChildren_ks | apply SignalSomeChildren_ks
          | apply SignalChildren_ks | apply signal_special_ks
          | apply signal_child_ks | apply start_special_ks ].
Qed.

(** Processing a shutdown request records the more severe of the mode
    recorded and the mode requested. *)
Lemma process_pm_shutdown_request_records s mode s1 :
  pending_shutdown_mode s = Ret mode s1 ->
  Shutdown (final (process_pm_shutdown_request env s)) = Z.max (Shutdown s) mode.
Proof.
  intros H.
  destruct (Z_le_gt_dec mode (Shutdown s)) as [Hle | Hgt].
  - rewrite (shutdown_request_ignored env s mode s1 H Hle). cbn [final].
    destruct (pending_shutdown_mode_picks s) as (s1' & E & _ & (D & _)).
    rewrite E in H. injection H as _ <-. rewrite D. cbn. lia.
  - destruct (pending_shutdown_mode_picks s) as (s1' & E & _ & (D & _)).
    rewrite E in H. injection H as Hm <-.
    assert (Sh : Shutdown s1' = Shutdown s) by (rewrite D; reflexivity).
    unfold process_pm_shutdown_request, bind at 1. rewrite E.
    unfold bind at 1, gets. rewrite Sh.
    destruct (flag s pending_pm_immediate_shutdown_request);
      [| destruct (flag s pending_pm_fast_shutdown_request)];
      subst mode;
      unfold SmartShutdown, FastShutdown, ImmediateShutdown in *;
      cbn [Z.eqb Pos.eqb].
    all: match goal with
         | |- Shutdown (final ((if ?b then _ else _) _)) = _ =>
             replace b with false by (symmetry; rewrite Z.geb_leb; apply Z.leb_gt; lia)
         end.
    all: unfold bind at 1, modify at 1.
    all: match goal with
         | |- Shutdown (final (?K ?st)) = _ =>
             assert (HK : keeps_Shutdown K);
             [ ks_tac; first [ apply PostmasterStateMachine_ks
                             | apply TerminateChildren_ks ]
             | rewrite HK; cbn; lia ]
         end.
Qed.

End KeepsShutdown.

(** C4: over the life of the postmaster the recorded shutdown mode never
    decreases, whatever arrives after any run; the signals latched since
    the last processing are resolved to the most severe of them
    (Immediate over Fast over Smart); processing records the more severe
    of the mode already recorded and the mode requested; and a request
    that is not more severe than the recorded mode returns at once,
    having changed nothing but the latches it consumed. *)
Theorem C4_shutdown_mode_only_rises env :
  (forall c workers l l',
      Shutdown (final (run env l (PM_initial c workers)))
      <= Shutdown (final (run env (l ++ l') (PM_initial c workers))))
  /\ (forall sigs s,
        nothing_latched s -> 0 < most_severe sigs ->
        exists s1 s2,
          steps env (map InSignal sigs) s = Ret tt s1
          /\ flag s1 pending_pm_shutdown_request = true
          /\ pending_shutdown_mode s1 = Ret (most_severe sigs) s2
          /\ nothing_latched s2)
  /\ (forall s mode s1,
        pending_shutdown_mode s = Ret mode s1 ->
        Shutdown (final (process_pm_shutdown_request env s))
        = Z.max (Shutdown s) mode)
  /\ (forall s mode s1,
        pending_shutdown_mode s = Ret mode s1 -> mode <= Shutdown s ->
        process_pm_shutdown_request env s = Ret tt s1
        /\ only_latches_differ s s1).
Proof.
  split; [| split; [| split]].
  - intros c workers l l'. rewrite run_app.
    pose proof (run_Inv env c workers l) as H.
    unfold wp, loop_post, exit_post in H.
    destruct (run env l (PM_initial c workers)) as [[] s1 | st s1]; cbn [final].
    + destruct H as [HI HS]. eapply steps_Shutdown_mono; eauto.
    + lia.
  - intros sigs s (L1 & L2 & L3) Hpos.
    destruct (signals_latched env sigs s) as (s1 & E & F1 & F2 & F3).
    destruct (pending_shutdown_mode_picks s1) as (s2 & P & N & _).
    exists s1, s2. split; [exact E |]. split; [| split; [| exact N]].
    + rewrite F1, L1. cbn [orb]. apply Z.ltb_lt. exact Hpos.
    + rewrite P, F2, F3, L2, L3. cbn [orb]. f_equal.
      rewrite (most_severe_cases sigs) in *.
      destruct (existsb (Signal_eqb SIGQUIT) sigs); auto.
      destruct (existsb (Signal_eqb SIGINT) sigs); auto.
      destruct (existsb (Signal_eqb SIGTERM) sigs); auto.
      unfold NoShutdown in Hpos. lia.
  - intros s mode s1. apply process_pm_shutdown_request_records.
  - intros s mode s1 H Hle. split.
    + eapply shutdown_request_ignored; eauto.
    + destruct (pending_shutdown_mode_picks s) as (s1' & E & _ & D).
      rewrite E in H. injection H as _ <-. exact D.
Qed.

Lemma C4_shutdown_mode_only_rises_witness :
  exists s1 s2,
    steps linux_env (map InSignal [SIGTERM; SIGQUIT; SIGINT])
          (PM_initial default_config []) = Ret tt s1
    /\ flag s1 pending_pm_shutdown_request = true
    /\ pending_shutdown_mode s1 = Ret ImmediateShutdown s2
    /\ nothing_latched s2.
Proof.
  apply (proj1 (proj2 (C4_shutdown_mode_only_rises linux_env))
           [SIGTERM; SIGQUIT; SIGINT] (PM_initial default_config [])).
  - repeat split.
  - reflexivity.
Defined.


(** ** Admission of connections *)

Lemma CountChildren_loop_all ws l :
  CountChildren_loop ws BACKEND_TYPE_ALL l = (l, live_children l).
Proof.
  unfold live_children.
  induction l as [| bp rest IH]; [reflexivity |].
  cbn [CountChildren_loop filter]. rewrite IH. cbn [fst snd].
  destruct (dead_end bp); cbn [negb length]; [reflexivity |].
  change (BACKEND_TYPE_ALL =? BACKEND_TYPE_ALL) with true. cbn [negb].
  f_equal. lia.
Qed.

Lemma MaxLivePostmasterChildren_exact c :
  guc_in_range c -> MaxLivePostmasterChildren c = admission_ceiling c.
Proof.
  intros (H1 & H2 & H3 & H4).
  unfold MaxLivePostmasterChildren, admission_ceiling, int_mul, int_add, wrap32.
  repeat match goal with
         | |- context [(?x + 2147483648) mod 4294967296] =>
             rewrite (Z.mod_small (x + 2147483648) 4294967296) by lia
         end.
  lia.
Qed.

Lemma put_BackendList_same s : put_BackendList (BackendList s) s = s.
Proof. destruct s; reflexivity. Qed.

(** What [canAcceptConnections] returns, and the state it leaves: only
    the call counter may have moved. *)
Lemma canAcceptConnections_run env backend_type s :
  exists k,
    canAcceptConnections env backend_type s
    = Ret (admission_with (MaxLivePostmasterChildren (cfg s)) backend_type s)
          (put_clk k s).
Proof.
  unfold canAcceptConnections, admission_with, bind, gets, ret.
  rewrite negb_orb.
  destruct (negb (PMState_eqb (pmState s) PM_RUN)
            && negb (PMState_eqb (pmState s) PM_HOT_STANDBY)
            && negb (backend_type =? BACKEND_TYPE_BGWORKER)) eqn:E1.
  - exists (clk s). replace (put_clk (clk s) s) with s by (destruct s; reflexivity).
    rewrite Z.gtb_ltb. unfold NoShutdown.
    destruct (0 <? Shutdown s); [reflexivity |].
    rewrite (andb_comm (negb (flag s FatalError))).
    destruct (PMState_eqb (pmState s) PM_STARTUP && negb (flag s FatalError));
      [reflexivity |].
    rewrite (andb_comm (negb (flag s FatalError))).
    destruct (PMState_eqb (pmState s) PM_RECOVERY && negb (flag s FatalError));
      reflexivity.
  - rewrite (andb_comm (negb (flag s connsAllowed))).
    destruct ((backend_type =? BACKEND_TYPE_NORMAL) && negb (flag s connsAllowed)).
    + exists (clk s). replace (put_clk (clk s) s) with s by (destruct s; reflexivity).
      reflexivity.
    + exists (S (clk s)).
      unfold CountChildren, bind, ask, gets, modify, ret.
      cbn [BackendList put_clk]. rewrite CountChildren_loop_all.
      cbn [fst snd cfg put_BackendList put_clk].
      rewrite Z.geb_leb.
      replace (put_BackendList (BackendList s) (put_clk (S (clk s)) s))
        with (put_clk (S (clk s)) s) by (destruct s; reflexivity).
      destruct (MaxLivePostmasterChildren (cfg s) <=? live_children (BackendList s));
        reflexivity.
Qed.

(** C3: [canAcceptConnections] returns, and what it returns is the
    admission of the spec: for a request that is not a bgworker's, made
    while the state is neither Run nor HotStandby, the rejection by kind
    (shutdown when a shutdown is pending, startup in Startup without
    FatalError, not-consistent in Recovery without FatalError, recovery
    otherwise); else, for a normal session while connections are
    disallowed, shutdown; else too-many when the children that are not
    dead-end are at least 2*(MaxConnections + autovacuum_max_workers +
    max_wal_senders + max_worker_processes + 1); else OK.  The settings
    are taken in their range, where the [int] arithmetic of
    [MaxLivePostmasterChildren] is exact. *)
Theorem C3_canAcceptConnections_admission env backend_type s :
  guc_in_range (cfg s) ->
  exists s',
    canAcceptConnections env backend_type s
    = Ret (spec_admission backend_type s) s'.
Proof.
  intro G. destruct (canAcceptConnections_run env backend_type s) as (k & E).
  exists (put_clk k s). rewrite E. unfold spec_admission.
  rewrite (MaxLivePostmasterChildren_exact _ G). reflexivity.
Qed.

Lemma C3_canAcceptConnections_admission_witness :
  exists s',
    canAcceptConnections linux_env BACKEND_TYPE_NORMAL (PM_initial default_config [])
    = Ret CAC_RECOVERY s'.
Proof.
  apply (C3_canAcceptConnections_admission linux_env BACKEND_TYPE_NORMAL
           (PM_initial default_config [])).
  unfold guc_in_range. cbn. lia.
Defined.

(** ** Cancel requests *)

Lemma signal_child_run env p sg s :
  signal_child env p sg s
  = Ret tt (put_trace ((if HAVE_SETSID env && group_signal sg
                        then [Kill (- p) sg] else [])
                       ++ Kill p sg :: trace s) s).
Proof.
  unfold signal_child, bind, emit, modify, when.
  destruct (HAVE_SETSID env && group_signal sg); reflexivity.
Qed.

Lemma put_trace_same s : put_trace (trace s) s = s.
Proof. destruct s; reflexivity. Qed.

Lemma processCancelRequest_loop_find env p key l s :
  processCancelRequest_loop env p key l s
  = match find (fun b => pid b =? p) l with
    | None => Ret false s
    | Some bp =>
        if cancel_key bp =? key then
          Ret true (put_trace ((if HAVE_SETSID env then [Kill (- p) SIGINT] else [])
                               ++ [Kill p SIGINT; Log (DEBUG2_sending_SIGINT p)]
                               ++ trace s) s)
        else Ret true (put_trace (Log (LOG_wrong_key p) :: trace s) s)
    end.
Proof.
  induction l as [| bp rest IH]; cbn [processCancelRequest_loop find];
    [reflexivity |].
  destruct (pid bp =? p) eqn:E; [| exact IH].
  apply Z.eqb_eq in E. unfold bind.
  destruct (cancel_key bp =? key).
  - unfold emit, modify. rewrite signal_child_run, E. cbn [group_signal trace put_trace].
    rewrite andb_true_r. unfold ret.
    destruct (HAVE_SETSID env); reflexivity.
  - reflexivity.
Qed.

Lemma find_unique_pid (l : list Backend) bp p :
  NoDup (map pid l) -> In bp l -> pid bp = p ->
  find (fun b => pid b =? p) l = Some bp.
Proof.
  induction l as [| b rest IH]; intros ND Hin Hp; [destruct Hin |].
  cbn [map] in ND. inversion ND as [| x xs Hnot ND' ]; subst x xs.
  cbn [find]. destruct Hin as [-> | Hin].
  - rewrite Hp, Z.eqb_refl. reflexivity.
  - destruct (pid b =? p) eqn:E.
    + apply Z.eqb_eq in E. exfalso. apply Hnot.
      rewrite E, <- Hp. apply in_map. exact Hin.
    + apply IH; auto.
Qed.

Lemma find_none_pid (l : list Backend) p :
  (forall bp, In bp l -> pid bp <> p) -> find (fun b => pid b =? p) l = None.
Proof.
  induction l as [| b rest IH]; intro H; [reflexivity |].
  cbn [find]. destruct (pid b =? p) eqn:E.
  - apply Z.eqb_eq in E. exfalso. apply (H b); [left; reflexivity | exact E].
  - apply IH. intros bp Hin. apply H. right. exact Hin.
Qed.

Lemma first_of_nodup_pid (l : list Backend) p :
  NoDup (map pid l) ->
  forall bp, In bp l -> pid bp = p ->
  exists before after,
    l = before ++ bp :: after /\ forall b, In b before -> pid b <> p.
Proof.
  intros ND bp Hin Hp.
  destruct (in_split _ _ Hin) as (before & after & E).
  exists before, after. split; [exact E |].
  intros b Hb Hpb. subst l. rewrite map_app in ND. cbn [map] in ND.
  apply NoDup_remove_2 in ND. apply ND. apply in_or_app. left.
  rewrite Hp, <- Hpb. apply in_map. exact Hb.
Qed.

Lemma find_first_pid (l : list Backend) before bp after p :
  l = before ++ bp :: after ->
  (forall b, In b before -> pid b <> p) -> pid bp = p ->
  find (fun b => pid b =? p) l = Some bp.
Proof.
  intros -> H Hp. induction before as [| b rest IH]; cbn [app find].
  - rewrite Hp, Z.eqb_refl. reflexivity.
  - destruct (pid b =? p) eqn:E.
    + apply Z.eqb_eq in E. destruct (H b); [left; reflexivity | exact E].
    + apply IH. intros b' Hin. apply H. right. exact Hin.
Qed.

(** C5: a cancel request for the process id [backendPID] with the token
    [cancelAuthCode], whatever the two numbers are, returns having changed
    nothing but the trace, and the first entry of the registry with that
    pid decides what is added to it.  If that entry's cancel key is the
    token, [signal_child(pid, SIGINT)] is called once: that is one
    [kill(pid, SIGINT)] and, where the build has [setsid], a second
    [kill(-pid, SIGINT)] for the process group, so two calls of [kill] and
    not exactly one; nothing else is sent.  If the key differs, nothing is
    sent and the wrong key is logged.  If no entry has that pid, nothing is
    sent and the request is logged as matching no process.  Where no two
    entries share a pid, the first entry with the pid is the only one. *)
Theorem C5_processCancelRequest env backendPID cancelAuthCode s :
  exists new,
    processCancelRequest env backendPID cancelAuthCode s
    = Ret tt (put_trace (new ++ trace s) s)
    /\ (forall before bp after,
          BackendList s = before ++ bp :: after ->
          (forall b, In b before -> pid b <> backendPID) ->
          pid bp = backendPID ->
          (cancel_key bp = cancelAuthCode ->
           new = (if HAVE_SETSID env then [Kill (- backendPID) SIGINT] else [])
                 ++ [Kill backendPID SIGINT;
                     Log (DEBUG2_sending_SIGINT backendPID)]
           /\ kills new
              = (backendPID, SIGINT)
                :: (if HAVE_SETSID env then [(- backendPID, SIGINT)] else [])
           /\ Z.of_nat (length (kills new))
              = (if HAVE_SETSID env then 2 else 1))
          /\ (cancel_key bp <> cancelAuthCode ->
              new = [Log (LOG_wrong_key backendPID)] /\ kills new = []))
    /\ ((forall bp, In bp (BackendList s) -> pid bp <> backendPID) ->
        new = [Log (LOG_no_match backendPID)] /\ kills new = [])
    /\ (NoDup (map pid (BackendList s)) ->
        forall bp,
          In bp (BackendList s) -> pid bp = backendPID ->
          exists before after,
            BackendList s = before ++ bp :: after
            /\ forall b, In b before -> pid b <> backendPID).
Proof.
  unfold processCancelRequest, bind, gets.
  rewrite processCancelRequest_loop_find.
  destruct (find (fun b => pid b =? backendPID) (BackendList s)) as [bp0 |] eqn:F.
  - assert (U : forall before bp after,
               BackendList s = before ++ bp :: after ->
               (forall b, In b before -> pid b <> backendPID) ->
               pid bp = backendPID -> bp = bp0).
    { intros before bp after E H Hp.
      pose proof (find_first_pid _ _ _ _ _ E H Hp) as F'. congruence. }
    assert (N : ~ (forall bp, In bp (BackendList s) -> pid bp <> backendPID)).
    { intro H. rewrite (find_none_pid _ _ H) in F. discriminate. }
    destruct (cancel_key bp0 =? cancelAuthCode) eqn:K.
    + apply Z.eqb_eq in K. eexists. split; [| split; [| split]].
      * cbn [negb when ret]. rewrite app_assoc. reflexivity.
      * intros before bp after E H Hp. rewrite (U _ _ _ E H Hp).
        split; [| congruence].
        intros _. split; [reflexivity |].
        destruct (HAVE_SETSID env); split; reflexivity.
      * intro H. destruct (N H).
      * apply first_of_nodup_pid.
    + apply Z.eqb_neq in K. exists [Log (LOG_wrong_key backendPID)].
      split; [reflexivity | split; [| split]].
      * intros before bp after E H Hp. rewrite (U _ _ _ E H Hp).
        split; [congruence | split; reflexivity].
      * intro H. destruct (N H).
      * apply first_of_nodup_pid.
  - exists [Log (LOG_no_match backendPID)].
    split; [reflexivity | split; [| split]].
    + intros before bp after E H Hp. exfalso.
      rewrite (find_first_pid _ _ _ _ _ E H Hp) in F. discriminate.
    + split; reflexivity.
    + apply first_of_nodup_pid.
Qed.

(** C5, the case the spec's sentence leaves out: on a build with [setsid]
    a cancel request with the right pid and token makes two calls of
    [kill], one for the pid and one for its process group. *)
Lemma C5_counterexample_two_kills :
  HAVE_SETSID linux_env = true
  /\ In (mkBackend 4242 99 1 BACKEND_TYPE_NORMAL false false 0)
        (BackendList
           (put_BackendList [mkBackend 4242 99 1 BACKEND_TYPE_NORMAL false false 0]
                            (PM_initial default_config [])))
  /\ kills
       (trace
          (final
             (processCancelRequest linux_env 4242 99
                (put_BackendList
                   [mkBackend 4242 99 1 BACKEND_TYPE_NORMAL false false 0]
                   (PM_initial default_config [])))))
     = [(4242, SIGINT); (-4242, SIGINT)]
  /\ count_effects
       (fun e => match e with Kill _ _ => true | _ => false end)
       (trace
          (final
             (processCancelRequest linux_env 4242 99
                (put_BackendList
                   [mkBackend 4242 99 1 BACKEND_TYPE_NORMAL false false 0]
                   (PM_initial default_config [])))))
     = 2.
Proof. repeat split; vm_compute; auto. Qed.

(** ** The end of the state machine *)

Lemma StartupStatus_eqb_eq a b : StartupStatus_eqb a b = true <-> a = b.
Proof. destruct a, b; cbn; split; congruence. Qed.

Ltac c7_norm :=
  repeat first
    [ progress cbv beta iota
    | progress cbn [PMState_eqb PMState_rank Z.eqb Pos.eqb andb negb]
    | match goal with H : _ = _ |- _ => progress rewrite H end ].

(** C7: what [PostmasterStateMachine] does last, once [pmState] is
    NoChildren.  With a shutdown requested the postmaster exits, with
    status 1 if FatalError is set and 0 if not.  Without one, it exits
    with status 1 if the startup process had crashed or
    restart_after_crash is off, and nothing is re-created or launched.
    Otherwise, with FatalError set, it re-creates shared memory and
    launches the startup process: it then is in Startup with that child
    recorded, its crash deadline cleared; should the launch itself fail
    it exits with status 1.  Without FatalError nothing happens. *)
Theorem C7_no_children_exit_or_reinit env s :
  pmState s = PM_NO_CHILDREN ->
  (0 < Shutdown s ->
   PSM_no_children env s = Exit (if flag s FatalError then 1 else 0) s)
  /\ (Shutdown s <= 0 ->
      StartupStatus s = STARTUP_CRASHED \/ restart_after_crash (cfg s) = false ->
      PSM_no_children env s = Exit 1 s)
  /\ (Shutdown s <= 0 ->
      StartupStatus s <> STARTUP_CRASHED -> restart_after_crash (cfg s) = true ->
      flag s FatalError = true ->
      let p := postmaster_child_launch env (S (clk s)) B_STARTUP in
      let created :=
        ShmemCreate (mkShmemContext PM_NO_CHILDREN true (Shutdown s) true
                                    (tracked_children s)) in
      exists s',
        (if p <? 0
         then PSM_no_children env s = Exit 1 s'
              /\ trace s' = created :: trace s
         else PSM_no_children env s = Ret tt s'
              /\ pmState s' = PM_STARTUP
              /\ pidv s' StartupPID = p
              /\ StartupStatus s' = STARTUP_RUNNING
              /\ AbortStartTime s' = 0
              /\ trace s' = Transition PM_NO_CHILDREN PM_STARTUP :: created :: trace s)
        /\ Shutdown s' = Shutdown s /\ flag s' = flag s)
  /\ (Shutdown s <= 0 ->
      StartupStatus s <> STARTUP_CRASHED -> restart_after_crash (cfg s) = true ->
      flag s FatalError = false ->
      PSM_no_children env s = Ret tt s).
Proof.
  intro St.
  assert (N : forall z, z <= 0 -> (z >? NoShutdown) = false).
  { intros z Hz. unfold NoShutdown. rewrite Z.gtb_ltb. apply Z.ltb_ge. exact Hz. }
  assert (P : forall z, 0 < z -> (z >? NoShutdown) = true).
  { intros z Hz. unfold NoShutdown. rewrite Z.gtb_ltb. apply Z.ltb_lt. exact Hz. }
  unfold PSM_no_children, PSM_exit_on_shutdown, PSM_exit_on_failure,
    PSM_crash_reinit, bind, gets, ret, ExitPostmaster, when.
  split; [| split; [| split]].
  - intro H. apply P in H. c7_norm. destruct (flag s FatalError); reflexivity.
  - intros H [C | R]; apply N in H; c7_norm; try reflexivity.
    destruct (StartupStatus_eqb (StartupStatus s) STARTUP_CRASHED); reflexivity.
  - intros H C R F. cbv zeta. apply N in H.
    destruct (StartupStatus_eqb (StartupStatus s) STARTUP_CRASHED) eqn:E;
      [apply StartupStatus_eqb_eq in E; contradiction |].
    c7_norm.
    unfold CreateSharedMemoryAndSemaphores, start_special, StartChildProcess,
      set_pmState, set_pid, emit, bind, ask, gets, modify, ExitPostmaster, ret.
    pm_cbn. c7_norm.
    destruct (postmaster_child_launch env (S (clk s)) B_STARTUP <? 0);
      eexists; (split; [repeat split | split; reflexivity]).
    pm_cbn. rewrite St. reflexivity.
  - intros H C R F. apply N in H.
    destruct (StartupStatus_eqb (StartupStatus s) STARTUP_CRASHED) eqn:E;
      [apply StartupStatus_eqb_eq in E; contradiction |].
    c7_norm. reflexivity.
Qed.

Lemma C7_no_children_exit_or_reinit_witness :
  PSM_no_children linux_env
    (put_pmState PM_NO_CHILDREN (put_Shutdown FastShutdown (PM_initial default_config [])))
  = Exit 0 (put_pmState PM_NO_CHILDREN
              (put_Shutdown FastShutdown (PM_initial default_config []))).
Proof.
  apply (proj1 (C7_no_children_exit_or_reinit linux_env
                  (put_pmState PM_NO_CHILDREN
                     (put_Shutdown FastShutdown (PM_initial default_config [])))
                  eq_refl)).
  reflexivity.
Defined.


(** ** Dead-end children *)

Lemma live_children_filter l :
  live_children (filter (fun b => negb (dead_end b)) l) = live_children l.
Proof.
  unfold live_children. f_equal. f_equal.
  induction l as [| b r IH]; [reflexivity |].
  cbn [filter]. destruct (negb (dead_end b)) eqn:E; cbn [filter]; rewrite ?E, IH;
    reflexivity.
Qed.

Lemma CountChildren_loop_live ws target l :
  snd (CountChildren_loop ws target (filter (fun b => negb (dead_end b)) l))
  = snd (CountChildren_loop ws target l).
Proof.
  induction l as [| bp r IH]; [reflexivity |].
  cbn [filter CountChildren_loop].
  destruct (dead_end bp) eqn:D; cbn [negb snd].
  - exact IH.
  - cbn [CountChildren_loop]. rewrite D.
    destruct (negb (target =? BACKEND_TYPE_ALL)).
    + destruct (Z.land target (bkend_type (relabel_walsender ws bp)) =? 0);
        cbn [snd]; rewrite IH; reflexivity.
    + cbn [snd]. rewrite IH. reflexivity.
Qed.

(** The loop of [SignalSomeChildren] on a list and on its live part: the
    same signals, the same result. *)
Lemma SignalSomeChildren_loop_live env ws sg target l :
  forall signaled s,
  exists l1 b tr,
    SignalSomeChildren_loop env ws sg target l signaled s
    = Ret (l1, b) (put_trace tr s)
    /\ forall s2,
         trace s2 = trace s ->
         exists l2,
           SignalSomeChildren_loop env ws sg target
             (filter (fun b => negb (dead_end b)) l) signaled s2
           = Ret (l2, b) (put_trace tr s2).
Proof.
  induction l as [| bp r IH]; intros signaled s.
  - exists [], signaled, (trace s). split.
    + cbn. unfold ret. rewrite put_trace_same. reflexivity.
    + intros s2 E. exists []. cbn. unfold ret. rewrite <- E, put_trace_same.
      reflexivity.
  - cbn [SignalSomeChildren_loop filter].
    destruct (dead_end bp) eqn:D; cbn [negb].
    + destruct (IH signaled s) as (l1 & b & tr & E1 & E2).
      exists (bp :: l1), b, tr. split.
      * unfold bind. rewrite E1. reflexivity.
      * exact E2.
    + cbn [SignalSomeChildren_loop]. rewrite D.
      assert (SIG : forall q signaled',
                 exists l1 b tr,
                   (signal_child env (pid q) sg ;;
                    r0 <- SignalSomeChildren_loop env ws sg target r signaled' ;;
                    ret (q :: fst r0, snd r0)) s
                   = Ret (l1, b) (put_trace tr s)
                   /\ forall s2,
                        trace s2 = trace s ->
                        exists l2,
                          (signal_child env (pid q) sg ;;
                           r0 <- SignalSomeChildren_loop env ws sg target
                                   (filter (fun b => negb (dead_end b)) r) signaled' ;;
                           ret (q :: fst r0, snd r0)) s2
                          = Ret (l2, b) (put_trace tr s2)).
      { intros q signaled'. unfold bind at 1 3. rewrite signal_child_run.
        destruct (IH signaled'
                    (put_trace ((if HAVE_SETSID env && group_signal sg
                                 then [Kill (- pid q) sg] else [])
                                ++ Kill (pid q) sg :: trace s) s))
          as (l1 & b & tr & E1 & E2).
        exists (q :: l1), b, tr. split.
        - unfold bind. rewrite E1. reflexivity.
        - intros s2 E. unfold bind at 1. rewrite signal_child_run.
          destruct (E2 (put_trace ((if HAVE_SETSID env && group_signal sg
                                    then [Kill (- pid q) sg] else [])
                                   ++ Kill (pid q) sg :: trace s2) s2))
            as (l2 & E3).
          { cbn [trace put_trace]. rewrite E. reflexivity. }
          exists (q :: l2). unfold bind. rewrite E3. reflexivity. }
      assert (SKIP : forall q,
                 exists l1 b tr,
                   (r0 <- SignalSomeChildren_loop env ws sg target r signaled ;;
                    ret (q :: fst r0, snd r0)) s
                   = Ret (l1, b) (put_trace tr s)
                   /\ forall s2,
                        trace s2 = trace s ->
                        exists l2,
                          (r0 <- SignalSomeChildren_loop env ws sg target
                                   (filter (fun b => negb (dead_end b)) r) signaled ;;
                           ret (q :: fst r0, snd r0)) s2
                          = Ret (l2, b) (put_trace tr s2)).
      { intros q. destruct (IH signaled s) as (l1 & b & tr & E1 & E2).
        exists (q :: l1), b, tr. split.
        - unfold bind. rewrite E1. reflexivity.
        - intros s2 E. destruct (E2 s2 E) as (l2 & E3).
          exists (q :: l2). unfold bind. rewrite E3. reflexivity. }
      destruct (negb (target =? BACKEND_TYPE_ALL)).
      * cbv zeta.
        destruct (Z.land target (bkend_type (relabel_walsender ws bp)) =? 0).
        -- apply SKIP.
        -- apply SIG.
      * apply SIG.
Qed.

Lemma SignalSomeChildren_live env sg target s :
  exists b sA l2,
    SignalSomeChildren env sg target s = Ret b sA
    /\ SignalSomeChildren env sg target (without_dead_end s)
       = Ret b (put_BackendList l2 sA).
Proof.
  unfold SignalSomeChildren, without_dead_end, bind, ask, gets, modify, ret.
  cbn [clk put_clk put_BackendList BackendList].
  destruct (SignalSomeChildren_loop_live env
              (IsPostmasterChildWalSender env (clk s)) sg target
              (BackendList s) false (put_clk (S (clk s)) s))
    as (l1 & b & tr & E1 & E2).
  rewrite E1.
  destruct (E2 (put_clk (S (clk s))
                  (put_BackendList
                     (filter (fun b => negb (dead_end b)) (BackendList s)) s)))
    as (l2 & E3); [reflexivity |].
  rewrite E3. cbn [fst snd].
  exists b. eexists. exists l2. split; reflexivity.
Qed.

(** *** Computations that do not look at the registry *)

Lemma ib_ret {A} (a : A) : ignores_backends (ret a).
Proof. intros l s. reflexivity. Qed.

Lemma ib_gets {A} (f : PM -> A) :
  (forall l s, f (put_BackendList l s) = f s) -> ignores_backends (gets f).
Proof. intros H l s. unfold gets. rewrite H. reflexivity. Qed.

Lemma ib_modify (f : PM -> PM) :
  (forall l s, f (put_BackendList l s) = put_BackendList l (f s)) ->
  ignores_backends (modify f).
Proof. intros H l s. unfold modify. rewrite H. reflexivity. Qed.

Lemma ib_bind {A B} (m : M A) (k : A -> M B) :
  ignores_backends m -> (forall a, ignores_backends (k a)) ->
  ignores_backends (bind m k).
Proof.
  intros Hm Hk l s. unfold bind. rewrite Hm.
  destruct (m s) as [a s1 | st s1]; cbn [on_state]; [apply Hk | reflexivity].
Qed.

Lemma ib_when (b : bool) (m : M unit) :
  ignores_backends m -> ignores_backends (when b m).
Proof. destruct b; cbn; [auto | intros _; apply ib_ret]. Qed.

Lemma ib_signal_child env p sg : ignores_backends (signal_child env p sg).
Proof. intros l s. rewrite !signal_child_run. reflexivity. Qed.

Lemma ib_signal_special env c sg : ignores_backends (signal_special env c sg).
Proof.
  unfold signal_special. apply ib_bind.
  - apply ib_gets. reflexivity.
  - intro p. apply ib_when, ib_signal_child.
Qed.

Lemma bind_Ret {A B} (m : M A) (k : A -> M B) s a s1 :
  m s = Ret a s1 -> bind m k s = k a s1.
Proof. intro E. unfold bind. rewrite E. reflexivity. Qed.

Lemma TerminateChildren_live env sg s :
  trace (final (TerminateChildren env sg s))
  = trace (final (TerminateChildren env sg (without_dead_end s))).
Proof.
  unfold TerminateChildren, SignalChildren.
  destruct (SignalSomeChildren_live env sg BACKEND_TYPE_ALL s)
    as (b & sA & l2 & E1 & E2).
  rewrite (bind_Ret _ _ _ _ _ E1), (bind_Ret _ _ _ _ _ E2).
  match goal with
  | |- trace (final (?K sA)) = _ =>
      assert (HK : ignores_backends K)
  end.
  { repeat first [ apply ib_bind; [| intro] | apply ib_signal_special
                 | apply ib_when | apply ib_signal_child
                 | apply ib_gets; reflexivity | apply ib_modify; reflexivity ]. }
  rewrite HK.
  match goal with
  | |- _ = trace (final (on_state _ ?r)) => destruct r; reflexivity
  end.
Qed.

Lemma BackendStartup_run env s :
  exists v s',
    BackendStartup env s = Ret v s'
    /\ ((v = STATUS_ERROR /\ BackendList s' = BackendList s)
        \/ (v = STATUS_OK
            /\ exists bn cac,
                 BackendList s' = bn :: BackendList s
                 /\ outcome (canAcceptConnections env BACKEND_TYPE_NORMAL s) = Some cac
                 /\ dead_end bn = negb (is_CAC_OK cac)
                 /\ bkend_type bn = BACKEND_TYPE_NORMAL
                 /\ pg_strong_random env (S (clk s)) = Some (cancel_key bn)
                 /\ (dead_end bn = true -> child_slot bn = 0)
                 /\ (dead_end bn = false ->
                     exists k, child_slot bn = AssignPostmasterChildSlot env k))).
Proof.
  unfold BackendStartup, bind at 1, ask at 1.
  destruct (palloc_extended env (clk s)); cbn [negb];
    [| eexists; eexists; split; [reflexivity | left; split; reflexivity]].
  unfold bind at 1, alloc. unfold bind at 1, RandomCancelKey, ask at 1.
  cbn [clk put_clk put_next_addr].
  destruct (pg_strong_random env (S (clk s))) as [key |] eqn:RK;
    [| eexists; eexists; split; [reflexivity | left; split; reflexivity]].
  destruct (canAcceptConnections_run env BACKEND_TYPE_NORMAL s) as (k0 & E0).
  match goal with
  | |- context [bind (canAcceptConnections env BACKEND_TYPE_NORMAL) _ ?st] =>
      destruct (canAcceptConnections_run env BACKEND_TYPE_NORMAL st) as (k & E);
      rewrite (bind_Ret _ _ _ _ _ E)
  end.
  cbn [cfg put_clk put_next_addr].
  change (admission_with _ BACKEND_TYPE_NORMAL
            (put_clk _ (put_next_addr _ (put_clk _ s))))
    with (admission_with (MaxLivePostmasterChildren (cfg s)) BACKEND_TYPE_NORMAL s).
  set (cac := admission_with (MaxLivePostmasterChildren (cfg s)) BACKEND_TYPE_NORMAL s)
    in *.
  destruct (is_CAC_OK cac) eqn:OK; cbn [negb].
  - unfold bind at 1, ask at 1. unfold bind at 1, ask at 1.
    cbn [clk put_clk].
    match goal with
    | |- context [if ?c then _ else _] => destruct c
    end.
    + eexists; eexists; split; [reflexivity | left; split; reflexivity].
    + eexists; eexists; split; [reflexivity |]. right. split; [reflexivity |].
      eexists; exists cac. cbn [BackendList put_BackendList put_clk put_next_addr
                                dead_end bkend_type cancel_key child_slot].
      rewrite E0, OK. repeat split; try discriminate.
      intros _. eexists. reflexivity.
  - unfold bind at 1, ret at 1. unfold bind at 1, ask at 1.
    cbn [clk put_clk].
    match goal with
    | |- context [if ?c then _ else _] => destruct c
    end.
    + eexists; eexists; split; [reflexivity | left; split; reflexivity].
    + eexists; eexists; split; [reflexivity |]. right. split; [reflexivity |].
      eexists; exists cac. cbn [BackendList put_BackendList put_clk put_next_addr
                                dead_end bkend_type cancel_key child_slot].
      rewrite E0, OK. repeat split; try discriminate.
Qed.

(** [BackendStartup], step by step: the state [s2] is the one in which
    admission is asked, [k] the call counter after that. *)
Lemma BackendStartup_exact env s :
  let s2 := put_clk (S (S (clk s)))
              (put_next_addr (S (next_addr s)) (put_clk (S (clk s)) s)) in
  let cac := admission_with (MaxLivePostmasterChildren (cfg s))
               BACKEND_TYPE_NORMAL s in
  let dead := negb (is_CAC_OK cac) in
  let k := clk (final (canAcceptConnections env BACKEND_TYPE_NORMAL s2)) in
  let slot := if dead then 0 else AssignPostmasterChildSlot env k in
  let kf := if dead then k else S k in
  let p := postmaster_child_launch env kf B_BACKEND in
  outcome (canAcceptConnections env BACKEND_TYPE_NORMAL s2) = Some cac
  /\ BackendStartup env s
     = if negb (palloc_extended env (clk s))
       then Ret STATUS_ERROR (put_clk (S (clk s)) s)
       else match pg_strong_random env (S (clk s)) with
            | None => Ret STATUS_ERROR s2
            | Some key =>
                if p <? 0 then Ret STATUS_ERROR (put_clk (S kf) s2)
                else Ret STATUS_OK
                       (put_BackendList
                          (mkBackend p key slot BACKEND_TYPE_NORMAL dead false
                                     (next_addr s)
                           :: BackendList s)
                          (put_clk (S kf) s2))
            end.
Proof.
  cbv zeta.
  set (s2 := put_clk (S (S (clk s)))
               (put_next_addr (S (next_addr s)) (put_clk (S (clk s)) s))).
  destruct (canAcceptConnections_run env BACKEND_TYPE_NORMAL s2) as (k & E).
  rewrite E. cbn [final outcome clk put_clk].
  change (admission_with (MaxLivePostmasterChildren (cfg s2)) BACKEND_TYPE_NORMAL s2)
    with (admission_with (MaxLivePostmasterChildren (cfg s)) BACKEND_TYPE_NORMAL s)
    in *.
  split; [reflexivity |].
  unfold BackendStartup, bind at 1, ask at 1.
  destruct (palloc_extended env (clk s)); cbn [negb]; [| reflexivity].
  unfold bind at 1, alloc. unfold bind at 1, RandomCancelKey, ask at 1.
  cbn [clk put_clk put_next_addr].
  destruct (pg_strong_random env (S (clk s))) as [key |]; [| reflexivity].
  fold s2. rewrite (bind_Ret _ _ _ _ _ E).
  set (cac := admission_with (MaxLivePostmasterChildren (cfg s)) BACKEND_TYPE_NORMAL s)
    in *.
  destruct (is_CAC_OK cac); cbn [negb].
  - unfold bind at 1, ask at 1. unfold bind at 1, ask at 1.
    cbn [clk put_clk].
    match goal with
    | |- context [if ?c then _ else _] => destruct c
    end; [destruct s; reflexivity |].
    unfold bind, push_head, modify, ret. destruct s; reflexivity.
  - unfold bind at 1, ret at 1. unfold bind at 1, ask at 1.
    cbn [clk put_clk].
    match goal with
    | |- context [if ?c then _ else _] => destruct c
    end; [destruct s; reflexivity |].
    unfold bind, push_head, modify, ret. destruct s; reflexivity.
Qed.

(** C10: [BackendStartup] returns, and what it returns and records is
    fixed by four answers: it returns [STATUS_ERROR] and records nothing
    where no memory is had, no random key is had, or the fork fails; in
    every other case it returns [STATUS_OK] and puts at the head of the
    registry one entry with the pid of the fork, the random key drawn in
    this call, type normal, and the dead-end mark set exactly when
    admission was refused.  A dead-end entry has child slot 0 and no slot
    is asked for; a live one has the slot [AssignPostmasterChildSlot]
    gave.  [CountChildren] counts the same with and without the dead-end
    entries, and so admission decides the same; [SignalSomeChildren] and
    [TerminateChildren] send exactly the signals they would send were the
    dead-end entries not in the registry. *)
Theorem C10_dead_end_children env s :
  (let s2 := put_clk (S (S (clk s)))
               (put_next_addr (S (next_addr s)) (put_clk (S (clk s)) s)) in
   let cac := admission_with (MaxLivePostmasterChildren (cfg s))
                BACKEND_TYPE_NORMAL s in
   let dead := negb (is_CAC_OK cac) in
   let k := clk (final (canAcceptConnections env BACKEND_TYPE_NORMAL s2)) in
   let slot := if dead then 0 else AssignPostmasterChildSlot env k in
   let kf := if dead then k else S k in
   let p := postmaster_child_launch env kf B_BACKEND in
   outcome (canAcceptConnections env BACKEND_TYPE_NORMAL s2) = Some cac
   /\ BackendStartup env s
      = if negb (palloc_extended env (clk s))
        then Ret STATUS_ERROR (put_clk (S (clk s)) s)
        else match pg_strong_random env (S (clk s)) with
             | None => Ret STATUS_ERROR s2
             | Some key =>
                 if p <? 0 then Ret STATUS_ERROR (put_clk (S kf) s2)
                 else Ret STATUS_OK
                        (put_BackendList
                           (mkBackend p key slot BACKEND_TYPE_NORMAL dead false
                                      (next_addr s)
                            :: BackendList s)
                           (put_clk (S kf) s2))
             end)
  /\ (exists v s',
      BackendStartup env s = Ret v s'
      /\ ((v = STATUS_ERROR /\ BackendList s' = BackendList s)
          \/ (v = STATUS_OK
              /\ exists bn cac,
                   BackendList s' = bn :: BackendList s
                   /\ outcome (canAcceptConnections env BACKEND_TYPE_NORMAL s)
                      = Some cac
                   /\ dead_end bn = negb (is_CAC_OK cac)
                   /\ bkend_type bn = BACKEND_TYPE_NORMAL
                   /\ pg_strong_random env (S (clk s)) = Some (cancel_key bn)
                   /\ (dead_end bn = true -> child_slot bn = 0)
                   /\ (dead_end bn = false ->
                       exists k, child_slot bn = AssignPostmasterChildSlot env k))))
  /\ (forall target,
        outcome (CountChildren env target s)
        = outcome (CountChildren env target (without_dead_end s)))
  /\ (forall backend_type,
        outcome (canAcceptConnections env backend_type s)
        = outcome (canAcceptConnections env backend_type (without_dead_end s)))
  /\ (forall sg target,
        trace (final (SignalSomeChildren env sg target s))
        = trace (final (SignalSomeChildren env sg target (without_dead_end s)))
        /\ outcome (SignalSomeChildren env sg target s)
           = outcome (SignalSomeChildren env sg target (without_dead_end s)))
  /\ (forall sg,
        trace (final (TerminateChildren env sg s))
        = trace (final (TerminateChildren env sg (without_dead_end s)))).
Proof.
  split; [apply BackendStartup_exact |].
  split; [apply BackendStartup_run |].
  split; [| split; [| split]].
  - intro target. unfold CountChildren, without_dead_end, bind, ask, gets, modify, ret.
    cbn [outcome clk put_clk BackendList put_BackendList].
    rewrite CountChildren_loop_live. reflexivity.
  - intro bt.
    destruct (canAcceptConnections_run env bt s) as (k1 & E1).
    destruct (canAcceptConnections_run env bt (without_dead_end s)) as (k2 & E2).
    rewrite E1, E2. cbn [outcome]. f_equal.
    unfold admission_with, without_dead_end.
    cbn [pmState Shutdown flag cfg BackendList put_BackendList].
    rewrite live_children_filter. reflexivity.
  - intros sg target.
    destruct (SignalSomeChildren_live env sg target s) as (b & sA & l2 & E1 & E2).
    rewrite E1, E2. split; reflexivity.
  - intro sg. apply TerminateChildren_live.
Qed.

Lemma C10_dead_end_children_witness :
  admission_with (MaxLivePostmasterChildren default_config) BACKEND_TYPE_NORMAL
    (PM_initial default_config [])
  = CAC_RECOVERY
  /\ outcome (BackendStartup linux_env (PM_initial default_config []))
     = Some STATUS_OK
  /\ BackendList (final (BackendStartup linux_env (PM_initial default_config [])))
     = [mkBackend 1002 1 0 BACKEND_TYPE_NORMAL true false 0]
  /\ pg_strong_random linux_env 1 = Some 1.
Proof.
  destruct (C10_dead_end_children linux_env (PM_initial default_config []))
    as ((_ & E) & _).
  rewrite E. vm_compute. repeat split; reflexivity.
Defined.


(** ** The sleep budget *)

Lemma wrap32_small x : -2147483648 <= x <= 2147483647 -> wrap32 x = x.
Proof. intro H. unfold wrap32. rewrite Z.mod_small; lia. Qed.

Lemma DetermineSleepTime_scan_skip env rw r acc :
  awaits_restart rw = false ->
  snd (DetermineSleepTime_scan env (rw :: r) acc)
  = snd (DetermineSleepTime_scan env r acc).
Proof.
  unfold awaits_restart. intro H. cbn [DetermineSleepTime_scan].
  destruct (rw_crashed_at rw =? 0); [reflexivity |].
  cbn [negb andb] in H. rewrite <- negb_orb in H. apply negb_false_iff in H.
  rewrite H. reflexivity.
Qed.

Lemma DetermineSleepTime_scan_take env rw r acc :
  awaits_restart rw = true ->
  snd (DetermineSleepTime_scan env (rw :: r) acc)
  = snd (DetermineSleepTime_scan env r
           (if (acc =? 0) || (restart_due env rw <? acc)
            then restart_due env rw else acc)).
Proof.
  unfold awaits_restart. intro H. cbn [DetermineSleepTime_scan].
  destruct (rw_crashed_at rw =? 0); [discriminate |].
  cbn [negb andb] in H. rewrite <- negb_orb in H. apply negb_true_iff in H.
  rewrite H. reflexivity.
Qed.

(** The scan of [DetermineSleepTime]: with all due times positive, its
    result is 0 when no worker awaits a restart, and the earliest due
    time otherwise. *)
Lemma DetermineSleepTime_scan_earliest env l :
  (forall rw, In rw l -> awaits_restart rw = true -> 0 < restart_due env rw) ->
  forall acc, 0 <= acc ->
  let w := snd (DetermineSleepTime_scan env l acc) in
  (acc = 0 -> filter awaits_restart l = [] -> w = 0)
  /\ (0 < acc \/ filter awaits_restart l <> [] ->
      0 < w
      /\ (0 < acc -> w <= acc)
      /\ (w = acc \/ exists rw, In rw l /\ awaits_restart rw = true
                                /\ w = restart_due env rw)
      /\ forall rw, In rw l -> awaits_restart rw = true -> w <= restart_due env rw).
Proof.
  induction l as [| rw r IH]; intros Hpos acc Hacc; cbv zeta.
  - cbn [DetermineSleepTime_scan snd filter]. split; [auto |].
    intros [H | H]; [| congruence].
    repeat split; auto; try lia. intros rw [].
  - assert (Hr : forall rw', In rw' r -> awaits_restart rw' = true ->
                             0 < restart_due env rw')
      by (intros; apply Hpos; [right |]; assumption).
    cbn [filter]. destruct (awaits_restart rw) eqn:Haw.
    + rewrite (DetermineSleepTime_scan_take env rw r acc Haw).
      pose proof (Hpos rw (or_introl eq_refl) Haw) as Hd.
      set (acc' := if (acc =? 0) || (restart_due env rw <? acc)
                   then restart_due env rw else acc).
      assert (Hacc' : 0 < acc' /\ acc' <= restart_due env rw
                      /\ (0 < acc -> acc' <= acc)
                      /\ (acc' = acc \/ acc' = restart_due env rw)).
      { subst acc'. destruct (acc =? 0) eqn:EA; cbn [orb].
        - apply Z.eqb_eq in EA. repeat split; auto; lia.
        - apply Z.eqb_neq in EA.
          destruct (restart_due env rw <? acc) eqn:EL.
          + apply Z.ltb_lt in EL. repeat split; auto; lia.
          + apply Z.ltb_ge in EL. repeat split; auto; lia. }
      destruct Hacc' as (P1 & P2 & P3 & P4).
      specialize (IH Hr acc' (Z.lt_le_incl _ _ P1)). cbv zeta in IH.
      destruct IH as [_ IH2].
      destruct (IH2 (or_introl P1)) as (A & B & C & D).
      specialize (B P1).
      split; [intros _ H; discriminate |]. intros _.
      repeat split; auto.
      * intro Hp. specialize (P3 Hp). lia.
      * destruct C as [C | (rw' & I1 & I2 & I3)].
        -- destruct P4 as [P4 | P4].
           ++ left. rewrite C. exact P4.
           ++ right. exists rw. split; [left; reflexivity |].
              split; [exact Haw |]. rewrite C. exact P4.
        -- right. exists rw'. repeat split; auto. right; exact I1.
      * intros rw' [<- | Hin] Haw'; [lia | apply D; auto].
    + rewrite (DetermineSleepTime_scan_skip env rw r acc Haw).
      specialize (IH Hr acc Hacc). cbv zeta in IH. destruct IH as [IH1 IH2].
      split; [exact IH1 |]. intro H. destruct (IH2 H) as (A & B & C & D).
      repeat split; auto.
      * destruct C as [C | (rw' & I1 & I2 & I3)]; [left; exact C |].
        right. exists rw'. repeat split; auto. right; exact I1.
      * intros rw' [<- | Hin] Haw'; [congruence | apply D; auto].
Qed.

Lemma pg_TimestampDifferenceMilliseconds_range a b :
  0 <= pg_TimestampDifferenceMilliseconds a b <= INT_MAX.
Proof.
  unfold pg_TimestampDifferenceMilliseconds, INT_MAX.
  destruct (a >=? b) eqn:E1; [lia |].
  destruct (b - a >=? 2147483647 * 1000 - 999) eqn:E2; [lia |].
  rewrite Z.geb_leb in E1, E2. apply Z.leb_gt in E1, E2.
  split.
  - apply Z.div_pos; lia.
  - apply Z.lt_le_incl, Z.div_lt_upper_bound; lia.
Qed.

(** C9, as the code has it.  [DetermineSleepTime] returns.  While a
    shutdown is requested, or when neither worker starts are pending nor
    crashed workers are waiting, the budget is 60 seconds, or, once the
    abort deadline is set, what remains of the 5 seconds before the
    SIGKILL escalation, not below 0.  Otherwise it is 0 when worker starts
    are pending; otherwise crashed workers are waiting and it is the
    smaller of 60 seconds and the time from now to the earliest restart
    due (60 seconds when no crashed worker is to be restarted).  The
    budget lies between 0 and 60000 milliseconds.  This takes a clock
    that has not stepped back behind the abort deadline's start nor run
    more than 2147488 seconds past it, millisecond differences within
    [0, INT_MAX] as timestamp.c gives them, and positive due times. *)
Theorem C9_DetermineSleepTime_budget env s :
  (forall a b, 0 <= TimestampDifferenceMilliseconds env a b <= INT_MAX) ->
  (AbortStartTime s <> 0 ->
   0 <= time env (clk s) - AbortStartTime s <= 2147488) ->
  (forall rw, In rw (BackgroundWorkerList s) -> awaits_restart rw = true ->
              0 < restart_due env rw) ->
  exists v s',
    DetermineSleepTime env s = Ret v s'
    /\ 0 <= v <= 60000
    /\ if (0 <? Shutdown s)
          || (negb (flag s StartWorkerNeeded) && negb (flag s HaveCrashedWorker))
       then
         if AbortStartTime s =? 0 then v = 60000
         else v = Z.max 0 (1000 * (SIGKILL_CHILDREN_AFTER_SECS
                                   - (time env (clk s) - AbortStartTime s)))
       else if flag s StartWorkerNeeded then v = 0
       else
         match filter awaits_restart (BackgroundWorkerList s) with
         | [] => v = 60000
         | _ :: _ =>
             exists rw,
               In rw (BackgroundWorkerList s) /\ awaits_restart rw = true
               /\ (forall rw', In rw' (BackgroundWorkerList s) ->
                               awaits_restart rw' = true ->
                               restart_due env rw <= restart_due env rw')
               /\ v = Z.min 60000
                        (TimestampDifferenceMilliseconds env
                           (GetCurrentTimestamp env (clk s)) (restart_due env rw))
         end.
Proof.
  intros Hms Hclock Hdue.
  unfold DetermineSleepTime, bind at 1, gets at 1.
  rewrite Z.gtb_ltb. unfold NoShutdown.
  destruct ((0 <? Shutdown s)
            || (negb (flag s StartWorkerNeeded) && negb (flag s HaveCrashedWorker)))
    eqn:E1.
  - destruct (AbortStartTime s =? 0) eqn:EA; cbn [negb].
    + eexists; eexists. split; [reflexivity |]. split; [lia | reflexivity].
    + apply Z.eqb_neq in EA. specialize (Hclock EA).
      unfold bind, ask, ret, int_mul, SIGKILL_CHILDREN_AFTER_SECS.
      eexists; eexists. split; [reflexivity |].
      rewrite (wrap32_small (5 - (time env (clk s) - AbortStartTime s))) by lia.
      rewrite wrap32_small by lia.
      split; lia.
  - apply orb_false_iff in E1. destruct E1 as [_ E1].
    destruct (flag s StartWorkerNeeded) eqn:ES.
    + eexists; eexists. split; [reflexivity |]. split; [lia | reflexivity].
    + cbn [negb andb] in E1. apply negb_false_iff in E1. rewrite E1.
      unfold bind, modify, ret, ask.
      destruct (DetermineSleepTime_scan_earliest env (BackgroundWorkerList s) Hdue
                  0 (Z.le_refl 0)) as [W0 W1].
      cbv zeta in W0, W1.
      destruct (filter awaits_restart (BackgroundWorkerList s)) as [| x xs] eqn:EF.
      * rewrite (W0 eq_refl eq_refl). cbn [Z.eqb negb].
        eexists; eexists. split; [reflexivity |]. split; [lia | reflexivity].
      * destruct W1 as (A & _ & C & D); [right; discriminate |].
        destruct C as [C | (rw & I1 & I2 & I3)]; [lia |].
        replace (snd (DetermineSleepTime_scan env (BackgroundWorkerList s) 0) =? 0)
          with false by (symmetry; apply Z.eqb_neq; lia).
        cbn [negb].
        eexists; eexists. split; [reflexivity |].
        rewrite wrap32_small
          by (match goal with
              | |- _ <= TimestampDifferenceMilliseconds env ?a ?b <= _ =>
                  pose proof (Hms a b); unfold INT_MAX in *; lia
              end).
        cbn [clk put_BackgroundWorkerList].
        split.
        -- match goal with
           | |- context [TimestampDifferenceMilliseconds env ?a ?b] =>
               pose proof (Hms a b)
           end. lia.
        -- exists rw. split; [exact I1 |]. split; [exact I2 |]. split.
           ++ intros rw' Hin Haw. rewrite <- I3. apply D; assumption.
           ++ rewrite I3. reflexivity.
Qed.

Lemma C9_DetermineSleepTime_budget_witness :
  exists v s',
    DetermineSleepTime linux_env
      (put_AbortStartTime 3 (put_clk 6 (PM_initial default_config [])))
    = Ret v s'
    /\ 0 <= v <= 60000.
Proof.
  destruct (C9_DetermineSleepTime_budget linux_env
              (put_AbortStartTime 3 (put_clk 6 (PM_initial default_config []))))
    as (v & s' & E & R & _).
  - intros a b. apply pg_TimestampDifferenceMilliseconds_range.
  - intros _. cbn. lia.
  - intros rw [].
  - exists v, s'. split; assumption.
Defined.

(** C9 as stated fails: with worker starts pending while a smart shutdown
    is in progress and no abort deadline set, the budget is 60 seconds,
    not 0. *)
Lemma C9_counterexample_pending_start_during_shutdown :
  flag (put_Shutdown SmartShutdown (PM_initial default_config [])) StartWorkerNeeded
  = true
  /\ outcome (DetermineSleepTime linux_env
                (put_Shutdown SmartShutdown (PM_initial default_config [])))
     = Some 60000.
Proof. split; reflexivity. Qed.


(** ** Restarting crashed workers *)

Section Throttle.

Variable env : Env.
Variable rw : RegisteredBgWorker.

Hypothesis timestamp_c :
  forall start stop msec,
    TimestampDifferenceExceeds env start stop msec = (stop - start >=? msec * 1000).
Hypothesis not_running : rw_pid rw = 0.
Hypothesis not_terminating : rw_terminate rw = false.
Hypothesis crashed : rw_crashed_at rw <> 0.
Hypothesis restartable : bgw_restart_time (rw_worker rw) <> BGW_NEVER_RESTART.
Hypothesis no_overflow : 0 <= bgw_restart_time (rw_worker rw) * 1000 <= INT_MAX.
Hypothesis too_early :
  forall n, GetCurrentTimestamp env n
            < rw_crashed_at rw + bgw_restart_time (rw_worker rw) * 1000000.

Lemma maybe_start_bgworkers_loop_keeps_waiting l :
  forall num now s,
    In rw l ->
    now = 0 \/ now < rw_crashed_at rw + bgw_restart_time (rw_worker rw) * 1000000 ->
    wp (maybe_start_bgworkers_loop env l num now) (fun l' _ => In rw l') never s.
Proof.
  induction l as [| x rest IH]; intros num now s Hin Hnow; [destruct Hin |].
  cbn [maybe_start_bgworkers_loop]. cbv zeta.
  destruct Hin as [-> | Hin].
  - rewrite not_running, not_terminating. cbn [Z.eqb negb].
    replace (rw_crashed_at rw =? 0) with false by (symmetry; apply Z.eqb_neq; exact crashed).
    replace (bgw_restart_time (rw_worker rw) =? BGW_NEVER_RESTART) with false
      by (symmetry; apply Z.eqb_neq; exact restartable).
    cbn [negb].
    assert (E : forall now', now' < rw_crashed_at rw
                                    + bgw_restart_time (rw_worker rw) * 1000000 ->
                negb (TimestampDifferenceExceeds env (rw_crashed_at rw) now'
                        (int_mul (bgw_restart_time (rw_worker rw)) 1000)) = true).
    { intros now' Hlt. rewrite timestamp_c. unfold int_mul.
      rewrite wrap32_small by (unfold INT_MAX in *; lia).
      apply negb_true_iff. rewrite Z.geb_leb. apply Z.leb_gt. lia. }
    destruct (now =? 0) eqn:E0.
    + wp_prim. rewrite (E _ (too_early _)). wp_prim.
      wp_use (maybe_start_bgworkers_loop_quiet env rest num
                (GetCurrentTimestamp env (clk s))).
      intros r s' _. left. reflexivity.
    + apply Z.eqb_neq in E0. destruct Hnow as [Hnow | Hnow]; [contradiction |].
      wp_prim. rewrite (E _ Hnow). wp_prim.
      wp_use (maybe_start_bgworkers_loop_quiet env rest num now).
      intros r s' _. left. reflexivity.
  - repeat
      lazymatch goal with
      | |- wp (bind (maybe_start_bgworkers_loop _ _ _ _) _) _ _ _ =>
          apply wp_bind;
          eapply wp_mono;
          [ apply IH; [exact Hin | auto]
          | cbv beta; intros ? ? ?
          | intros ? ? [] ]
      | |- wp (maybe_start_bgworkers_loop _ _ _ _) _ _ _ =>
          apply IH; [exact Hin | auto]
      | |- wp (bind (do_start_bgworker _ _) _) _ _ _ =>
          wp_use (do_start_bgworker_quiet env _); intros ? ? _
      | |- wp (bind (bgworker_should_start_now _) _) _ _ _ =>
          wp_use (bgworker_should_start_now_quiet _); intros ? ? _
      | |- wp (ret _) _ _ _ => apply wp_ret_last; right; assumption
      | |- _ => wp_prim
      end.
Qed.

Lemma maybe_start_bgworkers_keeps_waiting s :
  In rw (BackgroundWorkerList s) ->
  exists s',
    maybe_start_bgworkers env s = Ret tt s' /\ In rw (BackgroundWorkerList s').
Proof.
  intro Hin.
  assert (W : wp (maybe_start_bgworkers env)
                 (fun _ s' => In rw (BackgroundWorkerList s')) never s).
  { unfold maybe_start_bgworkers. wp_prim. wp_prim.
    - wp_run. exact Hin.
    - do 3 wp_prim. apply wp_bind.
      eapply wp_mono;
        [ apply maybe_start_bgworkers_loop_keeps_waiting; [exact Hin | left; reflexivity]
        | cbv beta; intros l' s' Hl; wp_run; exact Hl
        | intros ? ? [] ]. }
  unfold wp, never in W.
  destruct (maybe_start_bgworkers env s) as [[] s' | st s']; [| destruct W].
  exists s'. split; [reflexivity | exact W].
Qed.

End Throttle.

(** A crashed worker that is never to be restarted, met by the scan of
    [maybe_start_bgworkers]: its registrant is sent SIGUSR1 if there is
    one, and the scan goes on without the entry. *)
Lemma maybe_start_bgworkers_loop_never_restart env x rest num now s :
  rw_pid x = 0 -> rw_terminate x = false -> rw_crashed_at x <> 0 ->
  bgw_restart_time (rw_worker x) = BGW_NEVER_RESTART ->
  maybe_start_bgworkers_loop env (x :: rest) num now s
  = maybe_start_bgworkers_loop env rest num now
      (if bgw_notify_pid (rw_worker x) =? 0 then s
       else put_trace (Kill (bgw_notify_pid (rw_worker x)) SIGUSR1 :: trace s) s).
Proof.
  intros H1 H2 H3 H4. cbn [maybe_start_bgworkers_loop]. cbv zeta.
  rewrite H1, H2, H4. cbn [Z.eqb negb].
  replace (rw_crashed_at x =? 0) with false by (symmetry; apply Z.eqb_neq; exact H3).
  cbn [negb]. rewrite Z.eqb_refl.
  unfold bind, when, emit, modify, ret.
  destruct (bgw_notify_pid (rw_worker x) =? 0); reflexivity.
Qed.





(** ** The crash cascade, signal by signal *)

Lemma kills_app a b : kills (a ++ b) = kills b ++ kills a.
Proof.
  induction a as [| e r IH]; cbn [app kills].
  - rewrite app_nil_r. reflexivity.
  - destruct e; rewrite ?IH, ?app_assoc; reflexivity.
Qed.

Lemma sends_refl p s : sends p (fun _ => false) [] s s.
Proof. unfold sends. rewrite app_nil_r. repeat split; auto. Qed.

Lemma sends_trans p t1 t2 ks1 ks2 a b c :
  sends p t1 ks1 a b -> sends p t2 ks2 b c ->
  sends p (fun x => t1 x || t2 x) (ks1 ++ ks2) a c.
Proof.
  intros (A1 & A2 & A3 & A4 & A5 & A6 & A7 & A8 & A9)
         (B1 & B2 & B3 & B4 & B5 & B6 & B7 & B8 & B9).
  unfold sends. rewrite B1, A1, app_assoc.
  repeat split; try congruence.
  intros x. rewrite B9, A9.
  destruct (t1 x), (t2 x); cbn [andb orb]; try reflexivity;
    destruct (p =? pidv a x) eqn:E; rewrite ?E; try reflexivity;
    destruct (p =? 0); reflexivity.
Qed.

Lemma sends_weaken p (t t' : SpecialChild -> bool) ks ks' a b :
  (forall x, t x = t' x) -> ks = ks' ->
  sends p t ks a b -> sends p t' ks' a b.
Proof.
  intros Ht <- (A1 & A2 & A3 & A4 & A5 & A6 & A7 & A8 & A9).
  unfold sends. repeat split; auto.
  intro x. rewrite <- Ht. apply A9.
Qed.

Lemma flat_map_filter_cons {A B} (f : A -> list B) (g : A -> bool) x l :
  flat_map f (filter g (x :: l))
  = (if g x then f x else []) ++ flat_map f (filter g l).
Proof. cbn [filter]. destruct (g x); reflexivity. Qed.

Section Cascade.

Variable env : Env.
Variable p : Z.
Variable take : bool.

Local Abbreviation K := (fun c => signal_child_kills (HAVE_SETSID env) (quit_signal c)).

Lemma sigquit_child_sends q s :
  exists s1,
    sigquit_child env q s = Ret tt s1
    /\ sends p (fun _ => false) (K (cfg s) q) s s1.
Proof.
  unfold sigquit_child, bind, gets. rewrite signal_child_run.
  eexists. split; [reflexivity |].
  unfold sends. cbn [trace put_trace pmState Shutdown AbortStartTime flag cfg clk
                     BackendList pidv].
  unfold signal_child_kills, quit_signal.
  split; [| repeat split].
  destruct (HAVE_SETSID env && group_signal (if send_abort_for_crash (cfg s)
                                             then SIGABRT else SIGQUIT));
    cbn [app kills]; rewrite <- ?app_assoc; reflexivity.
Qed.

(** The pass over the registered workers. *)
Lemma HandleChildCrash_workers_sends l :
  forall s,
  exists l' s1,
    HandleChildCrash_workers env p take l s = Ret l' s1
    /\ sends p (fun _ => false)
             (if take then flat_map (K (cfg s)) (filter (other_live p) (map rw_pid l))
              else [])
             (put_BackendList (BackendList s1) s) s1.
Proof.
  induction l as [| rw rest IH]; intro s.
  - exists [], s. split; [reflexivity |].
    rewrite put_BackendList_same. destruct take; apply sends_refl.
  - cbn [HandleChildCrash_workers map filter]. unfold other_live at 1.
    destruct (rw_pid rw =? 0) eqn:E0; cbn [negb andb].
    + unfold bind at 1, ret at 1.
      destruct (IH s) as (l' & s1 & E & S1).
      rewrite (bind_Ret _ _ _ _ _ E). eexists; eexists. split; [reflexivity |].
      exact S1.
    + destruct (rw_pid rw =? p) eqn:Ep; cbn [negb].
      * unfold bind at 1. unfold bind at 1, modify at 1. unfold ret at 1.
        match goal with
        | |- context [bind (HandleChildCrash_workers env p take rest) _ ?st] =>
            destruct (IH st) as (l' & s1 & E & S1)
        end.
        rewrite (bind_Ret _ _ _ _ _ E). eexists; eexists. split; [reflexivity |].
        exact S1.
      * unfold bind at 1. unfold bind at 1.
        destruct take eqn:ET.
        -- unfold when at 1.
           destruct (sigquit_child_sends (rw_pid rw) s) as (s0 & E0' & S0).
           rewrite E0'. unfold ret at 1.
           destruct (IH s0) as (l' & s1 & E & S1).
           rewrite (bind_Ret _ _ _ _ _ E). eexists; eexists. split; [reflexivity |].
           cbn [flat_map].
           assert (C0 : cfg s0 = cfg s) by apply S0.
           rewrite C0 in S1.
           assert (S0' : sends p (fun _ => false) (K (cfg s) (rw_pid rw))
                               (put_BackendList (BackendList s1) s)
                               (put_BackendList (BackendList s1) s0)).
           { destruct S0 as (A1 & A2 & A3 & A4 & A5 & A6 & A7 & A8 & A9).
             unfold sends.
             cbn [trace pmState Shutdown AbortStartTime flag cfg clk BackendList
                  pidv put_BackendList].
             repeat split; auto. }
           pose proof (sends_trans _ _ _ _ _ _ _ _ S0' S1) as S2.
           eapply sends_weaken; [| | exact S2];
             [intros x; reflexivity | reflexivity].
        -- unfold when at 1, ret at 1. unfold ret at 1.
           destruct (IH s) as (l' & s1 & E & S1).
           rewrite (bind_Ret _ _ _ _ _ E). eexists; eexists. split; [reflexivity |].
           exact S1.
Qed.

(** The pass over the registry of backends. *)
Lemma HandleChildCrash_backends_sends l :
  forall s,
  exists s1,
    HandleChildCrash_backends env p take l s
    = Ret (filter (fun bp => negb (pid bp =? p)) l) s1
    /\ sends p (fun _ => false)
             (if take
              then flat_map (K (cfg s))
                     (map pid (filter not_bgworker
                                 (filter (fun bp => negb (pid bp =? p)) l)))
              else [])
             s s1.
Proof.
  induction l as [| bp rest IH]; intro s.
  - exists s. split; [reflexivity |]. destruct take; apply sends_refl.
  - cbn [HandleChildCrash_backends filter].
    destruct (pid bp =? p) eqn:Ep; cbn [negb].
    + apply IH.
    + cbn [filter]. unfold not_bgworker at 1. unfold bind at 1.
      destruct (negb (bkend_type bp =? BACKEND_TYPE_BGWORKER)) eqn:EB;
        cbn [andb].
      * destruct take eqn:ET.
        -- unfold when at 1.
           destruct (sigquit_child_sends (pid bp) s) as (s0 & E0 & S0).
           rewrite E0.
           destruct (IH s0) as (s1 & E & S1).
           rewrite (bind_Ret _ _ _ _ _ E). eexists. split; [reflexivity |].
           cbn [map flat_map].
           assert (C0 : cfg s0 = cfg s) by apply S0.
           rewrite C0 in S1.
           pose proof (sends_trans _ _ _ _ _ _ _ _ S0 S1) as S2.
           eapply sends_weaken; [| | exact S2];
             [intros x; reflexivity | reflexivity].
        -- unfold when at 1, ret at 1.
           destruct (IH s) as (s1 & E & S1).
           rewrite (bind_Ret _ _ _ _ _ E). eexists. split; [reflexivity |].
           exact S1.
      * unfold when at 1, ret at 1.
        destruct (IH s) as (s1 & E & S1).
        rewrite (bind_Ret _ _ _ _ _ E). eexists. split; [reflexivity |].
        exact S1.
Qed.

(** One special child. *)
Lemma crash_special_sends c s :
  exists s1,
    crash_special env c p take s = Ret tt s1
    /\ sends p (SpecialChild_eqb c)
             (if take && other_live p (pidv s c) then K (cfg s) (pidv s c) else [])
             s s1.
Proof.
  unfold crash_special, bind, gets, other_live.
  rewrite (Z.eqb_sym (pidv s c) p).
  destruct (p =? pidv s c) eqn:Ep; cbn [negb andb].
  - rewrite andb_false_r, andb_false_r.
    eexists. split; [reflexivity |].
    unfold sends, set_pid, modify.
    cbn [trace pmState Shutdown AbortStartTime flag cfg clk BackendList pidv
         put_pidv].
    rewrite app_nil_r. repeat split.
    intros c'. unfold upd. destruct (SpecialChild_eqb c c') eqn:E; cbn [andb].
    + assert (c = c') by (destruct c, c'; cbn in E; congruence). subst c'.
      rewrite Ep. reflexivity.
    + reflexivity.
  - rewrite andb_true_r, (andb_comm take).
    destruct (negb (pidv s c =? 0) && take) eqn:EA; unfold when.
    + destruct (sigquit_child_sends (pidv s c) s) as (s1 & E & S1).
      exists s1. split; [exact E |].
      destruct S1 as (A1 & A2 & A3 & A4 & A5 & A6 & A7 & A8 & A9).
      unfold sends. repeat split; auto.
      intro c'. rewrite A9. cbn [andb].
      destruct (SpecialChild_eqb c c') eqn:E'; cbn [andb]; [| reflexivity].
      assert (c = c') by (destruct c, c'; cbn in E'; congruence). subst c'.
      rewrite Ep. reflexivity.
    + exists s. split; [reflexivity |].
      unfold sends. rewrite app_nil_r. repeat split.
      intro c'. destruct (SpecialChild_eqb c c') eqn:E'; cbn [andb]; [| reflexivity].
      assert (c = c') by (destruct c, c'; cbn in E'; congruence). subst c'.
      rewrite Ep. reflexivity.
Qed.

(** The startup process: as any special child, but it is marked as
    signalled when it is. *)
Lemma crash_startup_sends s :
  exists s1,
    (if p =? pidv s StartupPID then set_pid StartupPID 0
     else when (negb (pidv s StartupPID =? 0) && take)
            (sigquit_child env (pidv s StartupPID) ;;
             modify (put_StartupStatus STARTUP_SIGNALED))) s
    = Ret tt s1
    /\ sends p (SpecialChild_eqb StartupPID)
             (if take && other_live p (pidv s StartupPID)
              then K (cfg s) (pidv s StartupPID) else [])
             s s1.
Proof.
  unfold other_live. rewrite (Z.eqb_sym (pidv s StartupPID) p).
  destruct (p =? pidv s StartupPID) eqn:Ep; cbn [negb andb].
  - rewrite andb_false_r, andb_false_r.
    eexists. split; [reflexivity |].
    unfold sends, set_pid, modify.
    cbn [trace pmState Shutdown AbortStartTime flag cfg clk BackendList pidv
         put_pidv].
    rewrite app_nil_r. repeat split.
    intros c'. unfold upd. destruct (SpecialChild_eqb StartupPID c') eqn:E;
      cbn [andb]; [| reflexivity].
    assert (StartupPID = c') by (destruct c'; cbn in E; congruence). subst c'.
    rewrite Ep. reflexivity.
  - rewrite andb_true_r, (andb_comm take).
    destruct (negb (pidv s StartupPID =? 0) && take) eqn:EA; unfold when.
    + destruct (sigquit_child_sends (pidv s StartupPID) s) as (s1 & E & S1).
      rewrite (bind_Ret _ _ _ _ _ E). unfold modify.
      eexists. split; [reflexivity |].
      destruct S1 as (A1 & A2 & A3 & A4 & A5 & A6 & A7 & A8 & A9).
      unfold sends.
      cbn [trace pmState Shutdown AbortStartTime flag cfg clk BackendList pidv
           put_StartupStatus].
      repeat split; auto.
      intro c'. rewrite A9. cbn [andb].
      destruct (SpecialChild_eqb StartupPID c') eqn:E'; cbn [andb]; [| reflexivity].
      assert (StartupPID = c') by (destruct c'; cbn in E'; congruence). subst c'.
      rewrite Ep. reflexivity.
    + exists s. split; [reflexivity |].
      unfold sends. rewrite app_nil_r. repeat split.
      intro c'. destruct (SpecialChild_eqb StartupPID c') eqn:E'; cbn [andb];
        [| reflexivity].
      assert (StartupPID = c') by (destruct c'; cbn in E'; congruence). subst c'.
      rewrite Ep. reflexivity.
Qed.

Ltac to_base ACC S c :=
  let A6 := fresh in let A9 := fresh in
  assert (A6 := proj1 (proj2 (proj2 (proj2 (proj2 (proj2 ACC))))));
  assert (A9 := proj2 (proj2 (proj2 (proj2 (proj2 (proj2 (proj2 (proj2 ACC))))))) c);
  cbn [SpecialChild_eqb orb andb] in A9;
  rewrite A6, A9 in S; clear A6 A9.

Ltac special_stage c :=
  lazymatch goal with
  | ACC : sends p _ _ ?b ?s0 |- _ =>
      let s1 := fresh "s" in let E := fresh "E" in let S := fresh "S" in
      let ACC' := fresh "ACC" in
      destruct (crash_special_sends c s0) as (s1 & E & S);
      rewrite ?(bind_Ret _ _ _ _ _ E);
      to_base ACC S c;
      assert (ACC' := sends_trans _ _ _ _ _ _ _ _ ACC S);
      clear ACC S; rename ACC' into ACC
  end.

Lemma HandleChildCrash_children_sends s :
  exists s',
    HandleChildCrash_children env p take s = Ret tt s'
    /\ sends p (fun c => negb (SpecialChild_eqb SysLoggerPID c))
             (if take then flat_map (K (cfg s)) (crash_targets p s s') else [])
             (put_BackendList (BackendList s') s) s'.
Proof.
  unfold HandleChildCrash_children.
  unfold bind at 1, gets at 1.
  destruct (HandleChildCrash_workers_sends (BackgroundWorkerList s) s)
    as (wl & s1 & E1 & S1).
  rewrite (bind_Ret _ _ _ _ _ E1).
  unfold bind at 1, modify at 1. unfold bind at 1, gets at 1.
  cbn [BackendList put_BackgroundWorkerList].
  destruct (HandleChildCrash_backends_sends (BackendList s1)
              (put_BackgroundWorkerList wl s1)) as (s3 & E3 & S3).
  rewrite (bind_Ret _ _ _ _ _ E3).
  unfold bind at 1, modify at 1. unfold bind at 1, gets at 1.
  cbn [pidv put_BackendList].
  set (bl := filter (fun bp => negb (pid bp =? p)) (BackendList s1)) in *.
  assert (ACC : sends p (fun _ => false)
                  ((if take
                    then flat_map (K (cfg s))
                           (filter (other_live p) (map rw_pid (BackgroundWorkerList s)))
                    else [])
                   ++ (if take
                       then flat_map (K (cfg s)) (map pid (filter not_bgworker bl))
                       else []))
                  (put_BackendList bl s) (put_BackendList bl s3)).
  { destruct S1 as (A1 & A2 & A3 & A4 & A5 & A6 & A7 & A8 & A9).
    destruct S3 as (B1 & B2 & B3 & B4 & B5 & B6 & B7 & B8 & B9).
    cbn [trace pmState Shutdown AbortStartTime flag cfg clk BackendList pidv
         put_BackendList put_BackgroundWorkerList] in *.
    unfold sends.
    cbn [trace pmState Shutdown AbortStartTime flag cfg clk BackendList pidv
         put_BackendList].
    rewrite B1, A1, <- app_assoc, A6.
    repeat split; try congruence.
    intro c. rewrite B9, A9. reflexivity. }
  clear S1 S3 E1 E3.
  destruct (crash_startup_sends (put_BackendList bl s3)) as (s5 & E5 & S5).
  cbn [pidv put_BackendList] in E5.
  rewrite (bind_Ret _ _ _ _ _ E5).
  to_base ACC S5 StartupPID.
  assert (ACC' := sends_trans _ _ _ _ _ _ _ _ ACC S5).
  clear ACC S5 E5; rename ACC' into ACC.
  special_stage BgWriterPID.
  special_stage CheckpointerPID.
  special_stage WalWriterPID.
  special_stage WalReceiverPID.
  special_stage WalSummarizerPID.
  special_stage AutoVacPID.
  special_stage PgArchPID.
  special_stage SlotSyncWorkerPID.
  exists s10. split; [exact E6 |].
  assert (HB : BackendList s10 = bl).
  { destruct ACC as (_ & _ & _ & _ & _ & _ & _ & A8 & _). exact A8. }
  rewrite HB.
  eapply sends_weaken; [| | exact ACC].
  - intro x. destruct x; reflexivity.
  - cbn [pidv cfg put_BackendList]. unfold crash_targets. rewrite HB.
    destruct take; cbn [andb].
    + rewrite !flat_map_app. unfold shmem_specials. cbn [map].
      rewrite !flat_map_filter_cons. cbn [filter flat_map].
      rewrite ?app_nil_r, <- ?app_assoc. reflexivity.
    + reflexivity.
Qed.

End Cascade.

(** What [HandleChildCrash] does. *)
Lemma HandleChildCrash_run env p exitstatus s :
  exists s',
    HandleChildCrash env p exitstatus s = Ret tt s'
    /\ flag s' FatalError
       = (flag s FatalError || negb (Shutdown s =? ImmediateShutdown))
    /\ Shutdown s' = Shutdown s
    /\ pmState s'
       = (if cascade_moves (pmState s) then PM_WAIT_BACKENDS else pmState s)
    /\ AbortStartTime s'
       = (if AbortStartTime s =? 0 then time env (clk s) else AbortStartTime s)
    /\ kills (trace s')
       = kills (trace s)
         ++ (if negb (flag s FatalError) && negb (Shutdown s =? ImmediateShutdown)
             then flat_map (signal_child_kills (HAVE_SETSID env) (quit_signal (cfg s)))
                    (crash_targets p s s')
             else [])
    /\ (forall c,
          pidv s' c
          = (if negb (SpecialChild_eqb SysLoggerPID c) && (p =? pidv s c)
             then 0 else pidv s c)).
Proof.
  unfold HandleChildCrash. unfold bind at 1, gets at 1. cbv zeta.
  destruct (HandleChildCrash_children_sends env p
              (negb (flag s FatalError) && negb (Shutdown s =? ImmediateShutdown)) s)
    as (s1 & E1 & S1).
  rewrite (bind_Ret _ _ _ _ _ E1).
  destruct S1 as (A1 & A2 & A3 & A4 & A5 & A6 & A7 & A8 & A9).
  cbn [trace pmState Shutdown AbortStartTime flag cfg clk BackendList pidv
       put_BackendList] in *.
  unfold bind at 1, gets at 1. rewrite A3.
  assert (T : forall s2,
             pmState s2 = pmState s -> AbortStartTime s2 = AbortStartTime s ->
             clk s2 = clk s -> Shutdown s2 = Shutdown s ->
             pidv s2 = pidv s1 -> kills (trace s2) = kills (trace s1) ->
             BackendList s2 = BackendList s1 ->
             exists s',
               (st <- gets pmState ;;
                when (match st with
                      | PM_RECOVERY | PM_HOT_STANDBY | PM_RUN | PM_STOP_BACKENDS
                      | PM_SHUTDOWN => true
                      | _ => false
                      end) (set_pmState PM_WAIT_BACKENDS) ;;
                a <- gets AbortStartTime ;;
                when (a =? 0) (t <- ask env time ;; modify (put_AbortStartTime t))) s2
               = Ret tt s'
               /\ flag s' = flag s2
               /\ Shutdown s' = Shutdown s
               /\ pmState s'
                  = (if cascade_moves (pmState s) then PM_WAIT_BACKENDS else pmState s)
               /\ AbortStartTime s'
                  = (if AbortStartTime s =? 0 then time env (clk s)
                     else AbortStartTime s)
               /\ kills (trace s') = kills (trace s1)
               /\ pidv s' = pidv s1
               /\ BackendList s' = BackendList s1).
  { intros s2 H1 H2 H3 H4 H5 H6 H7.
    unfold bind at 1, gets at 1. rewrite H1. unfold cascade_moves.
    destruct (pmState s);
      unfold when, set_pmState, bind, gets, modify, ask, ret;
      cbn [AbortStartTime put_trace put_pmState clk]; rewrite H2;
      (destruct (AbortStartTime s =? 0);
       eexists; (split; [reflexivity |]);
       cbn [flag Shutdown pmState AbortStartTime trace pidv BackendList kills
            put_AbortStartTime put_clk put_trace put_pmState];
       rewrite ?H3; repeat split; auto). }
  assert (CT : forall s', BackendList s' = BackendList s1 ->
                          crash_targets p s s' = crash_targets p s s1).
  { intros s' H. unfold crash_targets. rewrite H. reflexivity. }
  destruct (negb (Shutdown s =? ImmediateShutdown)) eqn:ES; unfold when at 1.
  - unfold bind at 1, set_flag at 1, modify at 1.
    destruct (T (put_flag (upd PMFlag_eqb (flag s1) FatalError true) s1))
      as (s' & E & B1 & B2 & B3 & B4 & B5 & B6 & B7);
      try reflexivity; try assumption.
    exists s'. split; [exact E |].
    rewrite B1, B5, A1, (CT s' B7).
    cbn [flag put_flag]. unfold upd. cbn [PMFlag_eqb].
    rewrite orb_true_r. repeat split; auto.
    intro c. rewrite B6. apply A9.
  - unfold bind at 1, ret at 1.
    destruct (T s1) as (s' & E & B1 & B2 & B3 & B4 & B5 & B6 & B7);
      try reflexivity; try assumption.
    exists s'. split; [exact E |].
    rewrite B1, B5, A1, (CT s' B7), A5. rewrite orb_false_r.
    repeat split; auto.
    intro c. rewrite B6. apply A9.
Qed.

(** *** The two lists after the cascade *)

Lemma same_lists_refl s : same_lists s s.
Proof. split; reflexivity. Qed.

Lemma same_lists_trans a b c : same_lists a b -> same_lists b c -> same_lists a c.
Proof. intros [A1 A2] [B1 B2]. split; congruence. Qed.

Ltac sl_step :=
  lazymatch goal with
  | |- keeps same_lists (bind _ _) =>
      apply keeps_bind; [apply same_lists_trans | | intro]
  | |- keeps same_lists (ret _) => apply keeps_ret; apply same_lists_refl
  | |- keeps same_lists (gets _) => apply keeps_gets; apply same_lists_refl
  | |- keeps same_lists (when _ _) => apply keeps_when; [apply same_lists_refl |]
  | |- keeps same_lists (modify _) => apply keeps_modify; intro; split; reflexivity
  | |- keeps same_lists (emit _) => apply keeps_modify; intro; split; reflexivity
  | |- keeps same_lists (set_flag _ _) =>
      apply keeps_modify; intro; split; reflexivity
  | |- keeps same_lists (set_pid _ _) =>
      apply keeps_modify; intro; split; reflexivity
  | |- keeps same_lists (set_pmState _) =>
      apply keeps_modify; intro; split; reflexivity
  | |- keeps same_lists (ask _ _) => let s := fresh in intro s; split; reflexivity
  | |- keeps same_lists (if ?b then _ else _) => destruct b
  | |- keeps same_lists (match ?x with _ => _ end) => destruct x
  | |- keeps same_lists (let _ := _ in _) => cbv zeta
  end.

Ltac sl_tac := repeat sl_step.

Lemma keeps_run {A} R (m : M A) s :
  keeps R m -> exists a s1, m s = Ret a s1 /\ R s s1.
Proof.
  intro K. specialize (K s). unfold wp in K.
  destruct (m s) as [a s1 | st s1]; [| destruct K]. eauto.
Qed.

Section CascadeLists.

Variable env : Env.
Variable p : Z.
Variable take : bool.

Lemma sigquit_child_same q : keeps same_lists (sigquit_child env q).
Proof. unfold sigquit_child, signal_child. sl_tac. Qed.

Lemma crash_special_same c : keeps same_lists (crash_special env c p take).
Proof. unfold crash_special. sl_tac. apply sigquit_child_same. Qed.


(** The pass over the registered workers. *)
Lemma HandleChildCrash_workers_lists l :
  forall s,
  exists s1,
    HandleChildCrash_workers env p take l s = Ret (map (crash_worker p) l) s1
    /\ BackendList s1 = fold_left (crash_unlink p) l (BackendList s)
    /\ BackgroundWorkerList s1 = BackgroundWorkerList s.
Proof.
  induction l as [| rw rest IH]; intro s.
  - exists s. repeat split.
  - cbn [HandleChildCrash_workers map fold_left].
    unfold crash_worker at 1, crash_unlink at 2.
    destruct (rw_pid rw =? 0) eqn:E0; cbn [negb andb].
    + unfold bind at 1, ret at 1.
      destruct (IH s) as (s1 & E & A & B).
      rewrite (bind_Ret _ _ _ _ _ E). exists s1. repeat split; auto.
    + destruct (rw_pid rw =? p) eqn:Ep.
      * unfold bind at 1. unfold bind at 1, modify at 1. unfold ret at 1.
        match goal with
        | |- context [bind (HandleChildCrash_workers env p take rest) _ ?st] =>
            destruct (IH st) as (s1 & E & A & B)
        end.
        rewrite (bind_Ret _ _ _ _ _ E). exists s1.
        split; [reflexivity | split; assumption].
      * unfold bind at 1. unfold bind at 1.
        destruct (keeps_run same_lists (when take (sigquit_child env (rw_pid rw))) s)
          as ([] & s0 & E0' & K1 & K2).
        { apply keeps_when; [apply same_lists_refl | apply sigquit_child_same]. }
        rewrite E0'. unfold ret at 1.
        destruct (IH s0) as (s1 & E & A & B).
        rewrite (bind_Ret _ _ _ _ _ E). exists s1.
        split; [reflexivity |]. rewrite A, B, K1, K2. split; reflexivity.
Qed.

Lemma HandleChildCrash_backends_same l :
  keeps same_lists (HandleChildCrash_backends env p take l).
Proof.
  induction l as [| bp rest IH]; cbn [HandleChildCrash_backends]; sl_tac;
    auto; apply sigquit_child_same.
Qed.

End CascadeLists.

Lemma HandleChildCrash_children_lists env p take s :
  exists s',
    HandleChildCrash_children env p take s = Ret tt s'
    /\ BackendList s' = crash_registry p s
    /\ BackgroundWorkerList s' = map (crash_worker p) (BackgroundWorkerList s).
Proof.
  unfold HandleChildCrash_children.
  unfold bind at 1, gets at 1.
  destruct (HandleChildCrash_workers_lists env p take (BackgroundWorkerList s) s)
    as (s1 & E1 & A1 & B1).
  rewrite (bind_Ret _ _ _ _ _ E1).
  unfold bind at 1, modify at 1. unfold bind at 1, gets at 1.
  cbn [BackendList put_BackgroundWorkerList].
  destruct (HandleChildCrash_backends_sends env p take (BackendList s1)
              (put_BackgroundWorkerList (map (crash_worker p) (BackgroundWorkerList s)) s1))
    as (s3 & E3 & _).
  pose proof (HandleChildCrash_backends_same env p take (BackendList s1)
                (put_BackgroundWorkerList
                   (map (crash_worker p) (BackgroundWorkerList s)) s1)) as K3.
  unfold wp in K3. rewrite E3 in K3. destruct K3 as [_ K3].
  cbn [BackgroundWorkerList put_BackgroundWorkerList] in K3.
  rewrite (bind_Ret _ _ _ _ _ E3).
  unfold bind at 1, modify at 1.
  match goal with
  | |- exists s', ?K ?st = _ /\ _ =>
      destruct (keeps_run same_lists K st) as ([] & s' & E & K1 & K2)
  end.
  { sl_tac; apply crash_special_same || apply sigquit_child_same. }
  exists s'. split; [exact E |]. rewrite K1, K2.
  cbn [BackendList BackgroundWorkerList put_BackendList].
  unfold crash_registry. rewrite A1, K3. split; reflexivity.
Qed.

(** [HandleChildCrash] leaves the registry without the entries of the
    dead child, and the list of workers with the dead worker's child
    cleared. *)
Lemma HandleChildCrash_lists env p exitstatus s :
  BackendList (final (HandleChildCrash env p exitstatus s)) = crash_registry p s
  /\ BackgroundWorkerList (final (HandleChildCrash env p exitstatus s))
     = map (crash_worker p) (BackgroundWorkerList s).
Proof.
  assert (H : exists s',
             HandleChildCrash env p exitstatus s = Ret tt s'
             /\ BackendList s' = crash_registry p s
             /\ BackgroundWorkerList s'
                = map (crash_worker p) (BackgroundWorkerList s)).
  { unfold HandleChildCrash. unfold bind at 1, gets at 1. cbv zeta.
    destruct (HandleChildCrash_children_lists env p
                (negb (flag s FatalError) && negb (Shutdown s =? ImmediateShutdown)) s)
      as (s1 & E1 & A1 & B1).
    rewrite (bind_Ret _ _ _ _ _ E1).
    match goal with
    | |- exists s', ?K ?st = _ /\ _ =>
        destruct (keeps_run same_lists K st) as ([] & s' & E & K1 & K2)
    end.
    { sl_tac. }
    exists s'. split; [exact E |]. rewrite K1, K2. split; assumption. }
  destruct H as (s' & E & A & B). rewrite E. cbn [final]. split; assumption.
Qed.

(** *** Which exits run the cascade *)

Lemma reap_child_special env c p exitstatus s :
  p = pidv s c -> (forall c', c' <> c -> p <> pidv s c') ->
  reap_child env p exitstatus s = reap_special env c p exitstatus s.
Proof.
  intros Y N.
  assert (Y' : (p =? pidv s c) = true) by (apply Z.eqb_eq; exact Y).
  assert (N' : forall c', c' <> c -> (p =? pidv s c') = false)
    by (intros c' H; apply Z.eqb_neq, N, H).
  unfold reap_child, bind at 1, gets at 1.
  destruct c; cbn [reap_special];
    repeat match goal with
           | |- context [p =? pidv s ?c'] =>
               first [ rewrite Y' | rewrite (N' c') by discriminate ]
           end; reflexivity.
Qed.

Lemma reap_child_other env p exitstatus s :
  (forall c, p <> pidv s c) ->
  reap_child env p exitstatus s
  = (was_worker <- CleanupBackgroundWorker env p exitstatus ;;
     if was_worker then set_flag HaveCrashedWorker true
     else CleanupBackend env p exitstatus) s.
Proof.
  intro N.
  assert (N' : forall c', (p =? pidv s c') = false)
    by (intros c'; apply Z.eqb_neq, N).
  unfold reap_child, bind at 1, gets at 1.
  rewrite !N'. reflexivity.
Qed.

(** C2, as the code has it.  [HandleChildCrash] returns, having set
    FatalError unless an immediate shutdown is in progress, moved to
    WaitBackends from Recovery, HotStandby, Run, StopBackends and Shutdown
    (and from no other state), and recorded the time as the deadline when
    none was set.  It signals only if FatalError was not set and no
    immediate shutdown is in progress: then every other running worker,
    every other backend of the registry that is not a worker, and every
    other special child but the syslogger gets SIGQUIT, or SIGABRT under
    send_abort_for_crash, and nobody else; it forgets the dead child, in
    the registry, among the workers and among the special children.
    For a backend it is run on any exit status but 0 and 1, and on status
    0 or 1 if the child was not dead-end and its slot cannot be released;
    for a registered worker likewise, once the time of the exit is
    recorded in its entry.  For a special child, [reap_child] takes the
    branch of that child: the wal receiver and the slot sync worker run
    it on any status but 0 and 1, as does the archiver, which may then be
    launched again; the background writer, the wal writer, the wal
    summarizer and the autovacuum launcher on any status but 0, status 1
    included; the checkpointer on any exit but status 0 in the Shutdown
    state; the syslogger never.  The startup process runs it on any status
    but 0, unless a shutdown is requested and the status is 1, or the
    status is 3: then it does not; and in the Startup state, if it had not
    been signalled, the postmaster exits with status 1 instead. *)
Theorem C2_crash_cascade env p exitstatus s :
  (exists s',
      HandleChildCrash env p exitstatus s = Ret tt s'
      /\ flag s' FatalError
         = (flag s FatalError || negb (Shutdown s =? ImmediateShutdown))
      /\ Shutdown s' = Shutdown s
      /\ pmState s'
         = (if cascade_moves (pmState s) then PM_WAIT_BACKENDS else pmState s)
      /\ AbortStartTime s'
         = (if AbortStartTime s =? 0 then time env (clk s) else AbortStartTime s)
      /\ kills (trace s')
         = kills (trace s)
           ++ (if negb (flag s FatalError) && negb (Shutdown s =? ImmediateShutdown)
               then flat_map (signal_child_kills (HAVE_SETSID env)
                                (quit_signal (cfg s)))
                      (crash_targets p s s')
               else [])
      /\ (forall c,
            pidv s' c
            = (if negb (SpecialChild_eqb SysLoggerPID c) && (p =? pidv s c)
               then 0 else pidv s c))
      /\ BackendList s'
         = filter (fun bp => negb (pid bp =? p))
                  (fold_left (crash_unlink p) (BackgroundWorkerList s)
                             (BackendList s))
      /\ BackgroundWorkerList s'
         = map (crash_worker p) (BackgroundWorkerList s))
  /\ (forall c,
        p = pidv s c -> (forall c', c' <> c -> p <> pidv s c') ->
        reap_child env p exitstatus s = reap_special env c p exitstatus s)
  /\ ((forall c, p <> pidv s c) ->
      reap_child env p exitstatus s
      = (was_worker <- CleanupBackgroundWorker env p exitstatus ;;
         if was_worker then set_flag HaveCrashedWorker true
         else CleanupBackend env p exitstatus) s)
  /\ (negb (EXIT_STATUS_0 exitstatus) && negb (EXIT_STATUS_1 env exitstatus) = true ->
      CleanupBackend env p exitstatus s = HandleChildCrash env p exitstatus s)
  /\ (forall c,
        reap_crash_unless_0_or_1 env c p exitstatus s
        = if EXIT_STATUS_0 exitstatus || EXIT_STATUS_1 env exitstatus
          then Ret tt (forget_child c s)
          else HandleChildCrash env p exitstatus (forget_child c s))
  /\ (forall c,
        reap_crash_unless_0 env c p exitstatus s
        = if EXIT_STATUS_0 exitstatus
          then Ret tt (forget_child c s)
          else HandleChildCrash env p exitstatus (forget_child c s))
  /\ (EXIT_STATUS_0 exitstatus && PMState_eqb (pmState s) PM_SHUTDOWN = false ->
      reap_checkpointer env p exitstatus s
      = HandleChildCrash env p exitstatus (forget_child CheckpointerPID s))
  /\ (exists s',
        reap_syslogger env p exitstatus s = Ret tt s'
        /\ flag s' = flag s /\ pmState s' = pmState s /\ trace s' = trace s
        /\ AbortStartTime s' = AbortStartTime s)
  /\ (negb (EXIT_STATUS_0 exitstatus) && negb (EXIT_STATUS_1 env exitstatus) = false ->
      match find (fun b => pid b =? p) (BackendList s) with
      | None => CleanupBackend env p exitstatus s = Ret tt s
      | Some bp =>
          if negb (dead_end bp)
             && negb (ReleasePostmasterChildSlot env (clk s) (child_slot bp))
          then CleanupBackend env p exitstatus s
               = HandleChildCrash env p exitstatus (put_clk (S (clk s)) s)
          else exists s',
                 CleanupBackend env p exitstatus s = Ret tt s'
                 /\ BackendList s'
                    = remove_first (fun b => pid b =? p) (BackendList s)
                 /\ flag s' = flag s /\ pmState s' = pmState s
                 /\ trace s' = trace s /\ AbortStartTime s' = AbortStartTime s
      end)
  /\ match find (fun rw => rw_pid rw =? p) (BackgroundWorkerList s) with
     | None => CleanupBackgroundWorker env p exitstatus s = Ret false s
     | Some rw =>
         let s1 :=
           if negb (EXIT_STATUS_0 exitstatus)
           then put_BackgroundWorkerList
                  (update_first (fun rw => rw_pid rw =? p)
                     (fun _ => set_rw_crashed_at (GetCurrentTimestamp env (clk s)) rw)
                     (BackgroundWorkerList s))
                  (put_clk (S (clk s)) s)
           else put_BackgroundWorkerList
                  (update_first (fun rw => rw_pid rw =? p)
                     (fun _ => set_rw_terminate true (set_rw_crashed_at 0 rw))
                     (BackgroundWorkerList s))
                  s in
         if negb (EXIT_STATUS_0 exitstatus) && negb (EXIT_STATUS_1 env exitstatus)
         then CleanupBackgroundWorker env p exitstatus s
              = (HandleChildCrash env p exitstatus ;; ret true) s1
         else if negb (ReleasePostmasterChildSlot env (clk s1) (rw_child_slot rw))
         then CleanupBackgroundWorker env p exitstatus s
              = (HandleChildCrash env p exitstatus ;; ret true)
                  (put_clk (S (clk s1)) s1)
         else exists s',
                CleanupBackgroundWorker env p exitstatus s = Ret true s'
                /\ BackendList s' = dlist_delete (rw_backend rw) (BackendList s)
                /\ flag s' = flag s /\ pmState s' = pmState s
                /\ trace s' = trace s /\ AbortStartTime s' = AbortStartTime s
                /\ pidv s' = pidv s
     end
  /\ reap_archiver env p exitstatus s
     = (if EXIT_STATUS_0 exitstatus || EXIT_STATUS_1 env exitstatus
        then (allowed <- PgArchStartupAllowed env ;;
              when allowed (start_special env PgArchPID B_ARCHIVER))
               (forget_child PgArchPID s)
        else (HandleChildCrash env p exitstatus ;;
              allowed <- PgArchStartupAllowed env ;;
              when allowed (start_special env PgArchPID B_ARCHIVER))
               (forget_child PgArchPID s))
  /\ ((Shutdown s >? NoShutdown)
      && (EXIT_STATUS_0 exitstatus || EXIT_STATUS_1 env exitstatus) = false ->
      EXIT_STATUS_3 env exitstatus = false ->
      EXIT_STATUS_0 exitstatus = false ->
      reap_startup env p exitstatus s
      = if StartupStatus_eqb (StartupStatus s) STARTUP_SIGNALED
        then HandleChildCrash env p exitstatus
               (if PMState_eqb (pmState s) PM_STARTUP
                then put_trace
                       (Transition PM_STARTUP PM_WAIT_BACKENDS :: trace s)
                       (put_pmState PM_WAIT_BACKENDS
                          (put_StartupStatus STARTUP_NOT_RUNNING
                             (forget_child StartupPID s)))
                else put_StartupStatus STARTUP_NOT_RUNNING
                       (forget_child StartupPID s))
        else if PMState_eqb (pmState s) PM_STARTUP
        then Exit 1 (forget_child StartupPID s)
        else HandleChildCrash env p exitstatus
               (put_StartupStatus STARTUP_CRASHED (forget_child StartupPID s)))
  /\ ((Shutdown s >? NoShutdown)
      && (EXIT_STATUS_0 exitstatus || EXIT_STATUS_1 env exitstatus)
      || EXIT_STATUS_3 env exitstatus = true ->
      exists s',
        reap_startup env p exitstatus s = Ret tt s'
        /\ flag s' FatalError = flag s FatalError
        /\ pmState s' = PM_WAIT_BACKENDS).
Proof.
  split.
  { destruct (HandleChildCrash_run env p exitstatus s)
      as (s' & E & A1 & A2 & A3 & A4 & A5 & A6).
    pose proof (HandleChildCrash_lists env p exitstatus s) as L.
    rewrite E in L. cbn [final] in L. destruct L as [L1 L2].
    exists s'. repeat split; assumption. }
  split; [intros c; apply reap_child_special |].
  split; [apply reap_child_other |].
  split; [| split; [| split; [| split; [| split; [| split; [| split; [| split; [| split]]]]]]]].
  - intro H. unfold CleanupBackend. rewrite H. reflexivity.
  - intro c. unfold reap_crash_unless_0_or_1, bind, set_pid, modify, when.
    rewrite <- negb_orb.
    destruct (EXIT_STATUS_0 exitstatus || EXIT_STATUS_1 env exitstatus);
      reflexivity.
  - intro c. unfold reap_crash_unless_0, bind, set_pid, modify, when.
    destruct (EXIT_STATUS_0 exitstatus); reflexivity.
  - intro H. unfold reap_checkpointer, bind, set_pid, modify, gets.
    cbn [pmState put_pidv]. rewrite H. reflexivity.
  - unfold reap_syslogger, bind, set_pid, modify, ask.
    eexists. split; [reflexivity |]. repeat split.
  - intro H.
    assert (E : CleanupBackend env p exitstatus s
                = match find (fun b => pid b =? p) (BackendList s) with
                  | None => Ret tt s
                  | Some bp =>
                      if negb (dead_end bp) then
                        if negb (ReleasePostmasterChildSlot env (clk s) (child_slot bp))
                        then HandleChildCrash env p exitstatus (put_clk (S (clk s)) s)
                        else Ret tt (put_BackendList
                                       (remove_first (fun b => pid b =? p)
                                                     (BackendList s))
                                       (put_clk (S (clk s)) s))
                      else Ret tt (put_BackendList
                                     (remove_first (fun b => pid b =? p)
                                                   (BackendList s)) s)
                  end).
    { unfold CleanupBackend. rewrite H. unfold bind at 1, gets at 1.
      destruct (find (fun b => pid b =? p) (BackendList s)) as [bp |];
        [| reflexivity].
      unfold bind, ask, ret, modify.
      destruct (dead_end bp); cbn [negb]; [reflexivity |].
      destruct (ReleasePostmasterChildSlot env (clk s) (child_slot bp));
        reflexivity. }
    rewrite E.
    destruct (find (fun b => pid b =? p) (BackendList s)) as [bp |];
      [| reflexivity].
    destruct (dead_end bp); cbn [negb andb].
    + eexists. split; [reflexivity |]. repeat split.
    + destruct (ReleasePostmasterChildSlot env (clk s) (child_slot bp));
        cbn [negb]; [| reflexivity].
      eexists. split; [reflexivity |]. repeat split.
  - unfold CleanupBackgroundWorker.
    destruct (find (fun rw => rw_pid rw =? p) (BackgroundWorkerList s)) as [rw |]
      eqn:F.
    2: { unfold bind, gets. rewrite F. reflexivity. }
    cbv zeta.
    destruct (EXIT_STATUS_0 exitstatus); cbn [negb andb].
    + destruct (ReleasePostmasterChildSlot env (clk s) (rw_child_slot rw)) eqn:RL;
        cbn [negb clk put_BackgroundWorkerList].
      * rewrite RL. cbn [negb]. unfold bind, gets, modify, ask, ret.
        rewrite F. cbn [negb clk put_BackgroundWorkerList]. rewrite RL.
        cbn [negb].
        eexists. split; [reflexivity |]. repeat split.
      * rewrite RL. cbn [negb]. unfold bind at 1, gets at 1. rewrite F.
        unfold bind at 1. unfold ret at 1. unfold bind at 1, modify at 1.
        unfold bind at 1, ask at 1. cbn [clk put_BackgroundWorkerList].
        rewrite RL. reflexivity.
    + destruct (EXIT_STATUS_1 env exitstatus); cbn [negb].
      * cbn [clk put_BackgroundWorkerList put_clk].
        destruct (ReleasePostmasterChildSlot env (S (clk s)) (rw_child_slot rw))
          eqn:RL; cbn [negb].
        -- unfold bind, gets, modify, ask, ret.
           rewrite F. cbn [negb clk put_BackgroundWorkerList put_clk]. rewrite RL.
           cbn [negb].
           eexists. split; [reflexivity |]. repeat split.
        -- unfold bind at 1, gets at 1. rewrite F.
           unfold bind at 1. unfold bind at 1, ask at 1. unfold ret at 1.
           unfold bind at 1, modify at 1.
           unfold bind at 1, ask at 1. cbn [clk put_BackgroundWorkerList put_clk].
           rewrite RL. reflexivity.
      * unfold bind at 1, gets at 1. rewrite F.
        unfold bind at 1. unfold bind at 1, ask at 1. unfold ret at 1.
        unfold bind at 1, modify at 1. reflexivity.
  - unfold reap_archiver, reap_crash_unless_0_or_1.
    unfold bind at 1. unfold bind at 1, set_pid at 1, modify at 1.
    rewrite <- negb_orb.
    destruct (EXIT_STATUS_0 exitstatus || EXIT_STATUS_1 env exitstatus);
      cbn [negb when]; reflexivity.
  - intros H1 H3 H0. unfold reap_startup.
    unfold bind at 1, set_pid at 1, modify at 1. unfold bind at 1, gets at 1.
    change (put_pidv (upd SpecialChild_eqb (pidv s) StartupPID 0) s)
      with (forget_child StartupPID s).
    cbn [Shutdown pmState StartupStatus forget_child put_pidv].
    rewrite H1, H3, H0. cbn [negb andb].
    rewrite andb_true_r.
    destruct (StartupStatus_eqb (StartupStatus s) STARTUP_SIGNALED);
      cbn [negb andb].
    + rewrite andb_false_r.
      unfold bind at 1. unfold bind at 1, modify at 1.
      destruct (PMState_eqb (pmState s) PM_STARTUP) eqn:EP; cbn [when].
      * apply PMState_eqb_eq in EP.
        unfold set_pmState, modify. cbn [pmState put_StartupStatus trace].
        unfold forget_child at 1 2. cbn [pmState trace put_pidv].
        rewrite EP. reflexivity.
      * reflexivity.
    + rewrite andb_true_r.
      destruct (PMState_eqb (pmState s) PM_STARTUP); [reflexivity |].
      reflexivity.
  - intro H. unfold reap_startup.
    unfold bind at 1, set_pid at 1, modify at 1. unfold bind at 1, gets at 1.
    cbn [Shutdown pmState StartupStatus put_pidv].
    destruct ((Shutdown s >? NoShutdown)
              && (EXIT_STATUS_0 exitstatus || EXIT_STATUS_1 env exitstatus)) eqn:H1.
    + unfold bind, modify, set_pmState. eexists. split; [reflexivity |].
      repeat split.
    + cbn [orb] in H. rewrite H.
      unfold bind at 1, modify at 1. unfold bind at 1, modify at 1.
      destruct (keeps_run quiet (TerminateChildren env SIGTERM)
                  (put_Shutdown (Z.max (Shutdown s) SmartShutdown)
                     (put_StartupStatus STARTUP_NOT_RUNNING
                        (put_pidv (upd SpecialChild_eqb (pidv s) StartupPID 0) s))))
        as ([] & s1 & E & Q).
      { apply TerminateChildren_quiet. }
      rewrite (bind_Ret _ _ _ _ _ E). unfold set_pmState, modify.
      eexists. split; [reflexivity |].
      destruct Q as (Q1 & Q2 & Q3 & Q4 & Q5 & Q6).
      cbn [flag pmState put_trace put_pmState put_Shutdown put_StartupStatus
           put_pidv] in *.
      split; [exact Q3 | reflexivity].
Qed.

(** C2 as stated fails.  The startup process exits with status 0 and the
    postmaster is in Run.  If then the background writer exits with exit
    code 1 (wait status 256, [EXIT_STATUS_1]), or the checkpointer with
    status 0, the cascade runs all the same: FatalError is set, the state
    is WaitBackends and the other children were sent SIGQUIT. *)
Lemma C2_counterexample_clean_exits_cascade :
  EXIT_STATUS_1 linux_env 256 = true
  /\ flag (final (run (reaping_env [(1003, 0); (1002, 256)])
                      [InSignal SIGCHLD; InEvent false]
                      (PM_initial default_config []))) FatalError = true
  /\ transitions
       (trace (final (run (reaping_env [(1003, 0); (1002, 256)])
                          [InSignal SIGCHLD; InEvent false]
                          (PM_initial default_config []))))
     = [(PM_INIT, PM_STARTUP); (PM_STARTUP, PM_RUN); (PM_RUN, PM_WAIT_BACKENDS)]
  /\ kills
       (trace (final (run (reaping_env [(1003, 0); (1002, 256)])
                          [InSignal SIGCHLD; InEvent false]
                          (PM_initial default_config []))))
     = [(1001, SIGQUIT); (-1001, SIGQUIT); (1006, SIGQUIT); (-1006, SIGQUIT);
        (1007, SIGQUIT); (-1007, SIGQUIT)]
  /\ flag (final (run (reaping_env [(1003, 0); (1001, 0)])
                      [InSignal SIGCHLD; InEvent false]
                      (PM_initial default_config []))) FatalError = true
  /\ transitions
       (trace (final (run (reaping_env [(1003, 0); (1001, 0)])
                          [InSignal SIGCHLD; InEvent false]
                          (PM_initial default_config []))))
     = [(PM_INIT, PM_STARTUP); (PM_STARTUP, PM_RUN); (PM_RUN, PM_WAIT_BACKENDS)].
Proof. repeat split; vm_compute; reflexivity. Qed.


(** ** The recorded transitions form one walk *)

Lemma chained_core init tr : forall st,
  chained init st (core_trace tr) <-> chained init st tr.
Proof.
  induction tr as [| e r IH]; intro st; [reflexivity |].
  destruct e; cbn [core_trace filter is_core chained]; fold (core_trace r);
    rewrite ?IH; reflexivity.
Qed.

Lemma ot_ret {A} (a : A) : stays_on_track (ret a).
Proof. intros s H. exact H. Qed.

Lemma ot_gets {A} (f : PM -> A) : stays_on_track (gets f).
Proof. intros s H. exact H. Qed.

Lemma ot_exit {A} st : stays_on_track (@ExitPostmaster A st).
Proof. intros s H. exact H. Qed.

Lemma ot_modify (f : PM -> PM) :
  (forall s, pmState (f s) = pmState s /\ trace (f s) = trace s) ->
  stays_on_track (modify f).
Proof.
  intros F s H. unfold on_track, modify. cbn [final].
  destruct (F s) as [-> ->]. exact H.
Qed.

Lemma ot_set_pmState v : stays_on_track (set_pmState v).
Proof. intros s H. split; [reflexivity | exact H]. Qed.

Lemma ot_bind {A B} (m : M A) (k : A -> M B) :
  stays_on_track m -> (forall a, stays_on_track (k a)) -> stays_on_track (bind m k).
Proof.
  intros Hm Hk s H. unfold bind. specialize (Hm s H).
  destruct (m s) as [a s1 | st s1]; cbn [final] in *; [apply Hk; exact Hm | exact Hm].
Qed.

Lemma ot_when (b : bool) (m : M unit) : stays_on_track m -> stays_on_track (when b m).
Proof. destruct b; cbn; [auto | intros _; apply ot_ret]. Qed.

Lemma ot_frame {A} R (m : M A) : keeps (frame R) m -> stays_on_track m.
Proof.
  intros K s H. specialize (K s). unfold wp in K.
  destruct (m s) as [a s1 | st s1]; [| destruct K]. cbn [final].
  destruct K as (K1 & _ & _ & _ & K5 & _).
  unfold on_track in *. rewrite K1.
  apply chained_core. rewrite K5. apply chained_core. exact H.
Qed.

Ltac ot_step :=
  lazymatch goal with
  | |- stays_on_track (bind _ _) => apply ot_bind; [| intro]
  | |- stays_on_track (ret _) => apply ot_ret
  | |- stays_on_track (gets _) => apply ot_gets
  | |- stays_on_track (ExitPostmaster _) => apply ot_exit
  | |- stays_on_track (when _ _) => apply ot_when
  | |- stays_on_track (set_pmState _) => apply ot_set_pmState
  | |- stays_on_track (modify _) => apply ot_modify; intro; split; reflexivity
  | |- stays_on_track (set_flag _ _) => apply ot_modify; intro; split; reflexivity
  | |- stays_on_track (set_pid _ _) => apply ot_modify; intro; split; reflexivity
  | |- stays_on_track (emit _) =>
      let s := fresh in let H := fresh in intros s H; exact H
  | |- stays_on_track (ask _ _) =>
      let s := fresh in let H := fresh in intros s H; exact H
  | |- stays_on_track (if ?b then _ else _) => destruct b
  | |- stays_on_track (match ?x with _ => _ end) => destruct x
  | |- stays_on_track (let _ := _ in _) => cbv zeta
  end.

Ltac ot_tac := repeat ot_step.

Section OnTrack.

Variable env : Env.

Ltac ot_quiet :=
  first
    [ apply (ot_frame (fun _ a b => b = a));
      first [ apply signal_child_quiet | apply sigquit_child_quiet
            | apply SignalSomeChildren_quiet | apply SignalChildren_quiet
            | apply signal_special_quiet | apply TerminateChildren_quiet
            | apply CountChildren_quiet | apply canAcceptConnections_quiet
            | apply BackendStartup_quiet | apply PgArchStartupAllowed_quiet
            | apply maybe_start_bgworkers_quiet | apply StartAutovacuumWorker_quiet
            | apply DetermineSleepTime_quiet | apply deliver_quiet
            | apply pending_shutdown_mode_quiet
            | apply process_pm_reload_request_quiet
            | apply HandleChildCrash_workers_quiet
            | apply HandleChildCrash_backends_quiet ]
    | apply (ot_frame (fun _ a b => b = a \/ b = 0));
      apply HandleChildCrash_children_zeroing ].

Lemma StartChildProcess_ot t : stays_on_track (StartChildProcess env t).
Proof. unfold StartChildProcess. ot_tac. Qed.

Lemma start_special_ot c t : stays_on_track (start_special env c t).
Proof. unfold start_special. ot_tac. apply StartChildProcess_ot. Qed.

Lemma start_special_if_zero_ot c t : stays_on_track (start_special_if_zero env c t).
Proof. unfold start_special_if_zero. ot_tac. apply start_special_ot. Qed.

Lemma HandleChildCrash_ot p st : stays_on_track (HandleChildCrash env p st).
Proof. unfold HandleChildCrash. ot_tac. ot_quiet. Qed.

Ltac ot_call :=
  first [ ot_quiet | apply start_special_ot | apply start_special_if_zero_ot
        | apply StartChildProcess_ot | apply HandleChildCrash_ot ].

Lemma MaybeStartWalReceiver_ot : stays_on_track (MaybeStartWalReceiver env).
Proof. unfold MaybeStartWalReceiver. ot_tac; ot_call. Qed.

Lemma MaybeStartWalSummarizer_ot : stays_on_track (MaybeStartWalSummarizer env).
Proof. unfold MaybeStartWalSummarizer. ot_tac; ot_call. Qed.

Lemma MaybeStartSlotSyncWorker_ot : stays_on_track (MaybeStartSlotSyncWorker env).
Proof. unfold MaybeStartSlotSyncWorker. ot_tac; ot_call. Qed.

Lemma CleanupBackend_ot p st : stays_on_track (CleanupBackend env p st).
Proof. unfold CleanupBackend. ot_tac; ot_call. Qed.

Lemma CleanupBackgroundWorker_ot p st :
  stays_on_track (CleanupBackgroundWorker env p st).
Proof. unfold CleanupBackgroundWorker. ot_tac; ot_call. Qed.

Lemma PostmasterStateMachine_ot : stays_on_track (PostmasterStateMachine env).
Proof.
  unfold PostmasterStateMachine, PSM_smart_shutdown, PSM_stop_backends,
    PSM_wait_backends, PSM_shutdown_2, PSM_wait_dead_end, PSM_no_children,
    PSM_exit_on_shutdown, PSM_exit_on_failure, PSM_crash_reinit,
    CreateSharedMemoryAndSemaphores.
  ot_tac; ot_call.
Qed.

Ltac ot_call2 :=
  first [ ot_call | apply MaybeStartWalReceiver_ot | apply MaybeStartWalSummarizer_ot
        | apply MaybeStartSlotSyncWorker_ot | apply CleanupBackend_ot
        | apply CleanupBackgroundWorker_ot | apply PostmasterStateMachine_ot ].

Lemma reap_child_ot p st : stays_on_track (reap_child env p st).
Proof.
  unfold reap_child, reap_startup, reap_crash_unless_0, reap_crash_unless_0_or_1,
    reap_checkpointer, reap_archiver, reap_syslogger.
  ot_tac; try ot_call2.
  all: unfold reap_crash_unless_0_or_1; ot_tac; ot_call2.
Qed.

Lemma reap_loop_ot l : stays_on_track (reap_loop env l).
Proof.
  induction l as [| [p st] l IH]; cbn [reap_loop]; ot_tac; auto.
  apply reap_child_ot.
Qed.

Lemma process_pm_child_exit_ot : stays_on_track (process_pm_child_exit env).
Proof.
  unfold process_pm_child_exit. ot_tac;
    first [apply reap_loop_ot | apply PostmasterStateMachine_ot].
Qed.

Lemma process_pm_shutdown_request_ot :
  stays_on_track (process_pm_shutdown_request env).
Proof. unfold process_pm_shutdown_request. ot_tac; ot_call2. Qed.

Lemma process_pm_pmsignal_ot : stays_on_track (process_pm_pmsignal env).
Proof. unfold process_pm_pmsignal. ot_tac; ot_call2. Qed.

Lemma ServerLoop_event_ot accept : stays_on_track (ServerLoop_event env accept).
Proof.
  unfold ServerLoop_event. ot_tac;
    first [ apply process_pm_shutdown_request_ot | apply process_pm_child_exit_ot
          | apply process_pm_pmsignal_ot | ot_call2 ].
Qed.

Lemma ServerLoop_housekeeping_ot : stays_on_track (ServerLoop_housekeeping env).
Proof. unfold ServerLoop_housekeeping. ot_tac; ot_call2. Qed.

Lemma PostmasterMain_ot : stays_on_track (PostmasterMain env).
Proof.
  unfold PostmasterMain, CreateSharedMemoryAndSemaphores. ot_tac; ot_call2.
Qed.

Lemma step_ot i : stays_on_track (step env i).
Proof.
  destruct i; cbn [step]; ot_tac;
    first [ apply ServerLoop_event_ot | apply ServerLoop_housekeeping_ot | ot_call2 ].
Qed.

Lemma steps_ot l : stays_on_track (steps env l).
Proof.
  induction l as [| i rest IH]; cbn [steps]; ot_tac; auto. apply step_ot.
Qed.

Lemma run_ot l : stays_on_track (run env l).
Proof. unfold run. ot_tac; [apply PostmasterMain_ot | apply steps_ot]. Qed.

End OnTrack.

(** ** Creations of shared memory along a run *)

Lemma count_effects_cons (p : Effect -> bool) e r :
  count_effects p (e :: r) = (if p e then 1 else 0) + count_effects p r.
Proof.
  unfold count_effects. cbn [filter]. destruct (p e); cbn [length]; lia.
Qed.

(** On a walk along the edges of the code, the entries into NoChildren
    are the restarts, and one more while the walk is in NoChildren. *)
Lemma entries_restarts tr :
  forall st,
    chained PM_INIT st tr ->
    forallb effect_ok (core_trace tr) = true ->
    count_effects is_entry tr
    = count_effects is_restart tr
      + (if PMState_eqb st PM_NO_CHILDREN then 1 else 0).
Proof.
  induction tr as [| e r IH]; intros st C K.
  - cbn in C. subst st. reflexivity.
  - rewrite !count_effects_cons.
    destruct e as [t sg | o n | ctx | m]; cbn [chained] in C;
      cbn [core_trace filter is_core forallb] in K; fold (core_trace r) in K;
      cbn [is_entry is_restart].
    + rewrite (IH st C K). lia.
    + destruct C as [<- C]. apply andb_true_iff in K. destruct K as [K1 K2].
      rewrite (IH o C K2). cbn [effect_ok] in K1.
      set (cnt := count_effects is_restart r). clearbody cnt. clear IH C K2.
      destruct o, n; vm_compute in K1; try discriminate K1;
        cbn [PMState_eqb PMState_rank Z.eqb Pos.eqb]; lia.
    + apply andb_true_iff in K. destruct K as [_ K2].
      rewrite (IH st C K2). lia.
    + rewrite (IH st C K). lia.
Qed.

Lemma PM_initial_on_track c workers : on_track (PM_initial c workers).
Proof. reflexivity. Qed.

Ltac st_cbn :=
  cbn [pmState Shutdown StartupStatus AbortStartTime pidv flag BackendList
       BackgroundWorkerList cfg clk next_addr trace
       put_pmState put_Shutdown put_StartupStatus put_AbortStartTime put_pidv
       put_flag put_BackendList put_BackgroundWorkerList put_cfg put_clk
       put_next_addr put_trace
       PMState_eqb PMState_rank Z.eqb Pos.eqb andb orb negb
       final exit_status is_B_STARTUP].

(** What [PostmasterStateMachine] does when the last child is gone. *)
Lemma PostmasterStateMachine_last_child env s :
  pmState s = PM_WAIT_DEAD_END -> BackendList s = [] -> pidv s PgArchPID = 0 ->
  let restarting :=
    negb (Shutdown s >? NoShutdown)
    && negb (StartupStatus_eqb (StartupStatus s) STARTUP_CRASHED)
    && restart_after_crash (cfg s) && flag s FatalError in
  let forked := negb (postmaster_child_launch env (S (clk s)) B_STARTUP <? 0) in
  trace (final (PostmasterStateMachine env s))
  = (if restarting
     then (if forked then [Transition PM_NO_CHILDREN PM_STARTUP] else [])
          ++ [ShmemCreate (mkShmemContext PM_NO_CHILDREN true (Shutdown s) true
                                          (tracked_children s))]
     else [])
    ++ Transition PM_WAIT_DEAD_END PM_NO_CHILDREN :: trace s
  /\ exit_status (PostmasterStateMachine env s)
     = (if restarting then (if forked then None else Some 1)
        else if Shutdown s >? NoShutdown
        then Some (if flag s FatalError then 1 else 0)
        else if StartupStatus_eqb (StartupStatus s) STARTUP_CRASHED
                || negb (restart_after_crash (cfg s))
        then Some 1
        else None).
Proof.
  intros St BL PA. cbv zeta.
  assert (H1 : PSM_smart_shutdown env s = Ret tt s).
  { unfold PSM_smart_shutdown, bind, gets. rewrite St. reflexivity. }
  assert (H2 : PSM_stop_backends env s = Ret tt s).
  { unfold PSM_stop_backends, bind, gets. rewrite St. reflexivity. }
  assert (H3 : PSM_wait_backends env s = Ret tt s).
  { unfold PSM_wait_backends, bind, gets. rewrite St. reflexivity. }
  assert (H4 : PSM_shutdown_2 env s = Ret tt s).
  { unfold PSM_shutdown_2, bind, gets. rewrite St. reflexivity. }
  assert (H5 : PSM_wait_dead_end s
               = Ret tt (put_trace
                           (Transition PM_WAIT_DEAD_END PM_NO_CHILDREN :: trace s)
                           (put_pmState PM_NO_CHILDREN s))).
  { unfold PSM_wait_dead_end, bind, gets, set_pmState, modify.
    rewrite St, BL, PA. cbn. rewrite St. reflexivity. }
  unfold PostmasterStateMachine.
  rewrite (bind_Ret _ _ _ _ _ H1), (bind_Ret _ _ _ _ _ H2),
    (bind_Ret _ _ _ _ _ H3), (bind_Ret _ _ _ _ _ H4), (bind_Ret _ _ _ _ _ H5).
  unfold PSM_no_children, PSM_exit_on_shutdown, PSM_exit_on_failure,
    PSM_crash_reinit, bind, gets, ret, ExitPostmaster, when.
  st_cbn.
  destruct (Shutdown s >? NoShutdown); cbv beta iota; st_cbn.
  - destruct (flag s FatalError); split; reflexivity.
  - destruct (StartupStatus_eqb (StartupStatus s) STARTUP_CRASHED);
      cbv beta iota; st_cbn; [split; reflexivity |].
    destruct (restart_after_crash (cfg s)) eqn:RA; cbv beta iota; st_cbn;
      [| split; reflexivity].
    destruct (flag s FatalError) eqn:FE; cbv beta iota; st_cbn;
      [| split; reflexivity].
    unfold CreateSharedMemoryAndSemaphores, start_special, StartChildProcess,
      set_pmState, set_pid, emit, bind, ask, gets, modify, ExitPostmaster, ret,
      tracked_children.
    st_cbn.
    destruct (postmaster_child_launch env (S (clk s)) B_STARTUP <? 0);
      cbv beta iota; cbn [negb app]; st_cbn; rewrite ?RA, ?FE; split; reflexivity.
Qed.

(** C6, as the code has it.  Along every run shared memory is created
    once at boot, and every creation happens while the postmaster tracks
    no child attached to shared memory (the syslogger is not); a creation
    after boot happens only in NoChildren with FatalError set, no shutdown
    requested and restart_after_crash on; the creations after boot are as
    many as the restarts (NoChildren to Startup), one more if the
    postmaster exited because the startup process of the last cycle could
    not be forked.  When the last child is gone, the state machine enters
    NoChildren and then re-creates shared memory exactly once if no
    shutdown is requested, the startup process had not crashed,
    restart_after_crash is on and FatalError is set; in every other case
    it creates nothing: it exits if a shutdown is requested, the startup
    process had crashed or restart_after_crash is off, and stays in
    NoChildren if not.  In a run that has not exited, the creations after
    boot are as many as the entries into NoChildren; in one that has,
    there is at most one entry more than restarts. *)
Theorem C6_shared_memory_creation env c workers l :
  let r := run env l (PM_initial c workers) in
  count_effects is_boot_create (trace (final r)) = 1
  /\ (forall ctx, In (ShmemCreate ctx) (trace (final r)) ->
        at_children ctx = []
        /\ (at_pmState ctx = PM_INIT
            \/ (at_pmState ctx = PM_NO_CHILDREN
                /\ at_FatalError ctx = true
                /\ at_Shutdown ctx = NoShutdown
                /\ at_restart_after_crash ctx = true)))
  /\ match exit_status r with
     | None =>
         count_effects is_reinit_create (trace (final r))
         = count_effects is_restart (trace (final r))
     | Some _ =>
         count_effects is_restart (trace (final r))
         <= count_effects is_reinit_create (trace (final r))
         <= count_effects is_restart (trace (final r)) + 1
     end
  /\ (forall s,
        pmState s = PM_WAIT_DEAD_END -> BackendList s = [] ->
        pidv s PgArchPID = 0 ->
        let restarting :=
          negb (Shutdown s >? NoShutdown)
          && negb (StartupStatus_eqb (StartupStatus s) STARTUP_CRASHED)
          && restart_after_crash (cfg s) && flag s FatalError in
        let forked :=
          negb (postmaster_child_launch env (S (clk s)) B_STARTUP <? 0) in
        trace (final (PostmasterStateMachine env s))
        = (if restarting
           then (if forked then [Transition PM_NO_CHILDREN PM_STARTUP] else [])
                ++ [ShmemCreate
                      (mkShmemContext PM_NO_CHILDREN true (Shutdown s) true
                                      (tracked_children s))]
           else [])
          ++ Transition PM_WAIT_DEAD_END PM_NO_CHILDREN :: trace s
        /\ exit_status (PostmasterStateMachine env s)
           = (if restarting then (if forked then None else Some 1)
              else if Shutdown s >? NoShutdown
              then Some (if flag s FatalError then 1 else 0)
              else if StartupStatus_eqb (StartupStatus s) STARTUP_CRASHED
                      || negb (restart_after_crash (cfg s))
              then Some 1
              else None))
  /\ match exit_status r with
     | None =>
         count_effects is_reinit_create (trace (final r))
         = count_effects is_entry (trace (final r))
     | Some _ =>
         count_effects is_restart (trace (final r))
         <= count_effects is_entry (trace (final r))
         <= count_effects is_restart (trace (final r)) + 1
     end.
Proof.
  cbv zeta. destruct (run_trace_inv env c workers l) as (T1 & T2 & T3).
  split; [| split; [| split; [| split]]].
  - rewrite <- boot_creates_count. exact T2.
  - intros ctx H. pose proof (effect_ok_In _ _ T1 H) as E.
    cbn [effect_ok] in E. unfold boot_context, reinit_context in E.
    apply orb_true_iff in E. destruct E as [E | E].
    + apply andb_true_iff in E. destruct E as [E1 E2].
      apply PMState_eqb_eq in E1.
      destruct (at_children ctx); [auto | discriminate].
    + repeat (apply andb_true_iff in E; destruct E as [E ?]).
      apply PMState_eqb_eq in E. apply Z.eqb_eq in H2.
      destruct (at_children ctx); [| discriminate].
      split; [reflexivity |]. right. auto.
  - rewrite reinit_balance_count in T3.
    destruct (exit_status (run env l (PM_initial c workers))); lia.
  - intros s. apply PostmasterStateMachine_last_child.
  - pose proof (run_ot env l _ (PM_initial_on_track c workers)) as W.
    pose proof (entries_restarts _ _ W T1) as N.
    rewrite reinit_balance_count in T3.
    pose proof (run_Inv env c workers l) as HI.
    unfold wp, loop_post, exit_post in HI.
    destruct (run env l (PM_initial c workers)) as [[] s1 | st s1];
      cbn [final exit_status] in *.
    + destruct HI as [_ [_ HS]].
      destruct (pmState s1); try (exfalso; apply HS; reflexivity);
        cbn [PMState_eqb PMState_rank Z.eqb Pos.eqb] in N; lia.
    + destruct (PMState_eqb (pmState s1) PM_NO_CHILDREN); lia.
Qed.

Lemma C6_shared_memory_creation_witness :
  exit_status
    (run (reaping_env [(1002, 512); (1001, 512); (1003, 512)])
         [InSignal SIGCHLD; InEvent false] (PM_initial default_config []))
  = None
  /\ count_effects is_entry
       (trace (final (run (reaping_env [(1002, 512); (1001, 512); (1003, 512)])
                          [InSignal SIGCHLD; InEvent false]
                          (PM_initial default_config []))))
     = 1
  /\ count_effects is_reinit_create
       (trace (final (run (reaping_env [(1002, 512); (1001, 512); (1003, 512)])
                          [InSignal SIGCHLD; InEvent false]
                          (PM_initial default_config []))))
     = 1.
Proof.
  pose proof (C6_shared_memory_creation
                (reaping_env [(1002, 512); (1001, 512); (1003, 512)])
                default_config [] [InSignal SIGCHLD; InEvent false]) as H.
  cbv zeta in H. destruct H as (_ & _ & _ & _ & H).
  assert (X : exit_status
                (run (reaping_env [(1002, 512); (1001, 512); (1003, 512)])
                     [InSignal SIGCHLD; InEvent false]
                     (PM_initial default_config [])) = None)
    by (vm_compute; reflexivity).
  rewrite X in H. split; [exact X |].
  assert (E : count_effects is_entry
                (trace (final (run (reaping_env [(1002, 512); (1001, 512); (1003, 512)])
                                   [InSignal SIGCHLD; InEvent false]
                                   (PM_initial default_config [])))) = 1)
    by (vm_compute; reflexivity).
  split; [exact E |]. rewrite H. exact E.
Defined.

(** C6 as stated fails: a crash cycle need not re-create shared memory.
    The background writer and the checkpointer crash while the startup
    process runs, the cascade signals the startup process, and the startup
    process is then found to have exited with status 0: FatalError is
    cleared, the postmaster is in Run and launches its children anew, and
    shared memory was created at boot only.  And if the crash comes after
    a fast shutdown was requested, the postmaster reaches NoChildren with
    FatalError set and restart_after_crash on, and exits with status 1
    without re-creating anything. *)
Lemma C6_counterexample_crash_without_recreation :
  kills
    (trace (final (run (reaping_env [(1002, 512); (1001, 512); (1003, 0)])
                       [InSignal SIGCHLD; InEvent false]
                       (PM_initial default_config []))))
  = [(1003, SIGQUIT); (-1003, SIGQUIT); (1001, SIGQUIT); (-1001, SIGQUIT)]
  /\ exit_status
       (run (reaping_env [(1002, 512); (1001, 512); (1003, 0)])
            [InSignal SIGCHLD; InEvent false] (PM_initial default_config []))
     = None
  /\ pmState
       (final (run (reaping_env [(1002, 512); (1001, 512); (1003, 0)])
                   [InSignal SIGCHLD; InEvent false]
                   (PM_initial default_config [])))
     = PM_RUN
  /\ flag
       (final (run (reaping_env [(1002, 512); (1001, 512); (1003, 0)])
                   [InSignal SIGCHLD; InEvent false]
                   (PM_initial default_config []))) FatalError
     = false
  /\ count_effects is_reinit_create
       (trace (final (run (reaping_env [(1002, 512); (1001, 512); (1003, 0)])
                          [InSignal SIGCHLD; InEvent false]
                          (PM_initial default_config []))))
     = 0
  /\ restart_after_crash default_config = true
  /\ transitions
       (trace (final (run (reaping_env [(1002, 512); (1001, 512); (1003, 256)])
                          [InSignal SIGINT; InSignal SIGCHLD; InEvent false]
                          (PM_initial default_config []))))
     = [(PM_INIT, PM_STARTUP); (PM_STARTUP, PM_STOP_BACKENDS);
        (PM_STOP_BACKENDS, PM_WAIT_BACKENDS); (PM_WAIT_BACKENDS, PM_WAIT_BACKENDS);
        (PM_WAIT_BACKENDS, PM_WAIT_DEAD_END); (PM_WAIT_DEAD_END, PM_NO_CHILDREN)]
  /\ flag
       (final (run (reaping_env [(1002, 512); (1001, 512); (1003, 256)])
                   [InSignal SIGINT; InSignal SIGCHLD; InEvent false]
                   (PM_initial default_config []))) FatalError
     = true
  /\ exit_status
       (run (reaping_env [(1002, 512); (1001, 512); (1003, 256)])
            [InSignal SIGINT; InSignal SIGCHLD; InEvent false]
            (PM_initial default_config []))
     = Some 1
  /\ count_effects is_reinit_create
       (trace (final (run (reaping_env [(1002, 512); (1001, 512); (1003, 256)])
                          [InSignal SIGINT; InSignal SIGCHLD; InEvent false]
                          (PM_initial default_config []))))
     = 0.
Proof. repeat split; vm_compute; reflexivity. Qed.


(** * Further properties of the code *)

(** ** What holds whenever the server loop is between two steps *)

(** X1: whenever a run has returned to the server loop, [pmState] is
    none of Init, StopBackends and NoChildren (these are passed through
    within one step); in Run the startup process is gone; connections are
    disallowed in Run or HotStandby only under a shutdown request; a state
    from StopBackends on has a reason, a shutdown request or FatalError;
    and in Shutdown, Shutdown2 and WaitDeadEnd the children that
    [PostmasterStateMachine] asserts to be gone are gone, the
    checkpointer too once past Shutdown. *)
Theorem X1_loop_boundary_state env c workers l :
  match run env l (PM_initial c workers) with
  | Exit _ _ => True
  | Ret _ s =>
      pmState s <> PM_INIT /\ pmState s <> PM_STOP_BACKENDS
      /\ pmState s <> PM_NO_CHILDREN
      /\ (pmState s = PM_RUN -> pidv s StartupPID = 0)
      /\ (pmState s = PM_RUN \/ pmState s = PM_HOT_STANDBY ->
          flag s connsAllowed = false -> 0 < Shutdown s)
      /\ (PMState_rank PM_STOP_BACKENDS <= PMState_rank (pmState s) ->
          0 < Shutdown s \/ flag s FatalError = true)
      /\ (PMState_rank PM_SHUTDOWN <= PMState_rank (pmState s) ->
          pidv s StartupPID = 0 /\ pidv s WalReceiverPID = 0
          /\ pidv s WalSummarizerPID = 0 /\ pidv s BgWriterPID = 0
          /\ pidv s WalWriterPID = 0 /\ pidv s AutoVacPID = 0
          /\ pidv s SlotSyncWorkerPID = 0)
      /\ (PMState_rank PM_SHUTDOWN_2 <= PMState_rank (pmState s) ->
          pidv s CheckpointerPID = 0)
  end.
Proof.
  pose proof (run_Inv env c workers l) as H.
  unfold wp, loop_post in H.
  destruct (run env l (PM_initial c workers)) as [[] s | st s]; [| exact I].
  destruct H as [(SI & _ & _) (S1 & S2)].
  unfold state_inv, late_pids_zero in SI.
  destruct (pmState s) eqn:E; cbn [PMState_rank];
    repeat split; try discriminate; try congruence; try tauto; try lia;
    intuition (try discriminate; try lia; auto).
Qed.


(** ** The exit status of the postmaster *)

Lemma ec_ret {A} (a : A) : exits_only failure (ret a).
Proof. intro s. exact I. Qed.

Lemma ec_gets {A} (f : PM -> A) : exits_only failure (gets f).
Proof. intro s. exact I. Qed.

Lemma ec_modify (f : PM -> PM) : exits_only failure (modify f).
Proof. intro s. exact I. Qed.

Lemma ec_exit_1 {A} : exits_only failure (@ExitPostmaster A 1).
Proof. intro s. reflexivity. Qed.

Lemma ec_bind {A B} (m : M A) (k : A -> M B) :
  exits_only failure m -> (forall a, exits_only failure (k a)) -> exits_only failure (bind m k).
Proof.
  intros Hm Hk s. unfold bind. specialize (Hm s).
  destruct (m s) as [a s1 | st s1]; [apply Hk | exact Hm].
Qed.

Lemma ec_when (b : bool) (m : M unit) : exits_only failure m -> exits_only failure (when b m).
Proof. destruct b; cbn; [auto | intros _; apply ec_ret]. Qed.

Lemma ec_keeps {A} R (m : M A) : keeps R m -> exits_only failure m.
Proof.
  intros H s. specialize (H s). unfold wp in H.
  destruct (m s); [exact I | destruct H].
Qed.

Ltac ec_step :=
  lazymatch goal with
  | |- exits_only failure (bind _ _) => apply ec_bind; [| intro]
  | |- exits_only failure (ret _) => apply ec_ret
  | |- exits_only failure (gets _) => apply ec_gets
  | |- exits_only failure (ExitPostmaster 1) => apply ec_exit_1
  | |- exits_only failure (when _ _) => apply ec_when
  | |- exits_only failure (modify _) => apply ec_modify
  | |- exits_only failure (emit _) => apply ec_modify
  | |- exits_only failure (set_flag _ _) => apply ec_modify
  | |- exits_only failure (set_pid _ _) => apply ec_modify
  | |- exits_only failure (set_pmState _) => apply ec_modify
  | |- exits_only failure (ask _ _) => let s := fresh in intro s; exact I
  | |- exits_only failure (if ?b then _ else _) => destruct b
  | |- exits_only failure (match ?x with _ => _ end) => destruct x
  | |- exits_only failure (let _ := _ in _) => cbv zeta
  end.

Ltac ec_tac := repeat ec_step.

Section ExitStatus.

Variable env : Env.

Ltac ec_quiet :=
  first
    [ apply (ec_keeps quiet); 
      first [ apply signal_child_quiet | apply sigquit_child_quiet
            | apply SignalSomeChildren_quiet | apply SignalChildren_quiet
            | apply signal_special_quiet | apply TerminateChildren_quiet
            | apply CountChildren_quiet | apply canAcceptConnections_quiet
            | apply BackendStartup_quiet | apply PgArchStartupAllowed_quiet
            | apply maybe_start_bgworkers_quiet | apply StartAutovacuumWorker_quiet
            | apply DetermineSleepTime_quiet | apply deliver_quiet
            | apply pending_shutdown_mode_quiet
            | apply process_pm_reload_request_quiet
            | apply HandleChildCrash_workers_quiet
            | apply HandleChildCrash_backends_quiet ]
    | apply (ec_keeps zeroing); apply HandleChildCrash_children_zeroing ].

Lemma StartChildProcess_ec t : exits_only failure (StartChildProcess env t).
Proof. unfold StartChildProcess. ec_tac. Qed.

Lemma start_special_ec c t : exits_only failure (start_special env c t).
Proof. unfold start_special. ec_tac. apply StartChildProcess_ec. Qed.

Lemma start_special_if_zero_ec c t : exits_only failure (start_special_if_zero env c t).
Proof. unfold start_special_if_zero. ec_tac. apply start_special_ec. Qed.

Lemma HandleChildCrash_ec p st : exits_only failure (HandleChildCrash env p st).
Proof. unfold HandleChildCrash. ec_tac. ec_quiet. Qed.

Ltac ec_call :=
  first [ ec_quiet | apply start_special_ec | apply start_special_if_zero_ec
        | apply StartChildProcess_ec | apply HandleChildCrash_ec ].

Lemma MaybeStartWalReceiver_ec : exits_only failure (MaybeStartWalReceiver env).
Proof. unfold MaybeStartWalReceiver. ec_tac; ec_call. Qed.

Lemma MaybeStartWalSummarizer_ec : exits_only failure (MaybeStartWalSummarizer env).
Proof. unfold MaybeStartWalSummarizer. ec_tac; ec_call. Qed.

Lemma MaybeStartSlotSyncWorker_ec : exits_only failure (MaybeStartSlotSyncWorker env).
Proof. unfold MaybeStartSlotSyncWorker. ec_tac; ec_call. Qed.

Lemma CleanupBackend_ec p st : exits_only failure (CleanupBackend env p st).
Proof. unfold CleanupBackend. ec_tac; ec_call. Qed.

Lemma CleanupBackgroundWorker_ec p st :
  exits_only failure (CleanupBackgroundWorker env p st).
Proof. unfold CleanupBackgroundWorker. ec_tac; ec_call. Qed.

Lemma PSM_head_ec :
  exits_only failure
    (PSM_smart_shutdown env ;; PSM_stop_backends env ;; PSM_wait_backends env ;;
     PSM_shutdown_2 env).
Proof.
  unfold PSM_smart_shutdown, PSM_stop_backends, PSM_wait_backends, PSM_shutdown_2.
  ec_tac; ec_call.
Qed.

Ltac ec_call2 :=
  first [ ec_call | apply MaybeStartWalReceiver_ec | apply MaybeStartWalSummarizer_ec
        | apply MaybeStartSlotSyncWorker_ec | apply CleanupBackend_ec
        | apply CleanupBackgroundWorker_ec ].

Lemma reap_child_ec p st : exits_only failure (reap_child env p st).
Proof.
  unfold reap_child, reap_startup, reap_crash_unless_0, reap_crash_unless_0_or_1,
    reap_checkpointer, reap_archiver, reap_syslogger.
  ec_tac; try ec_call2.
  unfold reap_crash_unless_0_or_1. ec_tac; ec_call2.
Qed.

Lemma reap_loop_ec l : exits_only failure (reap_loop env l).
Proof.
  induction l as [| [p st] l IH]; cbn [reap_loop]; ec_tac; auto.
  apply reap_child_ec.
Qed.

Lemma ServerLoop_housekeeping_ec : exits_only failure (ServerLoop_housekeeping env).
Proof. unfold ServerLoop_housekeeping. ec_tac; ec_call2. Qed.

Lemma PostmasterMain_ec : exits_only failure (PostmasterMain env).
Proof.
  unfold PostmasterMain, CreateSharedMemoryAndSemaphores. ec_tac; ec_call2.
Qed.

End ExitStatus.

Lemma wp_exits_only {A} (m : M A) Q X X' s :
  wp m Q X s -> exits_only X' m -> wp m Q X' s.
Proof.
  unfold wp, exits_only. intros H E. specialize (E s).
  destruct (m s); assumption.
Qed.

Lemma wp_conj {A} (m : M A) (Q Q' : A -> PM -> Prop) (X X' : Z -> PM -> Prop) s :
  wp m Q X s -> wp m Q' X' s ->
  wp m (fun a s' => Q a s' /\ Q' a s') (fun st s' => X st s' /\ X' st s') s.
Proof. unfold wp. destruct (m s); auto. Qed.

Section CleanExit.

Variable env : Env.
Variable n : Z.

Local Abbreviation LP := (@loop_post unit n).

Lemma wp_bind_failure {A B} (m : M A) (k : A -> M B) (P : A -> PM -> Prop) Q s :
  wp m P (exit_post n) s -> exits_only failure m ->
  (forall a s', P a s' -> wp (k a) Q clean_exit s') ->
  wp (bind m k) Q clean_exit s.
Proof.
  intros H E K. apply wp_bind.
  apply wp_exits_only with (X := exit_post n).
  - eapply wp_mono; [exact H | exact K | intros ? ? T; exact T].
  - intro s0. specialize (E s0). destruct (m s0); [exact I | left; exact E].
Qed.

Lemma wp_last_failure {A} (m : M A) Q s :
  wp m Q (exit_post n) s -> exits_only failure m -> wp m Q clean_exit s.
Proof.
  intros H E. apply wp_exits_only with (X := exit_post n); [exact H |].
  intro s0. specialize (E s0). destruct (m s0); [exact I | left; exact E].
Qed.

Lemma PSM_tail_clean s :
  Inv true n s -> settled s ->
  wp (PSM_wait_dead_end ;; PSM_no_children env) (fun _ _ => True) clean_exit s.
Proof.
  intros HI HS.
  unfold PSM_wait_dead_end, PSM_no_children, PSM_exit_on_shutdown,
    PSM_exit_on_failure, PSM_crash_reinit, CreateSharedMemoryAndSemaphores,
    start_special, StartChildProcess, clean_exit.
  destruct (pmState s) eqn:Est; try (exfalso; inv_solve; fail);
    wp_run; auto.
  all: try (rewrite andb_false_r in *; discriminate).
  right. bool_prop. destruct (BackendList s) eqn:EB; [| discriminate].
  destruct HI as (SI & _). rewrite Est in SI.
  destruct SI as (_ & P1 & (P2 & P3 & P4 & P5 & P6 & P7) & P8).
  unfold NoShutdown in *.
  repeat split; try lia.
  intros [] Hc; try assumption; try lia. congruence.
Qed.

Lemma PostmasterStateMachine_clean s :
  Inv true n s -> pmState s <> PM_NO_CHILDREN ->
  wp (PostmasterStateMachine env) LP clean_exit s.
Proof.
  intros HI HN.
  assert (T : wp (PostmasterStateMachine env) (fun _ _ => True) clean_exit s).
  { unfold PostmasterStateMachine.
    assert (H : wp (PSM_smart_shutdown env ;; PSM_stop_backends env ;;
                    PSM_wait_backends env ;; PSM_shutdown_2 env)
                   LP (exit_post n) s).
    { apply wp_bind.
      eapply wp_mono; [apply PSM_smart_shutdown_Inv; eauto | | auto].
      intros [] s1 [HI1 HN1]. cbv beta.
      apply wp_bind.
      eapply wp_mono; [apply PSM_stop_backends_Inv; eauto | | auto].
      intros [] s2 [HI2 HS2]. cbv beta.
      apply wp_bind.
      eapply wp_mono; [apply PSM_wait_backends_Inv; eauto | | auto].
      intros [] s3 [HI3 HS3]. cbv beta.
      apply PSM_shutdown_2_Inv; auto. }
    pose proof (wp_last_failure _ _ _ H (PSM_head_ec env)) as H'.
    unfold wp, bind in *.
    destruct (PSM_smart_shutdown env s) as [[] s1 | st s1]; [| exact H'].
    destruct (PSM_stop_backends env s1) as [[] s2 | st s2]; [| exact H'].
    destruct (PSM_wait_backends env s2) as [[] s3 | st s3]; [| exact H'].
    destruct (PSM_shutdown_2 env s3) as [[] s4 | st s4]; [| exact H'].
    destruct H' as [HI4 HS4].
    exact (PSM_tail_clean s4 HI4 HS4). }
  pose proof (wp_conj _ _ _ _ _ _ (PostmasterStateMachine_Inv env n s HI HN) T) as C.
  eapply wp_mono; [exact C | intros ? ? [? _]; assumption | intros ? ? [_ ?]; assumption].
Qed.

Ltac wp_cut :=
  apply wp_bind;
  eapply wp_mono with (Q := fun _ s' => Inv true n s' /\ settled s')
                      (X := clean_exit);
  [ | let a := fresh "r" in let s' := fresh "s" in
      let HI := fresh "HI" in let HS := fresh "HS" in
      intros a s' [HI HS]; cbv beta
    | intros ? ? ?; assumption ].

Ltac reinv :=
  lazymatch goal with
  | |- wp _ _ _ ?st =>
      let HI := fresh "HI" in let HS := fresh "HS" in
      assert (HI : Inv true n st) by inv_solve;
      assert (HS : settled st) by inv_solve
  end.

Ltac psm_now :=
  eapply wp_mono;
  [ eapply PostmasterStateMachine_clean; inv_solve
  | intros ? ? [? ?]; split; assumption
  | intros ? ? ?; assumption ].

Ltac simp_cond :=
  pm_cbn; rewrite ?andb_false_r, ?andb_true_r, ?orb_false_r, ?orb_true_r; pm_cbn.

Ltac done_here := wp_run; solve [split; assumption | inv_solve].

Ltac by_quiet Hq :=
  split; [eapply Inv_quiet | eapply settled_frame]; eauto.

Lemma process_pm_shutdown_request_clean s :
  Inv true n s -> settled s ->
  wp (process_pm_shutdown_request env) LP clean_exit s.
Proof.
  intros HI HS. unfold process_pm_shutdown_request, loop_post.
  wp_call pending_shutdown_mode_quiet.
  wp_prim.
  destruct (pmState s0) eqn:Est; try (exfalso; inv_solve; fail).
  all: wp_prim; [wp_prim; [wp_run; inv_solve | wp_run; psm_now] |].
  all: wp_prim; [wp_prim; [wp_run; inv_solve | wp_run; psm_now] |].
  all: wp_prim; [wp_run; inv_solve |].
  all: wp_prim; reinv.
  all: wp_call (TerminateChildren_quiet env SIGQUIT).
  all: wp_run; psm_now.
Qed.

Lemma process_pm_child_exit_clean s :
  Inv true n s -> settled s ->
  wp (process_pm_child_exit env) LP clean_exit s.
Proof.
  intros HI HS. unfold process_pm_child_exit, loop_post.
  do 2 wp_prim. reinv. assert (HS' := HS).
  wp_cut.
  { apply wp_last_failure; [apply reap_loop_Inv; inv_solve | apply reap_loop_ec]. }
  psm_now.
Qed.

Lemma process_pm_pmsignal_clean s :
  Inv true n s -> settled s ->
  wp (process_pm_pmsignal env) LP clean_exit s.
Proof.
  intros HI HS. unfold process_pm_pmsignal, loop_post.
  do 3 wp_prim.
  wp_cut.
  { reinv. destruct (pmState s) eqn:Est; simp_cond; try done_here.
    all: wp_prim; try done_here.
    all: do 2 wp_prim; wp_prim; try done_here.
    all: reinv;
      wp_call (start_special_quiet_but env PgArchPID B_ARCHIVER eq_refl);
      done_here. }
  do 2 wp_prim.
  wp_cut.
  { reinv. destruct (pmState s0) eqn:Est; simp_cond; done_here. }
  wp_prim.
  wp_cut.
  { reinv. done_here. }
  wp_prim.
  wp_cut.
  { wp_prim; try done_here.
    wp_use (maybe_start_bgworkers_quiet env). intros ? ? Hq.
    split; [eapply Inv_quiet | eapply settled_frame]; eauto. }
  wp_prim.
  wp_cut.
  { unfold signal_child. done_here. }
  do 2 wp_prim.
  wp_cut.
  { reinv. done_here. }
  do 2 wp_prim.
  wp_cut.
  { reinv. wp_prim; try done_here.
    wp_use (StartAutovacuumWorker_quiet env). intros ? ? Hq.
    split; [eapply Inv_quiet | eapply settled_frame]; eauto; inv_solve. }
  wp_prim.
  wp_cut.
  { reinv. wp_prim; try done_here. wp_prim. reinv.
    wp_use (MaybeStartWalReceiver_gated env). intros ? ? Hq.
    split; [eapply Inv_gated | eapply settled_frame; [apply gated_quiet_but |]];
      eauto; inv_solve. }
  wp_prim.
  wp_cut.
  { reinv. wp_prim; try done_here. psm_now. }
  unfold signal_child. done_here.
Qed.

Lemma ServerLoop_event_clean accept s :
  Inv true n s -> settled s ->
  wp (ServerLoop_event env accept) LP clean_exit s.
Proof.
  intros HI HS. unfold ServerLoop_event, loop_post.
  wp_prim.
  wp_cut; [wp_prim; [apply process_pm_shutdown_request_clean; auto | done_here] |].
  wp_prim.
  wp_cut.
  { wp_prim; try done_here.
    wp_use (process_pm_reload_request_quiet env). intros ? ? Hq. by_quiet Hq. }
  wp_prim.
  wp_cut; [wp_prim; [apply process_pm_child_exit_clean; auto | done_here] |].
  wp_prim.
  wp_cut; [wp_prim; [apply process_pm_pmsignal_clean; auto | done_here] |].
  wp_prim; try done_here.
  wp_prim. reinv. wp_prim; try done_here.
  wp_call (BackendStartup_quiet env).
  done_here.
Qed.

Lemma step_clean i s :
  Inv true n s -> settled s -> wp (step env i) LP clean_exit s.
Proof.
  intros HI HS. destruct i; cbn [step].
  - wp_use (deliver_quiet sig). intros ? ? Hq. by_quiet Hq.
  - wp_call (DetermineSleepTime_quiet env). done_here.
  - apply ServerLoop_event_clean; auto.
  - apply wp_last_failure;
      [apply ServerLoop_housekeeping_Inv; auto | apply ServerLoop_housekeeping_ec].
Qed.

Lemma steps_clean l s :
  Inv true n s -> settled s -> wp (steps env l) LP clean_exit s.
Proof.
  revert s. induction l as [| i rest IH]; intros s HI HS; cbn [steps].
  - done_here.
  - wp_cut; [apply step_clean; auto |]. apply IH; auto.
Qed.

End CleanExit.

Lemma run_clean env c workers l :
  wp (run env l) (fun _ _ => True) clean_exit (PM_initial c workers).
Proof.
  unfold run. apply wp_bind.
  apply wp_exits_only with (X := exit_post NoShutdown).
  - eapply wp_mono; [apply PostmasterMain_Inv | | intros ? ? H; exact H].
    intros [] s [HI HS]. cbv beta.
    eapply wp_mono; [apply steps_clean; eassumption | auto | auto].
  - intro s. pose proof (PostmasterMain_ec env s) as E.
    destruct (PostmasterMain env s); [exact I | left; exact E].
Qed.

(** X2: the exit status of the postmaster.  Whatever happens to it, the
    postmaster leaves only through [ExitPostmaster(1)] or
    [ExitPostmaster(0)]; and it exits with status 0 only after a shutdown
    request, with FatalError clear, the list of backends empty and no
    special child but possibly the syslogger left. *)
Theorem X2_exit_status env c workers l :
  match run env l (PM_initial c workers) with
  | Ret _ _ => True
  | Exit st s =>
      st = 1
      \/ (st = 0 /\ 0 < Shutdown s /\ flag s FatalError = false
          /\ pmState s = PM_NO_CHILDREN /\ BackendList s = []
          /\ forall c, c <> SysLoggerPID -> pidv s c = 0)
  end.
Proof.
  pose proof (run_clean env c workers l) as H. unfold wp in H.
  destruct (run env l (PM_initial c workers)); [exact I | exact H].
Qed.


(** ** Signalling and counting the backends *)

Lemma relabel_pid ws bp : pid (relabel_walsender ws bp) = pid bp.
Proof. unfold relabel_walsender. destruct (_ && _); reflexivity. Qed.

Lemma relabel_dead_end ws bp : dead_end (relabel_walsender ws bp) = dead_end bp.
Proof. unfold relabel_walsender. destruct (_ && _); reflexivity. Qed.

Lemma put_trace_put_trace a b s : put_trace a (put_trace b s) = put_trace a s.
Proof. reflexivity. Qed.

Lemma kills_signal_child setsid sg p tr :
  kills ((if setsid && group_signal sg then [Kill (- p) sg] else [])
         ++ Kill p sg :: tr)
  = kills tr ++ signal_child_kills setsid sg p.
Proof.
  unfold signal_child_kills.
  destruct (setsid && group_signal sg); cbn [app kills];
    rewrite <- ?app_assoc; reflexivity.
Qed.

Lemma SignalSomeChildren_loop_run env ws sg target l : forall signaled s,
  exists tr,
    SignalSomeChildren_loop env ws sg target l signaled s
    = Ret (map (relabel_for ws target) l,
           signaled || existsb (targeted ws target) l) (put_trace tr s)
    /\ kills tr
       = kills (trace s)
         ++ flat_map (signal_child_kills (HAVE_SETSID env) sg)
              (map pid (filter (targeted ws target) l)).
Proof.
  induction l as [| bp rest IH]; intros signaled s.
  - exists (trace s). cbn. rewrite orb_false_r, app_nil_r, put_trace_same. auto.
  - cbn [SignalSomeChildren_loop map existsb filter].
    set (RL := map (relabel_for ws target) rest) in *.
    set (EX := existsb (targeted ws target) rest) in *.
    set (FL := filter (targeted ws target) rest) in *.
    unfold relabel_for, targeted.
    destruct (dead_end bp) eqn:D; cbn [negb andb orb].
    + destruct (IH signaled s) as (tr & E & K).
      exists tr. rewrite (bind_Ret _ _ _ _ _ E). cbn [fst snd]. auto.
    + destruct (target =? BACKEND_TYPE_ALL) eqn:T; cbn [negb orb].
      * unfold bind at 1. rewrite signal_child_run.
        destruct (IH true (put_trace
                    ((if HAVE_SETSID env && group_signal sg
                      then [Kill (- pid bp) sg] else [])
                     ++ Kill (pid bp) sg :: trace s) s)) as (tr & E & K).
        exists tr. rewrite (bind_Ret _ _ _ _ _ E). cbn [fst snd].
        cbn [orb]. rewrite orb_true_r. split; [reflexivity |].
        rewrite K. cbn [trace put_trace map flat_map].
        rewrite kills_signal_child, <- app_assoc. reflexivity.
      * cbv zeta.
        destruct (Z.land target (bkend_type (relabel_walsender ws bp)) =? 0) eqn:L;
          cbn [negb].
        -- destruct (IH signaled s) as (tr & E & K).
           exists tr. rewrite (bind_Ret _ _ _ _ _ E). cbn [fst snd]. auto.
        -- unfold bind at 1. rewrite signal_child_run, relabel_pid.
           destruct (IH true (put_trace
                       ((if HAVE_SETSID env && group_signal sg
                         then [Kill (- pid bp) sg] else [])
                        ++ Kill (pid bp) sg :: trace s) s)) as (tr & E & K).
           exists tr. rewrite (bind_Ret _ _ _ _ _ E). cbn [fst snd].
           cbn [orb]. rewrite orb_true_r. split; [reflexivity |].
           rewrite K. cbn [trace put_trace map flat_map].
           rewrite kills_signal_child, <- app_assoc. reflexivity.
Qed.

Lemma CountChildren_loop_run ws target l :
  CountChildren_loop ws target l
  = (map (relabel_for ws target) l,
     Z.of_nat (length (filter (targeted ws target) l))).
Proof.
  induction l as [| bp rest IH]; [reflexivity |].
  cbn [CountChildren_loop map filter]. rewrite IH. cbn [fst snd].
  set (RL := map (relabel_for ws target) rest) in *.
  set (FL := filter (targeted ws target) rest) in *.
  unfold relabel_for, targeted.
  destruct (dead_end bp); cbn [negb andb orb]; [reflexivity |].
  destruct (target =? BACKEND_TYPE_ALL); cbn [negb orb].
  - cbn [length]. f_equal. lia.
  - destruct (Z.land target (bkend_type (relabel_walsender ws bp)) =? 0);
      cbn [negb length]; f_equal; lia.
Qed.

Lemma relabel_for_all ws l :
  map (relabel_for ws BACKEND_TYPE_ALL) l = l.
Proof.
  induction l as [| bp r IH]; [reflexivity |].
  cbn [map]. rewrite IH. unfold relabel_for.
  rewrite Z.eqb_refl, andb_false_r. reflexivity.
Qed.

Lemma targeted_all ws bp : targeted ws BACKEND_TYPE_ALL bp = is_live bp.
Proof. unfold targeted, is_live. rewrite Z.eqb_refl, andb_true_r. reflexivity. Qed.

Lemma existsb_filter_length {A} (f : A -> bool) l :
  existsb f l = (0 <? Z.of_nat (length (filter f l))).
Proof.
  induction l as [| x r IH]; [reflexivity |].
  cbn [existsb filter]. destruct (f x); cbn [orb length]; [| exact IH].
  symmetry. apply Z.ltb_lt. lia.
Qed.

Lemma SignalSomeChildren_run env sg target s :
  exists tr,
    SignalSomeChildren env sg target s
    = Ret (0 <? Z.of_nat (length (filter (targeted (IsPostmasterChildWalSender env (clk s))
                                            target) (BackendList s))))
          (put_trace tr
             (put_BackendList
                (map (relabel_for (IsPostmasterChildWalSender env (clk s)) target)
                     (BackendList s))
                (put_clk (S (clk s)) s)))
    /\ kills tr
       = kills (trace s)
         ++ flat_map (signal_child_kills (HAVE_SETSID env) sg)
              (map pid (filter (targeted (IsPostmasterChildWalSender env (clk s)) target)
                               (BackendList s))).
Proof.
  destruct (SignalSomeChildren_loop_run env (IsPostmasterChildWalSender env (clk s))
              sg target (BackendList s) false (put_clk (S (clk s)) s))
    as (tr & E & K).
  exists tr. split; [| exact K].
  unfold SignalSomeChildren, bind at 1, ask.
  unfold bind at 1, gets. cbn [BackendList put_clk].
  rewrite (bind_Ret _ _ _ _ _ E). cbn [fst snd orb].
  rewrite existsb_filter_length. reflexivity.
Qed.

(** X3: [SignalSomeChildren] and [CountChildren] select the same
    children.  For one and the same answer of the WAL-sender bitmap,
    [SignalSomeChildren] signals, in list order, exactly the backends that
    are not dead-end and whose type (a normal backend announced as WAL
    sender counting as one) is among the target, [CountChildren] returns
    their number, and [SignalSomeChildren] returns true exactly if that
    number is not zero.  Both leave the same list behind: only the type of
    relabelled entries has changed, so no pid is lost or reordered. *)
Theorem X3_signal_and_count_agree env sg target s :
  let ws := IsPostmasterChildWalSender env (clk s) in
  let l := BackendList s in
  let s1 := put_BackendList (map (relabel_for ws target) l) (put_clk (S (clk s)) s) in
  exists tr,
    SignalSomeChildren env sg target s
    = Ret (0 <? Z.of_nat (length (filter (targeted ws target) l))) (put_trace tr s1)
    /\ kills tr
       = kills (trace s)
         ++ flat_map (signal_child_kills (HAVE_SETSID env) sg)
              (map pid (filter (targeted ws target) l))
    /\ CountChildren env target s
       = Ret (Z.of_nat (length (filter (targeted ws target) l))) s1
    /\ map pid (BackendList s1) = map pid l
    /\ map dead_end (BackendList s1) = map dead_end l
    /\ (forall bp, In bp l -> dead_end bp = true -> targeted ws target bp = false).
Proof.
  intros ws l s1.
  destruct (SignalSomeChildren_run env sg target s) as (tr & E & K).
  exists tr. split; [| split; [| split; [| split; [| split]]]].
  - exact E.
  - exact K.
  - unfold CountChildren, bind, ask, gets, modify, ret. fold ws.
    cbn [BackendList put_clk]. fold l. rewrite CountChildren_loop_run.
    reflexivity.
  - subst s1. cbn [BackendList put_BackendList]. rewrite map_map.
    apply map_ext. intro bp. unfold relabel_for.
    destruct (_ && _); [apply relabel_pid | reflexivity].
  - subst s1. cbn [BackendList put_BackendList]. rewrite map_map.
    apply map_ext. intro bp. unfold relabel_for.
    destruct (_ && _); [apply relabel_dead_end | reflexivity].
  - intros bp _ D. unfold targeted. rewrite D. reflexivity.
Qed.

(** ** Terminating and reloading the children *)

Lemma filter_cons2 {A} (f : A -> bool) x y l :
  filter f (x :: y :: l) = filter f [x] ++ filter f (y :: l).
Proof. cbn [filter]. destruct (f x); reflexivity. Qed.

Lemma put_BackendList_put_clk s k :
  put_BackendList (BackendList s) (put_clk k s) = put_clk k s.
Proof. destruct s; reflexivity. Qed.

Lemma SignalChildren_run env sg s :
  exists tr,
    SignalChildren env sg s
    = Ret (0 <? Z.of_nat (length (filter is_live (BackendList s))))
          (put_trace tr (put_clk (S (clk s)) s))
    /\ kills tr
       = kills (trace s)
         ++ flat_map (signal_child_kills (HAVE_SETSID env) sg)
              (map pid (filter is_live (BackendList s))).
Proof.
  destruct (SignalSomeChildren_run env sg BACKEND_TYPE_ALL s) as (tr & E & K).
  exists tr. unfold SignalChildren. rewrite E, K, relabel_for_all.
  rewrite (filter_ext _ _ (targeted_all _)), put_BackendList_put_clk. auto.
Qed.

Lemma signal_special_run env c sg tr0 base :
  exists tr,
    signal_special env c sg (put_trace tr0 base) = Ret tt (put_trace tr base)
    /\ kills tr
       = kills tr0
         ++ flat_map (signal_child_kills (HAVE_SETSID env) sg)
              (filter nonzero [pidv base c]).
Proof.
  unfold signal_special, bind, gets. cbn [pidv put_trace filter]. unfold nonzero.
  destruct (negb (pidv base c =? 0)); cbn [when flat_map].
  - rewrite signal_child_run. eexists. split; [reflexivity |].
    cbn [trace put_trace]. rewrite kills_signal_child, app_nil_r. reflexivity.
  - exists tr0. rewrite app_nil_r. auto.
Qed.

Ltac next_special :=
  lazymatch goal with
  | |- exists _, bind (signal_special ?env ?c ?sg) _ (put_trace ?tr0 ?base) = _ /\ _ =>
      let tr := fresh "tr" in let E := fresh "E" in let K := fresh "K" in
      destruct (signal_special_run env c sg tr0 base) as (tr & E & K);
      rewrite (bind_Ret _ _ _ _ _ E); clear E
  | |- exists _, signal_special ?env ?c ?sg (put_trace ?tr0 ?base) = _ /\ _ =>
      let tr := fresh "tr" in let E := fresh "E" in let K := fresh "K" in
      destruct (signal_special_run env c sg tr0 base) as (tr & E & K);
      rewrite E; clear E
  end.

Ltac join_kills :=
  repeat match goal with
         | K : kills ?t = _ |- context [kills ?t] => rewrite K; clear K
         end;
  cbn [pidv put_StartupStatus put_clk put_cfg put_flag];
  rewrite ?flat_map_app, <- ?app_assoc.

(** X4: [TerminateChildren] signals, in this order, every backend of the
    registry that is not dead-end and every special child that is running
    except the syslogger, each through [signal_child] (so also its process
    group for the terminating signals where [setsid] exists), and nobody
    else.  The startup status becomes SIGNALED exactly if the startup
    process is running and the signal is SIGQUIT, SIGKILL or SIGABRT.
    Nothing else changes: no child is forgotten and the registry keeps its
    entries. *)
Theorem X4_TerminateChildren_targets env sg s :
  exists tr,
    TerminateChildren env sg s
    = Ret tt
        (put_trace tr
           (put_StartupStatus
              (if nonzero (pidv s StartupPID) && is_quit_like sg
               then STARTUP_SIGNALED else StartupStatus s)
              (put_clk (S (clk s)) s)))
    /\ kills tr
       = kills (trace s)
         ++ flat_map (signal_child_kills (HAVE_SETSID env) sg) (terminate_targets s).
Proof.
  unfold TerminateChildren, terminate_targets, shmem_specials.
  destruct (SignalChildren_run env sg s) as (tr0 & E0 & K0).
  rewrite (bind_Ret _ _ _ _ _ E0). clear E0.
  unfold bind at 1, gets. cbn [pidv put_trace put_clk].
  cbn [map]. rewrite !filter_cons2.
  unfold bind at 1.
  assert (S1 : exists tr1,
             when (negb (pidv s StartupPID =? 0))
               (signal_child env (pidv s StartupPID) sg ;;
                when (match sg with SIGQUIT | SIGKILL | SIGABRT => true | _ => false end)
                  (modify (put_StartupStatus STARTUP_SIGNALED)))
               (put_trace tr0 (put_clk (S (clk s)) s))
             = Ret tt
                 (put_trace tr1
                    (put_StartupStatus
                       (if nonzero (pidv s StartupPID) && is_quit_like sg
                        then STARTUP_SIGNALED else StartupStatus s)
                       (put_clk (S (clk s)) s)))
             /\ kills tr1
                = kills tr0
                  ++ flat_map (signal_child_kills (HAVE_SETSID env) sg)
                       (filter nonzero [pidv s StartupPID])).
  { cbn [filter]. unfold nonzero.
    destruct (negb (pidv s StartupPID =? 0)); cbn [when andb flat_map].
    - unfold bind at 1. rewrite signal_child_run. eexists. split.
      + unfold is_quit_like. destruct sg; reflexivity.
      + rewrite kills_signal_child, app_nil_r. reflexivity.
    - exists tr0. rewrite app_nil_r. split; [| reflexivity].
      destruct s; reflexivity. }
  destruct S1 as (tr1 & E1 & K1). rewrite E1. clear E1.
  do 8 next_special.
  eexists. split; [reflexivity |].
  join_kills. reflexivity.
Qed.

(** X5: [process_pm_reload_request] clears the latch.  Unless a fast or
    immediate shutdown is recorded it re-reads the configuration and sends
    SIGHUP, in this order, to every backend that is not dead-end and to
    every running special child, the syslogger included; a process group
    is never signalled.  Under a fast or immediate shutdown nothing else
    happens: the configuration stays and no signal is sent.  In no case
    does the lifecycle state, the shutdown mode or a pid change. *)
Theorem X5_reload_request env s :
  let s0 := put_flag (upd PMFlag_eqb (flag s) pending_pm_reload_request false) s in
  if Shutdown s <=? SmartShutdown then
    exists tr,
      process_pm_reload_request env s
      = Ret tt
          (put_trace tr
             (put_cfg (ProcessConfigFile env (clk s) (cfg s))
                (put_clk (S (S (clk s))) s0)))
      /\ kills tr = kills (trace s) ++ map (fun p => (p, SIGHUP)) (reload_targets s)
  else process_pm_reload_request env s = Ret tt s0.
Proof.
  cbv zeta. unfold process_pm_reload_request, set_flag.
  destruct (Shutdown s <=? SmartShutdown) eqn:Sh;
    unfold bind at 1, modify at 1; unfold bind at 1, gets at 1;
    cbn [Shutdown put_flag]; rewrite Sh; cbn [when]; [| reflexivity].
  unfold bind at 1, ask at 1. unfold bind at 1, modify at 1.
  cbn [clk cfg put_flag put_clk].
  match goal with
  | |- exists _, bind _ _ ?st = _ /\ _ =>
      destruct (SignalChildren_run env SIGHUP st) as (tr0 & E0 & K0);
      rewrite (bind_Ret _ _ _ _ _ E0); clear E0
  end.
  cbn [clk put_cfg put_clk put_flag BackendList trace] in *.
  do 10 next_special.
  eexists. split; [reflexivity |].
  unfold reload_targets. cbn [map]. rewrite !filter_cons2.
  join_kills.
  assert (F : forall l, flat_map (signal_child_kills (HAVE_SETSID env) SIGHUP) l
                        = map (fun p => (p, SIGHUP)) l).
  { induction l as [| x r IH]; [reflexivity |].
    cbn [flat_map map]. rewrite IH. unfold signal_child_kills.
    cbn [group_signal]. rewrite andb_false_r. reflexivity. }
  rewrite !F, !map_app, <- ?app_assoc. reflexivity.
Qed.


(** ** Launching background workers *)

Lemma launched_on_refl s : launched_on [] s s.
Proof. repeat split. Qed.

Lemma launched_on_trans l1 l2 a b c :
  launched_on l1 a b -> launched_on l2 b c -> launched_on (l2 ++ l1) a c.
Proof.
  intros (A1 & A2 & A3 & A4) (B1 & B2 & B3 & B4). unfold launched_on.
  rewrite B1, A1, app_assoc, forallb_app, A2, B2. repeat split; congruence.
Qed.

Section Launch.

Variable env : Env.

Lemma assign_backendlist_entry_run s :
  wp (assign_backendlist_entry env)
     (fun r s' =>
        launched_on [] s s'
        /\ match r with
           | Some bn => is_worker_entry bn = true
           | None => True
           end)
     never s.
Proof.
  unfold assign_backendlist_entry.
  destruct (canAcceptConnections_run env BACKEND_TYPE_BGWORKER s) as (k & E).
  apply wp_bind. unfold wp at 1. rewrite E.
  unfold RandomCancelKey, alloc.
  wp_run; (split; [repeat split | auto]).
Qed.

Lemma do_start_bgworker_run rw s :
  wp (do_start_bgworker env rw)
     (fun r s' =>
        if fst r then exists bn, launched_on [bn] s s'
        else launched_on [] s s')
     never s.
Proof.
  unfold do_start_bgworker. apply wp_bind.
  eapply wp_mono; [apply assign_backendlist_entry_run | | intros ? ? []].
  intros [bn |] s1 ((A1 & A2 & A3 & A4) & W); cbv beta.
  - unfold push_head. wp_run.
    + repeat split; assumption.
    + eexists. unfold launched_on. pm_cbn. rewrite A1.
      split; [reflexivity |]. split; [| split; assumption].
      cbn [forallb]. rewrite andb_true_r.
      unfold is_worker_entry in *. exact W.
  - wp_run. repeat split; assumption.
Qed.

Lemma bgworker_should_start_now_late t s :
  PMState_rank PM_STOP_BACKENDS <= PMState_rank (pmState s) ->
  bgworker_should_start_now t s = Ret false s.
Proof.
  unfold bgworker_should_start_now, bind, gets, ret.
  destruct (pmState s); cbn; intro H; try reflexivity; lia.
Qed.

Lemma bgworker_should_start_now_run t s :
  exists b, bgworker_should_start_now t s = Ret b s.
Proof. eexists. reflexivity. Qed.

Lemma launch_pass_step num l1 s s1 s' :
  launched_on l1 s s1 ->
  (PMState_rank PM_STOP_BACKENDS <= PMState_rank (pmState s) -> l1 = []) ->
  num + Z.of_nat (length l1) < MAX_BGWORKERS_TO_LAUNCH ->
  launch_pass (num + Z.of_nat (length l1)) s1 s' -> launch_pass num s s'.
Proof.
  intros L1 R1 Hlt (l2 & L2 & B2 & R2 & F2).
  exists (l2 ++ l1). split; [eapply launched_on_trans; eauto |].
  rewrite length_app, Nat2Z.inj_add.
  destruct L1 as (_ & _ & P1 & _).
  split; [lia |]. split.
  - intro H. rewrite R1 by exact H. rewrite R2 by (rewrite P1; exact H). reflexivity.
  - intros Hpos Heq. apply F2; lia.
Qed.

Lemma launch_pass_done num l1 s s1 :
  launched_on l1 s s1 ->
  (PMState_rank PM_STOP_BACKENDS <= PMState_rank (pmState s) -> l1 = []) ->
  num + Z.of_nat (length l1) <= MAX_BGWORKERS_TO_LAUNCH ->
  (0 < Z.of_nat (length l1) ->
   num + Z.of_nat (length l1) = MAX_BGWORKERS_TO_LAUNCH ->
   flag s1 StartWorkerNeeded = true) ->
  launch_pass num s s1.
Proof. intros. exists l1. auto. Qed.

Ltac lo_solve :=
  unfold launched_on in *; pm_cbn;
  repeat match goal with H : _ /\ _ |- _ => destruct H end;
  repeat split; try assumption; try congruence.

Ltac too_late :=
  let Hr := fresh in
  intro Hr;
  match goal with
  | E : bgworker_should_start_now _ _ = Ret true _ |- _ =>
      rewrite bgworker_should_start_now_late in E by (pm_cbn; exact Hr);
      discriminate
  end.

Ltac pass_solve :=
  unfold MAX_BGWORKERS_TO_LAUNCH in *;
  match goal with
  | H1 : (exists bn, launched_on [bn] ?x ?s1), H2 : launch_pass _ ?s1 ?y
    |- launch_pass ?n _ ?y =>
      let bn := fresh "bn" in
      destruct H1 as (bn & H1);
      apply (launch_pass_step n [bn] _ s1 y);
      [ lo_solve | too_late | cbn [length]; unfold MAX_BGWORKERS_TO_LAUNCH; lia
      | exact H2 ]
  | H1 : (exists bn, launched_on [bn] ?x ?s1) |- launch_pass ?n _ _ =>
      let bn := fresh "bn" in
      destruct H1 as (bn & H1);
      apply (launch_pass_done n [bn]);
      [ lo_solve | too_late | cbn [length]; unfold MAX_BGWORKERS_TO_LAUNCH; lia
      | intros; reflexivity ]
  | H : launch_pass ?n ?x ?y |- launch_pass ?n _ ?y =>
      apply (launch_pass_step n [] _ x y);
      [ repeat split | intros; reflexivity
      | cbn [length]; unfold MAX_BGWORKERS_TO_LAUNCH; lia
      | rewrite Z.add_0_r; exact H ]
  | H : launched_on [] ?x ?s1 |- launch_pass ?n _ _ =>
      apply (launch_pass_done n []);
      [ lo_solve | intros; reflexivity
      | cbn [length]; unfold MAX_BGWORKERS_TO_LAUNCH; lia
      | cbn [length]; intros; lia ]
  end.

Lemma maybe_start_bgworkers_loop_pass l : forall num now s,
  0 <= num < MAX_BGWORKERS_TO_LAUNCH ->
  wp (maybe_start_bgworkers_loop env l num now)
     (fun _ s' => launch_pass num s s') never s.
Proof.
  induction l as [| rw rest IH]; intros num now s Hn.
  - cbn. apply (launch_pass_done num [] s s); cbn; auto using launched_on_refl; lia.
  - cbn [maybe_start_bgworkers_loop]. cbv zeta.
    repeat
      lazymatch goal with
      | |- wp (bind (maybe_start_bgworkers_loop _ _ _ _) _) _ _ _ =>
          apply wp_bind;
          eapply wp_mono;
          [ apply IH; unfold MAX_BGWORKERS_TO_LAUNCH in *; lia
          | cbv beta; intros ? ? ?
          | intros ? ? [] ]
      | |- wp (maybe_start_bgworkers_loop _ _ _ _) _ _ _ =>
          eapply wp_mono;
          [ apply IH; unfold MAX_BGWORKERS_TO_LAUNCH in *; lia
          | cbv beta; intros ? ? ?
          | intros ? ? [] ]
      | |- wp (bind (do_start_bgworker _ _) _) _ _ _ =>
          apply wp_bind;
          eapply wp_mono;
          [ apply do_start_bgworker_run
          | cbv beta; intros [? ?] ? ?; cbn [fst snd] in *
          | intros ? ? [] ]
      | |- wp (bind (bgworker_should_start_now ?t) _) _ _ ?st =>
          let b := fresh "should" in let Eb := fresh "Eshould" in
          destruct (bgworker_should_start_now_run t st) as (b & Eb);
          apply wp_bind; unfold wp at 1; rewrite Eb; destruct b
      | |- wp (ret _) _ _ _ => apply wp_ret_last
      | |- wp _ _ _ _ => wp_prim
      end.
    all: try match goal with
             | H : if ?b then _ else _ |- _ => destruct b; try discriminate
             end.
    all: pass_solve.
Qed.

End Launch.

(** X6: one call of [maybe_start_bgworkers] returns and launches at most
    MAX_BGWORKERS_TO_LAUNCH (100) workers.  What it adds to the registry
    are entries of type bgworker, live and without notification mark, on
    top of the entries that were there; it adds none while FatalError is
    set or from StopBackends on; and when it stops at the limit it sets
    StartWorkerNeeded, so that the loop calls it again.  Under FatalError
    it only clears StartWorkerNeeded and HaveCrashedWorker. *)
Theorem X6_maybe_start_bgworkers_limit env s :
  exists s' launched,
    maybe_start_bgworkers env s = Ret tt s'
    /\ BackendList s' = launched ++ BackendList s
    /\ Z.of_nat (length launched) <= MAX_BGWORKERS_TO_LAUNCH
    /\ forallb is_worker_entry launched = true
    /\ (flag s FatalError = true
        \/ PMState_rank PM_STOP_BACKENDS <= PMState_rank (pmState s) ->
        launched = [])
    /\ (Z.of_nat (length launched) = MAX_BGWORKERS_TO_LAUNCH ->
        flag s' StartWorkerNeeded = true)
    /\ (flag s FatalError = true ->
        flag s' StartWorkerNeeded = false /\ flag s' HaveCrashedWorker = false)
    /\ pmState s' = pmState s.
Proof.
  unfold maybe_start_bgworkers. unfold bind at 1, gets at 1.
  destruct (flag s FatalError) eqn:F.
  - eexists. exists []. split; [reflexivity |].
    cbn. unfold MAX_BGWORKERS_TO_LAUNCH. repeat split; auto; lia.
  - unfold set_flag. unfold bind at 1, modify at 1. unfold bind at 1, modify at 1.
    unfold bind at 1, gets at 1. cbn [BackgroundWorkerList put_flag flag].
    match goal with
    | |- exists _ _, bind (maybe_start_bgworkers_loop _ ?l _ _) _ ?st = _ /\ _ =>
        pose proof (maybe_start_bgworkers_loop_pass env l 0 0 st) as W
    end.
    unfold wp, never in W. unfold bind at 1.
    match type of W with
    | _ -> match ?r with _ => _ end =>
        destruct r as [l' s1 | st s1];
        [| exfalso; apply W; unfold MAX_BGWORKERS_TO_LAUNCH; lia]
    end.
    destruct W as (launched & (L1 & L2 & L3 & L4) & B & R & T);
      [unfold MAX_BGWORKERS_TO_LAUNCH; lia |].
    cbn [BackendList put_flag pmState flag] in *.
    eexists. exists launched. split; [reflexivity |].
    cbn [BackendList put_BackgroundWorkerList pmState flag].
    repeat split; try assumption; try lia.
    + intros [H | H]; [discriminate | auto].
    + intro H. apply T; [| lia]. unfold MAX_BGWORKERS_TO_LAUNCH in *. lia.
Qed.


(** ** Marking a backend for worker notifications *)

Lemma PostmasterMarkPIDForWorkerNotify_loop_run p l :
  PostmasterMarkPIDForWorkerNotify_loop p l
  = (update_first (has_pid p) (set_bgworker_notify true) l, existsb (has_pid p) l).
Proof.
  induction l as [| bp rest IH]; [reflexivity |].
  cbn [PostmasterMarkPIDForWorkerNotify_loop update_first existsb].
  unfold has_pid at 1 3. destruct (pid bp =? p); [reflexivity |].
  rewrite IH. reflexivity.
Qed.

Lemma update_first_absent {A} (f : A -> bool) g l :
  existsb f l = false -> update_first f g l = l.
Proof.
  induction l as [| x r IH]; [reflexivity |].
  cbn [existsb update_first]. destruct (f x); [discriminate |].
  cbn [orb]. intro H. rewrite IH by exact H. reflexivity.
Qed.

Lemma update_first_mark_twice p l :
  update_first (has_pid p) (set_bgworker_notify true)
    (update_first (has_pid p) (set_bgworker_notify true) l)
  = update_first (has_pid p) (set_bgworker_notify true) l.
Proof.
  induction l as [| x r IH]; [reflexivity |].
  cbn [update_first]. destruct (has_pid p x) eqn:E; cbn [update_first].
  - unfold has_pid in *. cbn [pid set_bgworker_notify]. rewrite E. reflexivity.
  - rewrite E, IH. reflexivity.
Qed.

Lemma existsb_update_first_mark p l :
  existsb (has_pid p) (update_first (has_pid p) (set_bgworker_notify true) l)
  = existsb (has_pid p) l.
Proof.
  induction l as [| x r IH]; [reflexivity |].
  cbn [update_first]. destruct (has_pid p x) eqn:E; cbn [existsb].
  - unfold has_pid in *. cbn [pid set_bgworker_notify]. rewrite E. reflexivity.
  - rewrite E, IH. reflexivity.
Qed.

Lemma targeted_mark ws target bp :
  targeted ws target (set_bgworker_notify true bp) = targeted ws target bp.
Proof.
  unfold targeted, relabel_walsender.
  cbn [set_bgworker_notify dead_end bkend_type child_slot].
  destruct ((bkend_type bp =? BACKEND_TYPE_NORMAL) && ws (child_slot bp));
    reflexivity.
Qed.

Lemma filter_targeted_mark_length ws target p l :
  length (filter (targeted ws target)
            (update_first (has_pid p) (set_bgworker_notify true) l))
  = length (filter (targeted ws target) l).
Proof.
  induction l as [| x r IH]; [reflexivity |].
  cbn [update_first]. destruct (has_pid p x); cbn [filter].
  - rewrite targeted_mark. destruct (targeted ws target x); reflexivity.
  - destruct (targeted ws target x); cbn [length]; rewrite IH; reflexivity.
Qed.

(** X7: [PostmasterMarkPIDForWorkerNotify] returns true exactly if the
    registry holds an entry with the pid asked for.  It then sets the
    notification mark of the first such entry and touches nothing else;
    for a pid the registry does not hold nothing changes at all.  Marking
    twice is the same as marking once, and marking changes no count of
    [CountChildren]. *)
Theorem X7_mark_pid_for_worker_notify p s :
  let l := BackendList s in
  let s' := put_BackendList
              (update_first (has_pid p) (set_bgworker_notify true) l) s in
  PostmasterMarkPIDForWorkerNotify p s = Ret (existsb (has_pid p) l) s'
  /\ (existsb (has_pid p) l = false -> s' = s)
  /\ map pid (BackendList s') = map pid l
  /\ PostmasterMarkPIDForWorkerNotify p s' = Ret (existsb (has_pid p) l) s'
  /\ (forall env target,
        outcome (CountChildren env target s') = outcome (CountChildren env target s)).
Proof.
  intros l s'. split; [| split; [| split; [| split]]].
  - unfold PostmasterMarkPIDForWorkerNotify, bind, gets, modify, ret. fold l.
    rewrite PostmasterMarkPIDForWorkerNotify_loop_run. reflexivity.
  - intro H. subst s'. rewrite update_first_absent by exact H.
    subst l. destruct s; reflexivity.
  - subst s'. cbn [BackendList put_BackendList].
    induction l as [| x r IH]; [reflexivity |].
    cbn [update_first]. destruct (has_pid p x); cbn [map]; [reflexivity |].
    rewrite IH. reflexivity.
  - unfold PostmasterMarkPIDForWorkerNotify, bind, gets, modify, ret.
    subst s'. cbn [BackendList put_BackendList].
    rewrite PostmasterMarkPIDForWorkerNotify_loop_run. cbn [fst snd].
    rewrite update_first_mark_twice, existsb_update_first_mark. reflexivity.
  - intros env target. unfold CountChildren, bind, ask, gets, modify, ret.
    subst s'. cbn [outcome BackendList put_BackendList put_clk clk].
    rewrite !CountChildren_loop_run. cbn [snd].
    rewrite filter_targeted_mark_length. reflexivity.
Qed.


(** * The size of the shared memory segment *)

Lemma shmem_add_size_checked : Ipci.adds_checked Ipci.shmem_add_size.
Proof.
  intros a b Ha Hb. unfold Ipci.shmem_add_size, Ipci.SIZE_MAX in *. cbv zeta.
  destruct (a + b <=? 18446744073709551615) eqn:E.
  - apply Z.leb_le in E. rewrite Z.mod_small by lia.
    replace (a + b <? a) with false by (symmetry; apply Z.ltb_ge; lia).
    replace (a + b <? b) with false by (symmetry; apply Z.ltb_ge; lia).
    reflexivity.
  - apply Z.leb_gt in E.
    replace ((a + b) mod (18446744073709551615 + 1))
      with (a + b - 18446744073709551616).
    + replace (a + b - 18446744073709551616 <? a) with true
        by (symmetry; apply Z.ltb_lt; lia).
      reflexivity.
    + apply Z.mod_unique with (q := 1); lia.
Qed.

Section Sizes.

Variable add_size : Z -> Z -> Ipci.outcome Z.
Hypothesis add_size_checked : Ipci.adds_checked add_size.

Lemma add_sizes_sum l : forall size,
  0 <= size <= Ipci.SIZE_MAX ->
  Forall (fun x => 0 <= x <= Ipci.SIZE_MAX) l ->
  Ipci.add_sizes add_size size l
  = if size + fold_right Z.add 0 l <=? Ipci.SIZE_MAX
    then Ipci.Done (size + fold_right Z.add 0 l) else Ipci.Raised Ipci.ERROR.
Proof.
  induction l as [| x rest IH]; intros size Hs Hl.
  - cbn. rewrite Z.add_0_r.
    replace (size <=? Ipci.SIZE_MAX) with true by (symmetry; apply Z.leb_le; lia).
    reflexivity.
  - inversion Hl as [| ? ? Hx Hrest]; subst.
    assert (Hsum : 0 <= fold_right Z.add 0 rest).
    { clear - Hrest. induction Hrest; cbn; lia. }
    cbn [Ipci.add_sizes fold_right].
    rewrite (add_size_checked size x Hs Hx).
    destruct (size + x <=? Ipci.SIZE_MAX) eqn:E; cbn [Ipci.obind].
    + apply Z.leb_le in E. rewrite IH by (auto; lia).
      rewrite Z.add_assoc. reflexivity.
    + apply Z.leb_gt in E.
      replace (size + (x + fold_right Z.add 0 rest) <=? Ipci.SIZE_MAX) with false
        by (symmetry; apply Z.leb_gt; lia).
      reflexivity.
Qed.

Lemma raw_size_nonneg e n addin :
  Ipci.sizes_in_range e n addin -> 100000 <= Ipci.raw_size e n addin.
Proof.
  unfold Ipci.sizes_in_range, Ipci.raw_size. intro H.
  assert (0 <= fold_right Z.add 0 (Ipci.requested_sizes e n addin)).
  { induction H; cbn; lia. }
  lia.
Qed.

Lemma CalculateShmemSize_run e addin :
  let numSemas := int_add (Ipci.ProcGlobalSemas e) (Ipci.SpinlockSemas e) in
  let raw := Ipci.raw_size e numSemas addin in
  Ipci.sizes_in_range e numSemas addin ->
  Ipci.CalculateShmemSize add_size e addin
  = if 8192 * (raw / 8192 + 1) <=? Ipci.SIZE_MAX
    then Ipci.Done (8192 * (raw / 8192 + 1), numSemas)
    else Ipci.Raised Ipci.ERROR.
Proof.
  intros numSemas raw R.
  pose proof (raw_size_nonneg e numSemas addin R) as Hraw. fold raw in Hraw.
  unfold Ipci.CalculateShmemSize. fold numSemas.
  rewrite add_sizes_sum by (auto; unfold Ipci.SIZE_MAX; lia).
  fold (Ipci.raw_size e numSemas addin). fold raw.
  pose proof (Z.mod_pos_bound raw 8192 ltac:(lia)) as Hm.
  pose proof (Z.div_mod raw 8192 ltac:(lia)) as Hd.
  assert (Hpad : raw + (8192 - raw mod 8192) = 8192 * (raw / 8192 + 1)) by lia.
  destruct (raw <=? Ipci.SIZE_MAX) eqn:E; cbn [Ipci.obind].
  - apply Z.leb_le in E.
    rewrite add_size_checked by (unfold Ipci.SIZE_MAX in *; lia).
    rewrite Hpad.
    destruct (8192 * (raw / 8192 + 1) <=? Ipci.SIZE_MAX); reflexivity.
  - apply Z.leb_gt in E.
    replace (8192 * (raw / 8192 + 1) <=? Ipci.SIZE_MAX) with false
      by (symmetry; apply Z.leb_gt; lia).
    reflexivity.
Qed.

End Sizes.

Lemma sizes_in_range_dec e n addin :
  forallb (fun x => (0 <=? x) && (x <=? Ipci.SIZE_MAX)) (Ipci.requested_sizes e n addin)
  = true ->
  Ipci.sizes_in_range e n addin.
Proof.
  unfold Ipci.sizes_in_range. rewrite forallb_forall, Forall_forall.
  intros H x Hx. specialize (H x Hx). apply andb_true_iff in H.
  destruct H as [H1 H2]. apply Z.leb_le in H1, H2. lia.
Qed.

(** X8: [CalculateShmemSize] with an [add_size] that adds and raises an
    error where the sum does not fit [size_t].  The bytes asked for are
    100000 plus what the subsystems and the preloaded libraries ask for.
    The function returns the least multiple of 8192 that is strictly
    greater than that sum, so a sum that is already a multiple of 8192
    still gets 8192 bytes more; and it raises the error, instead of
    wrapping around, exactly if that multiple does not fit.  The number of
    semaphores it reports is the [int] sum of the two counts. *)
Theorem X8_CalculateShmemSize_rounding add_size e addin :
  Ipci.adds_checked add_size ->
  Ipci.sizes_in_range e (int_add (Ipci.ProcGlobalSemas e) (Ipci.SpinlockSemas e))
    addin ->
  let numSemas := int_add (Ipci.ProcGlobalSemas e) (Ipci.SpinlockSemas e) in
  let raw := Ipci.raw_size e numSemas addin in
  let size := 8192 * (raw / 8192 + 1) in
  Ipci.CalculateShmemSize add_size e addin
  = (if size <=? Ipci.SIZE_MAX then Ipci.Done (size, numSemas)
     else Ipci.Raised Ipci.ERROR)
  /\ size mod 8192 = 0
  /\ raw < size <= raw + 8192
  /\ raw = Ipci.raw_size e numSemas 0 + addin.
Proof.
  intros A R numSemas raw size.
  split; [apply CalculateShmemSize_run; assumption |].
  pose proof (raw_size_nonneg e numSemas addin R) as Hraw. fold raw in Hraw.
  pose proof (Z.mod_pos_bound raw 8192 ltac:(lia)) as Hm.
  pose proof (Z.div_mod raw 8192 ltac:(lia)) as Hd.
  split; [| split].
  - subst size. rewrite Z.mul_comm. apply Z.mod_mul. lia.
  - subst size. lia.
  - subst raw. unfold Ipci.raw_size, Ipci.requested_sizes.
    cbn [fold_right]. lia.
Qed.

Lemma X8_CalculateShmemSize_rounding_witness :
  Ipci.CalculateShmemSize Ipci.shmem_add_size (Ipci.uniform_estimates 1000 0) 23072
  = Ipci.Done (172032, 100).
Proof.
  assert (R : Ipci.sizes_in_range (Ipci.uniform_estimates 1000 0)
                (int_add (Ipci.ProcGlobalSemas (Ipci.uniform_estimates 1000 0))
                         (Ipci.SpinlockSemas (Ipci.uniform_estimates 1000 0)))
                23072)
    by (apply sizes_in_range_dec; vm_compute; reflexivity).
  destruct (X8_CalculateShmemSize_rounding Ipci.shmem_add_size
              (Ipci.uniform_estimates 1000 0) 23072 shmem_add_size_checked R)
    as [H _].
  rewrite H. vm_compute. reflexivity.
Defined.

(** X9: [InitializeShmemGUCs], with such an [add_size].  Where
    [CalculateShmemSize] returns [size_b] bytes, shared_memory_size is set
    to [size_b] in megabytes rounded up, unless adding 2^20 - 1 overflows,
    which raises the error.  shared_memory_size_in_huge_pages is set only
    if the huge page size is known (not 0), and then to
    [size_b / hp_size + 1]: the pages always hold more than [size_b], one
    page more than needed when [size_b] is a multiple of the page size. *)
Theorem X9_InitializeShmemGUCs add_size e addin size_b n :
  Ipci.adds_checked add_size ->
  0 <= Ipci.GetHugePageSize e <= Ipci.SIZE_MAX ->
  0 <= size_b <= Ipci.SIZE_MAX ->
  Ipci.CalculateShmemSize add_size e addin = Ipci.Done (size_b, n) ->
  let hp_size := Ipci.GetHugePageSize e in
  if size_b + (1024 * 1024 - 1) <=? Ipci.SIZE_MAX then
    exists size_mb hp,
      Ipci.InitializeShmemGUCs add_size e addin = Ipci.Done (size_mb, hp)
      /\ (size_mb - 1) * (1024 * 1024) < size_b <= size_mb * (1024 * 1024)
      /\ (hp_size = 0 -> hp = None)
      /\ (hp_size <> 0 ->
          exists hp_required,
            hp = Some hp_required
            /\ hp_required = size_b / hp_size + 1
            /\ (hp_required - 1) * hp_size <= size_b < hp_required * hp_size)
  else Ipci.InitializeShmemGUCs add_size e addin = Ipci.Raised Ipci.ERROR.
Proof.
  intros A Hhp Hb E hp_size.
  unfold Ipci.InitializeShmemGUCs. rewrite E. cbn [Ipci.obind fst].
  fold hp_size. fold hp_size in Hhp.
  set (M := 1024 * 1024) in *.
  assert (HM : M = 1048576) by reflexivity.
  assert (HX : Ipci.SIZE_MAX = 18446744073709551615) by reflexivity.
  rewrite A by lia.
  destruct (size_b + (M - 1) <=? Ipci.SIZE_MAX) eqn:L;
    cbn [Ipci.obind]; [| reflexivity].
  apply Z.leb_le in L.
  assert (Hmb : ((size_b + (M - 1)) / M - 1) * M < size_b
                <= (size_b + (M - 1)) / M * M).
  { pose proof (Z.mul_div_le (size_b + (M - 1)) M ltac:(lia)) as H1.
    pose proof (Z.mul_succ_div_gt (size_b + (M - 1)) M ltac:(lia)) as H2.
    set (q := (size_b + (M - 1)) / M) in *. clearbody q. lia. }
  set (mb := (size_b + (M - 1)) / M) in *. clearbody mb.
  destruct (hp_size =? 0) eqn:H0; cbn [negb].
  - apply Z.eqb_eq in H0. exists mb, None.
    split; [reflexivity |]. split; [exact Hmb |]. split; [auto | congruence].
  - apply Z.eqb_neq in H0.
    pose proof (Z.mul_div_le size_b hp_size ltac:(lia)) as H1.
    pose proof (Z.mul_succ_div_gt size_b hp_size ltac:(lia)) as H2.
    assert (Hq0 : 0 <= size_b / hp_size) by (apply Z.div_pos; lia).
    assert (Hq1 : size_b / hp_size <= size_b).
    { apply Z.div_le_upper_bound; [lia |].
      rewrite <- (Z.mul_1_l size_b) at 1.
      apply Z.mul_le_mono_nonneg_r; lia. }
    set (q := size_b / hp_size) in *. clearbody q.
    rewrite A by lia.
    replace (q + 1 <=? Ipci.SIZE_MAX) with true by (symmetry; apply Z.leb_le; lia).
    cbn [Ipci.obind].
    exists mb, (Some (q + 1)). split; [reflexivity |]. split; [exact Hmb |].
    split; [intro; contradiction |]. intros _.
    exists (q + 1). split; [reflexivity |]. split; [reflexivity |].
    replace (q + 1 - 1) with q by lia.
    rewrite (Z.mul_comm q hp_size), (Z.mul_comm (q + 1) hp_size).
    unfold Z.succ in H2. split; assumption.
Qed.

Lemma X9_InitializeShmemGUCs_witness :
  exists size_mb hp,
    Ipci.InitializeShmemGUCs Ipci.shmem_add_size
      (Ipci.uniform_estimates 1000 2097152) 23072
    = Ipci.Done (size_mb, hp)
    /\ (size_mb - 1) * (1024 * 1024) < 172032 <= size_mb * (1024 * 1024)
    /\ (2097152 = 0 -> hp = None)
    /\ (2097152 <> 0 ->
        exists hp_required,
          hp = Some hp_required
          /\ hp_required = 172032 / 2097152 + 1
          /\ (hp_required - 1) * 2097152 <= 172032 < hp_required * 2097152).
Proof.
  assert (E : Ipci.CalculateShmemSize Ipci.shmem_add_size
                (Ipci.uniform_estimates 1000 2097152) 23072
              = Ipci.Done (172032, 100)) by (vm_compute; reflexivity).
  assert (H1 : 0 <= Ipci.GetHugePageSize (Ipci.uniform_estimates 1000 2097152)
               <= Ipci.SIZE_MAX) by (split; discriminate).
  assert (H2 : 0 <= 172032 <= Ipci.SIZE_MAX) by (split; discriminate).
  exact (X9_InitializeShmemGUCs Ipci.shmem_add_size
           (Ipci.uniform_estimates 1000 2097152) 23072 172032 100
           shmem_add_size_checked H1 H2 E).
Defined.


(** * The entry point *)

Section EntryPoint.

Import String.
Local Open Scope string_scope.

Lemma init_locales_fails p l category locale :
  Main.init_locales p l = Some (category, locale) ->
  exists before after,
    l = (before ++ (category, locale) :: after)%list
    /\ (forall c loc, In (c, loc) before -> Main.init_locale p c loc = true)
    /\ Main.pg_perm_setlocale p category locale = false
    /\ Main.pg_perm_setlocale p category "C" = false.
Proof.
  induction l as [| [c loc] rest IH]; cbn [Main.init_locales]; [discriminate |].
  destruct (Main.init_locale p c loc) eqn:E.
  - intro H. destruct (IH H) as (before & after & A & B & C).
    exists ((c, loc) :: before), after. split; [rewrite A; reflexivity |].
    split; [| exact C].
    intros c' loc' [H' | H']; [injection H' as <- <-; exact E | apply B; exact H'].
  - intro H. injection H as <- <-. exists [], rest.
    split; [reflexivity |]. split; [intros ? ? [] |].
    unfold Main.init_locale in E.
    destruct (Main.pg_perm_setlocale p c loc); [discriminate |].
    destruct (Main.pg_perm_setlocale p c "C"); [discriminate | auto].
Qed.

Lemma init_locales_passes p l :
  Main.init_locales p l = None ->
  forall c loc, In (c, loc) l -> Main.init_locale p c loc = true.
Proof.
  induction l as [| [c loc] rest IH]; cbn [Main.init_locales]; [intros _ ? ? [] |].
  destruct (Main.init_locale p c loc) eqn:E; [| discriminate].
  intros H c' loc' [H' | H']; [injection H' as <- <-; exact E | apply IH; assumption].
Qed.

Lemma check_root_passes p :
  Main.check_root p = None -> Main.unprivileged p.
Proof.
  unfold Main.check_root, Main.unprivileged.
  destruct (Main.geteuid p =? 0)%Z eqn:E1; [discriminate |].
  destruct (Main.getuid p =? Main.geteuid p)%Z eqn:E2; [| discriminate].
  intros _. split; [apply Z.eqb_neq; exact E1 | apply Z.eqb_eq; exact E2].
Qed.

Lemma check_root_refuses p said :
  Main.check_root p = Some said ->
  ~ Main.unprivileged p
  /\ (said = Main.root_execution_not_permitted
      \/ said = Main.real_and_effective_user_IDs_must_match).
Proof.
  unfold Main.check_root, Main.unprivileged.
  destruct (Main.geteuid p =? 0)%Z eqn:E1.
  - apply Z.eqb_eq in E1. intro H. injection H as <-. split; [tauto | auto].
  - destruct (Main.getuid p =? Main.geteuid p)%Z eqn:E2; [discriminate |].
    apply Z.eqb_neq in E2. intro H. injection H as <-. split; [tauto | auto].
Qed.

Ltac str_facts :=
  repeat match goal with
         | H : (_ && _) = true |- _ => apply andb_true_iff in H; destruct H
         | H : (_ || _) = true |- _ => apply orb_true_iff in H; destruct H
         | H : (_ =? _)%string = true |- _ => apply String.eqb_eq in H
         | H : Z.gtb ?a ?b = true |- _ => apply (proj1 (Z.gtb_lt a b)) in H
         end.

(** X10: [main] never hands over to a subprogram while running as root
    or setuid, with two exceptions: the first argument is
    --describe-config (then the subprogram is [GucInfoMain]), or it is -C
    followed by at least one more argument (then it is [PostmasterMain]).
    A -C that is not the first argument, or that is the last one, does
    not lift the check. *)
Theorem X10_main_refuses_root p argv sub :
  Main.main p argv = Main.Run sub ->
  Main.unprivileged p
  \/ (sub = Main.GucInfoMain /\ Main.argv1 argv = "--describe-config")
  \/ (sub = Main.PostmasterMain argv /\ Main.argv1 argv = "-C"
      /\ 2 < Z.of_nat (List.length argv)).
Proof.
  unfold Main.main. cbv zeta.
  destruct (Main.init_locales p Main.locale_settings) as [[c l] |]; [discriminate |].
  destruct (_ && (_ || _)); [discriminate |].
  destruct (_ && (_ || _)); [discriminate |].
  destruct (Z.of_nat (List.length argv) >? 1) eqn:A1.
  - destruct (Main.argv1 argv =? "--describe-config") eqn:D.
    + unfold Main.dispatch. cbv zeta. rewrite A1, D. cbn [andb].
      apply String.eqb_eq in D. rewrite D. cbn.
      intro H. injection H as <-. right. left. auto.
    + destruct ((Z.of_nat (List.length argv) >? 2) && (Main.argv1 argv =? "-C"))
        eqn:C.
      * unfold Main.dispatch. cbv zeta. rewrite A1. cbn [andb]. str_facts.
        match goal with H : Main.argv1 argv = _ |- _ => rewrite H end. cbn.
        intro H'. injection H' as <-. right. right. auto.
      * destruct (Main.check_root p) eqn:R; [discriminate |].
        intros _. left. apply check_root_passes. exact R.
  - destruct (Main.check_root p) eqn:R; [discriminate |].
    intros _. left. apply check_root_passes. exact R.
Qed.

Lemma X10_main_refuses_root_witness :
  Main.unprivileged (Main.plain_platform 0 0)
  \/ (Main.PostmasterMain ["postgres"; "-C"; "port"] = Main.GucInfoMain
      /\ Main.argv1 ["postgres"; "-C"; "port"] = "--describe-config")
  \/ (Main.PostmasterMain ["postgres"; "-C"; "port"]
      = Main.PostmasterMain ["postgres"; "-C"; "port"]
      /\ Main.argv1 ["postgres"; "-C"; "port"] = "-C"
      /\ 2 < Z.of_nat (List.length ["postgres"; "-C"; "port"])).
Proof.
  apply (X10_main_refuses_root (Main.plain_platform 0 0)
           ["postgres"; "-C"; "port"]
           (Main.PostmasterMain ["postgres"; "-C"; "port"])).
  reflexivity.
Defined.

(** X11: how [main] ends without a subprogram.  It exits with status 0
    only for --help, -?, --version or -V as first argument, and does so
    whoever runs it; it exits with status 1 only where [check_root]
    refuses the user, or where --single finds no user name; and it dies in
    [init_locale], before looking at any argument, exactly for the first
    locale category, in the order LC_COLLATE, LC_CTYPE, LC_MESSAGES,
    LC_MONETARY, LC_NUMERIC, LC_TIME, that can be set neither to the value
    asked for nor to C: every category before it could be set.  Where it
    reaches a subprogram, every category could be set. *)
Theorem X11_main_exits p argv :
  match Main.main p argv with
  | Main.Exited st said =>
      (st = 0 /\ 1 < Z.of_nat (List.length argv)
       /\ ((said = Main.help_text
            /\ (Main.argv1 argv = "--help" \/ Main.argv1 argv = "-?"))
           \/ (said = Main.PG_BACKEND_VERSIONSTR
               /\ (Main.argv1 argv = "--version" \/ Main.argv1 argv = "-V"))))
      \/ (st = 1 /\ ~ Main.unprivileged p
          /\ (said = Main.root_execution_not_permitted
              \/ said = Main.real_and_effective_user_IDs_must_match))
      \/ (st = 1 /\ said = Main.user_name_lookup_failure
          /\ Main.argv1 argv = "--single"
          /\ Main.get_user_name_or_exit p = None)
  | Main.Fatal category locale =>
      (exists before after,
          [(Main.LC_COLLATE, EmptyString); (Main.LC_CTYPE, EmptyString);
           (Main.LC_MESSAGES, EmptyString); (Main.LC_MONETARY, "C");
           (Main.LC_NUMERIC, "C"); (Main.LC_TIME, "C")]
          = (before ++ (category, locale) :: after)%list
          /\ forall c loc,
               In (c, loc) before ->
               Main.pg_perm_setlocale p c loc = true
               \/ Main.pg_perm_setlocale p c "C" = true)
      /\ Main.pg_perm_setlocale p category locale = false
      /\ Main.pg_perm_setlocale p category "C" = false
      /\ forall argv', Main.main p argv' = Main.Fatal category locale
  | Main.Run _ =>
      forall c loc,
        In (c, loc)
           [(Main.LC_COLLATE, EmptyString); (Main.LC_CTYPE, EmptyString);
            (Main.LC_MESSAGES, EmptyString); (Main.LC_MONETARY, "C");
            (Main.LC_NUMERIC, "C"); (Main.LC_TIME, "C")] ->
        Main.pg_perm_setlocale p c loc = true
        \/ Main.pg_perm_setlocale p c "C" = true
  end.
Proof.
  assert (IL : forall c loc, Main.init_locale p c loc = true ->
                 Main.pg_perm_setlocale p c loc = true
                 \/ Main.pg_perm_setlocale p c "C" = true).
  { intros c loc. unfold Main.init_locale.
    destruct (Main.pg_perm_setlocale p c loc); [auto |].
    destruct (Main.pg_perm_setlocale p c "C"); [auto | discriminate]. }
  unfold Main.main. cbv zeta.
  destruct (Main.init_locales p Main.locale_settings) as [[c l] |] eqn:L.
  { destruct (init_locales_fails _ _ _ _ L) as (before & after & A & B & C1 & C2).
    split; [| auto].
    exists before, after. split; [exact A |].
    intros c' loc' H. apply IL, B, H. }
  pose proof (init_locales_passes _ _ L) as LP.
  assert (D : match Main.dispatch p argv with
              | Main.Exited st said =>
                  st = 1 /\ said = Main.user_name_lookup_failure
                  /\ Main.argv1 argv = "--single"
                  /\ Main.get_user_name_or_exit p = None
              | Main.Fatal _ _ => False
              | Main.Run _ => True
              end).
  { unfold Main.dispatch. cbv zeta.
    destruct (_ && _); [exact I |].
    destruct (_ && _); [exact I |].
    destruct (_ && _); [exact I |].
    destruct (_ && _) eqn:S1; [| exact I].
    destruct (Main.get_user_name_or_exit p) eqn:U; [exact I |].
    str_facts. auto. }
  destruct (_ && (_ || _)) eqn:H1.
  { cbv beta iota. str_facts; left; (split; [reflexivity |]); (split; [assumption |]);
      left; tauto. }
  destruct ((Z.of_nat (List.length argv) >? 1)
            && ((Main.argv1 argv =? "--version") || (Main.argv1 argv =? "-V")))
    eqn:H2.
  { cbv beta iota. str_facts; left; (split; [reflexivity |]); (split; [assumption |]);
      right; tauto. }
  match goal with
  | |- match (match (if ?b then _ else _) with _ => _ end) with _ => _ end =>
      destruct b
  end.
  - destruct (Main.check_root p) eqn:R.
    + destruct (check_root_refuses _ _ R) as (A & B). right. left. auto.
    + destruct (Main.dispatch p argv);
        [right; right; exact D | destruct D
        | intros c' loc' H; apply IL, LP, H].
  - destruct (Main.dispatch p argv);
      [right; right; exact D | destruct D
      | intros c' loc' H; apply IL, LP, H].
Qed.

End EntryPoint.


(** * The housekeeping of the server loop *)

Lemma drift_refl ok s : drift ok s s.
Proof. unfold drift. repeat split. exists []. auto. Qed.

Lemma drift_trans ok a b c : drift ok a b -> drift ok b c -> drift ok a c.
Proof.
  intros (A1 & A2 & A3 & A4 & n1 & A5 & A6) (B1 & B2 & B3 & B4 & n2 & B5 & B6).
  unfold drift. repeat split; try congruence.
  exists (n2 ++ n1). rewrite B5, A5, app_assoc, forallb_app, A6, B6. auto.
Qed.

Lemma drift_weaken (ok ok' : Effect -> bool) s s' :
  (forall e, ok e = true -> ok' e = true) -> drift ok s s' -> drift ok' s s'.
Proof.
  intros H (A1 & A2 & A3 & A4 & n1 & A5 & A6).
  unfold drift. repeat split; auto. exists n1. split; [exact A5 |].
  rewrite forallb_forall in *. auto.
Qed.

Lemma calm_refl s : calm s s.
Proof. split; [apply drift_refl | reflexivity]. Qed.

Lemma calm_trans a b c : calm a b -> calm b c -> calm a c.
Proof.
  intros [A1 A2] [B1 B2]. split; [eapply drift_trans; eauto | congruence].
Qed.

Lemma steady_refl s : steady s s.
Proof. split; [apply drift_refl | reflexivity]. Qed.

Lemma steady_trans a b c : steady a b -> steady b c -> steady a c.
Proof.
  intros [A1 A2] [B1 B2]. split; [eapply drift_trans; eauto | congruence].
Qed.

Lemma calm_steady s s' : calm s s' -> steady s s'.
Proof.
  intros [A B]. split; [| exact B].
  eapply drift_weaken; [| exact A]. auto.
Qed.

Ltac calm_now :=
  unfold calm, drift; cbn;
  repeat split;
  first [ exists []; split; reflexivity
        | eexists [_]; split; reflexivity ].

Ltac calm_step db :=
  lazymatch goal with
  | |- keeps calm (bind _ _) =>
      apply keeps_bind; [apply calm_trans | | intro]
  | |- keeps calm (ret _) => apply keeps_ret; apply calm_refl
  | |- keeps calm (gets _) => apply keeps_gets; apply calm_refl
  | |- keeps calm (when _ _) => apply keeps_when; [apply calm_refl |]
  | |- keeps calm (modify _) => apply keeps_modify; intro; calm_now
  | |- keeps calm (emit _) => apply keeps_modify; intro; calm_now
  | |- keeps calm (set_flag _ _) => apply keeps_modify; intro; calm_now
  | |- keeps calm (set_pid _ _) => apply keeps_modify; intro; calm_now
  | |- keeps calm (push_head _) => apply keeps_modify; intro; calm_now
  | |- keeps calm (ask _ _) => let s := fresh in intro s; calm_now
  | |- keeps calm (RandomCancelKey _) => let s := fresh in intro s; calm_now
  | |- keeps calm alloc => let s := fresh in intro s; calm_now
  | |- keeps calm (if ?b then _ else _) => destruct b
  | |- keeps calm (match ?x with _ => _ end) => destruct x
  | |- keeps calm (let _ := _ in _) => cbv zeta
  | |- keeps calm _ => db
  end.

Section Housekeeping.

Variable env : Env.

Lemma CountChildren_calm target : keeps calm (CountChildren env target).
Proof. unfold CountChildren. repeat calm_step fail. Qed.

Lemma canAcceptConnections_calm bt : keeps calm (canAcceptConnections env bt).
Proof.
  unfold canAcceptConnections.
  repeat calm_step ltac:(apply CountChildren_calm).
Qed.

Lemma StartChildProcess_calm t :
  is_B_STARTUP t = false -> keeps calm (StartChildProcess env t).
Proof.
  intro H. unfold StartChildProcess. rewrite H. repeat calm_step fail.
Qed.

Lemma start_special_calm c t :
  is_B_STARTUP t = false -> keeps calm (start_special env c t).
Proof.
  intro H. unfold start_special.
  repeat calm_step ltac:(apply StartChildProcess_calm; exact H).
Qed.

Lemma start_special_if_zero_calm c t :
  is_B_STARTUP t = false -> keeps calm (start_special_if_zero env c t).
Proof.
  intro H. unfold start_special_if_zero.
  repeat calm_step ltac:(apply start_special_calm; exact H).
Qed.

Lemma PgArchStartupAllowed_calm : keeps calm (PgArchStartupAllowed env).
Proof. unfold PgArchStartupAllowed. repeat calm_step fail. Qed.

Ltac calm_calls :=
  first [ apply start_special_calm; reflexivity
        | apply start_special_if_zero_calm; reflexivity
        | apply StartChildProcess_calm; reflexivity
        | apply PgArchStartupAllowed_calm
        | apply canAcceptConnections_calm
        | apply CountChildren_calm ].

Lemma MaybeStartWalReceiver_calm : keeps calm (MaybeStartWalReceiver env).
Proof. unfold MaybeStartWalReceiver. repeat calm_step calm_calls. Qed.

Lemma MaybeStartWalSummarizer_calm : keeps calm (MaybeStartWalSummarizer env).
Proof. unfold MaybeStartWalSummarizer. repeat calm_step calm_calls. Qed.

Lemma MaybeStartSlotSyncWorker_calm : keeps calm (MaybeStartSlotSyncWorker env).
Proof. unfold MaybeStartSlotSyncWorker. repeat calm_step calm_calls. Qed.

Lemma do_start_bgworker_calm rw : keeps calm (do_start_bgworker env rw).
Proof.
  unfold do_start_bgworker, assign_backendlist_entry.
  repeat calm_step calm_calls.
Qed.

Lemma bgworker_should_start_now_calm t : keeps calm (bgworker_should_start_now t).
Proof. unfold bgworker_should_start_now. repeat calm_step fail. Qed.

Lemma maybe_start_bgworkers_loop_calm l : forall num now,
  keeps calm (maybe_start_bgworkers_loop env l num now).
Proof.
  induction l as [| rw rest IH]; intros num now;
    cbn [maybe_start_bgworkers_loop]; cbv zeta.
  - repeat calm_step fail.
  - repeat calm_step
      ltac:(first [ apply IH | apply do_start_bgworker_calm
                  | apply bgworker_should_start_now_calm ]).
Qed.

Lemma maybe_start_bgworkers_calm : keeps calm (maybe_start_bgworkers env).
Proof.
  unfold maybe_start_bgworkers.
  repeat calm_step ltac:(apply maybe_start_bgworkers_loop_calm).
Qed.

Ltac calm_calls2 :=
  first [ calm_calls | apply MaybeStartWalReceiver_calm
        | apply MaybeStartWalSummarizer_calm | apply MaybeStartSlotSyncWorker_calm
        | apply maybe_start_bgworkers_calm ].

Ltac calm_next :=
  lazymatch goal with
  | HC : calm ?s ?cur |- wp (bind _ _) _ _ ?cur =>
      apply wp_keeps with (R := calm);
      [ solve [repeat calm_step calm_calls2]
      | let a := fresh "a" in let s' := fresh "s" in let H := fresh "H" in
        intros a s' H; apply (calm_trans _ _ _ HC) in H; clear HC; rename H into HC ]
  end.

Ltac steady_now :=
  unfold steady, drift; cbn;
  repeat split;
  first [ exists []; split; reflexivity
        | eexists [_]; split; reflexivity ].

Ltac steady_step db :=
  lazymatch goal with
  | |- keeps steady (bind _ _) =>
      apply keeps_bind; [apply steady_trans | | intro]
  | |- keeps steady (ret _) => apply keeps_ret; apply steady_refl
  | |- keeps steady (gets _) => apply keeps_gets; apply steady_refl
  | |- keeps steady (when _ _) => apply keeps_when; [apply steady_refl |]
  | |- keeps steady (modify _) => apply keeps_modify; intro; steady_now
  | |- keeps steady (emit _) => apply keeps_modify; intro; steady_now
  | |- keeps steady (ask _ _) => let s := fresh in intro s; steady_now
  | |- keeps steady (if ?b then _ else _) => destruct b
  | |- keeps steady (match ?x with _ => _ end) => destruct x
  | |- keeps steady (let _ := _ in _) => cbv zeta
  | |- keeps steady _ => db
  end.

Lemma signal_child_steady p sg : keeps steady (signal_child env p sg).
Proof. unfold signal_child. repeat steady_step fail. Qed.

Lemma SignalSomeChildren_loop_steady ws sg target l : forall signaled,
  keeps steady (SignalSomeChildren_loop env ws sg target l signaled).
Proof.
  induction l as [| bp rest IH]; intro signaled; cbn [SignalSomeChildren_loop].
  - repeat steady_step fail.
  - repeat steady_step ltac:(first [apply IH | apply signal_child_steady]).
Qed.

Lemma TerminateChildren_steady sg : keeps steady (TerminateChildren env sg).
Proof.
  unfold TerminateChildren, SignalChildren, SignalSomeChildren, signal_special.
  repeat steady_step
    ltac:(first [ apply SignalSomeChildren_loop_steady | apply signal_child_steady ]).
Qed.

Lemma ServerLoop_housekeeping_run s :
  wp (ServerLoop_housekeeping env) (fun _ s' => housekeeping_post env s s') never s.
Proof.
  cut (forall cur, calm s cur ->
         wp (ServerLoop_housekeeping env)
            (fun _ s' => housekeeping_post env s s') never cur).
  { intro G. apply G, calm_refl. }
  intros cur HC. unfold ServerLoop_housekeeping.
  do 18 calm_next.
  do 2 wp_prim.
  assert (HC' : calm s (put_clk (S (clk s17)) s17)).
  { apply (calm_trans _ _ _ HC). calm_now. }
  destruct HC as [(C1 & C2 & C3 & C4 & _) C5].
  wp_prim.
  - bool_prop.
    wp_prim.
    apply wp_keeps with (R := steady); [apply TerminateChildren_steady |].
    intros [] s18 HT. wp_prim.
    apply wp_keeps_last with (R := calm); [solve [repeat calm_step fail] |].
    intros [] s' HS.
    right. rewrite <- C2, <- C3, <- C5.
    split; [| split; [exact H | split; [exact H1 | split; [eauto |]]]].
    + apply calm_steady in HC', HS.
      destruct HT as [HT _], HC' as [HC' _], HS as [HS _].
      eapply drift_trans; [exact HC' |].
      eapply drift_trans; [exact HT |].
      eapply drift_trans; [| exact HS].
      unfold drift. cbn. repeat split. exists []. auto.
    + destruct HS as [_ HS]. rewrite HS. reflexivity.
  - apply wp_keeps_last with (R := calm); [solve [repeat calm_step fail] |].
    intros [] s' HS. left. eapply calm_trans; eauto.
Qed.

End Housekeeping.

(** X12: the housekeeping part of the server loop never ends the
    postmaster and changes neither the lifecycle state, nor the shutdown
    mode, nor FatalError, nor the configuration.  It sends no SIGKILL and
    no SIGABRT, and leaves the crash deadline as it is, except in one
    case: FatalError is set or an immediate shutdown is recorded, a
    deadline is set, and the clock read in this pass is at least
    SIGKILL_CHILDREN_AFTER_SECS past it; then the deadline is cleared, so
    that the next pass sends nothing. *)
Theorem X12_housekeeping_escalation env s :
  exists s',
    ServerLoop_housekeeping env s = Ret tt s'
    /\ pmState s' = pmState s
    /\ Shutdown s' = Shutdown s
    /\ flag s' FatalError = flag s FatalError
    /\ cfg s' = cfg s
    /\ exists new,
         trace s' = new ++ trace s
         /\ ((forallb gentle new = true /\ AbortStartTime s' = AbortStartTime s)
             \/ ((ImmediateShutdown <= Shutdown s \/ flag s FatalError = true)
                 /\ AbortStartTime s <> 0
                 /\ (exists k,
                       SIGKILL_CHILDREN_AFTER_SECS <= time env k - AbortStartTime s)
                 /\ AbortStartTime s' = 0)).
Proof.
  pose proof (ServerLoop_housekeeping_run env s) as W. unfold wp, never in W.
  destruct (ServerLoop_housekeeping env s) as [[] s' | st s']; [| destruct W].
  exists s'. split; [reflexivity |].
  destruct W as [[(A1 & A2 & A3 & A4 & new & A5 & A6) A7]
                | ((A1 & A2 & A3 & A4 & new & A5 & A6) & B)].
  - repeat split; auto. exists new. auto.
  - repeat split; auto. exists new. auto.
Qed.


(** * The seed of a process *)

Lemma lxor_cancel_r a b c : Z.lxor a c = Z.lxor b c -> a = b.
Proof.
  intro H. apply (f_equal (fun z => Z.lxor z c)) in H.
  rewrite !Z.lxor_assoc, Z.lxor_nilpotent, !Z.lxor_0_r in H. exact H.
Qed.

Lemma uint64_inj_int a b :
  -2147483648 <= a <= 2147483647 -> -2147483648 <= b <= 2147483647 ->
  uint64 a = uint64 b -> a = b.
Proof.
  unfold uint64. intros Ha Hb H.
  pose proof (Z.div_mod a 18446744073709551616 ltac:(lia)) as Da.
  pose proof (Z.div_mod b 18446744073709551616 ltac:(lia)) as Db.
  pose proof (Z.mod_pos_bound a 18446744073709551616 ltac:(lia)) as Ma.
  pose proof (Z.mod_pos_bound b 18446744073709551616 ltac:(lia)) as Mb.
  rewrite H in Da.
  set (qa := a / 18446744073709551616) in *.
  set (qb := b / 18446744073709551616) in *.
  set (r := b mod 18446744073709551616) in *.
  clearbody qa qb r. lia.
Qed.

(** X13: the fallback seed of [InitProcessGlobals].  Two processes that
    start at the same timestamp with different pids get different seeds,
    and a seed is a [uint64].  The fallback is used exactly if no strong
    random bits were to be had. *)
Theorem X13_fallback_seed_differs conv now strong pid1 pid2 :
  -2147483648 <= pid1 <= 2147483647 ->
  -2147483648 <= pid2 <= 2147483647 ->
  pid1 <> pid2 ->
  (strong = false ->
   exists seed1 seed2,
     snd (InitProcessGlobals conv now strong pid1) = Some seed1
     /\ snd (InitProcessGlobals conv now strong pid2) = Some seed2
     /\ seed1 <> seed2
     /\ 0 <= seed1 < 18446744073709551616)
  /\ (strong = true -> snd (InitProcessGlobals conv now strong pid1) = None).
Proof.
  intros H1 H2 Hne. split; intros ->; cbn; [| reflexivity].
  do 2 eexists. split; [reflexivity |]. split; [reflexivity |]. split.
  - unfold fallback_seed. intro E.
    apply lxor_cancel_r, lxor_cancel_r in E.
    apply Hne. apply uint64_inj_int; assumption.
  - unfold fallback_seed.
    assert (U : forall x, 0 <= uint64 x < 2 ^ 64).
    { intro x. unfold uint64. apply Z.mod_pos_bound. lia. }
    assert (L : forall a b, 0 <= a < 2 ^ 64 -> 0 <= b < 2 ^ 64 ->
                            0 <= Z.lxor a b < 2 ^ 64).
    { intros a b Ha Hb. split; [apply Z.lxor_nonneg; lia |].
      destruct (Z.eq_dec (Z.lxor a b) 0) as [-> | Hz]; [lia |].
      apply Z.log2_lt_pow2; [pose proof (Z.lxor_nonneg a b); lia |].
      eapply Z.le_lt_trans; [apply Z.log2_lxor; lia |].
      apply Z.max_lub_lt.
      - destruct (Z.eq_dec a 0) as [-> | ?]; [cbn; lia |].
        apply Z.log2_lt_pow2; lia.
      - destruct (Z.eq_dec b 0) as [-> | ?]; [cbn; lia |].
        apply Z.log2_lt_pow2; lia. }
    change 18446744073709551616 with (2 ^ 64).
    apply L; [apply L; apply U |].
    pose proof (U now) as Un. rewrite Z.shiftr_div_pow2 by lia.
    split; [apply Z.div_pos; lia |].
    apply Z.div_lt_upper_bound; lia.
Qed.

Lemma X13_fallback_seed_differs_witness :
  exists seed1 seed2,
    snd (InitProcessGlobals (fun t => t / 1000000) 800000000000000 false 4242)
    = Some seed1
    /\ snd (InitProcessGlobals (fun t => t / 1000000) 800000000000000 false 4243)
       = Some seed2
    /\ seed1 <> seed2
    /\ 0 <= seed1 < 18446744073709551616.
Proof.
  apply (proj1 (X13_fallback_seed_differs (fun t => t / 1000000) 800000000000000
                  false 4242 4243 ltac:(lia) ltac:(lia) ltac:(lia))).
  reflexivity.
Defined.


(** * Starting an autovacuum worker *)

(** X14: [StartAutovacuumWorker] returns, and adds at most one entry to
    the registry: a live entry of type autovacuum with a positive pid, and
    only if admission for an autovacuum worker says OK.  Where it adds
    none although a cancel key could be drawn (admission refused, no
    memory, or the fork failed), it sets avlauncher_needs_signal if the
    launcher is running; it never clears that flag.  It changes neither
    the lifecycle state, nor the shutdown mode, nor any pid of a special
    child. *)
Theorem X14_StartAutovacuumWorker env s :
  exists s',
    StartAutovacuumWorker env s = Ret tt s'
    /\ pmState s' = pmState s /\ Shutdown s' = Shutdown s /\ pidv s' = pidv s
    /\ trace s' = trace s
    /\ ((exists bn,
           BackendList s' = bn :: BackendList s
           /\ bkend_type bn = BACKEND_TYPE_AUTOVAC
           /\ dead_end bn = false /\ bgworker_notify bn = false /\ 0 < pid bn
           /\ admission_with (MaxLivePostmasterChildren (cfg s))
                BACKEND_TYPE_AUTOVAC s = CAC_OK
           /\ flag s' = flag s)
        \/ (BackendList s' = BackendList s
            /\ (flag s avlauncher_needs_signal = true ->
                flag s' avlauncher_needs_signal = true)
            /\ (admission_with (MaxLivePostmasterChildren (cfg s))
                  BACKEND_TYPE_AUTOVAC s <> CAC_OK ->
                pidv s AutoVacPID <> 0 ->
                flag s' avlauncher_needs_signal = true))).
Proof.
  assert (W : wp (StartAutovacuumWorker env)
                (fun _ s' =>
                   pmState s' = pmState s /\ Shutdown s' = Shutdown s
                   /\ pidv s' = pidv s /\ trace s' = trace s
                   /\ ((exists bn,
                          BackendList s' = bn :: BackendList s
                          /\ bkend_type bn = BACKEND_TYPE_AUTOVAC
                          /\ dead_end bn = false /\ bgworker_notify bn = false
                          /\ 0 < pid bn
                          /\ admission_with (MaxLivePostmasterChildren (cfg s))
                               BACKEND_TYPE_AUTOVAC s = CAC_OK
                          /\ flag s' = flag s)
                       \/ (BackendList s' = BackendList s
                           /\ (flag s avlauncher_needs_signal = true ->
                               flag s' avlauncher_needs_signal = true)
                           /\ (admission_with (MaxLivePostmasterChildren (cfg s))
                                 BACKEND_TYPE_AUTOVAC s <> CAC_OK ->
                               pidv s AutoVacPID <> 0 ->
                               flag s' avlauncher_needs_signal = true))))
                never s).
  { unfold StartAutovacuumWorker.
    destruct (canAcceptConnections_run env BACKEND_TYPE_AUTOVAC s) as (k & E).
    apply wp_bind. unfold wp at 1. rewrite E.
    set (cac := admission_with (MaxLivePostmasterChildren (cfg s))
                  BACKEND_TYPE_AUTOVAC s) in *.
    unfold RandomCancelKey, StartChildProcess, push_head.
    destruct cac eqn:C; cbn [is_CAC_OK].
    all: wp_run.
    all: repeat split; try reflexivity.
    all: try (right; repeat split; try reflexivity; auto; try congruence;
              intros; bool_prop; try congruence; try contradiction; fail).
    all: left; eexists; repeat split; try reflexivity.
    all: bool_prop; cbn; lia. }
  unfold wp, never in W.
  destruct (StartAutovacuumWorker env s) as [[] s' | st s']; [| destruct W].
  exists s'. split; [reflexivity | exact W].
Qed.

(** * The end of the startup process *)

Lemma opening_refl s : opening s s.
Proof. unfold opening. repeat split. Qed.

Lemma opening_trans a b c : opening a b -> opening b c -> opening a c.
Proof.
  intros (A1 & A2 & A3 & A4 & A5 & A6 & A7 & A8 & A9)
         (B1 & B2 & B3 & B4 & B5 & B6 & B7 & B8 & B9).
  unfold opening. repeat split; congruence.
Qed.

Ltac opening_now := unfold opening; cbn; repeat split.

Ltac opening_step db :=
  lazymatch goal with
  | |- keeps opening (bind _ _) =>
      apply keeps_bind; [apply opening_trans | | intro]
  | |- keeps opening (ret _) => apply keeps_ret; apply opening_refl
  | |- keeps opening (gets _) => apply keeps_gets; apply opening_refl
  | |- keeps opening (when _ _) => apply keeps_when; [apply opening_refl |]
  | |- keeps opening (modify _) => apply keeps_modify; intro; opening_now
  | |- keeps opening (emit _) => apply keeps_modify; intro; opening_now
  | |- keeps opening (set_flag _ _) => apply keeps_modify; intro; opening_now
  | |- keeps opening (set_pid _ _) => apply keeps_modify; intro; opening_now
  | |- keeps opening (push_head _) => apply keeps_modify; intro; opening_now
  | |- keeps opening (ask _ _) => let s := fresh in intro s; opening_now
  | |- keeps opening (RandomCancelKey _) => let s := fresh in intro s; opening_now
  | |- keeps opening alloc => let s := fresh in intro s; opening_now
  | |- keeps opening (if ?b then _ else _) => destruct b
  | |- keeps opening (match ?x with _ => _ end) => destruct x
  | |- keeps opening (let _ := _ in _) => cbv zeta
  | |- keeps opening _ => db
  end.

Section Opening.

Variable env : Env.

Lemma StartChildProcess_opening t :
  is_B_STARTUP t = false -> keeps opening (StartChildProcess env t).
Proof. intro H. unfold StartChildProcess. rewrite H. repeat opening_step fail. Qed.

Lemma start_special_opening c t :
  is_B_STARTUP t = false -> c <> StartupPID ->
  keeps opening (start_special env c t).
Proof.
  intros H Hc. unfold start_special.
  apply keeps_bind; [apply opening_trans | apply StartChildProcess_opening, H |].
  intro p. apply keeps_modify. intro s. unfold opening. cbn.
  repeat split. destruct c; try reflexivity. contradiction.
Qed.

Lemma start_special_if_zero_opening c t :
  is_B_STARTUP t = false -> c <> StartupPID ->
  keeps opening (start_special_if_zero env c t).
Proof.
  intros H Hc. unfold start_special_if_zero.
  repeat opening_step ltac:(apply start_special_opening; assumption).
Qed.

Ltac opening_calls :=
  first [ apply start_special_opening; [reflexivity | discriminate]
        | apply start_special_if_zero_opening; [reflexivity | discriminate] ].

Lemma CountChildren_opening target : keeps opening (CountChildren env target).
Proof. unfold CountChildren. repeat opening_step fail. Qed.

Lemma maybe_start_bgworkers_loop_opening l : forall num now,
  keeps opening (maybe_start_bgworkers_loop env l num now).
Proof.
  induction l as [| rw rest IH]; intros num now;
    cbn [maybe_start_bgworkers_loop]; cbv zeta.
  - repeat opening_step fail.
  - unfold do_start_bgworker, assign_backendlist_entry, canAcceptConnections,
      bgworker_should_start_now.
    repeat opening_step ltac:(first [apply IH | apply CountChildren_opening]).
Qed.

Lemma after_startup_opening :
  keeps opening
    (start_special_if_zero env CheckpointerPID B_CHECKPOINTER ;;
     start_special_if_zero env BgWriterPID B_BG_WRITER ;;
     start_special_if_zero env WalWriterPID B_WAL_WRITER ;;
     MaybeStartWalSummarizer env ;;
     s1 <- gets (fun s => s) ;;
     when (negb (IsBinaryUpgrade (cfg s1)) && AutoVacuumingActive (cfg s1)
           && (pidv s1 AutoVacPID =? 0))
       (start_special env AutoVacPID B_AUTOVAC_LAUNCHER) ;;
     allowed <- PgArchStartupAllowed env ;;
     pa <- gets (fun s => pidv s PgArchPID) ;;
     when (allowed && (pa =? 0)) (start_special env PgArchPID B_ARCHIVER) ;;
     MaybeStartSlotSyncWorker env ;;
     maybe_start_bgworkers env).
Proof.
  unfold MaybeStartWalSummarizer, PgArchStartupAllowed, MaybeStartSlotSyncWorker,
    maybe_start_bgworkers.
  repeat opening_step
    ltac:(first [opening_calls | apply maybe_start_bgworkers_loop_opening]).
Qed.

End Opening.

(** X15: the end of the startup process, as [reap_startup] handles it.
    If the startup process exits with status 0 while no shutdown is
    requested, the postmaster does not exit: it forgets the startup
    process, enters Run, allows connections, clears FatalError and the
    crash deadline, and records that normal running was reached; the
    launches that follow change none of this.  If it exits with status 0
    or 1 while a shutdown is requested, the postmaster goes to
    WaitBackends instead and launches nothing. *)
Theorem X15_startup_process_done env p s :
  EXIT_STATUS_3 env 0 = false ->
  (Shutdown s <= NoShutdown ->
   exists s',
     reap_startup env p 0 s = Ret tt s'
     /\ pmState s' = PM_RUN
     /\ flag s' connsAllowed = true
     /\ flag s' FatalError = false
     /\ flag s' ReachedNormalRunning = true
     /\ AbortStartTime s' = 0
     /\ StartupStatus s' = STARTUP_NOT_RUNNING
     /\ pidv s' StartupPID = 0
     /\ Shutdown s' = Shutdown s
     /\ transitions (trace s') = transitions (trace s) ++ [(pmState s, PM_RUN)])
  /\ (forall exitstatus,
        NoShutdown < Shutdown s ->
        EXIT_STATUS_0 exitstatus || EXIT_STATUS_1 env exitstatus = true ->
        reap_startup env p exitstatus s
        = Ret tt
            (put_trace (Transition (pmState s) PM_WAIT_BACKENDS :: trace s)
               (put_pmState PM_WAIT_BACKENDS
                  (put_StartupStatus STARTUP_NOT_RUNNING
                     (put_pidv (upd SpecialChild_eqb (pidv s) StartupPID 0) s))))).
Proof.
  intro E3. split.
  - intro Sh.
    assert (W : wp (reap_startup env p 0)
                  (fun _ s' =>
                     pmState s' = PM_RUN
                     /\ flag s' connsAllowed = true
                     /\ flag s' FatalError = false
                     /\ flag s' ReachedNormalRunning = true
                     /\ AbortStartTime s' = 0
                     /\ StartupStatus s' = STARTUP_NOT_RUNNING
                     /\ pidv s' StartupPID = 0
                     /\ Shutdown s' = Shutdown s
                     /\ transitions (trace s')
                        = transitions (trace s) ++ [(pmState s, PM_RUN)])
                  never s).
    { unfold reap_startup. do 2 wp_prim.
      replace (Shutdown s >? NoShutdown) with false
        by (symmetry; rewrite Z.gtb_ltb; apply Z.ltb_ge; exact Sh).
      cbn [andb]. rewrite E3.
      replace (EXIT_STATUS_0 0) with true by reflexivity.
      cbn [negb andb]. rewrite !andb_false_r.
      do 6 wp_prim.
      apply wp_keeps_last with (R := opening); [apply after_startup_opening |].
      intros [] s' (A1 & A2 & A3 & A4 & A5 & A6 & A7 & A8 & A9).
      cbn in *. rewrite A1, A2, A3, A4, A5, A6, A7, A8, A9. repeat split. }
    unfold wp, never in W.
    destruct (reap_startup env p 0 s) as [[] s' | st s']; [| destruct W].
    exists s'. split; [reflexivity | exact W].
  - intros exitstatus Sh St. unfold reap_startup.
    unfold bind at 1, set_pid, modify at 1. unfold bind at 1, gets at 1.
    cbn [Shutdown put_pidv].
    replace (Shutdown s >? NoShutdown) with true
      by (symmetry; rewrite Z.gtb_ltb; apply Z.ltb_lt; exact Sh).
    rewrite St. cbn [andb]. reflexivity.
Qed.

Lemma X15_startup_process_done_witness :
  exists s',
    reap_startup linux_env 1001 0 (PM_initial default_config []) = Ret tt s'
    /\ pmState s' = PM_RUN
    /\ flag s' connsAllowed = true
    /\ flag s' FatalError = false
    /\ flag s' ReachedNormalRunning = true
    /\ AbortStartTime s' = 0
    /\ StartupStatus s' = STARTUP_NOT_RUNNING
    /\ pidv s' StartupPID = 0
    /\ Shutdown s' = Shutdown (PM_initial default_config [])
    /\ transitions (trace s')
       = transitions (trace (PM_initial default_config []))
         ++ [(pmState (PM_initial default_config []), PM_RUN)].
Proof.
  apply (proj1 (X15_startup_process_done linux_env 1001
                  (PM_initial default_config []) eq_refl)).
  cbn. unfold NoShutdown. lia.
Defined.

